(* ===== verification/_CoqProject ===== *)
-Q . S2P
Prelude.v
TypedArray.v
Boundary.v
Kernel.v
Sweep.v
Floats.v
Canvas.v
Ideal.v
Format.v
Noise.v
Mean.v
MinMax.v
Midpoint.v
Median.v
Pipeline.v
Geometric.v
Harmonic.v
Contraharmonic.v
Symmetry.v
Gaussian.v
Binary64.v
Page.v
App.v
Events.v
