(* ===== verification/Prelude.v ===== *)
(** * Verification of the spatial noise-filter engine (repository Xu_ly_anh)

    The program is a browser application that denoises RGBA rasters.  Its
    engine is a family of JavaScript classes, one per filter kind
    ([MeanFilter], [MedianFilter], [MinFilter], [MaxFilter], [MidpointFilter],
    [GeometricMeanFilter], [HarmonicMeanFilter], [ContraharmonicMeanFilter],
    [GaussianFilter]); every class has the same shape:

      - [constructor(kernelSize)] rejects an even size and stores
        [radius = floor(kernelSize / 2)];
      - [calculateXxx(data, centerX, centerY, width, height)] walks the
        [(2 radius + 1)^2] window around a pixel, maps every coordinate into
        the raster with the mirror rule, reads three channels and reduces
        them to one [{r, g, b}] object;
      - [processImageData(imageData, originalData, width, height)] sweeps the
        raster in row-major order, stores the three aggregated channels and
        the untouched alpha byte of every pixel into a fresh
        [Uint8ClampedArray], then copies that array back over [imageData.data];
      - [applyFilter(imageElement)] obtains the pixels from a canvas and
        resolves or rejects a promise;
      - [createNoisyTestImage(width, height)] paints a gradient and adds
        random noise to it, for the test functions.

    [GaussianFilter] differs: it convolves the rows, then the columns, with a
    one-dimensional kernel.  The page script (src/script.js with three
    algorithms, src/unnamed/part_000 with nine) listens to the file input,
    the controls and the button: an upload starts a [FileReader] and then an
    [Image] whose callbacks show the picture and enable the button; a click
    reads the selected algorithm and parameters, constructs the filter,
    awaits [applyFilter] and shows the result or an error.

    ** Files

      - [Prelude] (this file): exceptions and completions of calls
        ([exn], [completion] with its bind), the integer number layer
        ([jsnum], NaN-propagating addition, [Math.min], [Math.max],
        [>=], [Math.round] of an integer quotient, the
        [Math.max(lo, Math.min(hi, x))] clamp), generic lemmas on [foldl]
        loops, sums and loops that fill an array, on the order in which
        nested loops and folds traverse their lists (permutations), the
        hint database [js] and the tactics [js_unfold], [by_compute],
        [Zdiv_lia].
      - [TypedArray]: [Uint8ClampedArray] and [Uint16Array] as [list Z] with
        indexed reads ([undefined] out of range, modelled as NaN) and writes
        (ignored out of range, clamped to a byte, wrapped at 16 bits), the
        byte invariant [is_bytes], the copy-back loop [copyInto].
      - [Boundary]: the mirror rule of the aggregating filters ([mirror]),
        the edge clamp of the Gaussian passes ([clampCoord]) and the
        reference extension [reflect101].
      - [Kernel]: the constructor all aggregating classes repeat
        ([KernelSpec.constructor]), the window loops [for dy, for dx]
        ([forKernel]), the sample index [(validY * width + validX) * 4] and
        the list of window samples ([windowIndices], [windowSamples],
        [windowValues]) that the per-filter loops are proved equal to.
      - [Sweep]: the [processImageData] loop shared by all aggregating
        filters ([storePixel], [sweepRows], [processImageData]), its
        pointwise reference [filterSpec], and the class [Aggregator] that
        states what a per-pixel calculator promises to the sweep.
      - [Floats]: the interface [Float64] of the operations on non-integer
        numbers ([Math.log], [Math.exp], [Math.pow], [Math.ceil],
        [Math.round], [+], [-], [*], [/], the stores into a [Float32Array]
        and into a [Uint8ClampedArray]) and its instance [ideal] of exact
        reals with a NaN.
      - [Canvas]: the canvas as a record ([Canvas.t]: width, height, bitmap
        and the origin-clean flag) with the calls the classes make on it
        ([createCanvas], [setWidth], [setHeight], [drawImage], [clearRect],
        [getImageData], [putImageData], [toDataURL]) and the exceptions the
        HTML canvas raises (a zero-area rectangle, a tainted bitmap, a
        zero-area source); what stays a promise of the browser is the
        interface [Browser] (the pixels a drawing leaves, the origin of an
        image, the encoding of an export); the settled promise [Outcome];
        the CSS blur fallback [blurFallback] and the two shapes of
        [applyFilter]: [applyFilterOrBlur] (run [applySimpleFilter] when the
        pixels cannot be read) and [applyFilterOrReject].
      - [Ideal]: what the value theorems of the [Float64] filters share
        under exact reals: real sums of a window ([Rsum]), the shift by
        [1e-10] ([shifted]), the reduction of an accumulating loop to a real
        sum, weighted means, rounding of quotients.
      - [Format]: [formatFileSize] with [Math.log], [Math.pow] and the
        division as exact reals, [toFixed(2)] and [parseFloat] as the
        rounding to hundredths and its shortest decimal, and the integer
        reference [formatFileSizeZ].
      - [Noise]: [createNoisyTestImage]: the canvas calls and the noise loop
        ([addNoise]), with [Math.random] as the sequence of its results and
        the painting of the gradient as the interface [Painter]; its
        reference [noiseSpec].
      - [Mean], [MinMax], [Midpoint], [Median]: one Module per filter class
        ([MeanFilter], [MaxFilter], [MinFilter], [MidpointFilter],
        [MedianFilter]) with its constructor, its [calculateXxx] loop, its
        [processImageData] and its [applyFilter], the list-level reference
        of what the loop computes ([mean], [maxOf], [minOf], [midpoint],
        [sortedMedian]) and the [Aggregator] instance; [Mean] ends with
        [testMeanFilter].  [Mean] and [Midpoint] also hold their loop a
        second time, over [Float64] ([calculateMeanValuesNum],
        [calculateMidpointValuesNum]): the same lines of the source with
        every [+], [/], [Math.min] and [Math.max] an operation on doubles.
      - [Pipeline]: the guarantees of the sweep proved once against
        [Aggregator], hence for every filter that has an instance, and what
        the five integer filters write for a negative kernel size.
      - [Geometric], [Harmonic], [Contraharmonic]: the Modules
        [GeometricMeanFilter], [HarmonicMeanFilter],
        [ContraharmonicMeanFilter], written against [Float64], the real
        number each computes under exact reals ([geometricMeanZ],
        [harmonicMeanZ], [contraharmonicMeanZ]) and their [Aggregator]
        instances.
      - [Symmetry]: the rasters [transpose] and [flipH] (rows and columns
        exchanged, rows reversed), the class [Unordered] of the calculators
        whose aggregate is [Proper] for permutations of the window, with
        all eight aggregating filters as instances, and the symmetries of
        the filtered raster.
      - [Gaussian]: [GaussianFilter]: the constructor with the kernel size
        [Math.ceil(6 * sigma) | 1], [createGaussianKernel], the two
        convolutions with edge clamping, [applyFilter], the reference kernel
        [gaussianKernel] and convolution [convolveZ] under exact reals, the
        passes on the transposed raster, and [testGaussianFilter].
      - [Binary64]: the instance [binary64] of [Float64] on Rocq's
        primitive doubles, with [Math.round], [Math.ceil] and the stores
        computed exactly and [Math.log], [Math.exp], [Math.pow] as
        parameters ([Libm]); the harmonic filter and the noise loop run on
        it, and the integer models of the mean and midpoint filters are
        proved equal to their loops over doubles.
      - [Page]: the state of the page ([Page]: the globals of the script,
        the inputs, the elements the script writes, the alerts raised, the
        readers and images whose callbacks are pending) and the functions
        both scripts share word for word: [handleImageUpload],
        [loadImageToDisplay] with [reader_onload], [reader_onerror],
        [newImg_onload], [resetProcessedImage], [displayProcessedImage],
        [showProcessingState], [showErrorState],
        [debugTestWithSampleImage]; the events ([Event]) and when the
        browser can deliver them ([enabled]).
      - [App]: what differs between the scripts, as two Modules: [App] is
        src/unnamed/part_000 and [Script] is src/script.js, each with
        [initializeApp], its tables of names, [handleAlgorithmChange],
        [handleFilterApply] with its switch, the [applyXxxFilter] functions
        and [handle], which sends an event to its listener; the table
        [selectedCalculator] of the sweep each selection runs.  The script
        with nine algorithms assigns [gaussianFilterInstance] without
        declaring it: the flag of that name says whether the global
        exists, and the guard that reads it before throws a
        [ReferenceError], never its own error.
      - [Events]: the event loop: one step ([step]), runs of a list of
        events ([run], [valid]), the invariant [consistent] of the page, the
        termination measure of the callbacks.

    ** How state and effects are modelled

    Numbers that the code keeps integral ([kernelSize], coordinates, sums of
    bytes, histogram counts) are [Z].  A value that may be NaN is
    [jsnum = option Z] with [None] for NaN: reading a typed array out of range
    gives [undefined], which turns sums and extrema into NaN, and an empty
    window makes the mean [0 / 0].  [Math.round (s / c)] on integers [s] and
    [c <> 0] is [(2 s + c) / (2 c)] with floor division; that the doubles of
    the runtime give the same bytes is a theorem of [Binary64] for the mean
    (kernel sizes up to 9) and the midpoint filter, proved by running the
    IEEE addition, division and rounding on every sum and count that can
    occur.  The kernel size is an
    integer: [parseInt] returning NaN and fractional sizes are outside the
    model.  Numbers that are not integers (logarithms, reciprocals, powers,
    kernel weights, noise) belong to the abstract type [float] of the
    interface [Float64]; the code that uses them is a definition over any
    instance.  What is proved of every instance holds of the doubles of the
    runtime; what is proved of the instance [ideal] holds of the code up to
    the rounding error of the doubles; what is proved of the instance
    [binary64] holds of the doubles themselves, for every implementation
    of the functions ECMAScript only asks to approximate.  Typed arrays are [list Z]; loops are
    [foldl] over [seqZ] (every loop of the engine is bounded, so no fuel is
    needed, except the scan of [findMedian], a structural recursion over the
    256 bins).  A call that may throw returns a [completion]; the promise of
    [applyFilter] is an [Outcome] (resolved with a canvas or rejected with
    the exception); an [async] function that throws is a rejected
    [Outcome].  A canvas is a value: each call returns the canvas it leaves.
    Its bitmap is [width * height * 4] bytes when both dimensions are
    positive, and a dimension that is not positive stands for a canvas
    without area.  An image is drawn after its [load] event, so a drawing
    never fails for want of data; it taints the canvas when the image is
    not of the page's origin.

    The page is the record [Page] and each listener a function on it.  An
    asynchronous operation (a [FileReader], an [Image]) is a [Task] added to
    the page when the script starts it; its callback is an event that is
    enabled while the task is pending and that removes it.  A click is
    handled in one step, the awaited filter included: between a click and
    the end of its handler no other event is taken, which is what the
    disabled button enforces for clicks and an assumption for uploads.  The
    markup of the page is not in the repository: the initial page
    ([initialPage]) is an assumption (no image, disabled button, indicator
    hidden), and so is the list of values an input can take.

    ** What the theorems show

      - bounds: every mirrored coordinate and every sample index lies inside
        the raster, for any radius, so no read is out of range on a
        well-formed buffer ([Boundary], [Kernel]);
      - refinement: the imperative sweep equals its pointwise reference, the
        alpha byte of every pixel is copied, the buffer keeps its length and
        stays a buffer of bytes ([Sweep]); the two Gaussian passes compose as
        the reference says and keep alpha ([Gaussian]);
      - equivalence: each [calculateXxx] loop equals its reference on the
        list of window samples: rounded mean, greatest and least element,
        rounded midpoint, middle entry of the sorted window for the histogram
        scan of the median ([Mean], [MinMax], [Midpoint], [Median]);
      - values under exact reals: the geometric, harmonic and
        contraharmonic calculators return the rounded mean of their kind of
        the shifted window values, which lies between the bounds of the
        window (for the contraharmonic mean when [Q >= 0]); for [Q = 0] the
        contraharmonic filter is the mean filter, for [Q = -1] it is the
        harmonic filter or one below it; for [Q = -5] a uniform window of
        128 gives 113; the Gaussian kernel has non-negative
        weights that sum to one, both passes keep every colour channel
        between its bounds and a uniform raster is unchanged ([Geometric], [Harmonic],
        [Contraharmonic], [Gaussian]);
      - the contract: for every [Aggregator], each colour byte of the output
        is the aggregate of its window, no channel leaves the range of its
        input, and a uniform raster is a fixed point ([Pipeline]);
      - the testable properties of the specification: constructor
        validation (exactly the even sizes throw, and an accepted positive
        size gives windows of [size ^ 2] reads), identity of the mean at
        kernel size 1, Min <= Midpoint <= Max, outlier suppression by the
        median, the normalised Gaussian kernel, the uniform raster as a
        fixed point, alpha and size preserved by every filter;
      - the boundary policy, completely: a valid index always, the
        symmetric extension up to two reflections, index [0] beyond
        ([Boundary]);
      - symmetries: every aggregating filter commutes with the
        transposition of the raster, and with its mirror image when the
        radius is smaller than the width; from a radius equal to the width
        on the saturation of the mirror rule breaks the second symmetry
        ([Symmetry]);
      - the order of the Gaussian passes: the filter of the transposed
        raster is the transposed of the passes run columns first
        ([Gaussian]), which on doubles differs from the filter itself,
        because the bytes between the passes are rounded ([Binary64]);
      - degenerate sizes: a negative odd size passes the constructor and
        flattens the image to one value per filter ([Pipeline]);
      - machine-width behaviour: the 16-bit histogram bins wrap, and from
        kernel size 257 on the median of a uniform window is 255 ([Median]);
      - doubles: the harmonic filter of kernel size 3, 5, 7 or 9 leaves
        every raster of one colour unchanged in IEEE arithmetic, by
        running it on the 256 byte values ([Binary64]);
      - the test image: the noise loop equals its reference, moves no colour
        byte by more than half the amplitude and keeps alpha ([Noise]); the
        promises of the two test functions are resolved when the test
        image has area, and its canvas cannot be read when it has none
        ([Mean], [Gaussian], [Noise]);
      - well-formedness: the canvas a promise of [applyFilter] resolves
        with, on either path, has the natural size of the image and a
        bitmap of that size ([Pipeline]); an image without area rejects
        with the exception of the canvas, from inside the [catch] block
        ([Canvas]);
      - doubles and integers: on every raster the sweep of the mean loop
        over doubles (kernel sizes up to 9) and of the midpoint loop over
        doubles (every size) stores the bytes of the integer model
        ([Binary64]);
      - error paths: an even kernel size, an unsupported algorithm, a
        missing image, unreadable pixels (which classes fall back and which
        reject; the canvas of the fallback is tainted, so the page shows
        its error state for every algorithm), and that the earlier script
        runs the mean filter for the selections median and gaussian
        ([App]);
      - composition: an upload, the loads of its reader and image, and a
        click leave the processed area showing the export of the sweep of
        the selected algorithm over the pixels drawn ([Events]);
      - [formatFileSize] returns the size in the unit of its power of 1024,
        rounded to hundredths, and a size that rounds up to 1024 of a unit
        is printed as 1024 of it ([Format]);
      - the page as a state machine ([Events]): [consistent] holds of every
        page either script reaches by events of normal use (the indicator
        is hidden between events, an enabled button has a picture and a
        file behind it, the placeholders and pictures exclude each other);
        a click on a consistent page runs the selected filter: with
        readable pixels it shows the export of the canvas swept by the
        calculator of the selection, or convolved by the Gaussian filter
        of the sigma input; unreadable pixels, an even kernel size and an
        unknown algorithm show the error state; in every case the page is
        consistent, the button enabled and the indicator hidden
        afterwards; the callbacks terminate, and after as many callbacks as
        the pending tasks owe none is pending; an accepted upload shows its
        picture; two uploads whose callbacks interleave leave the first
        file's picture under the second file's name in the label and in
        [currentImageFile]; the picture of the
        debug function cannot be filtered; the button's label reads
        [undefined] after a minimum, maximum or midpoint filter ([App],
        [Events]).

    ** Bounds

    The median is proved equal to the sorted reference for windows of fewer
    than 65536 samples (kernel sizes up to 255), which is exactly the range
    in which the [Uint16Array] bins do not wrap; beyond it the wrap-around is
    proved instead.  [mirror] is proved equal to the symmetric extension up
    to two reflections, which covers every radius smaller than the raster.
    The contraharmonic filter of order 0 is proved equal to the mean filter
    for a radius up to 10000 (a window of fewer than 10^9 samples), where
    the shift of [1e-10] per sample cannot move the rounded quotient.  The
    termination measure of the callbacks counts two for a pending reader
    (its own callback and that of the image it starts) and one for a
    pending image.

    The mirror image commutes with the filters for a radius below the
    width, the range in which no column of a window is farther than one
    reflection to the left or two to the right; [flip_asymmetry] shows the
    bound is needed.  The symmetries of the power means are proved for
    exact reals: on doubles their sums are rounded in the order of the
    loop.
    The integer model of the mean filter is proved exact on doubles for a
    radius up to 4: the channel sums are then at most 255 * 81, the range
    over which every addition and every rounded quotient by 1, 9, 25, 49 or
    81 was run; the page offers the sizes 3 to 9.  The midpoint needs no
    bound, its values being bytes or NaN.

    ** Not modelled

    Rendering, image decoding and the encoding of an export: which pixels
    a drawing leaves and which string [toDataURL] returns are the
    interfaces [Browser] and [Painter], and nothing is proved of them but
    the size of the bitmap.  Console logging, and with it the progress
    lines of the sweeps: output that no code reads back.  Every function of
    the repository has a definition here; the lines the map leaves out are
    the second copies named below, comments, exports and logging.  The
    rounding errors of the doubles in the geometric,
    contraharmonic and Gaussian filters, which call [Math.log], [Math.exp]
    or [Math.pow]: their value theorems are proved for exact reals, as is
    the bound of the noise loop; [Math.round] and [Math.ceil] of an
    infinity are an integer beyond every double.  src/unnamed/part_001 and the
    end of src/unnamed/part_002 are second copies, with the same code, of
    [MeanFilter] and [ContraharmonicMeanFilter]. *)

From Stdlib Require Import ZArith Lia.
From stdpp Require Import base tactics option list list_numbers numbers strings.

#[local] Open Scope Z_scope.

(** ** Exceptions and completions *)

(** The values the engine throws or receives: [new Error(message)], the
    [RangeError] of an array length, the [ReferenceError] of reading a
    variable that no declaration and no assignment has created, and the
    exceptions of the canvas: the
    [SecurityError] of reading a canvas that is not origin-clean, the
    [IndexSizeError] of reading a rectangle without area, the
    [InvalidStateError] of drawing a canvas without area. *)
Inductive exn :=
  | Error (message : string)
  | RangeError
  | ReferenceError (name : string)
  | SecurityError
  | IndexSizeError
  | InvalidStateError.

(** The completion of a call: a value, or a thrown exception. *)
Inductive completion (A : Type) :=
  | Normal (a : A)
  | Throw (e : exn).

Arguments Normal {A} a.
Arguments Throw {A} e.

(** Sequencing of calls that may throw. *)
#[export] Instance completion_ret : MRet completion := λ A a, Normal a.
#[export] Instance completion_bind : MBind completion := λ A B f c,
  match c with
  | Normal a => f a
  | Throw e => Throw e
  end.

#[export] Instance exn_eq_dec : EqDecision exn.
Proof. solve_decision. Defined.

#[export] Instance completion_eq_dec `{EqDecision A} : EqDecision (completion A).
Proof. solve_decision. Defined.

(** ** JavaScript numbers that may be NaN *)

Abbreviation jsnum := (option Z) (only parsing).

Declare Scope js_scope.
Delimit Scope js_scope with js.

(** A binary operation that yields NaN if either operand is NaN. *)
Definition js_lift2 (op : Z → Z → Z) (a b : jsnum) : jsnum :=
  match a, b with
  | Some x, Some y => Some (op x y)
  | _, _ => None
  end.

(** [a + b]. *)
Definition js_add : jsnum → jsnum → jsnum := js_lift2 Z.add.

(** [Math.min(a, b)] and [Math.max(a, b)]. *)
Definition Math_min : jsnum → jsnum → jsnum := js_lift2 Z.min.
Definition Math_max : jsnum → jsnum → jsnum := js_lift2 Z.max.

(** [a >= b]: false when [a] is NaN. *)
Definition js_ge (a : jsnum) (b : Z) : Prop :=
  match a with
  | Some x => b ≤ x
  | None => False
  end.

(** [a || b] on numbers: [b] when [a] is [0]. *)
Definition js_or (a b : Z) : Z := if decide (a = 0) then b else a.

(** The sum of a list of integers. *)
Definition sumZ (l : list Z) : Z := foldr Z.add 0 l.

(** [Math.round(s / c)] for integers [s] and [c <> 0]: the nearest integer,
    ties toward plus infinity. *)
Definition round_div (s c : Z) : Z := (2 * s + c) / (2 * c).

(** [Math.round(s / c)] where [s] may be NaN and [c] may be [0].  In the
    engine [c = 0] only occurs together with [s = 0] (an empty window), where
    [0 / 0] is NaN. *)
Definition Math_round_div (s : jsnum) (c : Z) : jsnum :=
  match s with
  | Some x => if decide (c = 0) then None else Some (round_div x c)
  | None => None
  end.

(** [Math.max(lo, Math.min(hi, x))]. *)
Definition clamp (lo hi x : Z) : Z := Z.max lo (Z.min hi x).

Infix "+?" := js_add (at level 50, left associativity) : js_scope.
Infix ">=?" := js_ge (at level 70, no associativity) : js_scope.

#[export] Instance js_ge_dec a b : Decision (js_ge a b).
Proof. destruct a; simpl; apply _. Defined.

(** ** Automation *)

Create HintDb js discriminated.
Create Rewrite HintDb js_rw.

(** Unfold the number layer. *)
Ltac js_unfold :=
  unfold Math_round_div, Math_min, Math_max, js_add, js_lift2, js_or, round_div,
    clamp in *.

(** Decide a closed decidable proposition by evaluation. *)
Ltac by_compute :=
  lazymatch goal with
  | |- ?P => exact (bool_decide_unpack P ltac:(vm_compute; exact I))
  end.

(** Linear arithmetic with floor division and modulo. *)
Ltac Zdiv_lia := js_unfold; Z.div_mod_to_equations; nia.

(** ** Lemmas on the number layer *)

Lemma clamp_bounds lo hi x : lo ≤ hi → lo ≤ clamp lo hi x ≤ hi.
Proof. unfold clamp. lia. Qed.

Lemma clamp_id lo hi x : lo ≤ x ≤ hi → clamp lo hi x = x.
Proof. unfold clamp. lia. Qed.

Lemma clamp_idemp lo hi x : lo ≤ hi → clamp lo hi (clamp lo hi x) = clamp lo hi x.
Proof. unfold clamp. lia. Qed.

Lemma clamp_mono lo hi x y : x ≤ y → clamp lo hi x ≤ clamp lo hi y.
Proof. unfold clamp. lia. Qed.

Lemma round_div_spec s c :
  0 < c → 2 * s - c < 2 * c * round_div s c ≤ 2 * s + c.
Proof. intros. Zdiv_lia. Qed.

Lemma round_div_unique s c k :
  0 < c → 2 * s - c < 2 * c * k ≤ 2 * s + c → round_div s c = k.
Proof. intros. Zdiv_lia. Qed.

Lemma round_div_mul k c : 0 < c → round_div (k * c) c = k.
Proof. intros. apply round_div_unique; nia. Qed.

Lemma round_div_1 s : round_div s 1 = s.
Proof. rewrite <-(Z.mul_1_r s) at 1. by apply round_div_mul. Qed.

Lemma round_div_bounds lo hi s c :
  0 < c → lo * c ≤ s ≤ hi * c → lo ≤ round_div s c ≤ hi.
Proof. intros. pose proof (round_div_spec s c). nia. Qed.

Lemma round_div_mono s t c : 0 < c → s ≤ t → round_div s c ≤ round_div t c.
Proof.
  intros. pose proof (round_div_spec s c). pose proof (round_div_spec t c). nia.
Qed.

(** A value brought into [0 .. p - 1] by a multiple of [p] is the residue. *)
Lemma Zmod_shift c p k : 0 ≤ c + k * p < p → c mod p = c + k * p.
Proof. intros. rewrite <-(Z.mod_add c k p) by lia. by apply Z.mod_small. Qed.

Lemma js_add_Some a b x y : a = Some x → b = Some y → (a +? b)%js = Some (x + y).
Proof. by intros -> ->. Qed.

Lemma js_lift2_is_Some op a b : is_Some (js_lift2 op a b) ↔ is_Some a ∧ is_Some b.
Proof.
  destruct a, b; simpl; split; intros; destruct_and?;
    by eauto using is_Some_None.
Qed.

Lemma Math_round_div_Some x c :
  c ≠ 0 → Math_round_div (Some x) c = Some (round_div x c).
Proof. intros. unfold Math_round_div. by rewrite decide_False. Qed.

#[export] Hint Resolve clamp_bounds round_div_bounds : js.
#[export] Hint Rewrite clamp_id round_div_mul round_div_1 using lia : js_rw.

(** A property of all elements holds of each element. *)
Lemma Forall_elem_of {A} (P : A → Prop) (l : list A) (x : A) :
  Forall P l → x ∈ l → P x.
Proof. intros Hl Hx. induction Hl; inversion Hx; subst; auto. Qed.

(** ** Loops *)

Section foldl.
Context {A B : Type}.
Implicit Types (f : A → B → A) (l : list B).

(** A loop invariant is preserved by [foldl]. *)
Lemma foldl_invariant (P : A → Prop) f a l :
  P a → (∀ acc x, x ∈ l → P acc → P (f acc x)) → P (foldl f a l).
Proof.
  revert a. induction l as [|x l IH]; intros a Ha Hstep; [done|].
  simpl. apply IH; [apply Hstep; [left|done]|].
  intros acc y Hy. apply Hstep. by right.
Qed.

(** Two loops with pointwise equal bodies are equal. *)
Lemma foldl_ext_in f g a l :
  (∀ acc x, x ∈ l → f acc x = g acc x) → foldl f a l = foldl g a l.
Proof.
  revert a. induction l as [|x l IH]; intros a Hfg; [done|].
  simpl. rewrite Hfg by left. apply IH. intros. apply Hfg. by right.
Qed.

(** A nested loop is one loop over the flattened iteration space. *)
Lemma foldl_nested {C} (h : A → C → B → A) (ys : list C) (xs : list B) a :
  foldl (λ acc y, foldl (λ acc x, h acc y x) acc xs) a ys
  = foldl (λ acc p, h acc p.1 p.2) a (y ← ys; x ← xs; [(y, x)]).
Proof.
  revert a. induction ys as [|y ys IH]; intros a; [done|].
  simpl. rewrite foldl_app, <-IH. f_equal.
  generalize a. clear. induction xs as [|x xs IH]; intros a; [done|].
  simpl. apply IH.
Qed.

(** A loop whose body ignores the element past a fixed point. *)
Lemma foldl_fmap {C} (k : C → B) f a (l : list C) :
  foldl f a (k <$> l) = foldl (λ acc x, f acc (k x)) a l.
Proof. revert a. induction l; intros; simpl; auto. Qed.

End foldl.

(** A NaN-propagating accumulation over defined samples is defined. *)
Lemma foldl_js_lift2 op a vs :
  foldl (js_lift2 op) (Some a) (Some <$> vs) = Some (foldl op a vs).
Proof. revert a. induction vs as [|v vs IH]; intros a; [done|]. apply IH. Qed.

(** One NaN sample makes the accumulation NaN. *)
Lemma foldl_js_lift2_None op l : foldl (js_lift2 op) None l = None.
Proof. induction l as [|x l IH]; [done|]. by destruct x. Qed.

(** ** Sums *)

Lemma foldl_add_sumZ a l : foldl Z.add a l = a + sumZ l.
Proof.
  revert a. induction l as [|x l IH]; intros a; simpl; [lia|].
  rewrite IH. lia.
Qed.

Lemma sumZ_app l k : sumZ (l ++ k) = sumZ l + sumZ k.
Proof. induction l as [|x l IH]; simpl; lia. Qed.

Lemma sumZ_bounds lo hi l :
  Forall (λ v, lo ≤ v ≤ hi) l →
  lo * Z.of_nat (length l) ≤ sumZ l ≤ hi * Z.of_nat (length l).
Proof. induction 1 as [|x l Hx _ IH]; simpl; lia. Qed.

Lemma sumZ_nonneg l : Forall (λ v, 0 ≤ v) l → 0 ≤ sumZ l.
Proof. induction 1 as [|x l Hx _ IH]; simpl; lia. Qed.

(** A loop that counts its iterations. *)
Lemma foldl_count {B} (l : list B) n : foldl (λ c _, c + 1) n l = n + Z.of_nat (length l).
Proof.
  revert n. induction l as [|x l IH]; intros n; simpl; [lia|].
  rewrite IH. lia.
Qed.

(** Projecting a component out of a loop over tuples. *)
Lemma foldl_project {A A' B} (p : A → A') (f : A → B → A) (f' : A' → B → A') a l :
  (∀ acc x, p (f acc x) = f' (p acc) x) →
  p (foldl f a l) = foldl f' (p a) l.
Proof.
  intros Hp. revert a. induction l as [|x l IH]; intros a; [done|].
  simpl. by rewrite IH, Hp.
Qed.

(** A loop over a pair whose components advance independently. *)
Lemma foldl_pair {A1 A2 B} (f : A1 → B → A1) (g : A2 → B → A2) a b (l : list B) :
  foldl (λ '(x, y) i, (f x i, g y i)) (a, b) l = (foldl f a l, foldl g b l).
Proof. revert a b. induction l as [|i l IH]; intros a b; [done|]. apply IH. Qed.

(** The iteration count of a nested loop with a uniform inner count. *)
Lemma length_bind_uniform {A B} (f : A → list B) (n : nat) (l : list A) :
  (∀ x, length (f x) = n) → length (l ≫= f) = (length l * n)%nat.
Proof.
  intros Hf. induction l as [|x l IH]; [done|].
  change ((x :: l) ≫= f) with (f x ++ (l ≫= f)).
  rewrite length_app, IH, Hf. simpl. lia.
Qed.

(** [seqZ] facts used by every loop over a range. *)
Lemma seqZ_lookup_Z m n (i : Z) :
  0 ≤ i < n → seqZ m n !! Z.to_nat i = Some (m + i).
Proof. intros. rewrite lookup_seqZ_lt by lia. f_equal. lia. Qed.

Lemma seqZ_snoc m n : 0 ≤ n → seqZ m (n + 1) = seqZ m n ++ [m + n].
Proof.
  intros. rewrite seqZ_app by lia. f_equal.
Qed.

(** A loop over the indices of a buffer that, at step [k], turns the buffer
    whose first [k] entries are final into the one whose first [k + 1]
    entries are, ends with the final buffer [out]. *)
Lemma foldl_seqZ_prefix {A} (step : list A → Z → list A) (out l0 : list A) :
  length out = length l0 →
  (∀ k : nat, (k < length l0)%nat →
     step (take k out ++ drop k l0) (Z.of_nat k) = take (S k) out ++ drop (S k) l0) →
  foldl step l0 (seqZ 0 (Z.of_nat (length l0))) = out.
Proof.
  intros Hlen Hstep.
  assert (∀ k : nat, (k ≤ length l0)%nat →
    foldl step l0 (seqZ 0 (Z.of_nat k)) = take k out ++ drop k l0) as Hk.
  { induction k as [|k IH]; intros Hle; [done|].
    rewrite Nat2Z.inj_succ, <-Z.add_1_r, seqZ_snoc, foldl_app, IH by lia.
    simpl. apply Hstep. lia. }
  rewrite Hk by done. rewrite take_ge, drop_ge by lia. apply app_nil_r.
Qed.

(** Writing entry [k] of such a buffer. *)
Lemma insert_prefix {A} (out l0 : list A) (k : nat) (x : A) :
  length out = length l0 → out !! k = Some x →
  <[k := x]> (take k out ++ drop k l0) = take (S k) out ++ drop (S k) l0.
Proof.
  intros Hlen Hx. pose proof (lookup_lt_Some _ _ _ Hx) as Hlt.
  destruct (lookup_lt_is_Some_2 l0 k ltac:(lia)) as [y Hy].
  rewrite (drop_S l0 y k Hy), (take_S_r out k x Hx).
  rewrite insert_app_r_alt, length_take_le by (rewrite ?length_take_le; lia).
  rewrite Nat.sub_diag. simpl. by rewrite <-app_assoc.
Qed.

(** ** Order of traversal *)

(** A fold whose operation does not mind the order of two steps does not
    mind the order of the list. *)
Lemma foldl_Permutation {A B} (f : A → B → A) (l k : list B) :
  (∀ a x y, f (f a x) y = f (f a y) x) → l ≡ₚ k → ∀ a, foldl f a l = foldl f a k.
Proof.
  intros Hf Hlk.
  induction Hlk as [|x l k _ IH|x y l|l k m _ IH1 _ IH2]; intros a; simpl;
    [done|apply IH|by rewrite Hf|by rewrite IH1].
Qed.

#[export] Instance sumZ_Permutation : Proper ((≡ₚ) ==> (=)) sumZ.
Proof. intros l k Hlk. unfold sumZ. induction Hlk; simpl; lia. Qed.

Lemma bind_singleton_fmap {A B} (g : A → B) (k : list A) : k ≫= (λ b, [g b]) = g <$> k.
Proof. induction k; csimpl; by f_equal. Qed.

Lemma bind_cons_Permutation {A B} (g : A → B) (h : A → list B) (k : list A) :
  k ≫= (λ b, g b :: h b) ≡ₚ (g <$> k) ++ (k ≫= h).
Proof.
  induction k as [|b k IH]; [done|]. csimpl. rewrite IH. f_equiv.
  by rewrite !(assoc_L (++)), (comm (++) (h b)).
Qed.

Lemma fmap_bind_pairs {A B C D} (g : C → D) (f : A → B → C) (l : list A) (k : list B) :
  g <$> (a ← l; b ← k; [f a b]) = (a ← l; b ← k; [g (f a b)]).
Proof.
  induction l as [|a l IH]; [done|]. csimpl. rewrite fmap_app, IH. f_equal.
  by rewrite !bind_singleton_fmap, <-list_fmap_compose.
Qed.

(** Two nested loops that collect one entry per pair of indices collect
    the same entries whichever loop is the outer one. *)
Lemma bind_swap_Permutation {A B C} (f : A → B → C) (l : list A) (k : list B) :
  (a ← l; b ← k; [f a b]) ≡ₚ (b ← k; a ← l; [f a b]).
Proof.
  induction l as [|a l IH]; csimpl; [by induction k|].
  rewrite IH, bind_singleton_fmap.
  by rewrite (bind_cons_Permutation (f a) (λ b, l ≫= (λ a, [f a b]))).
Qed.

(** A loop over a range reads the same entries when the range is traversed
    in another order. *)
Lemma bind_fmap_Permutation {A B} (g : A → A) (f : A → list B) (l : list A) :
  g <$> l ≡ₚ l → l ≫= (f ∘ g) ≡ₚ l ≫= f.
Proof. intros Hg. by rewrite <-list_fmap_bind, Hg. Qed.
