(* ===== verification/TypedArray.v ===== *)
(** * Typed arrays

    [Uint8ClampedArray] (pixel buffers) and [Uint16Array] (the median's
    histograms) as [list Z].  An index is a JavaScript number, here [Z]: a
    read outside [0 .. length - 1] yields [undefined], which every arithmetic
    use in the engine turns into NaN ([None]); a write outside that range is
    ignored; a write into a [Uint8ClampedArray] converts NaN to [0] and clamps
    to [0 .. 255]; an increment of a [Uint16Array] element wraps at [2^16]. *)

From Stdlib Require Import ZArith Lia.
From stdpp Require Import base tactics option list list_numbers numbers.
From S2P Require Import Prelude.

#[local] Open Scope Z_scope.

(** ** Definitions *)

(** An 8-bit channel value. *)
Definition byte (v : Z) : Prop := 0 ≤ v ≤ 255.

(** Every entry of a buffer is a channel value. *)
Definition is_bytes (a : list Z) : Prop := Forall byte a.

(** [new Uint8ClampedArray(n)]: [n] zeros. *)
Definition Uint8ClampedArray (n : nat) : list Z := replicate n 0.

(** The conversion a [Uint8ClampedArray] applies to a stored number. *)
Definition ToUint8Clamp (v : jsnum) : Z :=
  match v with
  | Some z => clamp 0 255 z
  | None => 0
  end.

(** [a[i]] used as a number. *)
Definition u8get (a : list Z) (i : Z) : jsnum :=
  if decide (0 ≤ i) then a !! Z.to_nat i else None.

(** [a[i] = v] on a [Uint8ClampedArray]. *)
Definition u8set (a : list Z) (i : Z) (v : jsnum) : list Z :=
  if decide (0 ≤ i) then <[Z.to_nat i := ToUint8Clamp v]> a else a.

(** [for (let i = 0; i < data.length; i++) data[i] = newData[i]]. *)
Definition copyInto (data newData : list Z) : list Z :=
  foldl (λ d i, u8set d i (u8get newData i)) data (seqZ 0 (Z.of_nat (length data))).

(** [new Uint16Array(256).fill(0)]. *)
Definition createHistogram : list Z := replicate 256 0.

(** [hist[v]++] on a [Uint16Array]: nothing happens when [v] is not an index
    of the array ([undefined] included), and the count wraps at [2^16]. *)
Definition u16incr (hist : list Z) (v : jsnum) : list Z :=
  match v with
  | Some i =>
      if decide (0 ≤ i) then
        match hist !! Z.to_nat i with
        | Some n => <[Z.to_nat i := (n + 1) mod 65536]> hist
        | None => hist
        end
      else hist
  | None => hist
  end.

#[export] Instance byte_dec v : Decision (byte v).
Proof. unfold byte. apply _. Defined.

#[export] Instance is_bytes_dec a : Decision (is_bytes a).
Proof. unfold is_bytes. apply _. Defined.

(** ** Conversion on store *)

Lemma ToUint8Clamp_byte v : byte (ToUint8Clamp v).
Proof. destruct v; unfold ToUint8Clamp, byte, clamp; lia. Qed.

Lemma ToUint8Clamp_id z : byte z → ToUint8Clamp (Some z) = z.
Proof. unfold byte. intros. simpl. by apply clamp_id. Qed.

Lemma ToUint8Clamp_NaN : ToUint8Clamp None = 0.
Proof. done. Qed.

(** ** Reads and writes *)

Lemma u8get_Some a i v :
  u8get a i = Some v ↔ 0 ≤ i ∧ a !! Z.to_nat i = Some v.
Proof. unfold u8get. destruct (decide (0 ≤ i)); intuition congruence. Qed.

Lemma u8get_in_range a i :
  0 ≤ i < Z.of_nat (length a) → is_Some (u8get a i).
Proof.
  intros. unfold u8get. rewrite decide_True by lia.
  apply lookup_lt_is_Some. lia.
Qed.

Lemma u8get_out_of_range a i :
  i < 0 ∨ Z.of_nat (length a) ≤ i → u8get a i = None.
Proof.
  intros. unfold u8get. case_decide; [|done].
  apply lookup_ge_None. lia.
Qed.

Lemma u8get_byte a i v : is_bytes a → u8get a i = Some v → byte v.
Proof.
  intros Ha [_ Hv]%u8get_Some.
  eapply Forall_lookup_1 in Ha; eauto.
Qed.

Lemma length_u8set a i v : length (u8set a i v) = length a.
Proof. unfold u8set. case_decide; [apply length_insert|done]. Qed.

Lemma u8get_u8set_eq a i v :
  0 ≤ i < Z.of_nat (length a) → u8get (u8set a i v) i = Some (ToUint8Clamp v).
Proof.
  intros. unfold u8get, u8set. rewrite !decide_True by lia.
  apply list_lookup_insert_eq. lia.
Qed.

Lemma u8get_u8set_ne a i j v : i ≠ j → u8get (u8set a i v) j = u8get a j.
Proof.
  intros. unfold u8get, u8set. repeat case_decide; try done.
  apply list_lookup_insert_ne. lia.
Qed.

Lemma u8set_out_of_range a i v :
  i < 0 ∨ Z.of_nat (length a) ≤ i → u8set a i v = a.
Proof.
  intros. unfold u8set. case_decide; [|done].
  apply list_insert_ge. lia.
Qed.

Lemma is_bytes_u8set a i v : is_bytes a → is_bytes (u8set a i v).
Proof.
  intros. unfold u8set. case_decide; [|done].
  apply Forall_insert; [done|apply ToUint8Clamp_byte].
Qed.

Lemma is_bytes_Uint8ClampedArray n : is_bytes (Uint8ClampedArray n).
Proof. apply Forall_replicate. unfold byte. lia. Qed.

Lemma length_Uint8ClampedArray n : length (Uint8ClampedArray n) = n.
Proof. apply length_replicate. Qed.

(** Two buffers of one length that agree on every read are equal. *)
Lemma u8_ext a a' :
  length a = length a' →
  (∀ i, 0 ≤ i < Z.of_nat (length a) → u8get a i = u8get a' i) →
  a = a'.
Proof.
  intros Hlen Hget. apply list_eq_same_length with (length a); try done.
  intros i x y Hi Hx Hy.
  specialize (Hget (Z.of_nat i) ltac:(lia)). unfold u8get in Hget.
  rewrite !decide_True, Nat2Z.id in Hget by lia. congruence.
Qed.

#[export] Hint Resolve ToUint8Clamp_byte is_bytes_u8set is_bytes_Uint8ClampedArray : js.
#[export] Hint Rewrite length_u8set length_Uint8ClampedArray : js_rw.

(** ** The copy-back loop *)

Lemma copyInto_prefix data newData (n : nat) :
  length newData = length data → is_bytes newData → (n ≤ length data)%nat →
  foldl (λ d i, u8set d i (u8get newData i)) data (seqZ 0 (Z.of_nat n))
  = take n newData ++ drop n data.
Proof.
  intros Hlen Hb. induction n as [|n IH]; intros Hn; [done|].
  rewrite Nat2Z.inj_succ, <-Z.add_1_r, seqZ_snoc, foldl_snoc by lia.
  rewrite IH by lia. rewrite Z.add_0_l.
  destruct (lookup_lt_is_Some_2 newData n ltac:(lia)) as [v Hv].
  unfold u8set, u8get. rewrite !decide_True, Nat2Z.id, Hv by lia.
  rewrite ToUint8Clamp_id by (eapply Forall_lookup_1; eauto).
  rewrite insert_app_r_alt, length_take_le by (rewrite ?length_take; lia).
  replace (n - n)%nat with 0%nat by lia.
  rewrite (take_S_r _ _ v), <-app_assoc by done. f_equal.
  destruct (lookup_lt_is_Some_2 data n ltac:(lia)) as [d Hd].
  by rewrite (drop_S data d n Hd).
Qed.

(** Copying a buffer of bytes over a buffer of the same length yields it. *)
Lemma copyInto_all data newData :
  length newData = length data → is_bytes newData →
  copyInto data newData = newData.
Proof.
  intros Hlen Hb. unfold copyInto. rewrite copyInto_prefix by done.
  by rewrite drop_all, app_nil_r, <-Hlen, firstn_all.
Qed.

Lemma length_copyInto data newData : length (copyInto data newData) = length data.
Proof.
  unfold copyInto.
  apply (foldl_invariant (λ d, length d = length data)); [done|].
  intros acc i _ <-. apply length_u8set.
Qed.

Lemma is_bytes_copyInto data newData : is_bytes data → is_bytes (copyInto data newData).
Proof.
  intros. unfold copyInto. apply (foldl_invariant is_bytes); [done|].
  intros acc i _ ?. by apply is_bytes_u8set.
Qed.

(** ** Histograms *)

Lemma length_createHistogram : length createHistogram = 256%nat.
Proof. done. Qed.

Lemma length_u16incr hist v : length (u16incr hist v) = length hist.
Proof.
  unfold u16incr. repeat case_match; try done. apply length_insert.
Qed.

Lemma u16incr_lookup_eq hist (i : nat) n :
  hist !! i = Some n →
  u16incr hist (Some (Z.of_nat i)) !! i = Some ((n + 1) mod 65536).
Proof.
  intros Hn. unfold u16incr. rewrite decide_True, Nat2Z.id, Hn by lia.
  apply list_lookup_insert_eq. by eapply lookup_lt_Some.
Qed.

Lemma u16incr_lookup_ne hist v (j : nat) :
  v ≠ Some (Z.of_nat j) → u16incr hist v !! j = hist !! j.
Proof.
  intros Hne. unfold u16incr. repeat case_match; try done.
  apply list_lookup_insert_ne. intros <-. apply Hne. f_equal. lia.
Qed.
