(* ===== verification/Boundary.v ===== *)
(** * Boundary policies

    [mirror] is the coordinate rule every aggregating filter repeats inside
    its window loop (reflect a negative coordinate to its absolute value,
    reflect a coordinate past the end about the last index, then clamp);
    [clampCoord] is the edge clamp of the two Gaussian passes.  [reflect101]
    is the reference the mirror rule approximates: the symmetric extension of
    period [2 n - 2] that does not repeat the edge sample.  [mirror_spec]
    says where the two agree and what the rule returns where they do
    not. *)

From Stdlib Require Import ZArith Lia.
From stdpp Require Import base tactics option list list_numbers numbers.
From S2P Require Import Prelude.

#[local] Open Scope Z_scope.

(** ** Definitions *)

(** [if (c < 0) c = Math.abs(c); if (c >= n) c = n - 1 - (c - n + 1);
    c = Math.max(0, Math.min(n - 1, c))]. *)
Definition mirror (n c : Z) : Z :=
  let c := if decide (c < 0) then Z.abs c else c in
  let c := if decide (c >= n) then n - 1 - (c - n + 1) else c in
  clamp 0 (n - 1) c.

(** [Math.max(0, Math.min(n - 1, c))]. *)
Definition clampCoord (n c : Z) : Z := clamp 0 (n - 1) c.

(** Symmetric extension without edge repetition. *)
Definition reflect101 (n c : Z) : Z :=
  if decide (n ≤ 1) then 0
  else
    let p := 2 * n - 2 in
    let m := c mod p in
    if decide (m < n) then m else p - m.

(** ** The mirror rule *)

Ltac mirror_lia :=
  unfold mirror, clampCoord, reflect101, clamp in *;
  repeat case_decide; try lia.

Lemma mirror_id n c : 0 ≤ c < n → mirror n c = c.
Proof. intros. mirror_lia. Qed.

Lemma mirror_below n c : - n < c < 0 → mirror n c = - c.
Proof. intros. mirror_lia. Qed.

Lemma mirror_above n c : n ≤ c ≤ 2 * n - 2 → mirror n c = 2 * n - 2 - c.
Proof. intros. mirror_lia. Qed.

Lemma mirror_twice n c : - (2 * n - 2) ≤ c ≤ - n → mirror n c = 2 * n - 2 + c.
Proof. intros. mirror_lia. Qed.

Lemma mirror_even n c : mirror n (- c) = mirror n c.
Proof. mirror_lia. Qed.

Lemma mirror_nonneg n c : 0 < n → 0 ≤ mirror n c.
Proof. intros. mirror_lia. Qed.

Lemma mirror_lt n c : 0 < n → mirror n c < n.
Proof. intros. mirror_lia. Qed.

Lemma clampCoord_id n c : 0 ≤ c < n → clampCoord n c = c.
Proof. intros. mirror_lia. Qed.

Lemma reflect101_range n c : 0 < n → 0 ≤ reflect101 n c < n.
Proof.
  intros. unfold reflect101. case_decide; [lia|].
  pose proof (Z.mod_pos_bound c (2 * n - 2) ltac:(lia)).
  case_decide; lia.
Qed.

Lemma reflect101_periodic n c k :
  reflect101 n (c + k * (2 * n - 2)) = reflect101 n c.
Proof.
  unfold reflect101. case_decide; [done|].
  by rewrite Z.mod_add by lia.
Qed.

(** Within one reflection to the left and two to the right the rule is
    symmetric about the middle of the raster. *)
Lemma mirror_flip n c :
  - (n - 1) ≤ c ≤ 2 * n - 2 → mirror n (n - 1 - c) = n - 1 - mirror n c.
Proof. intros. mirror_lia. Qed.

#[export] Hint Resolve mirror_nonneg mirror_lt : js.
#[export] Hint Rewrite mirror_id clampCoord_id using lia : js_rw.

(** ** Properties *)

(** A mirrored coordinate is a valid index of a dimension of positive
    size, whatever the coordinate. *)
Theorem mirror_range (n c : Z) : 0 < n → 0 ≤ mirror n c < n.
Proof. intros. split; [by apply mirror_nonneg|by apply mirror_lt]. Qed.

Lemma mirror_range_witness : 0 ≤ mirror 3 (-7) < 3.
Proof. apply (mirror_range 3 (-7)). lia. Defined.

(** Up to two reflections away from the raster ([|c| <= 2 n - 2]) the
    mirror rule is the exact symmetric extension. *)
Theorem mirror_exact (n c : Z) :
  2 ≤ n → - (2 * n - 2) ≤ c ≤ 2 * n - 2 → mirror n c = reflect101 n c.
Proof.
  intros Hn Hc. unfold reflect101. rewrite decide_False by lia. simpl.
  assert (c mod (2 * n - 2) = c ∨ c mod (2 * n - 2) = c + (2 * n - 2)
          ∨ c mod (2 * n - 2) = c - (2 * n - 2)) as Hm.
  { destruct (decide (c < 0)); [right; left; rewrite (Zmod_shift c _ 1); lia|].
    destruct (decide (c < 2 * n - 2)); [left; apply Z.mod_small; lia|].
    right; right. rewrite (Zmod_shift c _ (-1)); lia. }
  pose proof (Z.mod_pos_bound c (2 * n - 2) ltac:(lia)).
  unfold mirror, clamp. repeat case_decide; lia.
Qed.

Lemma mirror_exact_witness : mirror 3 (-4) = reflect101 3 (-4).
Proof. apply (mirror_exact 3 (-4)); lia. Defined.

(** Farther away than two reflections the rule saturates at index [0],
    on both sides of the raster. *)
Theorem mirror_saturates (n c : Z) :
  0 < n → 2 * n - 2 ≤ Z.abs c → mirror n c = 0.
Proof. intros. mirror_lia. Qed.

Lemma mirror_saturates_witness : mirror 3 5 = 0.
Proof. apply (mirror_saturates 3 5); lia. Defined.

(** C7: the boundary policy, completely: on a dimension of positive size
    the mirrored coordinate is a valid index; up to two reflections away
    from the raster ([|c| <= 2 n - 2]) it is the coordinate of the symmetric
    extension that does not repeat the edge sample, and farther away it is
    index [0], on both sides. *)
Theorem mirror_spec (n c : Z) :
  0 < n →
  0 ≤ mirror n c < n
  ∧ mirror n c = if decide (Z.abs c ≤ 2 * n - 2) then reflect101 n c else 0.
Proof.
  intros Hn. split; [by apply mirror_range|]. case_decide as Hc.
  - destruct (decide (n = 1)) as [->|]; [by rewrite mirror_saturates by lia|].
    apply mirror_exact; lia.
  - apply mirror_saturates; lia.
Qed.

Lemma mirror_spec_witness :
  0 ≤ mirror 3 (-4) < 3
  ∧ mirror 3 (-4) = if decide (Z.abs (-4) ≤ 2 * 3 - 2) then reflect101 3 (-4) else 0.
Proof. apply (mirror_spec 3 (-4)). lia. Defined.

(** The mirror rule is not the edge clamp: one step outside, it reads the
    sample one step inside. *)
Example mirror_is_not_clamp : mirror 3 (-1) = 1 ∧ clampCoord 3 (-1) = 0.
Proof. done. Qed.

(** Beyond two reflections the rule departs from the symmetric extension. *)
Example mirror_departs : mirror 3 5 = 0 ∧ reflect101 3 5 = 1.
Proof. done. Qed.
