(* ===== verification/Kernel.v ===== *)
(** * The window loops and the neighbourhood sampler

    Every aggregating filter walks its window with the same two nested loops
    [for (dy = -radius; dy <= radius; dy++) for (dx = -radius; ...)] and
    computes the same sample index [(validY * width + validX) * 4] from the
    mirrored coordinates.  [forKernel] is that pair of loops, [sampleIndex]
    the index, [windowIndices] the list of indices in loop order and
    [windowValues] the bytes of one channel read at them; the per-filter
    loops are proved equal to folds over these lists. *)

From Stdlib Require Import ZArith Lia.
From stdpp Require Import base tactics option list list_numbers numbers strings.
From S2P Require Import Prelude TypedArray Boundary.

#[local] Open Scope Z_scope.

(** ** Definitions *)

(** The kernel of a filter object: the fields [this.kernelSize] and
    [this.radius], and the constructor every aggregating class shares. *)
Module KernelSpec.

Record t := make { kernelSize : Z; radius : Z }.

(** [if (kernelSize % 2 === 0) throw new Error(...); this.kernelSize =
    kernelSize; this.radius = Math.floor(kernelSize / 2)]. *)
Definition constructor (kernelSize : Z) : completion t :=
  if decide (Z.rem kernelSize 2 = 0) then Throw (Error "Kernel size phải là số lẻ!")
  else Normal (make kernelSize (kernelSize / 2)).

End KernelSpec.

(** The values [d] takes in [for (d = -radius; d <= radius; d++)]. *)
Definition kernelRange (radius : Z) : list Z := seqZ (- radius) (2 * radius + 1).

(** The two nested window loops around a loop body. *)
Definition forKernel {A} (radius : Z) (body : A → Z → Z → A) (init : A) : A :=
  foldl (λ acc dy, foldl (λ acc dx, body acc dx dy) acc (kernelRange radius))
    init (kernelRange radius).

(** [(validY * width + validX) * 4] with both coordinates mirrored. *)
Definition sampleIndex (width height centerX centerY dx dy : Z) : Z :=
  let validX := mirror width (centerX + dx) in
  let validY := mirror height (centerY + dy) in
  (validY * width + validX) * 4.

(** The offsets [(dy, dx)] in loop order. *)
Definition windowOffsets (radius : Z) : list (Z * Z) :=
  dy ← kernelRange radius; dx ← kernelRange radius; [(dy, dx)].

(** The sample indices of a window in loop order. *)
Definition windowIndices (width height radius centerX centerY : Z) : list Z :=
  (λ p, sampleIndex width height centerX centerY p.2 p.1) <$> windowOffsets radius.

(** The reads of channel [ch] over a window. *)
Definition windowSamples (data : list Z) (width height radius centerX centerY ch : Z)
  : list jsnum :=
  (λ i, u8get data (i + ch)) <$> windowIndices width height radius centerX centerY.

(** The bytes of channel [ch] over a window of a well-formed raster. *)
Definition windowValues (data : list Z) (width height radius centerX centerY ch : Z)
  : list Z :=
  (λ i, default 0 (u8get data (i + ch))) <$> windowIndices width height radius centerX centerY.

(** A raster as [getImageData] returns it. *)
Definition raster_ok (data : list Z) (width height : Z) : Prop :=
  0 < width ∧ 0 < height ∧ Z.of_nat (length data) = width * height * 4 ∧ is_bytes data.

#[export] Instance raster_ok_dec data width height : Decision (raster_ok data width height).
Proof. unfold raster_ok. apply _. Defined.

(** ** The constructor *)

Lemma constructor_even kernelSize :
  Z.even kernelSize = true →
  KernelSpec.constructor kernelSize = Throw (Error "Kernel size phải là số lẻ!").
Proof.
  intros [k ->]%Z.even_spec. unfold KernelSpec.constructor.
  rewrite decide_True; [done|]. rewrite Z.mul_comm. by apply Z.rem_mul.
Qed.

Lemma constructor_odd kernelSize :
  Z.odd kernelSize = true →
  KernelSpec.constructor kernelSize
  = Normal (KernelSpec.make kernelSize ((kernelSize - 1) / 2)).
Proof.
  intros [k ->]%Z.odd_spec. unfold KernelSpec.constructor.
  rewrite decide_False by (Z.quot_rem_to_equations; lia).
  do 2 f_equal. Z.div_mod_to_equations. lia.
Qed.

Lemma constructor_radius_nonneg kernelSize this :
  0 ≤ kernelSize → KernelSpec.constructor kernelSize = Normal this →
  0 ≤ KernelSpec.radius this ∧ KernelSpec.kernelSize this = 2 * KernelSpec.radius this + 1.
Proof.
  intros Hk. destruct (Z.even kernelSize) eqn:Heven.
  - by rewrite constructor_even.
  - rewrite constructor_odd by (by rewrite <-Z.negb_even, Heven).
    intros [= <-]. simpl.
    assert (Z.odd kernelSize = true) as [k ->]%Z.odd_spec
      by (by rewrite <-Z.negb_even, Heven).
    Z.div_mod_to_equations. lia.
Qed.

(** ** The loop range *)

Lemma length_kernelRange radius :
  length (kernelRange radius) = Z.to_nat (2 * radius + 1).
Proof. apply length_seqZ. Qed.

Lemma elem_of_kernelRange radius d : d ∈ kernelRange radius ↔ - radius ≤ d ≤ radius.
Proof. unfold kernelRange. rewrite elem_of_seqZ. lia. Qed.

Lemma kernelRange_neg radius : radius < 0 → kernelRange radius = [].
Proof. intros. apply seqZ_nil. lia. Qed.

Lemma kernelRange_0 : kernelRange 0 = [0].
Proof. done. Qed.

Lemma length_windowOffsets radius :
  Z.of_nat (length (windowOffsets radius)) = Z.of_nat (Z.to_nat (2 * radius + 1)) ^ 2.
Proof.
  unfold windowOffsets.
  rewrite (length_bind_uniform _ (Z.to_nat (2 * radius + 1))).
  - rewrite length_kernelRange. lia.
  - intros dy. rewrite (length_bind_uniform _ 1%nat) by done.
    rewrite length_kernelRange. lia.
Qed.

Lemma elem_of_windowOffsets radius dy dx :
  (dy, dx) ∈ windowOffsets radius ↔ - radius ≤ dy ≤ radius ∧ - radius ≤ dx ≤ radius.
Proof.
  unfold windowOffsets. rewrite list_elem_of_bind. split.
  - intros (y & (x & Hp & Hx)%list_elem_of_bind & Hy).
    apply list_elem_of_singleton in Hp as [= -> ->].
    by rewrite <-!elem_of_kernelRange.
  - intros [Hy Hx]. exists dy. rewrite list_elem_of_bind, !elem_of_kernelRange.
    split; [|done]. exists dx. split; [by apply list_elem_of_singleton|by apply elem_of_kernelRange].
Qed.

Lemma windowOffsets_neg radius : radius < 0 → windowOffsets radius = [].
Proof. intros. unfold windowOffsets. by rewrite kernelRange_neg. Qed.

Lemma windowOffsets_0 : windowOffsets 0 = [(0, 0)].
Proof. done. Qed.

(** ** The loops as one fold over the window *)

Lemma forKernel_offsets {A} radius (body : A → Z → Z → A) init :
  forKernel radius body init
  = foldl (λ acc p, body acc p.2 p.1) init (windowOffsets radius).
Proof. unfold forKernel, windowOffsets. by rewrite foldl_nested. Qed.

Lemma forKernel_indices {A} width height radius centerX centerY
    (step : A → Z → A) init :
  forKernel radius
    (λ acc dx dy, step acc (sampleIndex width height centerX centerY dx dy)) init
  = foldl step init (windowIndices width height radius centerX centerY).
Proof. unfold windowIndices. by rewrite forKernel_offsets, foldl_fmap. Qed.

(** The offsets of a window are the same whichever of the two loops is
    the outer one. *)
Lemma windowOffsets_swap radius : prod_swap <$> windowOffsets radius ≡ₚ windowOffsets radius.
Proof.
  unfold windowOffsets. rewrite (fmap_bind_pairs prod_swap pair).
  apply (bind_swap_Permutation (λ dy dx, (dx, dy))).
Qed.

(** The offsets of a loop are the same from right to left. *)
Lemma kernelRange_opp radius : Z.opp <$> kernelRange radius ≡ₚ kernelRange radius.
Proof.
  unfold kernelRange. apply NoDup_Permutation.
  - apply NoDup_fmap_2, NoDup_seqZ. intros d e. lia.
  - apply NoDup_seqZ.
  - intros d. rewrite list_elem_of_fmap. setoid_rewrite elem_of_seqZ.
    split; [intros (e & -> & He); lia|intros Hd; exists (- d); lia].
Qed.

Lemma windowOffsets_flip radius :
  (λ p, (p.1, - p.2)) <$> windowOffsets radius ≡ₚ windowOffsets radius.
Proof.
  unfold windowOffsets. rewrite (fmap_bind_pairs _ pair).
  etrans; [apply (bind_swap_Permutation (λ dy dx, (dy, - dx)))|].
  etrans; [|apply (bind_swap_Permutation (λ dx dy, (dy, dx)))].
  apply (bind_fmap_Permutation Z.opp (λ dx, dy ← kernelRange radius; [(dy, dx)])).
  apply kernelRange_opp.
Qed.

(** ** Sample indices *)

Lemma length_windowIndices width height radius centerX centerY :
  Z.of_nat (length (windowIndices width height radius centerX centerY))
  = Z.of_nat (Z.to_nat (2 * radius + 1)) ^ 2.
Proof. unfold windowIndices. rewrite length_fmap. apply length_windowOffsets. Qed.

Lemma length_windowIndices_nonneg width height radius centerX centerY :
  0 ≤ radius →
  Z.of_nat (length (windowIndices width height radius centerX centerY))
  = (2 * radius + 1) ^ 2.
Proof. intros. rewrite length_windowIndices. f_equal. lia. Qed.

Lemma windowIndices_neg width height radius centerX centerY :
  radius < 0 → windowIndices width height radius centerX centerY = [].
Proof. intros. unfold windowIndices. by rewrite windowOffsets_neg. Qed.

Lemma sampleIndex_bounds width height centerX centerY dx dy :
  0 < width → 0 < height →
  0 ≤ sampleIndex width height centerX centerY dx dy
  ∧ sampleIndex width height centerX centerY dx dy + 3 < width * height * 4.
Proof.
  intros Hw Hh. unfold sampleIndex.
  pose proof (mirror_range width (centerX + dx) Hw).
  pose proof (mirror_range height (centerY + dy) Hh).
  simpl. nia.
Qed.

Lemma sampleIndex_center width height centerX centerY :
  0 ≤ centerX < width → 0 ≤ centerY < height →
  sampleIndex width height centerX centerY 0 0 = (centerY * width + centerX) * 4.
Proof. intros. unfold sampleIndex. by rewrite !Z.add_0_r, !mirror_id. Qed.

Lemma windowIndices_0 width height centerX centerY :
  0 ≤ centerX < width → 0 ≤ centerY < height →
  windowIndices width height 0 centerX centerY = [(centerY * width + centerX) * 4].
Proof.
  intros. unfold windowIndices. rewrite windowOffsets_0. simpl.
  by rewrite sampleIndex_center.
Qed.

Lemma sampleIndex_aligned width height centerX centerY dx dy :
  sampleIndex width height centerX centerY dx dy mod 4 = 0.
Proof. unfold sampleIndex. simpl. apply Z.mod_mul. lia. Qed.

Lemma windowIndices_bounds width height radius centerX centerY :
  0 < width → 0 < height →
  Forall (λ i, 0 ≤ i ∧ i + 3 < width * height * 4 ∧ i mod 4 = 0)
    (windowIndices width height radius centerX centerY).
Proof.
  intros. unfold windowIndices. apply Forall_fmap, Forall_true.
  intros p. simpl. pose proof (sampleIndex_bounds width height centerX centerY p.2 p.1).
  pose proof (sampleIndex_aligned width height centerX centerY p.2 p.1). lia.
Qed.

(** ** Samples of a well-formed raster *)

Lemma raster_ok_pos data width height :
  raster_ok data width height → 0 < width ∧ 0 < height.
Proof. by intros (? & ? & _). Qed.

Lemma raster_read data width height i ch :
  raster_ok data width height → 0 ≤ ch ≤ 3 →
  0 ≤ i ∧ i + 3 < width * height * 4 ∧ i mod 4 = 0 →
  ∃ v, u8get data (i + ch) = Some v ∧ byte v.
Proof.
  intros (_ & _ & Hlen & Hb) Hch Hi.
  destruct (u8get_in_range data (i + ch) ltac:(lia)) as [v Hv].
  exists v. eauto using u8get_byte.
Qed.

Lemma length_windowSamples data width height radius centerX centerY ch :
  length (windowSamples data width height radius centerX centerY ch)
  = length (windowOffsets radius).
Proof. unfold windowSamples, windowIndices. by rewrite !length_fmap. Qed.

Lemma windowSamples_values data width height radius centerX centerY ch :
  raster_ok data width height → 0 ≤ ch ≤ 3 →
  windowSamples data width height radius centerX centerY ch
  = Some <$> windowValues data width height radius centerX centerY ch.
Proof.
  intros Hok Hch. unfold windowSamples, windowValues.
  rewrite <-list_fmap_compose. apply Forall_fmap_ext_1.
  destruct (raster_ok_pos _ _ _ Hok) as [Hw Hh].
  eapply List.Forall_impl; [|by apply windowIndices_bounds].
  intros i Hi. simpl.
  by destruct (raster_read data width height i ch Hok Hch Hi) as (v & -> & _).
Qed.

Lemma windowValues_bytes data width height radius centerX centerY ch :
  raster_ok data width height → 0 ≤ ch ≤ 3 →
  Forall byte (windowValues data width height radius centerX centerY ch).
Proof.
  intros Hok Hch. unfold windowValues. apply Forall_fmap.
  destruct (raster_ok_pos _ _ _ Hok) as [Hw Hh].
  eapply List.Forall_impl; [|by apply windowIndices_bounds].
  intros i Hi. simpl.
  by destruct (raster_read data width height i ch Hok Hch Hi) as (v & -> & ?).
Qed.

(** A property of every read of channel [ch] holds of the window values. *)
Lemma windowValues_Forall (P : Z → Prop) data width height radius centerX centerY ch :
  raster_ok data width height → 0 ≤ ch ≤ 3 →
  (∀ i v, i mod 4 = 0 → u8get data (i + ch) = Some v → P v) →
  Forall P (windowValues data width height radius centerX centerY ch).
Proof.
  intros Hok Hch HP. unfold windowValues. apply Forall_fmap.
  destruct (raster_ok_pos _ _ _ Hok) as [Hw Hh].
  eapply List.Forall_impl; [|by apply windowIndices_bounds].
  intros i Hi. simpl.
  destruct (raster_read data width height i ch Hok Hch Hi) as (v & Hv & _).
  rewrite Hv. simpl. apply (HP i v); [apply Hi|done].
Qed.

Lemma windowValues_nonempty data width height radius centerX centerY ch :
  0 ≤ radius → windowValues data width height radius centerX centerY ch ≠ [].
Proof.
  intros Hr Hnil. apply (f_equal length) in Hnil.
  pose proof (length_windowIndices_nonneg width height radius centerX centerY Hr).
  unfold windowValues in Hnil. rewrite length_fmap in Hnil. simpl in Hnil. nia.
Qed.

Lemma length_windowValues data width height radius centerX centerY ch :
  0 ≤ radius →
  Z.of_nat (length (windowValues data width height radius centerX centerY ch))
  = (2 * radius + 1) ^ 2.
Proof.
  intros. unfold windowValues. rewrite length_fmap.
  by apply length_windowIndices_nonneg.
Qed.

Lemma windowValues_0 data width height centerX centerY ch v :
  0 ≤ centerX < width → 0 ≤ centerY < height →
  u8get data ((centerY * width + centerX) * 4 + ch) = Some v →
  windowValues data width height 0 centerX centerY ch = [v].
Proof.
  intros Hx Hy Hv. unfold windowValues. rewrite windowIndices_0 by done.
  simpl. by rewrite Hv.
Qed.

(** ** Accumulators of a window loop *)

Section accumulators.
Context {A : Type} (body : A → Z → Z → A) (init : A).
Context (data : list Z) (width height radius centerX centerY : Z).

(** An accumulator that the body updates with the read of channel [ch]
    ends as the fold of the update over the window samples of that channel. *)
Lemma forKernel_samples {B} (proj : A → B) (upd : B → jsnum → B) (ch : Z) :
  (∀ acc dx dy, proj (body acc dx dy)
     = upd (proj acc) (u8get data (sampleIndex width height centerX centerY dx dy + ch))) →
  proj (forKernel radius body init)
  = foldl upd (proj init) (windowSamples data width height radius centerX centerY ch).
Proof.
  intros Hbody. rewrite forKernel_offsets.
  rewrite (foldl_project proj _
    (λ s p, upd s (u8get data (sampleIndex width height centerX centerY p.2 p.1 + ch))))
    by (intros; apply Hbody).
  unfold windowSamples, windowIndices. by rewrite !foldl_fmap.
Qed.

(** An accumulator that the body updates with [op] and the read of channel
    [ch] ends as the fold of [op] over the window values of that channel. *)
Lemma forKernel_channel (proj : A → jsnum) (op : Z → Z → Z) (ch a : Z) :
  (∀ acc dx dy, proj (body acc dx dy)
     = js_lift2 op (proj acc)
         (u8get data (sampleIndex width height centerX centerY dx dy + ch))) →
  raster_ok data width height → 0 ≤ ch ≤ 3 → proj init = Some a →
  proj (forKernel radius body init)
  = Some (foldl op a (windowValues data width height radius centerX centerY ch)).
Proof.
  intros Hbody Hok Hch Hinit.
  rewrite (forKernel_samples proj (js_lift2 op) ch Hbody).
  by rewrite Hinit, windowSamples_values, foldl_js_lift2.
Qed.

(** An accumulator that the body increments counts the window. *)
Lemma forKernel_count (proj : A → Z) :
  (∀ acc dx dy, proj (body acc dx dy) = proj acc + 1) →
  proj (forKernel radius body init)
  = proj init + Z.of_nat (length (windowOffsets radius)).
Proof.
  intros Hbody. rewrite forKernel_offsets.
  rewrite (foldl_project proj _ (λ c _, c + 1)) by (intros; apply Hbody).
  apply foldl_count.
Qed.

End accumulators.

(** An empty window leaves the accumulators untouched. *)
Lemma forKernel_neg {A} radius (body : A → Z → Z → A) init :
  radius < 0 → forKernel radius body init = init.
Proof. intros. unfold forKernel. by rewrite kernelRange_neg. Qed.

(** ** Properties *)

(** C8: validation comes before any pixel work: the constructor throws
    exactly on even sizes, and on an odd size it stores the radius
    [(kernelSize - 1) / 2] of the specification; for a positive size the
    window is then [kernelSize] wide and every pixel has [kernelSize ^ 2]
    reads per channel, on any raster. *)
Theorem constructor_spec (kernelSize : Z) :
  KernelSpec.constructor kernelSize
  = (if Z.even kernelSize then Throw (Error "Kernel size phải là số lẻ!")
     else Normal (KernelSpec.make kernelSize ((kernelSize - 1) / 2)))
  ∧ ∀ this, KernelSpec.constructor kernelSize = Normal this → 0 < kernelSize →
      KernelSpec.kernelSize this = 2 * KernelSpec.radius this + 1
      ∧ ∀ data width height centerX centerY ch,
          Z.of_nat (length (windowSamples data width height (KernelSpec.radius this)
                              centerX centerY ch))
          = kernelSize ^ 2.
Proof.
  split.
  - destruct (Z.even kernelSize) eqn:Heven; [by apply constructor_even|].
    apply constructor_odd. by rewrite <-Z.negb_even, Heven.
  - intros this Hthis Hpos.
    destruct (constructor_radius_nonneg kernelSize this) as [Hr Hk]; [lia|done|].
    split; [done|]. intros. rewrite length_windowSamples, length_windowOffsets.
    assert (KernelSpec.kernelSize this = kernelSize) as <-; [|f_equal; lia].
    revert Hthis. unfold KernelSpec.constructor. case_decide; [done|]. by intros [= <-].
Qed.

Lemma constructor_spec_witness :
  KernelSpec.kernelSize (KernelSpec.make 3 1) = 2 * KernelSpec.radius (KernelSpec.make 3 1) + 1
  ∧ ∀ data width height centerX centerY ch,
      Z.of_nat (length (windowSamples data width height
                          (KernelSpec.radius (KernelSpec.make 3 1)) centerX centerY ch))
      = 3 ^ 2.
Proof. apply (constructor_spec 3); [done|lia]. Defined.

(** The sizes the page offers are accepted, and their windows hold 9, 25,
    49 and 81 reads. *)
Example constructor_sizes :
  Forall (λ size, ∃ this, KernelSpec.constructor size = Normal this
            ∧ length (windowSamples [] 1 1 (KernelSpec.radius this) 0 0 0)
              = Z.to_nat (size ^ 2))
    [3; 5; 7; 9]
  ∧ Forall (λ size, KernelSpec.constructor size = Throw (Error "Kernel size phải là số lẻ!"))
      [0; 2; 4; 6; 8; -2].
Proof. split; repeat constructor; by eexists. Qed.

(** C6: on a raster of positive dimensions, every read of a window, for any
    centre, radius and channel, is inside the buffer. *)
Theorem window_reads_in_range (data : list Z) (width height radius centerX centerY ch : Z) :
  raster_ok data width height → 0 ≤ ch ≤ 3 →
  Forall is_Some (windowSamples data width height radius centerX centerY ch).
Proof.
  intros Hok Hch. rewrite windowSamples_values by done.
  apply Forall_fmap, Forall_true. intros v. by eexists.
Qed.

Lemma window_reads_in_range_witness :
  Forall is_Some (windowSamples [1; 2; 3; 255; 4; 5; 6; 255] 2 1 4 1 0 2).
Proof.
  apply (window_reads_in_range [1; 2; 3; 255; 4; 5; 6; 255] 2 1 4 1 0 2);
    [by_compute|lia].
Defined.
