(* ===== verification/Sweep.v ===== *)
(** * The raster sweep of [processImageData]

    All aggregating filters share one [processImageData]: allocate a zeroed
    [Uint8ClampedArray], visit the pixels in row-major order, store the three
    channels the calculator returns and the alpha byte of the original, then
    copy the new buffer over [imageData.data].  The sweep is defined once,
    parametrised by the calculator, and proved equal to the pointwise
    reference [filterSpec].  The class [Aggregator] states what a calculator
    promises (it reduces the window values of each channel by a function that
    stays between their bounds); the sweep's contract is proved against it. *)

From Stdlib Require Import ZArith Lia.
From stdpp Require Import base tactics option list list_numbers numbers.
From S2P Require Import Prelude TypedArray Boundary Kernel.

#[local] Open Scope Z_scope.

(** ** Definitions *)

(** The object [{r, g, b}] a calculator returns. *)
Record RGB := mkRGB { r : jsnum; g : jsnum; b : jsnum }.

(** [calculateXxx(data, centerX, centerY, width, height)]. *)
Definition Calculator := list Z → Z → Z → Z → Z → RGB.

(** The field stored at offset [ch] of a pixel. *)
Definition channel (c : RGB) (ch : Z) : jsnum :=
  if decide (ch = 0) then r c else if decide (ch = 1) then g c else b c.

(** The body of the pixel loop. *)
Definition storePixel (calc : Calculator) (originalData : list Z) (width height : Z)
    (newData : list Z) (x y : Z) : list Z :=
  let pixelIndex := (y * width + x) * 4 in
  let colors := calc originalData x y width height in
  let newData := u8set newData pixelIndex (r colors) in
  let newData := u8set newData (pixelIndex + 1) (g colors) in
  let newData := u8set newData (pixelIndex + 2) (b colors) in
  u8set newData (pixelIndex + 3) (u8get originalData (pixelIndex + 3)).

(** [for (y = 0; y < height; y++) for (x = 0; x < width; x++) ...]. *)
Definition sweepRows (calc : Calculator) (originalData : list Z) (width height : Z)
    (newData : list Z) : list Z :=
  foldl (λ nd y,
    foldl (λ nd x, storePixel calc originalData width height nd x y) nd (seqZ 0 width))
    newData (seqZ 0 height).

(** [processImageData(imageData, originalData, width, height)]; [data] is
    [imageData.data] and the result is its contents on return. *)
Definition processImageData (calc : Calculator) (data originalData : list Z)
    (width height : Z) : list Z :=
  let newData := Uint8ClampedArray (length data) in
  let newData := sweepRows calc originalData width height newData in
  copyInto data newData.

(** The pixels in sweep order, as [(y, x)]. *)
Definition pixels (width height : Z) : list (Z * Z) :=
  y ← seqZ 0 height; x ← seqZ 0 width; [(y, x)].

(** The byte the sweep leaves at offset [ch] of pixel [(x, y)]. *)
Definition pixelByte (calc : Calculator) (originalData : list Z) (width height : Z)
    (x y ch : Z) : Z :=
  if decide (ch = 3) then ToUint8Clamp (u8get originalData ((y * width + x) * 4 + 3))
  else ToUint8Clamp (channel (calc originalData x y width height) ch).

(** The byte the sweep leaves at index [i]. *)
Definition outputByte (calc : Calculator) (originalData : list Z) (width height : Z)
    (i : Z) : Z :=
  pixelByte calc originalData width height ((i / 4) mod width) (i / 4 / width) (i mod 4).

(** Reference: the output raster, index by index. *)
Definition filterSpec (calc : Calculator) (originalData : list Z) (width height : Z)
  : list Z :=
  outputByte calc originalData width height <$> seqZ 0 (width * height * 4).

(** The raster whose every pixel is [(c 0, c 1, c 2, c 3)]. *)
Definition uniform (c : Z → Z) (width height : Z) : list Z :=
  (λ i, c (i mod 4)) <$> seqZ 0 (width * height * 4).

(** What a calculator of radius [radius] promises to the sweep: on a
    well-formed raster each colour channel is [agg_channel] of the window
    values of that channel, and [agg_channel] of a non-empty list of bytes
    lies between any bounds of the list. *)
Class Aggregator (calc : Calculator) (radius : Z) := {
  agg_channel : list Z → Z;
  agg_radius : 0 ≤ radius;
  agg_sound data width height x y ch :
    raster_ok data width height → 0 ≤ x < width → 0 ≤ y < height → 0 ≤ ch ≤ 2 →
    channel (calc data x y width height) ch
    = Some (agg_channel (windowValues data width height radius x y ch));
  agg_between vs lo hi :
    vs ≠ [] → 0 ≤ lo → hi ≤ 255 → Forall (λ v, lo ≤ v ≤ hi) vs →
    lo ≤ agg_channel vs ≤ hi
}.

(** ** Channels *)

Lemma RGB_channels c : c = mkRGB (channel c 0) (channel c 1) (channel c 2).
Proof. by destruct c. Qed.

Lemma channel_map2 (f : jsnum → jsnum → jsnum) a1 a2 a3 b1 b2 b3 ch :
  channel (mkRGB (f a1 b1) (f a2 b2) (f a3 b3)) ch
  = f (channel (mkRGB a1 a2 a3) ch) (channel (mkRGB b1 b2 b3) ch).
Proof. unfold channel. by repeat case_decide. Qed.

Lemma channel_map (f : jsnum → jsnum) a1 a2 a3 ch :
  channel (mkRGB (f a1) (f a2) (f a3)) ch = f (channel (mkRGB a1 a2 a3) ch).
Proof. unfold channel. by repeat case_decide. Qed.

(** Three accumulators that a window loop updates with [op] and the reads
    at offsets 0, 1 and 2 of the sample hold, channel by channel, the fold
    of [op] over the window values. *)
Lemma forKernel_rgb {A} (body : A → Z → Z → A) (init : A) data width height radius
    centerX centerY (pR pG pB : A → jsnum) (op : Z → Z → Z) (a ch : Z) :
  (∀ acc dx dy,
     pR (body acc dx dy) = js_lift2 op (pR acc)
       (u8get data (sampleIndex width height centerX centerY dx dy))
     ∧ pG (body acc dx dy) = js_lift2 op (pG acc)
       (u8get data (sampleIndex width height centerX centerY dx dy + 1))
     ∧ pB (body acc dx dy) = js_lift2 op (pB acc)
       (u8get data (sampleIndex width height centerX centerY dx dy + 2))) →
  pR init = Some a → pG init = Some a → pB init = Some a →
  raster_ok data width height → 0 ≤ ch ≤ 2 →
  channel (mkRGB (pR (forKernel radius body init)) (pG (forKernel radius body init))
             (pB (forKernel radius body init))) ch
  = Some (foldl op a (windowValues data width height radius centerX centerY ch)).
Proof.
  intros Hbody HR HG HB Hok Hch. unfold channel. simpl.
  repeat case_decide; subst.
  - apply forKernel_channel; try done. intros. rewrite Z.add_0_r. apply Hbody.
  - apply forKernel_channel; try done. intros. apply Hbody.
  - assert (ch = 2) as -> by lia.
    apply forKernel_channel; try done. intros. apply Hbody.
Qed.

(** The same for accumulators of any type [B] updated by [upd] and read
    out through [fin]. *)
Lemma forKernel_rgb_samples {A B} (body : A → Z → Z → A) (init : A) data width height
    radius centerX centerY (pR pG pB : A → B) (upd : B → jsnum → B) (fin : B → jsnum)
    (a : B) (ch : Z) :
  (∀ acc dx dy,
     pR (body acc dx dy) = upd (pR acc)
       (u8get data (sampleIndex width height centerX centerY dx dy))
     ∧ pG (body acc dx dy) = upd (pG acc)
       (u8get data (sampleIndex width height centerX centerY dx dy + 1))
     ∧ pB (body acc dx dy) = upd (pB acc)
       (u8get data (sampleIndex width height centerX centerY dx dy + 2))) →
  pR init = a → pG init = a → pB init = a → 0 ≤ ch ≤ 2 →
  channel (mkRGB (fin (pR (forKernel radius body init))) (fin (pG (forKernel radius body init)))
             (fin (pB (forKernel radius body init)))) ch
  = fin (foldl upd a (windowSamples data width height radius centerX centerY ch)).
Proof.
  intros Hbody HR HG HB Hch. unfold channel. simpl.
  repeat case_decide; subst; f_equal.
  - rewrite (forKernel_samples body init data width height radius centerX centerY pR upd 0);
      [done|]. intros. rewrite Z.add_0_r. apply Hbody.
  - rewrite (forKernel_samples body init data width height radius centerX centerY pG upd 1);
      [by rewrite HG|]. intros. apply Hbody.
  - assert (ch = 2) as -> by lia.
    rewrite (forKernel_samples body init data width height radius centerX centerY pB upd 2);
      [by rewrite HB|]. intros. apply Hbody.
Qed.

(** ** Index arithmetic *)

Lemma pixel_index_range width x y i :
  0 ≤ x < width →
  (y * width + x) * 4 ≤ i ≤ (y * width + x) * 4 + 3
  ↔ i / 4 / width = y ∧ (i / 4) mod width = x.
Proof.
  intros Hx.
  assert (i = 4 * (i / 4) + i mod 4 ∧ 0 ≤ i mod 4 < 4) as [Hi Hch].
  { split; [apply Z.div_mod; lia|apply Z.mod_pos_bound; lia]. }
  set (q := i / 4) in *. set (c := i mod 4) in *. clearbody q c. subst i.
  split.
  - intros Hr. assert (q = y * width + x) as -> by lia.
    split; [symmetry; apply (Z.div_unique _ _ y x); lia
           |symmetry; apply (Z.mod_unique _ _ y x); lia].
  - intros [<- <-]. pose proof (Z.div_mod q width ltac:(lia)). lia.
Qed.

Lemma pixel_index_channel width x y i :
  (y * width + x) * 4 ≤ i ≤ (y * width + x) * 4 + 3 →
  i mod 4 = i - (y * width + x) * 4.
Proof.
  intros. symmetry. apply (Z.mod_unique _ _ (y * width + x)); lia.
Qed.

Lemma pixel_of_index_range width height i :
  0 < width → 0 ≤ i < width * height * 4 →
  0 ≤ (i / 4) mod width < width ∧ 0 ≤ i / 4 / width < height.
Proof.
  intros Hw Hi. split; [apply Z.mod_pos_bound; lia|].
  assert (0 ≤ i / 4 < width * height) as Hq.
  { split; [apply Z.div_pos; lia|apply Z.div_lt_upper_bound; lia]. }
  split; [apply Z.div_pos; lia|apply Z.div_lt_upper_bound; lia].
Qed.

Lemma elem_of_pixels width height y x :
  (y, x) ∈ pixels width height ↔ 0 ≤ y < height ∧ 0 ≤ x < width.
Proof.
  unfold pixels. rewrite list_elem_of_bind. split.
  - intros (y' & (x' & Hp & Hx)%list_elem_of_bind & Hy).
    apply list_elem_of_singleton in Hp as [= -> ->].
    apply elem_of_seqZ in Hx, Hy. lia.
  - intros [Hy Hx]. exists y. split; [|apply elem_of_seqZ; lia].
    apply list_elem_of_bind. exists x.
    split; [by apply list_elem_of_singleton|apply elem_of_seqZ; lia].
Qed.

(** ** One pixel *)

Section sweep.
Context (calc : Calculator) (originalData : list Z) (width height : Z).

#[local] Abbreviation store :=
  (λ nd (p : Z * Z), storePixel calc originalData width height nd p.2 p.1).

Lemma length_storePixel nd x y :
  length (storePixel calc originalData width height nd x y) = length nd.
Proof. unfold storePixel. by rewrite !length_u8set. Qed.

Lemma is_bytes_storePixel nd x y :
  is_bytes nd → is_bytes (storePixel calc originalData width height nd x y).
Proof. intros. unfold storePixel. by repeat apply is_bytes_u8set. Qed.

Lemma storePixel_get nd x y i :
  0 ≤ (y * width + x) * 4 → (y * width + x) * 4 + 3 < Z.of_nat (length nd) →
  u8get (storePixel calc originalData width height nd x y) i
  = if decide ((y * width + x) * 4 ≤ i ≤ (y * width + x) * 4 + 3)
    then Some (pixelByte calc originalData width height x y (i - (y * width + x) * 4))
    else u8get nd i.
Proof.
  intros Hlo Hhi. unfold storePixel, pixelByte, channel. set (pi := (y * width + x) * 4) in *.
  destruct (decide (i = pi + 3)) as [->|];
    [rewrite u8get_u8set_eq by (rewrite !length_u8set; lia);
     repeat case_decide; (done || lia)|rewrite u8get_u8set_ne by lia].
  destruct (decide (i = pi + 2)) as [->|];
    [rewrite u8get_u8set_eq by (rewrite !length_u8set; lia);
     repeat case_decide; (done || lia)|rewrite u8get_u8set_ne by lia].
  destruct (decide (i = pi + 1)) as [->|];
    [rewrite u8get_u8set_eq by (rewrite !length_u8set; lia);
     repeat case_decide; (done || lia)|rewrite u8get_u8set_ne by lia].
  destruct (decide (i = pi)) as [->|];
    [rewrite u8get_u8set_eq by (rewrite ?length_u8set; lia);
     repeat case_decide; (done || lia)|rewrite u8get_u8set_ne by lia].
  rewrite decide_False by lia. done.
Qed.

(** ** A run of pixels *)

Lemma length_sweep_pixels ps nd : length (foldl store nd ps) = length nd.
Proof.
  apply (foldl_invariant (λ l, length l = length nd)); [done|].
  intros acc p _ <-. apply length_storePixel.
Qed.

Lemma is_bytes_sweep_pixels ps nd : is_bytes nd → is_bytes (foldl store nd ps).
Proof.
  intros. apply (foldl_invariant is_bytes); [done|].
  intros acc p _ ?. by apply is_bytes_storePixel.
Qed.

Lemma sweep_pixels_get ps nd i :
  0 < width →
  Forall (λ p : Z * Z, 0 ≤ p.1 < height ∧ 0 ≤ p.2 < width) ps →
  Z.of_nat (length nd) = width * height * 4 →
  u8get (foldl store nd ps) i
  = if decide ((i / 4 / width, (i / 4) mod width) ∈ ps)
    then Some (outputByte calc originalData width height i)
    else u8get nd i.
Proof.
  intros Hw Hps Hlen. induction ps as [|[y x] ps IH] using rev_ind.
  { rewrite decide_False; [done|]. apply not_elem_of_nil. }
  apply Forall_app in Hps as [Hps [Hy Hx]%Forall_singleton]. simpl in Hy, Hx.
  rewrite foldl_snoc. simpl.
  rewrite storePixel_get by (rewrite ?length_sweep_pixels; nia).
  pose proof (pixel_index_range width x y i Hx) as Hrange.
  destruct (decide ((y * width + x) * 4 ≤ i ≤ (y * width + x) * 4 + 3)) as [Hi|Hi].
  - rewrite decide_True.
    + unfold outputByte. rewrite (pixel_index_channel width x y i Hi).
      apply Hrange in Hi as [-> ->]. done.
    + apply Hrange in Hi as [-> ->]. apply elem_of_app. right. by left.
  - rewrite IH by done. apply decide_ext. rewrite elem_of_app, list_elem_of_singleton.
    split; [by left|]. intros [?|[= Hy' Hx']]; [done|]. tauto.
Qed.

(** ** The whole sweep *)

Lemma sweepRows_pixels nd :
  sweepRows calc originalData width height nd = foldl store nd (pixels width height).
Proof. unfold sweepRows, pixels. by rewrite foldl_nested. Qed.

Lemma length_sweepRows nd :
  length (sweepRows calc originalData width height nd) = length nd.
Proof. rewrite sweepRows_pixels. apply length_sweep_pixels. Qed.

Lemma is_bytes_sweepRows nd :
  is_bytes nd → is_bytes (sweepRows calc originalData width height nd).
Proof. rewrite sweepRows_pixels. apply is_bytes_sweep_pixels. Qed.

Lemma length_filterSpec :
  length (filterSpec calc originalData width height) = Z.to_nat (width * height * 4).
Proof. unfold filterSpec. by rewrite length_fmap, length_seqZ. Qed.

Lemma filterSpec_get i :
  0 ≤ i < width * height * 4 →
  u8get (filterSpec calc originalData width height) i
  = Some (outputByte calc originalData width height i).
Proof.
  intros. unfold u8get, filterSpec. rewrite decide_True by lia.
  by rewrite list_lookup_fmap, seqZ_lookup_Z.
Qed.

Lemma sweepRows_spec nd :
  0 ≤ width → 0 ≤ height → Z.of_nat (length nd) = width * height * 4 →
  sweepRows calc originalData width height nd = filterSpec calc originalData width height.
Proof.
  intros Hw Hh Hlen. apply u8_ext.
  { rewrite length_sweepRows, length_filterSpec. lia. }
  rewrite length_sweepRows. intros i Hi.
  assert (0 < width) by nia.
  rewrite filterSpec_get, sweepRows_pixels by lia.
  rewrite sweep_pixels_get; try done.
  - rewrite decide_True; [done|].
    apply elem_of_pixels. pose proof (pixel_of_index_range width height i). lia.
  - apply Forall_forall. intros [y x] Hp%list_elem_of_In%elem_of_pixels. done.
Qed.

Lemma is_bytes_filterSpec : is_bytes (filterSpec calc originalData width height).
Proof.
  unfold filterSpec. apply Forall_fmap, Forall_true. intros i.
  unfold outputByte, pixelByte. simpl. case_decide; apply ToUint8Clamp_byte.
Qed.

Lemma outputByte_pixel x y ch :
  0 ≤ x < width → 0 ≤ ch ≤ 3 →
  outputByte calc originalData width height ((y * width + x) * 4 + ch)
  = pixelByte calc originalData width height x y ch.
Proof.
  intros Hx Hch. unfold outputByte.
  assert ((y * width + x) * 4 ≤ (y * width + x) * 4 + ch ≤ (y * width + x) * 4 + 3)
    as Hi by lia.
  rewrite (pixel_index_channel width x y _ Hi).
  apply (pixel_index_range width x y _ Hx) in Hi as [-> ->]. f_equal. lia.
Qed.

(** The reference keeps the alpha byte of every pixel. *)
Lemma filterSpec_alpha x y :
  raster_ok originalData width height → 0 ≤ x < width → 0 ≤ y < height →
  u8get (filterSpec calc originalData width height) ((y * width + x) * 4 + 3)
  = u8get originalData ((y * width + x) * 4 + 3).
Proof.
  intros Hok Hx Hy. rewrite filterSpec_get, outputByte_pixel by (lia || nia).
  unfold pixelByte. rewrite decide_True by done.
  destruct (raster_read originalData width height ((y * width + x) * 4) 3 Hok)
    as (v & -> & Hv); [lia| |by rewrite ToUint8Clamp_id].
  rewrite Z.mod_mul by lia. nia.
Qed.

Lemma filterSpec_raster_ok :
  0 < width → 0 < height → raster_ok (filterSpec calc originalData width height) width height.
Proof.
  intros. repeat split; [done..| |apply is_bytes_filterSpec].
  rewrite length_filterSpec. nia.
Qed.

End sweep.

(** ** Properties of [processImageData] *)

(** The sweep is the pointwise reference on a buffer of the raster's size. *)
Lemma processImageData_filterSpec calc data originalData width height :
  0 ≤ width → 0 ≤ height → Z.of_nat (length data) = width * height * 4 →
  processImageData calc data originalData width height
  = filterSpec calc originalData width height.
Proof.
  intros Hw Hh Hlen. unfold processImageData.
  rewrite sweepRows_spec by (rewrite ?length_Uint8ClampedArray; done).
  apply copyInto_all; [|apply is_bytes_filterSpec].
  rewrite length_filterSpec. lia.
Qed.

(** Reading the result at offset [ch] of pixel [(x, y)]. *)
Lemma processImageData_get calc data originalData width height x y ch :
  Z.of_nat (length data) = width * height * 4 →
  0 ≤ x < width → 0 ≤ y < height → 0 ≤ ch ≤ 3 →
  u8get (processImageData calc data originalData width height) ((y * width + x) * 4 + ch)
  = Some (pixelByte calc originalData width height x y ch).
Proof.
  intros Hlen Hx Hy Hch.
  rewrite processImageData_filterSpec, filterSpec_get by (done || nia).
  by rewrite outputByte_pixel.
Qed.

(** Every index of a raster is a channel of a pixel. *)
Lemma index_pixel width height i :
  0 < width → 0 ≤ i < width * height * 4 →
  i = ((i / 4 / width) * width + (i / 4) mod width) * 4 + i mod 4.
Proof.
  intros. pose proof (Z.div_mod i 4 ltac:(lia)).
  pose proof (Z.div_mod (i / 4) width ltac:(lia)). lia.
Qed.

(** A raster on which the calculator returns every pixel's own colour is a
    fixed point of the sweep. *)
Lemma filterSpec_fixpoint calc data width height :
  raster_ok data width height →
  (∀ x y ch, 0 ≤ x < width → 0 ≤ y < height → 0 ≤ ch ≤ 2 →
     channel (calc data x y width height) ch = u8get data ((y * width + x) * 4 + ch)) →
  filterSpec calc data width height = data.
Proof.
  intros Hok Hcalc. pose proof Hok as (Hw & Hh & Hlen & Hb).
  apply u8_ext; [rewrite length_filterSpec; lia|].
  rewrite length_filterSpec. intros i Hi.
  rewrite filterSpec_get by lia. unfold outputByte, pixelByte.
  destruct (pixel_of_index_range width height i) as [Hx Hy]; [lia..|].
  pose proof (Z.mod_pos_bound i 4 ltac:(lia)) as Hch.
  pose proof (index_pixel width height i Hw ltac:(lia)) as Hidx.
  destruct (u8get_in_range data i ltac:(lia)) as [v Hv]. rewrite Hv.
  pose proof (u8get_byte _ _ _ Hb Hv).
  case_decide as Hc; [rewrite <-Hc, <-Hidx, Hv|rewrite Hcalc, <-Hidx, Hv by lia];
    by rewrite ToUint8Clamp_id.
Qed.

(** Two calculators that agree on the colour channels of every pixel of a
    raster give the same sweep. *)
Lemma processImageData_ext calc1 calc2 data width height :
  raster_ok data width height →
  (∀ x y ch, 0 ≤ x < width → 0 ≤ y < height → 0 ≤ ch ≤ 2 →
     channel (calc1 data x y width height) ch = channel (calc2 data x y width height) ch) →
  processImageData calc1 data data width height
  = processImageData calc2 data data width height.
Proof.
  intros (Hw & Hh & Hlen & _) Hcalc. rewrite !processImageData_filterSpec by lia.
  apply list_fmap_ext. intros k i [-> Hi]%lookup_seqZ. unfold outputByte, pixelByte.
  destruct (pixel_of_index_range width height (0 + Z.of_nat k)) as [Hx Hy]; [lia..|].
  pose proof (Z.mod_pos_bound (0 + Z.of_nat k) 4 ltac:(lia)).
  case_decide; [done|]. by rewrite Hcalc by lia.
Qed.

Lemma processImageData_fixpoint calc data width height :
  raster_ok data width height →
  (∀ x y ch, 0 ≤ x < width → 0 ≤ y < height → 0 ≤ ch ≤ 2 →
     channel (calc data x y width height) ch = u8get data ((y * width + x) * 4 + ch)) →
  processImageData calc data data width height = data.
Proof.
  intros Hok Hcalc. pose proof Hok as (Hw & Hh & Hlen & Hb).
  rewrite processImageData_filterSpec by lia. by apply filterSpec_fixpoint.
Qed.

(** Whatever the calculator and the arguments, [processImageData] leaves
    [imageData.data] with the length it had. *)
Theorem processImageData_shape (calc : Calculator) (data originalData : list Z)
    (width height : Z) :
  length (processImageData calc data originalData width height) = length data.
Proof. unfold processImageData. apply length_copyInto. Qed.

(** [processImageData] keeps [imageData.data] a buffer of bytes. *)
Theorem processImageData_bytes (calc : Calculator) (data originalData : list Z)
    (width height : Z) :
  is_bytes data → is_bytes (processImageData calc data originalData width height).
Proof. intros. unfold processImageData. by apply is_bytes_copyInto. Qed.

Lemma processImageData_bytes_witness :
  is_bytes (processImageData (λ _ _ _ _ _, mkRGB (Some 300) None (Some (-5)))
              [1; 2; 3; 4] [1; 2; 3; 4] 1 1).
Proof. apply processImageData_bytes. by_compute. Defined.

(** C1: on a buffer of the raster's size the imperative sweep (zeroed buffer,
    row-major stores, copy back) is the pointwise reference [filterSpec]:
    byte [i] is the clamped channel [i mod 4] of the calculator at pixel
    [i / 4], or the original alpha byte. *)
Theorem processImageData_spec (calc : Calculator) (data originalData : list Z)
    (width height : Z) :
  0 ≤ width → 0 ≤ height → Z.of_nat (length data) = width * height * 4 →
  processImageData calc data originalData width height
  = outputByte calc originalData width height <$> seqZ 0 (width * height * 4).
Proof. apply processImageData_filterSpec. Qed.

Lemma processImageData_spec_witness :
  processImageData (λ _ x y _ _, mkRGB (Some x) (Some y) None)
    [9; 9; 9; 9; 9; 9; 9; 9] [1; 2; 3; 4; 5; 6; 7; 8] 2 1
  = outputByte (λ _ x y _ _, mkRGB (Some x) (Some y) None)
      [1; 2; 3; 4; 5; 6; 7; 8] 2 1 <$> seqZ 0 (2 * 1 * 4).
Proof. apply processImageData_spec; [lia|lia|done]. Defined.

(** C2: the alpha byte of every pixel of the result is the alpha byte of the
    original raster at the same offset. *)
Theorem processImageData_alpha (calc : Calculator) (data originalData : list Z)
    (width height x y : Z) :
  raster_ok originalData width height → length data = length originalData →
  0 ≤ x < width → 0 ≤ y < height →
  u8get (processImageData calc data originalData width height) ((y * width + x) * 4 + 3)
  = u8get originalData ((y * width + x) * 4 + 3).
Proof.
  intros Hok Hlen Hx Hy.
  rewrite processImageData_get by (done || lia || (rewrite Hlen; apply Hok)).
  unfold pixelByte. rewrite decide_True by done.
  destruct (raster_read originalData width height ((y * width + x) * 4) 3 Hok)
    as (v & -> & Hv); [lia| |by rewrite ToUint8Clamp_id].
  rewrite Z.mod_mul by lia. nia.
Qed.

Lemma processImageData_alpha_witness :
  u8get (processImageData (λ _ _ _ _ _, mkRGB (Some 0) (Some 0) (Some 0))
           [1; 2; 3; 4; 5; 6; 7; 8] [1; 2; 3; 4; 5; 6; 7; 8] 2 1) ((0 * 2 + 1) * 4 + 3)
  = u8get [1; 2; 3; 4; 5; 6; 7; 8] ((0 * 2 + 1) * 4 + 3).
Proof. apply processImageData_alpha; [by_compute|done|lia|lia]. Defined.
