(* ===== verification/Floats.v ===== *)
(** * Double-precision numbers

    The geometric, harmonic and contraharmonic calculators compute in
    JavaScript numbers that are not integers, and the noise loop of the test
    image stores such numbers in a [Uint8ClampedArray].  [Float64] is the
    interface they are written against: the operations they call, nothing
    more.
    [ideal] is the instance of exact real arithmetic with a NaN: it rounds
    nowhere except in [Math.round] and [Math.ceil], so a theorem proved for
    it holds of the code up to the rounding error of the doubles. *)

From Stdlib Require Import ZArith Lia Reals Zfloor Lra.
From stdpp Require Import base tactics option numbers.
From S2P Require Import Prelude.

#[local] Open Scope Z_scope.

(** ** Definitions *)

(** The operations on numbers the calculators use. *)
Class Float64 := {
  float : Type;
  (** An integer, or [undefined] / NaN, used as a number. *)
  ofNum : jsnum → float;
  (** [a + b], [a - b], [a * b], [a / b]. *)
  fadd : float → float → float;
  fsub : float → float → float;
  fmul : float → float → float;
  fdiv : float → float → float;
  (** [Math.min], [Math.max] on numbers. *)
  fmin : float → float → float;
  fmax : float → float → float;
  Math_log : float → float;
  Math_exp : float → float;
  Math_pow : float → float → float;
  (** [Math.round], [Math.ceil]: an integer, or NaN. *)
  Math_round : float → jsnum;
  Math_ceil : float → jsnum;
  (** The value a [Float32Array] keeps of a stored number. *)
  toFloat32 : float → float;
  (** The byte a [Uint8ClampedArray] keeps of a stored number. *)
  ToUint8ClampNumber : float → Z;
  (** The literals [1e-10] and [0.5]. *)
  epsilon : float;
  half : float
}.

(** Exact reals with a NaN. *)
Definition ideal : Type := option R.

Definition ideal_lift2 (op : R → R → R) (a b : ideal) : ideal :=
  match a, b with
  | Some x, Some y => Some (op x y)
  | _, _ => None
  end.

(** Division: NaN when the divisor is zero. *)
Definition ideal_div (a b : ideal) : ideal :=
  match a, b with
  | Some x, Some y => if Req_dec_T y 0 then None else Some (x / y)%R
  | _, _ => None
  end.

(** The logarithm of a positive number, NaN otherwise. *)
Definition ideal_log (a : ideal) : ideal :=
  match a with
  | Some x => if Rlt_dec 0 x then Some (ln x) else None
  | None => None
  end.

Definition ideal_exp (a : ideal) : ideal := exp <$> a.

(** The power of a positive base, NaN otherwise. *)
Definition ideal_pow (a b : ideal) : ideal :=
  match a, b with
  | Some x, Some y => if Rlt_dec 0 x then Some (Rpower x y) else None
  | _, _ => None
  end.

(** [Math.round(x)] is [floor(x + 0.5)]. *)
Definition ideal_round (a : ideal) : jsnum :=
  (λ x, Zfloor (x + / 2)) <$> a.

(** [Math.ceil(x)] is [- floor(- x)]. *)
Definition ideal_ceil (a : ideal) : jsnum :=
  Zceil <$> a.

(** The integer nearest to [x], the even one of the two when [x] lies half
    way: the rounding of the conversion to a clamped byte. *)
Definition roundHalfEven (x : R) : Z :=
  let f := Zfloor x in
  if Rlt_dec (IZR f + / 2) x then f + 1
  else if Rlt_dec x (IZR f + / 2) then f
  else if Z.even f then f else f + 1.

(** The conversion to a clamped byte: NaN becomes 0, a number is clamped to
    0..255 and rounded. *)
Definition ideal_ToUint8Clamp (a : ideal) : Z :=
  match a with
  | Some x => roundHalfEven (Rmax 0 (Rmin 255 x))
  | None => 0
  end.

#[export] Instance ideal_Float64 : Float64 := {|
  float := ideal;
  ofNum n := IZR <$> n;
  fadd := ideal_lift2 Rplus;
  fsub := ideal_lift2 Rminus;
  fmul := ideal_lift2 Rmult;
  fdiv := ideal_div;
  fmin := ideal_lift2 Rmin;
  fmax := ideal_lift2 Rmax;
  Math_log := ideal_log;
  Math_exp := ideal_exp;
  Math_pow := ideal_pow;
  Math_round := ideal_round;
  Math_ceil := ideal_ceil;
  toFloat32 x := x;
  ToUint8ClampNumber := ideal_ToUint8Clamp;
  epsilon := Some (/ 10 ^ 10)%R;
  half := Some (/ 2)%R
|}.

(** ** Rounding of ideal numbers *)

(** [Math.round] returns the integer within one half below or at its
    argument plus one half. *)
Lemma ideal_round_eq (x : R) (z : Z) :
  (IZR z - / 2 <= x < IZR z + / 2)%R → ideal_round (Some x) = Some z.
Proof. intros. unfold ideal_round. simpl. f_equal. apply Zfloor_eq. lra. Qed.

(** [Math.round] of an integer is that integer. *)
Lemma ideal_round_IZR (z : Z) : ideal_round (Some (IZR z)) = Some z.
Proof. apply ideal_round_eq. lra. Qed.

(** [Math.round] is within one half of its argument. *)
Lemma ideal_round_spec (x : R) (z : Z) :
  ideal_round (Some x) = Some z → (IZR z - / 2 <= x < IZR z + / 2)%R.
Proof.
  unfold ideal_round. simpl. intros [= <-].
  pose proof (Zfloor_bound (x + / 2)). lra.
Qed.

(** [Math.round] keeps a number between two integers between them, with a
    margin of one half on each side. *)
Lemma Zfloor_round_between (x : R) (lo hi : Z) :
  (IZR lo - / 2 <= x < IZR hi + / 2)%R → lo ≤ Zfloor (x + / 2) ≤ hi.
Proof.
  intros Hx. pose proof (Zfloor_bound (x + / 2)) as Hb. split.
  - apply Zfloor_lub. lra.
  - apply Z.lt_succ_r, lt_IZR. rewrite succ_IZR. lra.
Qed.

Lemma ideal_round_between (x : R) (lo hi : Z) :
  (IZR lo - / 2 <= x < IZR hi + / 2)%R →
  ∃ z, ideal_round (Some x) = Some z ∧ lo ≤ z ≤ hi.
Proof. intros Hx. eexists. split; [done|]. by apply Zfloor_round_between. Qed.

(** ** Rounding to a clamped byte *)

(** A number between two integers rounds to an integer between them. *)
Lemma roundHalfEven_between (x : R) (lo hi : Z) :
  (IZR lo <= x <= IZR hi)%R → lo ≤ roundHalfEven x ≤ hi.
Proof.
  intros Hx. pose proof (Zfloor_bound x) as Hb.
  assert (lo ≤ Zfloor x) by (apply Zfloor_lub; lra).
  assert (Zfloor x ≤ hi) by (apply le_IZR; lra).
  assert ((IZR (Zfloor x) < x)%R → Zfloor x + 1 ≤ hi) as Hup.
  { intros Hlt. apply Z.le_succ_l, lt_IZR. lra. }
  unfold roundHalfEven. repeat case_match; split; try lia; apply Hup; lra.
Qed.

(** An integer rounds to itself. *)
Lemma roundHalfEven_IZR (z : Z) : roundHalfEven (IZR z) = z.
Proof.
  unfold roundHalfEven. rewrite ZfloorZ.
  repeat case_match; try done; exfalso; lra.
Qed.

(** The conversion yields a byte. *)
Lemma ideal_ToUint8Clamp_range (a : ideal) : 0 ≤ ideal_ToUint8Clamp a ≤ 255.
Proof.
  destruct a as [x|]; [|done]. apply roundHalfEven_between.
  split; [apply Rmax_l|]. apply Rmax_lub; [lra|apply Rmin_l].
Qed.

(** The conversion keeps a byte as it is. *)
Lemma ideal_ToUint8Clamp_IZR (z : Z) :
  0 ≤ z ≤ 255 → ideal_ToUint8Clamp (Some (IZR z)) = z.
Proof.
  intros [H0 H255]. apply IZR_le in H0, H255. simpl.
  rewrite Rmin_right, Rmax_right by (rewrite ?Rmin_right; lra).
  apply roundHalfEven_IZR.
Qed.
