(* ===== verification/Canvas.v ===== *)
(** * The canvas boundary of [applyFilter]

    Every [applyFilter(imageElement)] creates a canvas of the image's size,
    draws the image, reads the pixels back with [getImageData], writes the
    filtered pixels with [putImageData] and settles a promise.  A canvas is
    a record of its size, its pixels and its origin-clean flag
    ([Canvas.t]); the calls of the sources are operations on it:
    [createCanvas], [setWidth], [setHeight], [drawImage], [clearRect],
    [getImageData], [putImageData], [toDataURL].  They follow the HTML
    canvas: drawing a source that is not origin-clean clears the flag of the
    canvas for good, [getImageData] throws [IndexSizeError] for a rectangle
    without area and [SecurityError] on a canvas that is not origin-clean,
    [toDataURL] throws [SecurityError] on such a canvas, and drawing a canvas
    without area throws [InvalidStateError].

    What stays an interface of the browser ([Browser]) is rendering: the
    pixels a [drawImage] leaves, whether an image is same-origin, and the
    encoding of [toDataURL].  The sizes of elements are never negative in a
    browser; the model gives a canvas whose width or height is not positive
    no area.  Images are loaded when they are drawn (the sources draw in
    [onload] callbacks and on the displayed image).  The settled promise is
    an [Outcome]. *)

From Stdlib Require Import ZArith Lia.
From stdpp Require Import base tactics option list list_numbers numbers strings.
From S2P Require Import Prelude TypedArray Boundary Kernel Sweep Floats.

#[local] Open Scope Z_scope.

(** ** Definitions *)

(** The fields of an [HTMLImageElement] the engine reads. *)
Module ImageElement.
Record t := make { naturalWidth : Z; naturalHeight : Z; width : Z; height : Z }.
End ImageElement.

(** A canvas: its size, the pixels of its bitmap, and whether everything
    drawn on it so far was same-origin. *)
Module Canvas.
Record t := make { width : Z; height : Z; data : list Z; originClean : bool }.
End Canvas.

(** What [drawImage] draws: an image element or another canvas. *)
Inductive Source :=
  | ImageSource (imageElement : ImageElement.t)
  | CanvasSource (canvas : Canvas.t).

(** How the promise of [applyFilter] settles. *)
Inductive Outcome :=
  | Resolved (canvas : Canvas.t)
  | Rejected (error : exn).

(** What the engine assumes of the browser. *)
Class Browser `{Float64} := {
  (** The bitmap of the canvas after [ctx.drawImage(source, 0, 0)], drawn
      through [ctx.filter = 'blur(<px>px)'] when [filter] is [Some px]. *)
  drawn : option float → Source → Canvas.t → list Z;
  (** The image may be read back from a canvas (a data URL, a blob, the
      page's own origin). *)
  sameOrigin : ImageElement.t → bool;
  (** The data URL of an origin-clean canvas. *)
  encode : Canvas.t → string;
  (** Drawing leaves a bitmap of the size of the canvas. *)
  drawn_ok filter source canvas :
    0 < Canvas.width canvas → 0 < Canvas.height canvas →
    raster_ok (drawn filter source canvas) (Canvas.width canvas) (Canvas.height canvas)
}.

(** The canvas has pixels. *)
Definition hasArea (canvas : Canvas.t) : Prop :=
  0 < Canvas.width canvas ∧ 0 < Canvas.height canvas.

(** The bitmap of a canvas is a raster of its size. *)
Definition canvas_ok (canvas : Canvas.t) : Prop :=
  raster_ok (Canvas.data canvas) (Canvas.width canvas) (Canvas.height canvas).

(** Transparent black, the bitmap of a canvas after its size is set. *)
Definition blank (width height : Z) : list Z := uniform (λ _, 0) width height.

(** [document.createElement('canvas')]: 300 by 150, transparent. *)
Definition createCanvas : Canvas.t := Canvas.make 300 150 (blank 300 150) true.

(** [canvas.width = width]: the bitmap is cleared. *)
Definition setWidth (width : Z) (canvas : Canvas.t) : Canvas.t :=
  Canvas.make width (Canvas.height canvas) (blank width (Canvas.height canvas))
    (Canvas.originClean canvas).

(** [canvas.height = height]: the bitmap is cleared. *)
Definition setHeight (height : Z) (canvas : Canvas.t) : Canvas.t :=
  Canvas.make (Canvas.width canvas) height (blank (Canvas.width canvas) height)
    (Canvas.originClean canvas).

(** Whether reading the source back is allowed. *)
Definition sourceClean `{Browser} (source : Source) : bool :=
  match source with
  | ImageSource imageElement => sameOrigin imageElement
  | CanvasSource canvas => Canvas.originClean canvas
  end.

(** [ctx.drawImage(source, 0, 0)] with [ctx.filter] set to [filter]. *)
Definition drawImage `{Browser} (filter : option float) (source : Source)
    (canvas : Canvas.t) : completion Canvas.t :=
  let draw :=
    Normal (Canvas.make (Canvas.width canvas) (Canvas.height canvas)
              (drawn filter source canvas)
              (Canvas.originClean canvas && sourceClean source)) in
  match source with
  | ImageSource _ => draw
  | CanvasSource c => if decide (hasArea c) then draw else Throw InvalidStateError
  end.

(** [ctx.clearRect(0, 0, canvas.width, canvas.height)]. *)
Definition clearRect (canvas : Canvas.t) : Canvas.t :=
  Canvas.make (Canvas.width canvas) (Canvas.height canvas)
    (blank (Canvas.width canvas) (Canvas.height canvas)) (Canvas.originClean canvas).

(** [ctx.getImageData(0, 0, canvas.width, canvas.height).data]. *)
Definition getImageData (canvas : Canvas.t) : completion (list Z) :=
  if decide (hasArea canvas) then
    if Canvas.originClean canvas then Normal (Canvas.data canvas)
    else Throw SecurityError
  else Throw IndexSizeError.

(** [ctx.putImageData(imageData, 0, 0)] for an [imageData] of the size of
    the canvas. *)
Definition putImageData (data : list Z) (canvas : Canvas.t) : Canvas.t :=
  Canvas.make (Canvas.width canvas) (Canvas.height canvas) data
    (Canvas.originClean canvas).

(** [canvas.toDataURL(...)]. *)
Definition toDataURL `{Browser} (canvas : Canvas.t) : completion string :=
  if Canvas.originClean canvas then Normal (encode canvas) else Throw SecurityError.

(** [canvas.width = imageElement.naturalWidth || imageElement.width] and the
    same for the height. *)
Definition canvasSize (imageElement : ImageElement.t) : Z * Z :=
  (js_or (ImageElement.naturalWidth imageElement) (ImageElement.width imageElement),
   js_or (ImageElement.naturalHeight imageElement) (ImageElement.height imageElement)).

(** The first lines of every [applyFilter]: a new canvas of the size of the
    image. *)
Definition sizedCanvas (imageElement : ImageElement.t) : Canvas.t :=
  let canvas := createCanvas in
  let canvas := setWidth (canvasSize imageElement).1 canvas in
  setHeight (canvasSize imageElement).2 canvas.

(** [new Promise((resolve, reject) => { try { ... resolve(canvas) }
    catch (error) { reject(error) } })]. *)
Definition settled (body : completion Canvas.t) : Outcome :=
  match body with
  | Normal canvas => Resolved canvas
  | Throw error => Rejected error
  end.

(** An outcome with no canvas that [toDataURL] could export. *)
Definition unexportable (outcome : Outcome) : Prop :=
  match outcome with
  | Resolved canvas => Canvas.originClean canvas = false
  | Rejected _ => True
  end.

Section engine.
Context `{Browser}.

(** The body every [applySimpleFilter(imageElement, canvas, ctx)] shares:
    the image is drawn on a temporary canvas through a blur of [px] pixels,
    and the canvas is cleared and redrawn from the temporary canvas. *)
Definition blurFallback (px : float) (imageElement : ImageElement.t)
    (canvas : Canvas.t) : completion Canvas.t :=
  let tempCanvas := createCanvas in
  let tempCanvas := setWidth (Canvas.width canvas) tempCanvas in
  let tempCanvas := setHeight (Canvas.height canvas) tempCanvas in
  tempCanvas ← drawImage (Some px) (ImageSource imageElement) tempCanvas;
  let canvas := clearRect canvas in
  drawImage None (CanvasSource tempCanvas) canvas.

(** [applyFilter] of the classes that fall back to the CSS blur when the
    pixels cannot be read; [simple] is the class's [applySimpleFilter] and
    [process] its [processImageData]. *)
Definition applyFilterOrBlur
    (simple : ImageElement.t → Canvas.t → completion Canvas.t)
    (process : list Z → list Z → Z → Z → list Z)
    (imageElement : ImageElement.t) : Outcome :=
  settled (
    canvas ← drawImage None (ImageSource imageElement) (sizedCanvas imageElement);
    match getImageData canvas with
    | Throw corsError => simple imageElement canvas
    | Normal data =>
        let originalData := data in
        let data := process data originalData (Canvas.width canvas) (Canvas.height canvas) in
        Normal (putImageData data canvas)
    end).

(** [applyFilter] of the classes that reject when the pixels cannot be
    read. *)
Definition applyFilterOrReject (process : list Z → list Z → Z → Z → list Z)
    (imageElement : ImageElement.t) : Outcome :=
  settled (
    canvas ← drawImage None (ImageSource imageElement) (sizedCanvas imageElement);
    match getImageData canvas with
    | Throw corsError => Throw corsError
    | Normal data =>
        let originalData := data in
        let data := process data originalData (Canvas.width canvas) (Canvas.height canvas) in
        Normal (putImageData data canvas)
    end).

(** Reference: the canvas of [applyFilter] after the image is drawn. *)
Definition drawnCanvas (imageElement : ImageElement.t) : Canvas.t :=
  Canvas.make (canvasSize imageElement).1 (canvasSize imageElement).2
    (drawn None (ImageSource imageElement) (sizedCanvas imageElement))
    (sameOrigin imageElement).

(** The pixels [applyFilter] reads: the image drawn on a canvas of its size
    and read back. *)
Definition readPixels (imageElement : ImageElement.t) : completion (list Z) :=
  canvas ← drawImage None (ImageSource imageElement) (sizedCanvas imageElement);
  getImageData canvas.

(** Reference: the canvas [blurFallback] returns for a canvas with area. *)
Definition blurredCanvas (px : float) (imageElement : ImageElement.t)
    (canvas : Canvas.t) : Canvas.t :=
  let tempCanvas :=
    Canvas.make (Canvas.width canvas) (Canvas.height canvas)
      (drawn (Some px) (ImageSource imageElement)
         (setHeight (Canvas.height canvas) (setWidth (Canvas.width canvas) createCanvas)))
      (sameOrigin imageElement) in
  Canvas.make (Canvas.width canvas) (Canvas.height canvas)
    (drawn None (CanvasSource tempCanvas) (clearRect canvas))
    (Canvas.originClean canvas && sameOrigin imageElement).

End engine.

(** A browser for examples: every drawing is solid grey, and an image is
    same-origin exactly when it is at most [limit] pixels wide. *)
Definition greyBrowser_drawn (canvas : Canvas.t) : list Z :=
  uniform (λ _, 128) (Canvas.width canvas) (Canvas.height canvas).

(** ** Lemmas *)

Lemma length_uniform c width height :
  length (uniform c width height) = Z.to_nat (width * height * 4).
Proof. unfold uniform. by rewrite length_fmap, length_seqZ. Qed.

Lemma uniform_get c width height i :
  0 ≤ i < width * height * 4 → u8get (uniform c width height) i = Some (c (i mod 4)).
Proof.
  intros. unfold u8get, uniform. rewrite decide_True by lia.
  by rewrite list_lookup_fmap, seqZ_lookup_Z.
Qed.

Lemma uniform_raster_ok c width height :
  0 < width → 0 < height → (∀ ch, byte (c ch)) → raster_ok (uniform c width height) width height.
Proof.
  intros Hw Hh Hc. split; [done|]. split; [done|].
  split; [rewrite length_uniform; nia|].
  apply Forall_fmap, Forall_true. intros i. apply Hc.
Qed.

Lemma greyBrowser_drawn_ok canvas :
  0 < Canvas.width canvas → 0 < Canvas.height canvas →
  raster_ok (greyBrowser_drawn canvas) (Canvas.width canvas) (Canvas.height canvas).
Proof. intros. apply uniform_raster_ok; [done..|]. intros _. unfold byte. lia. Qed.

(** The grey browser is a browser. *)
Definition greyBrowser `{Float64} (limit : Z) : Browser := {|
  drawn _ _ := greyBrowser_drawn;
  sameOrigin img := bool_decide (ImageElement.width img ≤ limit);
  encode _ := "data:image/png;base64,";
  drawn_ok _ _ := greyBrowser_drawn_ok
|}.

(** *** The operations keep the bitmap a raster of the canvas *)

Lemma setWidth_ok width canvas :
  0 < width → 0 < Canvas.height canvas → canvas_ok (setWidth width canvas).
Proof. intros. apply uniform_raster_ok; [done..|]. intros _. unfold byte. lia. Qed.

Lemma setHeight_ok height canvas :
  0 < Canvas.width canvas → 0 < height → canvas_ok (setHeight height canvas).
Proof. intros. apply uniform_raster_ok; [done..|]. intros _. unfold byte. lia. Qed.

Lemma clearRect_ok canvas : hasArea canvas → canvas_ok (clearRect canvas).
Proof. intros [??]. apply uniform_raster_ok; [done..|]. intros _. unfold byte. lia. Qed.

Lemma putImageData_ok data canvas :
  raster_ok data (Canvas.width canvas) (Canvas.height canvas) →
  canvas_ok (putImageData data canvas).
Proof. done. Qed.

Lemma canvas_ok_hasArea canvas : canvas_ok canvas → hasArea canvas.
Proof. by intros (? & ? & _). Qed.

Lemma getImageData_Normal canvas data :
  getImageData canvas = Normal data ↔
  hasArea canvas ∧ Canvas.originClean canvas = true ∧ data = Canvas.data canvas.
Proof.
  unfold getImageData. destruct (Canvas.originClean canvas); case_decide;
    intuition congruence.
Qed.

Lemma getImageData_Throw canvas e :
  getImageData canvas = Throw e ↔
  (¬ hasArea canvas ∧ e = IndexSizeError)
  ∨ (hasArea canvas ∧ Canvas.originClean canvas = false ∧ e = SecurityError).
Proof.
  unfold getImageData. destruct (Canvas.originClean canvas); case_decide;
    intuition congruence.
Qed.

Lemma sizedCanvas_size img :
  (Canvas.width (sizedCanvas img), Canvas.height (sizedCanvas img)) = canvasSize img.
Proof. done. Qed.

Section browser.
Context `{Browser}.

Lemma drawImage_ok filter source canvas canvas' :
  hasArea canvas → drawImage filter source canvas = Normal canvas' →
  canvas_ok canvas'
  ∧ Canvas.width canvas' = Canvas.width canvas
  ∧ Canvas.height canvas' = Canvas.height canvas
  ∧ Canvas.originClean canvas' = Canvas.originClean canvas && sourceClean source.
Proof.
  intros [Hw Hh] Hdraw.
  assert (canvas' = Canvas.make (Canvas.width canvas) (Canvas.height canvas)
            (drawn filter source canvas)
            (Canvas.originClean canvas && sourceClean source)) as ->.
  { unfold drawImage in Hdraw. destruct source; [|case_decide]; by simplify_eq. }
  split; [|done]. exact (drawn_ok filter source canvas Hw Hh).
Qed.

Lemma toDataURL_Normal canvas dataURL :
  toDataURL canvas = Normal dataURL ↔
  Canvas.originClean canvas = true ∧ dataURL = encode canvas.
Proof. unfold toDataURL. destruct (Canvas.originClean canvas); intuition congruence. Qed.

Lemma toDataURL_tainted canvas :
  Canvas.originClean canvas = false → toDataURL canvas = Throw SecurityError.
Proof. unfold toDataURL. by intros ->. Qed.

(** *** The pixels [applyFilter] reads *)

Lemma drawImage_sizedCanvas img :
  drawImage None (ImageSource img) (sizedCanvas img) = Normal (drawnCanvas img).
Proof. done. Qed.

Lemma readPixels_drawnCanvas img : readPixels img = getImageData (drawnCanvas img).
Proof. done. Qed.

Lemma readPixels_Normal img data :
  readPixels img = Normal data ↔
  0 < (canvasSize img).1 ∧ 0 < (canvasSize img).2 ∧ sameOrigin img = true
  ∧ data = drawn None (ImageSource img) (sizedCanvas img).
Proof.
  rewrite readPixels_drawnCanvas, getImageData_Normal. unfold hasArea. simpl. tauto.
Qed.

Lemma readPixels_Throw img e :
  readPixels img = Throw e ↔
  (¬ (0 < (canvasSize img).1 ∧ 0 < (canvasSize img).2) ∧ e = IndexSizeError)
  ∨ (0 < (canvasSize img).1 ∧ 0 < (canvasSize img).2 ∧ sameOrigin img = false
     ∧ e = SecurityError).
Proof.
  rewrite readPixels_drawnCanvas, getImageData_Throw. unfold hasArea. simpl. tauto.
Qed.

(** [readPixels] returns the pixels of a raster of the size of the image. *)
Lemma readPixels_ok img data :
  readPixels img = Normal data → raster_ok data (canvasSize img).1 (canvasSize img).2.
Proof.
  intros (Hw & Hh & _ & ->)%readPixels_Normal.
  pose proof (sizedCanvas_size img) as Hsize.
  destruct (canvasSize img) as [width height]. simplify_eq/=.
  by apply (drawn_ok None (ImageSource img) (sizedCanvas img)).
Qed.

(** *** The blur *)

Lemma blurFallback_area px img canvas :
  hasArea canvas → blurFallback px img canvas = Normal (blurredCanvas px img canvas).
Proof.
  intros Harea. unfold blurFallback. simpl. by rewrite decide_True.
Qed.

Lemma blurFallback_no_area px img canvas :
  ¬ hasArea canvas → blurFallback px img canvas = Throw InvalidStateError.
Proof.
  intros Harea. unfold blurFallback. simpl. by rewrite decide_False.
Qed.

Lemma blurredCanvas_ok px img canvas : hasArea canvas → canvas_ok (blurredCanvas px img canvas).
Proof. intros [??]. by apply (drawn_ok None _ (clearRect canvas)). Qed.

Lemma blurFallback_ok px img canvas canvas' :
  blurFallback px img canvas = Normal canvas' →
  canvas_ok canvas'
  ∧ (Canvas.width canvas', Canvas.height canvas') = (Canvas.width canvas, Canvas.height canvas).
Proof.
  destruct (decide (hasArea canvas)) as [Harea|Harea];
    [rewrite blurFallback_area by done|by rewrite blurFallback_no_area].
  intros [= <-]. split; [by apply blurredCanvas_ok|done].
Qed.

(** After pixels that could not be read, the blur leaves nothing to
    export: the image taints the canvas it is redrawn on, or the temporary
    canvas has no area. *)
Lemma blurFallback_unreadable px img e :
  readPixels img = Throw e → unexportable (settled (blurFallback px img (drawnCanvas img))).
Proof.
  intros [[Harea _]|(Hw & Hh & Hcross & _)]%readPixels_Throw.
  - by rewrite blurFallback_no_area.
  - rewrite blurFallback_area by done. simpl. by rewrite Hcross.
Qed.

(** *** Both kinds of [applyFilter] *)

Section body.
Context (simple : ImageElement.t → Canvas.t → completion Canvas.t).
Context (process : list Z → list Z → Z → Z → list Z).

(** They resolve with the processed pixels on an origin-clean canvas when
    the pixels can be read. *)
Lemma applyFilterOrBlur_readable img data :
  readPixels img = Normal data →
  applyFilterOrBlur simple process img
  = Resolved (Canvas.make (canvasSize img).1 (canvasSize img).2
      (process data data (canvasSize img).1 (canvasSize img).2) true).
Proof.
  intros Hdata. pose proof Hdata as (_ & _ & Hclean & _)%readPixels_Normal.
  unfold applyFilterOrBlur. rewrite drawImage_sizedCanvas. simpl.
  rewrite readPixels_drawnCanvas in Hdata. rewrite Hdata. simpl.
  unfold putImageData. simpl. by rewrite Hclean.
Qed.

Lemma applyFilterOrReject_readable img data :
  readPixels img = Normal data →
  applyFilterOrReject process img
  = Resolved (Canvas.make (canvasSize img).1 (canvasSize img).2
      (process data data (canvasSize img).1 (canvasSize img).2) true).
Proof.
  intros Hdata. pose proof Hdata as (_ & _ & Hclean & _)%readPixels_Normal.
  unfold applyFilterOrReject. rewrite drawImage_sizedCanvas. simpl.
  rewrite readPixels_drawnCanvas in Hdata. rewrite Hdata. simpl.
  unfold putImageData. simpl. by rewrite Hclean.
Qed.

Lemma applyFilterOrBlur_unreadable img e :
  readPixels img = Throw e →
  applyFilterOrBlur simple process img = settled (simple img (drawnCanvas img)).
Proof.
  intros Herr. unfold applyFilterOrBlur. rewrite drawImage_sizedCanvas. simpl.
  rewrite readPixels_drawnCanvas in Herr. by rewrite Herr.
Qed.

Lemma applyFilterOrReject_unreadable img e :
  readPixels img = Throw e → applyFilterOrReject process img = Rejected e.
Proof.
  intros Herr. unfold applyFilterOrReject. rewrite drawImage_sizedCanvas. simpl.
  rewrite readPixels_drawnCanvas in Herr. by rewrite Herr.
Qed.

End body.

(** With the blur as fallback: an image that is not same-origin resolves
    with the blurred canvas, an image without area rejects because the
    temporary canvas cannot be drawn. *)
Lemma applyFilterOrBlur_cross_origin process px img :
  0 < (canvasSize img).1 → 0 < (canvasSize img).2 → sameOrigin img = false →
  applyFilterOrBlur (blurFallback px) process img
  = Resolved (blurredCanvas px img (drawnCanvas img)).
Proof.
  intros Hw Hh Hcross.
  rewrite (applyFilterOrBlur_unreadable _ _ img SecurityError)
    by (apply readPixels_Throw; auto).
  by rewrite blurFallback_area.
Qed.

Lemma applyFilterOrBlur_no_area process px img :
  ¬ (0 < (canvasSize img).1 ∧ 0 < (canvasSize img).2) →
  applyFilterOrBlur (blurFallback px) process img = Rejected InvalidStateError.
Proof.
  intros Harea.
  rewrite (applyFilterOrBlur_unreadable _ _ img IndexSizeError)
    by (apply readPixels_Throw; auto).
  by rewrite blurFallback_no_area.
Qed.

(** When the pixels cannot be read, neither kind of [applyFilter] yields a
    canvas that could be exported. *)
Lemma applyFilterOrBlur_unexportable process px img e :
  readPixels img = Throw e → unexportable (applyFilterOrBlur (blurFallback px) process img).
Proof.
  intros Hread. rewrite (applyFilterOrBlur_unreadable _ _ img e Hread).
  by apply (blurFallback_unreadable px img e).
Qed.

Lemma applyFilterOrReject_unexportable process img e :
  readPixels img = Throw e → unexportable (applyFilterOrReject process img).
Proof. intros Hread. by rewrite (applyFilterOrReject_unreadable _ img e Hread). Qed.

(** Whatever branch ran, a resolved canvas is a raster of the size of the
    image when [process] maps rasters to rasters. *)
Definition keeps_rasters (process : list Z → list Z → Z → Z → list Z) : Prop :=
  ∀ data width height,
    raster_ok data width height → raster_ok (process data data width height) width height.

Lemma applyFilterOrBlur_canvas_ok process px img canvas :
  keeps_rasters process →
  applyFilterOrBlur (blurFallback px) process img = Resolved canvas →
  canvas_ok canvas ∧ (Canvas.width canvas, Canvas.height canvas) = canvasSize img.
Proof.
  intros Hprocess. destruct (readPixels img) as [data|e] eqn:Hread.
  - rewrite (applyFilterOrBlur_readable _ _ img data Hread). intros [= <-].
    split; [|done]. by apply Hprocess, readPixels_ok.
  - rewrite (applyFilterOrBlur_unreadable _ _ img e Hread).
    destruct (blurFallback px img (drawnCanvas img)) as [c|] eqn:Hblur; [|done].
    intros [= <-]. by apply blurFallback_ok in Hblur.
Qed.

Lemma applyFilterOrReject_canvas_ok process img canvas :
  keeps_rasters process →
  applyFilterOrReject process img = Resolved canvas →
  canvas_ok canvas ∧ (Canvas.width canvas, Canvas.height canvas) = canvasSize img.
Proof.
  intros Hprocess. destruct (readPixels img) as [data|e] eqn:Hread.
  - rewrite (applyFilterOrReject_readable _ img data Hread). intros [= <-].
    split; [|done]. by apply Hprocess, readPixels_ok.
  - by rewrite (applyFilterOrReject_unreadable _ img e Hread).
Qed.

End browser.
