(* ===== verification/Ideal.v ===== *)
(** * Exact real arithmetic for the calculators

    Under the instance [ideal] of [Float64] the sums of the window loops are
    real sums.  This file holds what the geometric, harmonic, contraharmonic
    and Gaussian developments share: the real sum of a list ([Rsum]) with its
    bounds, the shifted sample [v + 1e-10] ([shifted]), the reduction of an
    accumulating loop over reads to a real sum, and the weighted-mean
    inequalities. *)

From Stdlib Require Import ZArith Lia Reals Zfloor Lra Psatz.
From stdpp Require Import base tactics option list numbers.
From S2P Require Import Prelude TypedArray Floats.

#[local] Open Scope Z_scope.

(** ** Definitions *)

(** The sum of a list of reals. *)
Definition Rsum (l : list R) : R := foldr Rplus 0%R l.

(** The literal [1e-10]. *)
Definition eps : R := (/ 10 ^ 10)%R.

(** [sample + epsilon]. *)
Definition shifted (v : Z) : R := (IZR v + eps)%R.

(** The number of elements of a list, as a real. *)
Definition Rlength {A} (l : list A) : R := IZR (Z.of_nat (length l)).

(** Push [IZR] through sums, differences and products in a hypothesis. *)
Ltac push_IZR H :=
  repeat (rewrite plus_IZR in H || rewrite minus_IZR in H || rewrite mult_IZR in H).

(** ** The shift *)

Lemma eps_bounds : (0 < eps < / 1000)%R.
Proof. unfold eps. split; [apply Rinv_0_lt_compat|apply Rinv_lt_contravar]; lra. Qed.

Lemma shifted_pos v : 0 ≤ v → (0 < shifted v)%R.
Proof.
  intros Hv%IZR_le. pose proof eps_bounds. unfold shifted. lra.
Qed.

Lemma shifted_le v w : v ≤ w → (shifted v <= shifted w)%R.
Proof. intros Hv%IZR_le. unfold shifted. lra. Qed.

Lemma shifted_ge_1 v : 1 ≤ v → (1 <= shifted v)%R.
Proof. intros Hv%IZR_le. pose proof eps_bounds. unfold shifted. lra. Qed.

(** [data[i] + epsilon] on a read that is a number. *)
Lemma fadd_epsilon v : fadd (ofNum (Some v)) epsilon = Some (shifted v).
Proof. done. Qed.

(** A quotient by a number that is not zero. *)
Lemma fdiv_Some (x y : R) : y ≠ 0%R → fdiv (Some x) (Some y) = Some (x / y)%R.
Proof. intros Hy. cbn [fdiv ideal_Float64 ideal_div]. by destruct (Req_dec_T y 0). Qed.

(** ** Sums *)

Lemma Rsum_cons x l : Rsum (x :: l) = (x + Rsum l)%R.
Proof. done. Qed.

Lemma Rsum_app l k : Rsum (l ++ k) = (Rsum l + Rsum k)%R.
Proof. induction l as [|x l IH]; simpl; [|rewrite IH]; lra. Qed.

Lemma Rlength_nil {A} : Rlength (@nil A) = 0%R.
Proof. done. Qed.

Lemma Rlength_cons {A} (x : A) l : Rlength (x :: l) = (1 + Rlength l)%R.
Proof. unfold Rlength. simpl length. rewrite Nat2Z.inj_succ, succ_IZR. lra. Qed.

Lemma Rlength_nonneg {A} (l : list A) : (0 <= Rlength l)%R.
Proof. unfold Rlength. apply IZR_le. lia. Qed.

Lemma Rlength_pos {A} (l : list A) : l ≠ [] → (1 <= Rlength l)%R.
Proof.
  destruct l; [done|]. intros _. rewrite Rlength_cons.
  pose proof (Rlength_nonneg l). lra.
Qed.

Lemma Rlength_fmap {A B} (f : A → B) l : Rlength (f <$> l) = Rlength l.
Proof. unfold Rlength. by rewrite length_fmap. Qed.

(** A sum of terms between [lo] and [hi]. *)
(** Real sums and lengths do not depend on the order of the list. *)
#[export] Instance Rsum_Permutation : Proper ((≡ₚ) ==> (=)) Rsum.
Proof. intros l k Hlk. induction Hlk; rewrite ?Rsum_cons; [done|lra..|congruence]. Qed.

#[export] Instance Rlength_Permutation {A} : Proper ((≡ₚ) ==> (=)) (@Rlength A).
Proof. intros l k Hlk. unfold Rlength. by rewrite Hlk. Qed.

Lemma Rsum_bounds (lo hi : R) l :
  Forall (λ x, lo <= x <= hi)%R l →
  (Rlength l * lo <= Rsum l <= Rlength l * hi)%R.
Proof.
  induction 1 as [|x l Hx _ IH]; [rewrite Rlength_nil; simpl; lra|].
  rewrite Rlength_cons. simpl. lra.
Qed.

(** A non-empty sum of positive terms is positive. *)
Lemma Rsum_pos l : l ≠ [] → Forall (λ x, 0 < x)%R l → (0 < Rsum l)%R.
Proof.
  intros Hne Hl. destruct Hl as [|x l Hx Hl]; [done|]. rewrite Rsum_cons.
  assert (0 <= Rsum l)%R; [|lra].
  clear Hne Hx. induction Hl as [|y l Hy _ IH]; [simpl; lra|]. rewrite Rsum_cons. lra.
Qed.

Lemma Rsum_replicate n x : Rsum (replicate n x) = (IZR (Z.of_nat n) * x)%R.
Proof.
  induction n as [|n IH]; [change (0 = 0 * x)%R; lra|].
  rewrite Nat2Z.inj_succ, succ_IZR. cbn [replicate]. rewrite Rsum_cons, IH. lra.
Qed.

Lemma Rsum_const {A} (f : A → R) (c : R) (vs : list A) :
  Forall (λ v, f v = c) vs → Rsum (f <$> vs) = (Rlength vs * c)%R.
Proof.
  induction 1 as [|v vs Hv _ IH]; [rewrite (@Rlength_nil A); simpl; lra|].
  rewrite fmap_cons, Rsum_cons, Rlength_cons, Hv, IH. lra.
Qed.

Lemma Rsum_nonneg l : Forall (λ x, 0 <= x)%R l → (0 <= Rsum l)%R.
Proof. induction 1 as [|x l Hx _ IH]; [simpl; lra|]. rewrite Rsum_cons. lra. Qed.

Lemma Rsum_ge_1 l : l ≠ [] → Forall (λ x, 1 <= x)%R l → (1 <= Rsum l)%R.
Proof.
  intros Hne Hl. destruct Hl as [|x l Hx Hl]; [done|]. rewrite Rsum_cons.
  assert (0 <= Rsum l)%R; [|lra].
  apply Rsum_nonneg. eapply List.Forall_impl; [|exact Hl]. simpl. intros. lra.
Qed.

(** A weighted sum with positive weights is between the extreme values
    times the sum of the weights. *)
Lemma Rsum_weighted (lo hi : R) (x w : Z → R) (vs : list Z) :
  Forall (λ v, lo <= x v <= hi ∧ 0 <= w v)%R vs →
  (lo * Rsum (w <$> vs) <= Rsum ((λ v, x v * w v) <$> vs) <= hi * Rsum (w <$> vs))%R.
Proof.
  induction 1 as [|v vs [Hx Hw] _ IH]; [simpl; lra|].
  rewrite !fmap_cons, !Rsum_cons. nra.
Qed.

(** A loop that adds a term per element, on terms that are numbers,
    computes a real sum. *)
Lemma foldl_fadd_terms {B} (f : B → float) (g : B → R) (l : list B) (a : R) :
  Forall (λ x, f x = Some (g x)) l →
  foldl (λ s x, fadd s (f x)) (Some a) l = Some (a + Rsum (g <$> l))%R.
Proof.
  intros Hl. revert a. induction Hl as [|x l Hx _ IH]; intros a.
  - simpl. f_equal. lra.
  - rewrite !fmap_cons, Rsum_cons. cbn [foldl]. rewrite Hx.
    cbn [fadd ideal_Float64 ideal_lift2]. rewrite IH. f_equal. lra.
Qed.

(** The same on the reads of a window. *)
Lemma foldl_fadd_Rsum (f : jsnum → float) (g : Z → R) (vs : list Z) (a : R) :
  Forall (λ v, f (Some v) = Some (g v)) vs →
  foldl (λ s v, fadd s (f v)) (Some a) (Some <$> vs) = Some (a + Rsum (g <$> vs))%R.
Proof. intros Hvs. rewrite foldl_fmap. by apply (foldl_fadd_terms (f ∘ Some)). Qed.

(** A sum of terms with a common factor. *)
Lemma Rsum_scal {B} (f : B → R) (c : R) (l : list B) :
  Rsum ((λ x, f x * c)%R <$> l) = (Rsum (f <$> l) * c)%R.
Proof.
  induction l as [|x l IH]; [simpl; lra|]. rewrite !fmap_cons, !Rsum_cons, IH. lra.
Qed.

(** ** Rounding *)

(** [Math.round] of a number between two shifted integers lies between the
    integers. *)
Lemma Zfloor_round_shifted (lo hi : Z) (x : R) :
  (shifted lo <= x <= shifted hi)%R → lo ≤ Zfloor (x + / 2) ≤ hi.
Proof.
  unfold shifted. intros Hx. pose proof eps_bounds. apply Zfloor_round_between. lra.
Qed.

Lemma Zfloor_round_shifted_id (v : Z) : Zfloor (shifted v + / 2) = v.
Proof. destruct (Zfloor_round_shifted v v (shifted v)); [lra|lia]. Qed.

(** ** Quotients *)

(** [n / s] lies between [a] and [b] when [s] lies between [n / b] and
    [n / a]. *)
Lemma Rdiv_between (n s a b : R) :
  (0 < n)%R → (0 < a <= b)%R → (n / b <= s <= n / a)%R → (a <= n / s <= b)%R.
Proof.
  intros Hn [Ha Hab] [Hlo Hhi].
  assert (0 < n / b)%R by (apply Rdiv_lt_0_compat; lra).
  assert (n / s * s = n)%R as Hq by (field; lra).
  assert (n / a * a = n)%R by (field; lra).
  assert (n / b * b = n)%R by (field; lra).
  split; apply (Rmult_le_reg_r s); [lra| |lra|]; rewrite Hq; nra.
Qed.

(** [s / n] lies between [a] and [b] when [s] lies between [n * a] and
    [n * b]. *)
Lemma Rmean_between (n s a b : R) :
  (0 < n)%R → (n * a <= s <= n * b)%R → (a <= s / n <= b)%R.
Proof.
  intros Hn [Hlo Hhi]. assert (s / n * n = s)%R as Hq by (field; lra).
  split; apply (Rmult_le_reg_r n); [lra| |lra|]; rewrite Hq; lra.
Qed.

(** ** Exponential and logarithm *)

Lemma exp_mono (x y : R) : (x <= y)%R → (exp x <= exp y)%R.
Proof. intros [Hlt| ->]; [left; by apply exp_increasing|lra]. Qed.

Lemma ln_mono (x y : R) : (0 < x <= y)%R → (ln x <= ln y)%R.
Proof. intros [Hx [Hlt| ->]]; [left; by apply ln_increasing|lra]. Qed.

(** ** Powers *)

Lemma Rpower_pos (x q : R) : (0 < Rpower x q)%R.
Proof. apply exp_pos. Qed.

(** A power of a number at least one, with a non-negative exponent, is at
    least one. *)
Lemma Rpower_ge_1 (x q : R) : (1 <= x)%R → (0 <= q)%R → (1 <= Rpower x q)%R.
Proof.
  intros Hx Hq. unfold Rpower. rewrite <-exp_0. apply exp_mono.
  assert (0 <= ln x)%R by (rewrite <-ln_1; apply ln_mono; lra). nra.
Qed.

(** [x^(q+1) = x * x^q]. *)
Lemma Rpower_succ (x q : R) : (0 < x)%R → Rpower x (q + 1) = (x * Rpower x q)%R.
Proof. intros Hx. rewrite Rpower_plus, Rpower_1 by done. ring. Qed.

(** A negative integer power is the inverse of the power. *)
Lemma Rpower_neg (x : R) (n : nat) : (0 < x)%R → Rpower x (- INR n) = (/ x ^ n)%R.
Proof. intros Hx. by rewrite Rpower_Ropp, Rpower_pow. Qed.

(** ** The mean, shifted *)

Lemma Rsum_shifted vs : Rsum (shifted <$> vs) = (IZR (sumZ vs) + Rlength vs * eps)%R.
Proof.
  induction vs as [|v vs IH]; [rewrite (@Rlength_nil Z); simpl; lra|].
  rewrite fmap_cons, Rsum_cons, IH, Rlength_cons. cbn [sumZ foldr].
  rewrite plus_IZR. unfold shifted, sumZ. lra.
Qed.

(** For an odd count, the rounded integer mean is at least [1 / (2 n)] away
    from the rounding boundary. *)
Lemma round_div_odd (s n : Z) :
  0 < n → Z.odd n = true →
  2 * s - n + 1 ≤ 2 * (n * round_div s n) ≤ 2 * s + n - 1.
Proof.
  intros Hn [k Hk]%Z.odd_spec. pose proof (round_div_spec s n Hn). lia.
Qed.

(** Shifting the values by [epsilon] and the count by [epsilon] does not
    change the rounded mean of an odd number of bytes. *)
Lemma Zfloor_shifted_quotient (s n : Z) :
  0 < n < 10 ^ 9 → Z.odd n = true → 0 ≤ s ≤ 255 * n →
  Zfloor ((IZR s + IZR n * eps) / (IZR n + eps) + / 2) = round_div s n.
Proof.
  intros [Hn Hn9] Hodd Hs. pose proof (round_div_odd s n Hn Hodd) as [Hlo Hhi].
  pose proof (round_div_bounds 0 255 s n Hn ltac:(lia)) as [Hm0%IZR_le Hm255%IZR_le].
  assert (n < 1000000000) as Hn9' by lia. clear Hn9.
  apply IZR_le in Hlo, Hhi. apply IZR_lt in Hn, Hn9'. push_IZR Hlo. push_IZR Hhi.
  set (m := round_div s n) in *. assert (m ≤ Zfloor
    ((IZR s + IZR n * eps) / (IZR n + eps) + / 2) ≤ m); [|lia].
  apply Zfloor_round_between. unfold eps.
  assert ((IZR s + IZR n * / 10 ^ 10) / (IZR n + / 10 ^ 10) * (IZR n + / 10 ^ 10)
          = IZR s + IZR n * / 10 ^ 10)%R as Hq by (field; lra).
  split; [apply (Rmult_le_reg_r (IZR n + / 10 ^ 10))
         |apply (Rmult_lt_reg_r (IZR n + / 10 ^ 10))]; try lra; rewrite Hq; nra.
Qed.
