(* ===== verification/Format.v ===== *)
(** * The size of a file as text

    [formatFileSize(bytes)] of both page scripts prints the size of the
    chosen file in the log: the size divided by the largest power of 1024
    below it, with at most two decimals, and the unit.  The function is
    modelled under exact reals: [Math.log] and [Math.pow] are the real
    logarithm and power, [toFixed(2)] rounds the exact quotient to
    hundredths (ties upward), and [parseFloat] followed by the conversion to
    a string prints the hundredths without trailing zeros.  The size of a
    file is an integer; a negative argument gives [NaN].

    [formatFileSizeZ] is an executable reference on integers, proved equal
    to the function, so that its values can be computed. *)

From Stdlib Require Import ZArith Lia Reals Zfloor Lra Psatz.
From stdpp Require Import base tactics option list numbers strings pretty.
From S2P Require Import Prelude Floats Ideal.

#[local] Open Scope Z_scope.

(** ** Definitions *)

(** [const sizes = ['Bytes', 'KB', 'MB', 'GB']]. *)
Definition sizes : list string := ["Bytes"; "KB"; "MB"; "GB"].

(** [sizes[i]] as it is appended to a string. *)
Definition sizeName (i : Z) : string :=
  if decide (0 ≤ i) then default "undefined" (sizes !! Z.to_nat i) else "undefined".

(** [x.toFixed(2)] as a number of hundredths: the integer [n] with [n / 100]
    nearest to [x], the larger one of two. *)
Definition toFixed2 (x : R) : Z := Zfloor (x * 100 + / 2).

(** [parseFloat] of the text of [n] hundredths, converted to a string: no
    trailing zeros, no point for an integer. *)
Definition showHundredths (n : Z) : string :=
  let whole := pretty (n `div` 100) in
  let frac := n `mod` 100 in
  if decide (frac = 0) then whole
  else if decide (frac `mod` 10 = 0) then whole +:+ "." +:+ pretty (frac `div` 10)
  else if decide (frac < 10) then whole +:+ ".0" +:+ pretty frac
  else whole +:+ "." +:+ pretty frac.

(** [formatFileSize(bytes)]. *)
Definition formatFileSize (bytes : Z) : string :=
  if decide (bytes = 0) then "0 Bytes"
  else if decide (bytes < 0) then "NaN undefined"
  else
    let k := 1024%R in
    let i := Zfloor (ln (IZR bytes) / ln k) in
    showHundredths (toFixed2 (IZR bytes / Rpower k (IZR i))) +:+ " " +:+ sizeName i.

(** Reference on integers: the exponent is a tenth of the binary logarithm,
    the hundredths are a rounded quotient. *)
Definition formatFileSizeZ (bytes : Z) : string :=
  if decide (bytes = 0) then "0 Bytes"
  else if decide (bytes < 0) then "NaN undefined"
  else
    let i := Z.log2 bytes `div` 10 in
    showHundredths (round_div (100 * bytes) (1024 ^ i)) +:+ " " +:+ sizeName i.

(** ** The exponent *)

Lemma ln_1024_pos : (0 < ln 1024)%R.
Proof. rewrite <-ln_1. apply ln_increasing; lra. Qed.

Lemma Rpower_1024 (i : Z) : 0 ≤ i → Rpower 1024 (IZR i) = IZR (1024 ^ i).
Proof.
  intros Hi. rewrite <-(Z2Nat.id i Hi), <-INR_IZR_INZ, Rpower_pow by lra.
  by rewrite pow_IZR.
Qed.

(** The largest power of 1024 below a positive integer. *)
Lemma log1024_spec (bytes : Z) :
  0 < bytes →
  1024 ^ (Z.log2 bytes `div` 10) ≤ bytes < 1024 ^ (Z.log2 bytes `div` 10 + 1).
Proof.
  intros Hb. pose proof (Z.log2_spec bytes Hb) as [Hlo Hhi].
  pose proof (Z.log2_nonneg bytes) as Hl.
  set (l := Z.log2 bytes) in *. set (i := l `div` 10).
  assert (0 ≤ i ∧ 10 * i ≤ l < 10 * (i + 1)) as (Hi & Hil & Hli)
    by (unfold i; Z.div_mod_to_equations; lia).
  change 1024 with (2 ^ 10). rewrite <-!Z.pow_mul_r by lia. split.
  - etrans; [apply Z.pow_le_mono_r|exact Hlo]; lia.
  - eapply Z.lt_le_trans; [exact Hhi|]. apply Z.pow_le_mono_r; lia.
Qed.

Lemma floor_log1024 (bytes : Z) :
  0 < bytes → Zfloor (ln (IZR bytes) / ln 1024) = Z.log2 bytes `div` 10.
Proof.
  intros Hb. pose proof (log1024_spec bytes Hb) as [Hlo Hhi].
  set (i := Z.log2 bytes `div` 10) in *.
  assert (0 ≤ i) as Hi by (unfold i; pose proof (Z.log2_nonneg bytes); Z.div_mod_to_equations; lia).
  pose proof ln_1024_pos as Hk.
  assert (∀ j, 0 ≤ j → ln (IZR (1024 ^ j)) = IZR j * ln 1024)%R as Hpow.
  { intros j Hj. rewrite <-Rpower_1024 by done. unfold Rpower. by rewrite ln_exp. }
  assert (0 < 1024 ^ i) by (apply Z.pow_pos_nonneg; lia).
  apply Zfloor_eq. split.
  - apply (Rmult_le_reg_r (ln 1024)); [done|].
    replace (ln (IZR bytes) / ln 1024 * ln 1024)%R with (ln (IZR bytes)) by (field; lra).
    rewrite <-Hpow by done. apply ln_mono. split; [by apply IZR_lt|by apply IZR_le].
  - apply (Rmult_lt_reg_r (ln 1024)); [done|].
    replace (ln (IZR bytes) / ln 1024 * ln 1024)%R with (ln (IZR bytes)) by (field; lra).
    rewrite <-plus_IZR, <-Hpow by lia. apply ln_increasing; [by apply IZR_lt|by apply IZR_lt].
Qed.

(** ** The hundredths *)

Lemma toFixed2_quotient (s c : Z) :
  0 < c → toFixed2 (IZR s / IZR c) = round_div (100 * s) c.
Proof.
  intros Hc. symmetry. apply round_div_unique; [done|]. unfold toFixed2.
  pose proof (Zfloor_bound (IZR s / IZR c * 100 + / 2)) as [Hlo Hhi].
  set (n := Zfloor _) in *. apply IZR_lt in Hc as Hc'.
  assert (IZR s / IZR c * IZR c = IZR s)%R as Hq by (field; lra).
  split; [apply lt_IZR|apply le_IZR];
    rewrite ?minus_IZR, ?plus_IZR, ?mult_IZR; fold n; nra.
Qed.

(** ** The reference *)

Lemma formatFileSize_formatFileSizeZ (bytes : Z) :
  formatFileSize bytes = formatFileSizeZ bytes.
Proof.
  unfold formatFileSize, formatFileSizeZ. repeat case_decide; [done..|].
  cbv zeta. rewrite floor_log1024 by lia.
  assert (0 ≤ Z.log2 bytes `div` 10)
    by (pose proof (Z.log2_nonneg bytes); Z.div_mod_to_equations; lia).
  rewrite Rpower_1024 by done.
  by rewrite toFixed2_quotient by (apply Z.pow_pos_nonneg; lia).
Qed.

(** The unit is missing exactly from the fifth power of 1024 on. *)
Lemma sizeName_undefined (i : Z) : 0 ≤ i → sizeName i = "undefined" ↔ 4 ≤ i.
Proof.
  intros Hi. unfold sizeName. rewrite decide_True by done. split.
  - intros Hname. destruct (decide (4 ≤ i)); [done|].
    assert (i ∈ [0; 1; 2; 3]) as Hin by (rewrite !elem_of_cons; lia).
    rewrite !elem_of_cons, elem_of_nil in Hin. by destruct Hin as [->|[->|[->|[->|[]]]]].
  - intros Hi4. by rewrite (proj2 (lookup_ge_None sizes _)) by (simpl; lia).
Qed.

(** ** Properties *)

(** C40: under exact reals, the text of the size of a file that is not
    empty is a number of hundredths from 1.00 to 1024.00, the size divided
    by the largest power of 1024 below it and rounded, followed by the unit
    of that power; the table of units ends at gigabytes, so from 1024^4
    bytes on the unit reads "undefined". *)
Theorem formatFileSize_spec (bytes : Z) :
  0 < bytes →
  let i := Z.log2 bytes `div` 10 in
  let n := round_div (100 * bytes) (1024 ^ i) in
  formatFileSize bytes = showHundredths n +:+ " " +:+ sizeName i
  ∧ 1024 ^ i ≤ bytes < 1024 ^ (i + 1)
  ∧ 100 ≤ n ≤ 102400
  ∧ (sizeName i = "undefined" ↔ 1024 ^ 4 ≤ bytes).
Proof.
  intros Hb i n. pose proof (log1024_spec bytes Hb) as [Hlo Hhi]. fold i in Hlo, Hhi.
  assert (0 ≤ i) as Hi
    by (unfold i; pose proof (Z.log2_nonneg bytes); Z.div_mod_to_equations; lia).
  assert (0 < 1024 ^ i) by (apply Z.pow_pos_nonneg; lia).
  split; [|split; [done|split]].
  - rewrite formatFileSize_formatFileSizeZ. unfold formatFileSizeZ.
    by rewrite !decide_False by lia.
  - rewrite Z.pow_add_r, Z.pow_1_r in Hhi by lia. unfold n. apply round_div_bounds; lia.
  - rewrite sizeName_undefined by done. split; intros Hi4.
    + etrans; [apply (Z.pow_le_mono_r 1024 4 i); lia|done].
    + destruct (decide (4 ≤ i)); [done|].
      assert (1024 ^ (i + 1) ≤ 1024 ^ 4) by (apply Z.pow_le_mono_r; lia). lia.
Qed.

Lemma formatFileSize_spec_witness :
  let i := Z.log2 1536 `div` 10 in
  let n := round_div (100 * 1536) (1024 ^ i) in
  formatFileSize 1536 = showHundredths n +:+ " " +:+ sizeName i
  ∧ 1024 ^ i ≤ 1536 < 1024 ^ (i + 1)
  ∧ 100 ≤ n ≤ 102400
  ∧ (sizeName i = "undefined" ↔ 1024 ^ 4 ≤ 1536).
Proof. apply formatFileSize_spec. lia. Defined.

(** Values of the function: one byte less than a mebibyte is printed as
    1024 kilobytes, and a tebibyte has no unit. *)
Example formatFileSize_examples :
  formatFileSize 1536 = "1.5 KB" ∧ formatFileSize 1048575 = "1024 KB"
  ∧ formatFileSize 1023 = "1023 Bytes" ∧ formatFileSize 1100000 = "1.05 MB"
  ∧ formatFileSize (1024 ^ 4) = "1 undefined".
Proof. rewrite !formatFileSize_formatFileSizeZ. by vm_compute. Qed.
