(* ===== verification/Noise.v ===== *)
(** * The noisy test image

    Every filter class carries [createNoisyTestImage(width, height)]: a new
    canvas is filled with a gradient of three colours, its pixels are read
    back, a loop adds one random offset [(Math.random() - 0.5) * amplitude]
    to the three colour bytes of each pixel, clamped to 0..255, and the
    pixels are put on the canvas again.  The amplitude is 100 in
    [MeanFilter] and 80 in [GaussianFilter].

    The canvas is the record of [Canvas]; the painting of the gradient is
    an interface of the browser ([Painter]), and reading a canvas without
    area throws [IndexSizeError] out of the function.  [Math.random] is the sequence of its results: [random k]
    is the number iteration [k] of the loop draws.  The loop stores numbers
    that are not integers, so it is written against [Float64]; for every
    instance it equals the entry-wise reference [noiseSpec], and under exact
    reals, when the random numbers lie in the interval from 0 to 1, no byte
    moves by more than half the amplitude. *)

From Stdlib Require Import ZArith Lia Reals Zfloor Lra Psatz.
From stdpp Require Import base tactics option list list_numbers numbers strings.
From S2P Require Import Prelude TypedArray Kernel Sweep Floats Canvas Ideal.

#[local] Open Scope Z_scope.

(** ** Definitions *)

(** What [createNoisyTestImage] assumes of the browser. *)
Class Painter `{Float64} := {
  (** The bitmap of the canvas after [ctx.fillRect(0, 0, width, height)]
      with the gradient of three colours from one corner to the other. *)
  gradientFill : Canvas.t → list Z;
  (** Filling leaves a bitmap of the size of the canvas. *)
  gradientFill_ok canvas :
    0 < Canvas.width canvas → 0 < Canvas.height canvas →
    raster_ok (gradientFill canvas) (Canvas.width canvas) (Canvas.height canvas)
}.

Section noise.
Context `{Float64}.

(** [a[i] = x] on a [Uint8ClampedArray], for a number [x]. *)
Definition u8setNumber (a : list Z) (i : Z) (x : float) : list Z :=
  if decide (0 ≤ i) then <[Z.to_nat i := ToUint8ClampNumber x]> a else a.

(** [Math.max(0, Math.min(255, data[i] + noise))]. *)
Definition noisy (data : list Z) (i : Z) (noise : float) : float :=
  fmax (ofNum (Some 0)) (fmin (ofNum (Some 255)) (fadd (ofNum (u8get data i)) noise)).

(** The body of the noise loop in its iteration [k], where [i = 4 * k]. *)
Definition addNoiseAt (amplitude : float) (random : Z → float) (data : list Z) (k : Z)
  : list Z :=
  let i := 4 * k in
  let noise := fmul (fsub (random k) half) amplitude in
  let data := u8setNumber data i (noisy data i noise) in
  let data := u8setNumber data (i + 1) (noisy data (i + 1) noise) in
  u8setNumber data (i + 2) (noisy data (i + 2) noise).

(** [for (let i = 0; i < data.length; i += 4) { ... }]. *)
Definition addNoise (amplitude : float) (random : Z → float) (data : list Z) : list Z :=
  foldl (addNoiseAt amplitude random) data
    (seqZ 0 ((Z.of_nat (length data) + 3) `div` 4)).

(** [ctx.fillStyle = gradient; ctx.fillRect(0, 0, width, height)]. *)
Definition fillRect `{!Painter} (canvas : Canvas.t) : Canvas.t :=
  Canvas.make (Canvas.width canvas) (Canvas.height canvas) (gradientFill canvas)
    (Canvas.originClean canvas).

(** [createNoisyTestImage(width = 300, height = 300)] with the amplitude of
    the class. *)
Definition noisyTestImage `{!Painter} (amplitude : float) (random : Z → float)
    (width height : option Z) : completion Canvas.t :=
  let width := default 300 width in
  let height := default 300 height in
  let canvas := createCanvas in
  let canvas := setWidth width canvas in
  let canvas := setHeight height canvas in
  let canvas := fillRect canvas in
  data ← getImageData canvas;
  let data := addNoise amplitude random data in
  Normal (putImageData data canvas).

(** Reference: the number the loop computes from a byte [v]. *)
Definition noisyOf (v : Z) (noise : float) : float :=
  fmax (ofNum (Some 0)) (fmin (ofNum (Some 255)) (fadd (ofNum (Some v)) noise)).

(** Reference: the entry the loop leaves at index [j] in place of [v]: the
    alpha byte stays, the colour bytes of pixel [j / 4] share the number
    drawn for it. *)
Definition noiseAt (amplitude : float) (random : Z → float) (j : nat) (v : Z) : Z :=
  if decide (Z.of_nat j `mod` 4 = 3) then v
  else ToUint8ClampNumber
         (noisyOf v (fmul (fsub (random (Z.of_nat j `div` 4)) half) amplitude)).

(** Reference of the loop. *)
Definition noiseSpec (amplitude : float) (random : Z → float) (data : list Z) : list Z :=
  imap (noiseAt amplitude random) data.

(** [canvasToDataURL(canvas, format = 'image/png', quality = 0.9)]. *)
Definition canvasToDataURL `{!Browser} (canvas : Canvas.t) : completion string :=
  toDataURL canvas.

End noise.

(** Under exact reals: the byte the loop leaves in place of [v] when it
    drew [r]. *)
Definition noisyByte (amplitude r : R) (v : Z) : Z :=
  roundHalfEven (Rmax 0 (Rmin 255 (IZR v + (r - / 2) * amplitude))).

(** A painter for examples: the gradient is grey. *)
Definition greyPainter `{Float64} : Painter := {|
  gradientFill := greyBrowser_drawn;
  gradientFill_ok := greyBrowser_drawn_ok
|}.

(** ** Stores of numbers *)

Section stores.
Context `{Float64}.

Lemma length_u8setNumber a i x : length (u8setNumber a i x) = length a.
Proof. unfold u8setNumber. case_decide; [apply length_insert|done]. Qed.

(** What a store leaves at every index. *)
Lemma u8setNumber_lookup a i x (j : nat) :
  0 ≤ i →
  u8setNumber a i x !! j
  = if decide (j = Z.to_nat i) then (λ _, ToUint8ClampNumber x) <$> a !! j else a !! j.
Proof.
  intros Hi. unfold u8setNumber. rewrite decide_True by done.
  case_decide as Hj; [subst j|by rewrite list_lookup_insert_ne].
  destruct (a !! Z.to_nat i) eqn:Ha.
  - rewrite list_lookup_insert_eq; [done|]. by eapply lookup_lt_Some.
  - apply lookup_ge_None. rewrite length_insert. by apply lookup_ge_None.
Qed.

Lemma u8get_u8setNumber_ne a i x j : i ≠ j → u8get (u8setNumber a i x) j = u8get a j.
Proof.
  intros Hij. unfold u8get, u8setNumber. repeat case_decide; try done.
  apply list_lookup_insert_ne. lia.
Qed.

Lemma noisy_u8setNumber_ne a i x j noise :
  i ≠ j → noisy (u8setNumber a i x) j noise = noisy a j noise.
Proof. intros. unfold noisy. by rewrite u8get_u8setNumber_ne. Qed.

Lemma length_addNoiseAt amplitude random data k :
  length (addNoiseAt amplitude random data k) = length data.
Proof. unfold addNoiseAt. by rewrite !length_u8setNumber. Qed.

Lemma length_addNoise amplitude random data :
  length (addNoise amplitude random data) = length data.
Proof.
  unfold addNoise. generalize (seqZ 0 ((Z.of_nat (length data) + 3) `div` 4)).
  intros ks. apply (foldl_invariant (λ d, length d = length data)); [done|].
  intros d k _ Hd. by rewrite length_addNoiseAt.
Qed.

(** ** The loop and its reference *)

Section loop.
Context (amplitude : float) (random : Z → float).

(** The byte an iteration stores at a colour index [i] of its pixel. *)
Lemma ToUint8Clamp_noiseAt data (j : nat) v i k :
  Z.of_nat j = i → i `div` 4 = k → i `mod` 4 ≠ 3 → data !! j = Some v →
  ToUint8ClampNumber (noisy data i (fmul (fsub (random k) half) amplitude))
  = noiseAt amplitude random j v.
Proof.
  intros <- <- Hi Hv. unfold noiseAt, noisy, noisyOf. rewrite decide_False by done.
  do 5 f_equal. apply u8get_Some. rewrite Nat2Z.id. split; [lia|done].
Qed.

(** One iteration rewrites the colour bytes of its pixel. *)
Lemma addNoiseAt_lookup data k (j : nat) :
  0 ≤ k →
  addNoiseAt amplitude random data k !! j
  = if decide (Z.of_nat j `div` 4 = k) then noiseAt amplitude random j <$> data !! j
    else data !! j.
Proof.
  intros Hk. unfold addNoiseAt. cbv zeta.
  rewrite !u8setNumber_lookup, !noisy_u8setNumber_ne by lia.
  destruct (data !! j) as [v|] eqn:Hv; [|by repeat case_decide].
  repeat case_decide; cbn [fmap option_fmap option_map]; try done;
    try (exfalso; Z.to_euclidean_division_equations; lia); f_equal.
  1-3: by apply ToUint8Clamp_noiseAt; [lia|Z.to_euclidean_division_equations; lia..|].
  unfold noiseAt. rewrite decide_True; [done|].
  pose proof (Z.div_mod (Z.of_nat j) 4 ltac:(lia)).
  pose proof (Z.mod_pos_bound (Z.of_nat j) 4 ltac:(lia)). lia.
Qed.

(** After [m] iterations the first [m] pixels are final. *)
Lemma addNoise_prefix data (m : nat) (j : nat) :
  foldl (addNoiseAt amplitude random) data (seqZ 0 (Z.of_nat m)) !! j
  = if decide (Z.of_nat j `div` 4 < Z.of_nat m)
    then noiseAt amplitude random j <$> data !! j else data !! j.
Proof.
  assert (0 ≤ Z.of_nat j `div` 4) by (apply Z.div_pos; lia).
  induction m as [|m IH]; [by rewrite decide_False by lia|].
  rewrite Nat2Z.inj_succ, <-Z.add_1_r, seqZ_snoc, foldl_app by lia. simpl.
  rewrite addNoiseAt_lookup, IH by lia. repeat case_decide; try done; lia.
Qed.

(** The loop computes the reference. *)
Lemma addNoise_noiseSpec data :
  addNoise amplitude random data = noiseSpec amplitude random data.
Proof.
  apply list_eq. intros j. unfold addNoise, noiseSpec.
  assert (0 ≤ (Z.of_nat (length data) + 3) `div` 4) as Hn by (apply Z.div_pos; lia).
  rewrite <-(Z2Nat.id (_ `div` 4)) by done.
  rewrite addNoise_prefix, list_lookup_imap, Z2Nat.id by done.
  case_decide as Hj; [done|].
  rewrite (lookup_ge_None_2 data j); [done|]. Z.to_euclidean_division_equations; lia.
Qed.

(** An entry of the result. *)
Lemma addNoise_lookup data (j : nat) :
  addNoise amplitude random data !! j = noiseAt amplitude random j <$> data !! j.
Proof. rewrite addNoise_noiseSpec. apply list_lookup_imap. Qed.

(** The loop changes nothing when its reference keeps every byte. *)
Lemma addNoise_id data :
  is_bytes data → (∀ j v, byte v → noiseAt amplitude random j v = v) →
  addNoise amplitude random data = data.
Proof.
  intros Hd Hid. apply list_eq. intros j. rewrite addNoise_lookup.
  destruct (data !! j) as [v|] eqn:Hv; [|done]. simpl. f_equal.
  apply Hid. by eapply Forall_lookup_1.
Qed.

End loop.

End stores.

(** ** The loop under exact reals *)

Lemma clamp_255_idemp (x : R) :
  Rmax 0 (Rmin 255 (Rmax 0 (Rmin 255 x))) = Rmax 0 (Rmin 255 x).
Proof. unfold Rmax, Rmin. repeat case_match; lra. Qed.

(** The reference under exact reals. *)
Lemma noiseAt_ideal (amplitude : R) (random : Z → R) (j : nat) (v : Z) :
  noiseAt (Some amplitude) (Some ∘ random) j v
  = if decide (Z.of_nat j `mod` 4 = 3) then v
    else noisyByte amplitude (random (Z.of_nat j `div` 4)) v.
Proof.
  unfold noiseAt, noisyByte. case_decide; [done|]. simpl. by rewrite clamp_255_idemp.
Qed.

(** A number drawn from 0 to 1 moves a byte by at most half the amplitude,
    and the result is a byte. *)
Lemma noisyByte_within (h : Z) (r : R) (v : Z) :
  0 ≤ h → (0 <= r < 1)%R → byte v →
  byte (noisyByte (IZR (2 * h)) r v) ∧ v - h ≤ noisyByte (IZR (2 * h)) r v ≤ v + h.
Proof.
  intros Hh Hr [Hv0 Hv255]. unfold noisyByte. rewrite mult_IZR.
  apply IZR_le in Hh, Hv0, Hv255.
  assert (- IZR h <= (r - / 2) * (2 * IZR h) <= IZR h)%R by nra.
  split; [apply (roundHalfEven_between _ 0 255)|apply roundHalfEven_between];
    rewrite ?minus_IZR, ?plus_IZR; unfold Rmax, Rmin; repeat case_match; lra.
Qed.

(** A number drawn at one half leaves a byte as it is. *)
Lemma noisyByte_half (amplitude : R) (v : Z) : byte v → noisyByte amplitude (/ 2) v = v.
Proof.
  intros Hv. unfold noisyByte.
  replace (IZR v + (/ 2 - / 2) * amplitude)%R with (IZR v) by lra.
  by apply (ideal_ToUint8Clamp_IZR v).
Qed.

(** Whatever the numbers drawn, the bytes stay bytes. *)
Lemma is_bytes_addNoise (amplitude : ideal) (random : Z → ideal) data :
  is_bytes data → is_bytes (addNoise amplitude random data).
Proof.
  intros Hd. unfold addNoise. apply foldl_invariant; [done|].
  intros d k _ Hb. unfold addNoiseAt, u8setNumber.
  repeat case_decide; repeat apply Forall_insert; try done;
    apply ideal_ToUint8Clamp_range.
Qed.

(** ** Properties *)

(** C36: the noise loop moves no colour byte by more than half the
    amplitude and leaves the alpha bytes alone: under exact reals, with the
    numbers drawn in the interval from 0 to 1 and an amplitude of [2 * h],
    the entry at every index [j] of the result is a byte within [h] of the
    entry it replaces, and equal to it when [j] is the index of an alpha
    byte. *)
Theorem addNoise_within_amplitude (h : Z) (random : Z → R) (data : list Z) (j : nat)
    (v : Z) :
  0 ≤ h → (∀ k, (0 <= random k < 1)%R) → is_bytes data → data !! j = Some v →
  ∃ w, addNoise (ofNum (Some (2 * h))) (Some ∘ random) data !! j = Some w
       ∧ byte w ∧ v - h ≤ w ≤ v + h ∧ (Z.of_nat j `mod` 4 = 3 → w = v).
Proof.
  intros Hh Hr Hd Hv. pose proof (Forall_lookup_1 _ _ _ _ Hd Hv) as Hb.
  change (ofNum (Some (2 * h))) with (Some (IZR (2 * h))).
  rewrite addNoise_lookup, Hv. cbn [fmap option_fmap option_map]. rewrite noiseAt_ideal.
  eexists. split; [done|]. case_decide.
  - split; [done|]. split; [lia|done].
  - destruct (noisyByte_within h (random (Z.of_nat j `div` 4)) v) as [? ?]; [done..|].
    split_and!; done || lia.
Qed.

Lemma addNoise_within_amplitude_witness :
  ∃ w, addNoise (ofNum (Some 100)) (Some ∘ (λ _, / 4)%R) [10; 20; 30; 255] !! 1%nat = Some w
       ∧ byte w ∧ 20 - 50 ≤ w ≤ 20 + 50 ∧ (Z.of_nat 1 `mod` 4 = 3 → w = 20).
Proof.
  apply (addNoise_within_amplitude 50 (λ _, / 4)%R [10; 20; 30; 255] 1 20);
    [lia|intros _; lra|by repeat constructor|done].
Defined.

(** The loop with every number drawn at one half changes nothing. *)
Theorem addNoise_half (amplitude : R) (data : list Z) :
  is_bytes data → addNoise (Some amplitude) (Some ∘ (λ _, / 2)%R) data = data.
Proof.
  intros Hd. apply addNoise_id; [done|]. intros j v Hv.
  rewrite noiseAt_ideal. case_decide; [done|]. by apply noisyByte_half.
Qed.

(** The test image is a raster of the size asked for when the browser
    paints the gradient, whatever the numbers drawn. *)
Theorem noisyTestImage_raster `{!Painter} (amplitude : ideal) (random : Z → ideal)
    (width height : Z) :
  0 < width → 0 < height →
  ∃ noisyData,
    noisyTestImage amplitude random (Some width) (Some height)
    = Normal (Canvas.make width height noisyData true)
    ∧ raster_ok noisyData width height.
Proof.
  intros Hw Hh. unfold noisyTestImage, getImageData. simpl.
  rewrite decide_True by done. simpl. eexists. split; [done|].
  destruct (gradientFill_ok (setHeight height (setWidth width createCanvas)) Hw Hh)
    as (_ & _ & Hlen & Hb).
  split_and!; [done|done|by rewrite length_addNoise|by apply is_bytes_addNoise].
Qed.

(** A test image without area cannot be made: reading its pixels throws. *)
Theorem noisyTestImage_no_area `{!Painter} (amplitude : ideal) (random : Z → ideal)
    (width height : Z) :
  ¬ (0 < width ∧ 0 < height) →
  noisyTestImage amplitude random (Some width) (Some height) = Throw IndexSizeError.
Proof.
  intros Harea. unfold noisyTestImage, getImageData. simpl. by rewrite decide_False.
Qed.
