(* ===== verification/Mean.v ===== *)
(** * The arithmetic mean filter ([MeanFilter], src/src/meanFilter.js)

    [MeanFilter.calculateMeanValues] is the class's window loop with its four
    accumulators; [mean] is the reference it is proved equal to: the sum of
    the window values of a channel divided by their number, rounded half
    up.  [MeanFilter.calculateMeanValuesNum] is the same loop with the
    arithmetic of an instance of [Float64] in place of the integers, which
    Binary64.v proves equal to it on doubles.  The file ends with the
    class's test image and [testMeanFilter]. *)

From Stdlib Require Import ZArith Lia.
From stdpp Require Import base tactics option list list_numbers numbers strings.
From S2P Require Import Prelude TypedArray Boundary Kernel Sweep Floats Canvas Noise.

#[local] Open Scope Z_scope.

(** ** Definitions *)

(** Reference: the rounded arithmetic mean of a list. *)
Definition mean (vs : list Z) : Z := round_div (sumZ vs) (Z.of_nat (length vs)).

Module MeanFilter.

(** The fields [this.kernelSize] and [this.radius]. *)
Definition t := KernelSpec.t.

(** [constructor(kernelSize = 3)]. *)
Definition constructor (kernelSize : Z) : completion t :=
  KernelSpec.constructor kernelSize.

(** The local variables [sumR], [sumG], [sumB], [count] of the loop. *)
Record sums := mkSums { sumR : jsnum; sumG : jsnum; sumB : jsnum; count : Z }.

(** [calculateMeanValues(data, centerX, centerY, width, height)]. *)
Definition calculateMeanValues (this : t) (data : list Z)
    (centerX centerY width height : Z) : RGB :=
  let acc :=
    forKernel (KernelSpec.radius this)
      (λ acc dx dy,
        let pixelIndex := sampleIndex width height centerX centerY dx dy in
        mkSums (sumR acc +? u8get data pixelIndex)%js
               (sumG acc +? u8get data (pixelIndex + 1))%js
               (sumB acc +? u8get data (pixelIndex + 2))%js
               (count acc + 1))
      (mkSums (Some 0) (Some 0) (Some 0) 0) in
  mkRGB (Math_round_div (sumR acc) (count acc))
        (Math_round_div (sumG acc) (count acc))
        (Math_round_div (sumB acc) (count acc)).

(** [processImageData(imageData, originalData, width, height)]. *)
Definition processImageData (this : t) (data originalData : list Z)
    (width height : Z) : list Z :=
  Sweep.processImageData (calculateMeanValues this) data originalData width height.

(** The local variables of the loop as numbers of the runtime. *)
Record sumsNum `{Float64} := mkSumsNum {
  numR : float; numG : float; numB : float; numCount : Z
}.
Arguments mkSumsNum {_} _ _ _ _.

(** [calculateMeanValues(data, centerX, centerY, width, height)] with the
    sums and the quotients computed on the numbers of the runtime. *)
Definition calculateMeanValuesNum `{Float64} (this : t) (data : list Z)
    (centerX centerY width height : Z) : RGB :=
  let acc :=
    forKernel (KernelSpec.radius this)
      (λ acc dx dy,
        let pixelIndex := sampleIndex width height centerX centerY dx dy in
        mkSumsNum (fadd (numR acc) (ofNum (u8get data pixelIndex)))
                  (fadd (numG acc) (ofNum (u8get data (pixelIndex + 1))))
                  (fadd (numB acc) (ofNum (u8get data (pixelIndex + 2))))
                  (numCount acc + 1))
      (mkSumsNum (ofNum (Some 0)) (ofNum (Some 0)) (ofNum (Some 0)) 0) in
  mkRGB (Math_round (fdiv (numR acc) (ofNum (Some (numCount acc)))))
        (Math_round (fdiv (numG acc) (ofNum (Some (numCount acc)))))
        (Math_round (fdiv (numB acc) (ofNum (Some (numCount acc))))).

(** [applySimpleFilter(imageElement, canvas, ctx)]: the canvas redrawn
    through [blur(1px)]. *)
Definition applySimpleFilter `{Browser} (imageElement : ImageElement.t)
    (canvas : Canvas.t) : completion Canvas.t :=
  blurFallback (ofNum (Some 1)) imageElement canvas.

(** [applyFilter(imageElement)]. *)
Definition applyFilter `{Browser} (this : t) (imageElement : ImageElement.t) : Outcome :=
  applyFilterOrBlur applySimpleFilter (processImageData this) imageElement.

(** [createNoisyTestImage(width = 300, height = 300)]: the offsets span
    100. *)
Definition createNoisyTestImage `{Painter} (random : Z → float)
    (width height : option Z) : completion Canvas.t :=
  noisyTestImage (ofNum (Some 100)) random width height.

End MeanFilter.

(** [testMeanFilter()].  [img] is the image the browser loads from the data
    URL of the noisy canvas; the value is the promise the [onload] callback
    awaits inside its [try].  What is thrown before [img.src] is set is not
    caught. *)
Definition testMeanFilter `{Browser} `{!Painter} (random : Z → float)
    (img : ImageElement.t) : completion Outcome :=
  filter ← MeanFilter.constructor 3;
  noisyCanvas ← MeanFilter.createNoisyTestImage random (Some 200) (Some 200);
  src ← toDataURL noisyCanvas;
  Normal (MeanFilter.applyFilter filter img).

(** ** The reference *)

Lemma mean_between vs lo hi :
  vs ≠ [] → Forall (λ v, lo ≤ v ≤ hi) vs → lo ≤ mean vs ≤ hi.
Proof.
  intros Hne Hvs. unfold mean. apply round_div_bounds.
  - destruct vs; [done|]. simpl. lia.
  - by apply sumZ_bounds.
Qed.

Lemma mean_singleton v : mean [v] = v.
Proof. unfold mean. simpl. rewrite Z.add_0_r. apply round_div_1. Qed.

(** ** The loop *)

Section mean.
Context (this : MeanFilter.t) (data : list Z) (centerX centerY width height : Z).

Lemma mean_channel_sound ch :
  raster_ok data width height → 0 ≤ KernelSpec.radius this → 0 ≤ ch ≤ 2 →
  channel (MeanFilter.calculateMeanValues this data centerX centerY width height) ch
  = Some (mean (windowValues data width height (KernelSpec.radius this) centerX centerY ch)).
Proof.
  intros Hok Hr Hch. unfold MeanFilter.calculateMeanValues, mean.
  set (body := λ acc dx dy, MeanFilter.mkSums _ _ _ _).
  set (init := MeanFilter.mkSums _ _ _ _).
  rewrite (channel_map (λ s, Math_round_div s _)).
  rewrite (forKernel_rgb body init _ _ _ _ _ _ _ _ _ Z.add 0) by done.
  rewrite (forKernel_count body init _ MeanFilter.count) by done.
  pose proof (length_windowValues data width height _ centerX centerY ch Hr) as Hn.
  pose proof (length_windowOffsets (KernelSpec.radius this)) as Hlen.
  unfold windowValues, windowIndices in Hn |- *. rewrite !length_fmap in Hn |- *.
  rewrite Math_round_div_Some, foldl_add_sumZ by (simpl; lia). done.
Qed.

(** The loop on numbers: each channel is the quotient of the sum of the
    window samples, accumulated in loop order, by their count. *)
Lemma meanNum_channel_samples `{Float64} ch :
  0 ≤ ch ≤ 2 →
  channel (MeanFilter.calculateMeanValuesNum this data centerX centerY width height) ch
  = Math_round
      (fdiv (foldl (λ s v, fadd s (ofNum v)) (ofNum (Some 0))
               (windowSamples data width height (KernelSpec.radius this) centerX centerY ch))
         (ofNum (Some (Z.of_nat (length (windowOffsets (KernelSpec.radius this))))))).
Proof.
  intros Hch. unfold MeanFilter.calculateMeanValuesNum.
  set (body := λ acc dx dy, MeanFilter.mkSumsNum _ _ _ _).
  set (init := MeanFilter.mkSumsNum _ _ _ _).
  rewrite (forKernel_count body init _ MeanFilter.numCount) by done.
  by rewrite (forKernel_rgb_samples body init data width height _ centerX centerY
    MeanFilter.numR MeanFilter.numG MeanFilter.numB
    (λ s v, fadd s (ofNum v)) (λ s, Math_round (fdiv s _)) (ofNum (Some 0))).
Qed.

End mean.

(** The mean calculator is an aggregator for every non-negative radius. *)
Lemma mean_agg_between vs lo hi :
  vs ≠ [] → 0 ≤ lo → hi ≤ 255 → Forall (λ v, lo ≤ v ≤ hi) vs → lo ≤ mean vs ≤ hi.
Proof. intros ? _ _ ?. by apply mean_between. Qed.

(** The mean does not depend on the order of the samples. *)
#[export] Instance mean_Permutation : Proper ((≡ₚ) ==> (=)) mean.
Proof. intros vs ws Hvs. unfold mean. by rewrite Hvs. Qed.

Definition mean_aggregator (this : MeanFilter.t) (Hr : 0 ≤ KernelSpec.radius this)
  : Aggregator (MeanFilter.calculateMeanValues this) (KernelSpec.radius this) := {|
  agg_channel := mean;
  agg_radius := Hr;
  agg_sound data width height x y ch Hok _ _ Hch :=
    mean_channel_sound this data x y width height ch Hok Hr Hch;
  agg_between := mean_agg_between
|}.

(** ** Properties *)

(** C4: on a well-formed raster and for a non-negative radius the window
    loop returns, in each colour channel, the rounded mean of the window
    values of that channel. *)
Theorem calculateMeanValues_spec (this : MeanFilter.t) (data : list Z)
    (centerX centerY width height : Z) :
  raster_ok data width height → 0 ≤ KernelSpec.radius this →
  MeanFilter.calculateMeanValues this data centerX centerY width height
  = mkRGB
      (Some (mean (windowValues data width height (KernelSpec.radius this) centerX centerY 0)))
      (Some (mean (windowValues data width height (KernelSpec.radius this) centerX centerY 1)))
      (Some (mean (windowValues data width height (KernelSpec.radius this) centerX centerY 2))).
Proof.
  intros Hok Hr. etrans; [apply RGB_channels|].
  f_equal; apply mean_channel_sound; (done || lia).
Qed.

Lemma calculateMeanValues_spec_witness :
  MeanFilter.calculateMeanValues (KernelSpec.make 3 1) [10; 20; 30; 255; 40; 50; 60; 255] 0 0 2 1
  = mkRGB
      (Some (mean (windowValues [10; 20; 30; 255; 40; 50; 60; 255] 2 1 1 0 0 0)))
      (Some (mean (windowValues [10; 20; 30; 255; 40; 50; 60; 255] 2 1 1 0 0 1)))
      (Some (mean (windowValues [10; 20; 30; 255; 40; 50; 60; 255] 2 1 1 0 0 2))).
Proof.
  apply (calculateMeanValues_spec (KernelSpec.make 3 1)); [by_compute|simpl; lia].
Defined.

(** C22: the mean filter of kernel size 1 is the identity on every
    well-formed raster. *)
Theorem mean_kernel1_identity (data : list Z) (width height : Z) :
  raster_ok data width height →
  MeanFilter.processImageData (KernelSpec.make 1 0) data data width height = data.
Proof.
  intros Hok. apply processImageData_fixpoint; [done|].
  intros x y ch Hx Hy Hch.
  rewrite mean_channel_sound by (done || simpl; lia). simpl.
  destruct (raster_read data width height ((y * width + x) * 4) ch Hok)
    as (v & Hv & _); [lia|rewrite Z.mod_mul by lia; nia|].
  by rewrite (windowValues_0 _ _ _ _ _ _ v), mean_singleton.
Qed.

Lemma mean_kernel1_identity_witness :
  MeanFilter.processImageData (KernelSpec.make 1 0)
    [10; 20; 30; 255; 40; 50; 60; 255] [10; 20; 30; 255; 40; 50; 60; 255] 2 1
  = [10; 20; 30; 255; 40; 50; 60; 255].
Proof. apply mean_kernel1_identity. by_compute. Defined.

(** With a negative radius the window loops run no iteration and the
    mean is [0 / 0]. *)
Lemma calculateMeanValues_neg (this : MeanFilter.t) data centerX centerY width height :
  KernelSpec.radius this < 0 →
  MeanFilter.calculateMeanValues this data centerX centerY width height
  = mkRGB None None None.
Proof. intros. unfold MeanFilter.calculateMeanValues. by rewrite forKernel_neg. Qed.

(** A negative odd size passes the constructor, its window is empty,
    the mean is NaN ([0 / 0]) in every channel and the sweep stores [0]. *)
Theorem mean_negative_size_NaN (kernelSize : Z) (data : list Z)
    (centerX centerY width height : Z) :
  kernelSize < 0 → Z.odd kernelSize = true →
  ∃ this, MeanFilter.constructor kernelSize = Normal this
    ∧ MeanFilter.calculateMeanValues this data centerX centerY width height
      = mkRGB None None None.
Proof.
  intros Hneg Hodd. eexists. split; [by apply constructor_odd|].
  apply calculateMeanValues_neg. simpl. Z.div_mod_to_equations. lia.
Qed.

Lemma mean_negative_size_NaN_witness :
  ∃ this, MeanFilter.constructor (-3) = Normal this
    ∧ MeanFilter.calculateMeanValues this [10; 20; 30; 255] 0 0 1 1 = mkRGB None None None.
Proof. apply mean_negative_size_NaN; [lia|done]. Defined.

(** The corner example of the specification: a 3x3 raster of value 200 with
    one corner at 0, kernel size 3.  The reflected window at the corner holds
    the corner once and eight samples of 200, so the mean is
    [round (1600 / 9) = 178]; clamping the coordinates instead would read the
    corner four times and give [round (1000 / 9) = 111]. *)
Example mean_corner_example :
  let px v := [v; v; v; 255] in
  let data := px 0 ++ mjoin (replicate 8 (px 200)) in
  MeanFilter.calculateMeanValues (KernelSpec.make 3 1) data 0 0 3 3
  = mkRGB (Some 178) (Some 178) (Some 178).
Proof. by vm_compute. Qed.

(** The promise of [testMeanFilter] is resolved when the loaded image has
    area: the noisy canvas of 200 by 200 pixels is made and exported, and
    the callback awaits a canvas of the size of the loaded image, so its
    [catch] is not entered. *)
Theorem testMeanFilter_resolves `{Browser} `{!Painter} (random : Z → float)
    (img : ImageElement.t) :
  0 < (canvasSize img).1 → 0 < (canvasSize img).2 →
  ∃ canvas, testMeanFilter random img = Normal (Resolved canvas)
            ∧ (Canvas.width canvas, Canvas.height canvas) = canvasSize img.
Proof.
  intros Hw Hh. unfold testMeanFilter. simpl.
  unfold MeanFilter.applyFilter, MeanFilter.applySimpleFilter.
  destruct (readPixels img) as [data|e] eqn:Hread.
  - rewrite (applyFilterOrBlur_readable _ _ img data Hread). by eexists.
  - apply readPixels_Throw in Hread as [[[] _]|(_ & _ & Hcross & _)]; [done|].
    rewrite applyFilterOrBlur_cross_origin by done. by eexists.
Qed.
