(* ===== verification/MinMax.v ===== *)
(** * The maximum and minimum filters ([MaxFilter], [MinFilter],
      src/src/maxFilter.js)

    The window loops keep three running extrema that start at [0] (maximum)
    or [255] (minimum).  [maxOf] and [minOf] are those folds on a list;
    [is_greatest] and [is_least] are the order statistics they are proved to
    compute on a non-empty window of bytes. *)

From Stdlib Require Import ZArith Lia.
From stdpp Require Import base tactics option list list_numbers numbers strings.
From S2P Require Import Prelude TypedArray Boundary Kernel Sweep Canvas.

#[local] Open Scope Z_scope.

(** ** Definitions *)

(** The running maximum from [0] and the running minimum from [255]. *)
Definition maxOf (vs : list Z) : Z := foldl Z.max 0 vs.
Definition minOf (vs : list Z) : Z := foldl Z.min 255 vs.

(** Reference: an element of the list that bounds the others. *)
Definition is_greatest (m : Z) (vs : list Z) : Prop := m ∈ vs ∧ Forall (λ v, v ≤ m) vs.
Definition is_least (m : Z) (vs : list Z) : Prop := m ∈ vs ∧ Forall (λ v, m ≤ v) vs.

Module MaxFilter.

Definition t := KernelSpec.t.

(** [constructor(kernelSize = 3)]. *)
Definition constructor (kernelSize : Z) : completion t :=
  KernelSpec.constructor kernelSize.

(** The local variables [maxR], [maxG], [maxB]. *)
Record maxima := mkMaxima { maxR : jsnum; maxG : jsnum; maxB : jsnum }.

(** [calculateMaxValues(data, centerX, centerY, width, height)]. *)
Definition calculateMaxValues (this : t) (data : list Z)
    (centerX centerY width height : Z) : RGB :=
  let acc :=
    forKernel (KernelSpec.radius this)
      (λ acc dx dy,
        let index := sampleIndex width height centerX centerY dx dy in
        mkMaxima (Math_max (maxR acc) (u8get data index))
                 (Math_max (maxG acc) (u8get data (index + 1)))
                 (Math_max (maxB acc) (u8get data (index + 2))))
      (mkMaxima (Some 0) (Some 0) (Some 0)) in
  mkRGB (maxR acc) (maxG acc) (maxB acc).

(** [processImageData(imageData, originalData, width, height)]. *)
Definition processImageData (this : t) (data originalData : list Z)
    (width height : Z) : list Z :=
  Sweep.processImageData (calculateMaxValues this) data originalData width height.

(** [applyFilter(imageElement)]: rejects when the pixels cannot be read. *)
Definition applyFilter `{Browser} (this : t) (imageElement : ImageElement.t) : Outcome :=
  applyFilterOrReject (processImageData this) imageElement.

End MaxFilter.

Module MinFilter.

Definition t := KernelSpec.t.

(** [constructor(kernelSize = 3)]. *)
Definition constructor (kernelSize : Z) : completion t :=
  KernelSpec.constructor kernelSize.

(** The local variables [minR], [minG], [minB]. *)
Record minima := mkMinima { minR : jsnum; minG : jsnum; minB : jsnum }.

(** [calculateMinValues(data, centerX, centerY, width, height)]. *)
Definition calculateMinValues (this : t) (data : list Z)
    (centerX centerY width height : Z) : RGB :=
  let acc :=
    forKernel (KernelSpec.radius this)
      (λ acc dx dy,
        let index := sampleIndex width height centerX centerY dx dy in
        mkMinima (Math_min (minR acc) (u8get data index))
                 (Math_min (minG acc) (u8get data (index + 1)))
                 (Math_min (minB acc) (u8get data (index + 2))))
      (mkMinima (Some 255) (Some 255) (Some 255)) in
  mkRGB (minR acc) (minG acc) (minB acc).

(** [processImageData(imageData, originalData, width, height)]. *)
Definition processImageData (this : t) (data originalData : list Z)
    (width height : Z) : list Z :=
  Sweep.processImageData (calculateMinValues this) data originalData width height.

(** [applyFilter(imageElement)]: rejects when the pixels cannot be read. *)
Definition applyFilter `{Browser} (this : t) (imageElement : ImageElement.t) : Outcome :=
  applyFilterOrReject (processImageData this) imageElement.

End MinFilter.

(** ** Running extrema *)

Lemma foldl_max_spec a vs :
  a ≤ foldl Z.max a vs
  ∧ Forall (λ v, v ≤ foldl Z.max a vs) vs
  ∧ (foldl Z.max a vs = a ∨ foldl Z.max a vs ∈ vs).
Proof.
  revert a. induction vs as [|v vs IH]; intros a; simpl.
  { split; [lia|]. split; [constructor|by left]. }
  destruct (IH (Z.max a v)) as (Hge & Hall & Hin).
  split; [lia|]. split; [constructor; [lia|done]|].
  destruct Hin as [Heq|Hin]; [|right; by right].
  destruct (Z.max_spec a v) as [[_ Hm]|[_ Hm]].
  - right. rewrite Heq, Hm. by left.
  - left. by rewrite Heq.
Qed.

Lemma foldl_min_spec a vs :
  foldl Z.min a vs ≤ a
  ∧ Forall (λ v, foldl Z.min a vs ≤ v) vs
  ∧ (foldl Z.min a vs = a ∨ foldl Z.min a vs ∈ vs).
Proof.
  revert a. induction vs as [|v vs IH]; intros a; simpl.
  { split; [lia|]. split; [constructor|by left]. }
  destruct (IH (Z.min a v)) as (Hge & Hall & Hin).
  split; [lia|]. split; [constructor; [lia|done]|].
  destruct Hin as [Heq|Hin]; [|right; by right].
  destruct (Z.min_spec a v) as [[_ Hm]|[_ Hm]].
  - left. by rewrite Heq.
  - right. rewrite Heq, Hm. by left.
Qed.

(** On a non-empty list of non-negative values the running maximum from
    [0] is the greatest element. *)
Lemma maxOf_greatest vs :
  vs ≠ [] → Forall (λ v, 0 ≤ v) vs → is_greatest (maxOf vs) vs.
Proof.
  intros Hne Hpos. unfold maxOf.
  destruct (foldl_max_spec 0 vs) as (Hge & Hall & [Heq|Hin]); split; try done.
  destruct vs as [|v vs]; [done|].
  apply Forall_cons in Hpos as [Hv _]. apply Forall_cons in Hall as [Hv' _].
  rewrite Heq in *. assert (v = 0) as -> by lia. by left.
Qed.

(** On a non-empty list of values up to [255] the running minimum from
    [255] is the least element. *)
Lemma minOf_least vs :
  vs ≠ [] → Forall (λ v, v ≤ 255) vs → is_least (minOf vs) vs.
Proof.
  intros Hne Hpos. unfold minOf.
  destruct (foldl_min_spec 255 vs) as (Hge & Hall & [Heq|Hin]); split; try done.
  destruct vs as [|v vs]; [done|].
  apply Forall_cons in Hpos as [Hv _]. apply Forall_cons in Hall as [Hv' _].
  rewrite Heq in *. assert (v = 255) as -> by lia. by left.
Qed.

Lemma is_greatest_between m vs lo hi :
  is_greatest m vs → Forall (λ v, lo ≤ v ≤ hi) vs → lo ≤ m ≤ hi.
Proof. intros [Hin _] Hvs. by apply (Forall_elem_of _ _ _ Hvs). Qed.

Lemma is_least_between m vs lo hi :
  is_least m vs → Forall (λ v, lo ≤ v ≤ hi) vs → lo ≤ m ≤ hi.
Proof. intros [Hin _] Hvs. by apply (Forall_elem_of _ _ _ Hvs). Qed.

Lemma is_least_le_greatest l m vs : is_least l vs → is_greatest m vs → l ≤ m.
Proof.
  intros [Hl _] [_ Hm]. by apply (Forall_elem_of _ _ _ Hm).
Qed.

Lemma maxOf_between vs lo hi :
  vs ≠ [] → 0 ≤ lo → hi ≤ 255 → Forall (λ v, lo ≤ v ≤ hi) vs → lo ≤ maxOf vs ≤ hi.
Proof.
  intros Hne Hlo _ Hvs. eapply is_greatest_between; [|done].
  apply maxOf_greatest; [done|]. eapply List.Forall_impl; [|done]. simpl. lia.
Qed.

Lemma minOf_between vs lo hi :
  vs ≠ [] → 0 ≤ lo → hi ≤ 255 → Forall (λ v, lo ≤ v ≤ hi) vs → lo ≤ minOf vs ≤ hi.
Proof.
  intros Hne _ Hhi Hvs. eapply is_least_between; [|done].
  apply minOf_least; [done|]. eapply List.Forall_impl; [|done]. simpl. lia.
Qed.

(** ** The loops *)

Section extrema.
Context (this : KernelSpec.t) (data : list Z) (centerX centerY width height : Z).

Lemma max_channel_sound ch :
  raster_ok data width height → 0 ≤ ch ≤ 2 →
  channel (MaxFilter.calculateMaxValues this data centerX centerY width height) ch
  = Some (maxOf (windowValues data width height (KernelSpec.radius this) centerX centerY ch)).
Proof.
  intros Hok Hch. unfold MaxFilter.calculateMaxValues, maxOf.
  by apply (forKernel_rgb _ _ _ _ _ _ _ _
    MaxFilter.maxR MaxFilter.maxG MaxFilter.maxB Z.max 0).
Qed.

Lemma min_channel_sound ch :
  raster_ok data width height → 0 ≤ ch ≤ 2 →
  channel (MinFilter.calculateMinValues this data centerX centerY width height) ch
  = Some (minOf (windowValues data width height (KernelSpec.radius this) centerX centerY ch)).
Proof.
  intros Hok Hch. unfold MinFilter.calculateMinValues, minOf.
  by apply (forKernel_rgb _ _ _ _ _ _ _ _
    MinFilter.minR MinFilter.minG MinFilter.minB Z.min 255).
Qed.

End extrema.

(** The extrema do not depend on the order of the samples. *)
#[export] Instance maxOf_Permutation : Proper ((≡ₚ) ==> (=)) maxOf.
Proof. intros vs ws Hvs. apply foldl_Permutation; [lia|done]. Qed.

#[export] Instance minOf_Permutation : Proper ((≡ₚ) ==> (=)) minOf.
Proof. intros vs ws Hvs. apply foldl_Permutation; [lia|done]. Qed.

(** Both calculators are aggregators for every non-negative radius. *)
Definition max_aggregator (this : KernelSpec.t) (Hr : 0 ≤ KernelSpec.radius this)
  : Aggregator (MaxFilter.calculateMaxValues this) (KernelSpec.radius this) := {|
  agg_channel := maxOf;
  agg_radius := Hr;
  agg_sound data width height x y ch Hok _ _ Hch :=
    max_channel_sound this data x y width height ch Hok Hch;
  agg_between := maxOf_between
|}.

Definition min_aggregator (this : KernelSpec.t) (Hr : 0 ≤ KernelSpec.radius this)
  : Aggregator (MinFilter.calculateMinValues this) (KernelSpec.radius this) := {|
  agg_channel := minOf;
  agg_radius := Hr;
  agg_sound data width height x y ch Hok _ _ Hch :=
    min_channel_sound this data x y width height ch Hok Hch;
  agg_between := minOf_between
|}.

(** ** Properties *)

(** C11: on a well-formed raster and for a non-negative radius, each colour
    channel returned by [calculateMaxValues] is the greatest window value of
    that channel. *)
Theorem calculateMaxValues_spec (this : KernelSpec.t) (data : list Z)
    (centerX centerY width height ch : Z) :
  raster_ok data width height → 0 ≤ KernelSpec.radius this → 0 ≤ ch ≤ 2 →
  ∃ m, channel (MaxFilter.calculateMaxValues this data centerX centerY width height) ch
       = Some m
     ∧ is_greatest m
         (windowValues data width height (KernelSpec.radius this) centerX centerY ch).
Proof.
  intros Hok Hr Hch. eexists. split; [by apply max_channel_sound|].
  apply maxOf_greatest; [by apply windowValues_nonempty|].
  eapply List.Forall_impl; [|apply windowValues_bytes; (done || lia)].
  unfold byte. simpl. lia.
Qed.

Lemma calculateMaxValues_spec_witness :
  ∃ m, channel (MaxFilter.calculateMaxValues (KernelSpec.make 3 1)
                  [10; 20; 30; 255; 40; 50; 60; 255] 0 0 2 1) 1 = Some m
     ∧ is_greatest m (windowValues [10; 20; 30; 255; 40; 50; 60; 255] 2 1 1 0 0 1).
Proof.
  apply (calculateMaxValues_spec (KernelSpec.make 3 1)); [by_compute|simpl; lia|lia].
Defined.

(** On a well-formed raster and for a non-negative radius, each colour
    channel returned by [calculateMinValues] is the least window value of
    that channel. *)
Theorem calculateMinValues_spec (this : KernelSpec.t) (data : list Z)
    (centerX centerY width height ch : Z) :
  raster_ok data width height → 0 ≤ KernelSpec.radius this → 0 ≤ ch ≤ 2 →
  ∃ m, channel (MinFilter.calculateMinValues this data centerX centerY width height) ch
       = Some m
     ∧ is_least m
         (windowValues data width height (KernelSpec.radius this) centerX centerY ch).
Proof.
  intros Hok Hr Hch. eexists. split; [by apply min_channel_sound|].
  apply minOf_least; [by apply windowValues_nonempty|].
  eapply List.Forall_impl; [|apply windowValues_bytes; (done || lia)].
  unfold byte. simpl. lia.
Qed.

Lemma calculateMinValues_spec_witness :
  ∃ m, channel (MinFilter.calculateMinValues (KernelSpec.make 3 1)
                  [10; 20; 30; 255; 40; 50; 60; 255] 0 0 2 1) 1 = Some m
     ∧ is_least m (windowValues [10; 20; 30; 255; 40; 50; 60; 255] 2 1 1 0 0 1).
Proof.
  apply (calculateMinValues_spec (KernelSpec.make 3 1)); [by_compute|simpl; lia|lia].
Defined.
