(* ===== verification/Midpoint.v ===== *)
(** * The midpoint filter ([MidpointFilter], src/src/midPointFilter.js)

    One window loop keeps the three running minima and the three running
    maxima; the result is [Math.round((min + max) / 2)] per channel.
    [midpoint] is that value on a list;
    [MidpointFilter.calculateMidpointValuesNum] is the loop with the
    arithmetic of an instance of [Float64], which Binary64.v proves equal
    to the integer loop on doubles. *)

From Stdlib Require Import ZArith Lia.
From stdpp Require Import base tactics option list list_numbers numbers strings.
From S2P Require Import Prelude TypedArray Boundary Kernel Sweep Floats Canvas MinMax.

#[local] Open Scope Z_scope.

(** ** Definitions *)

(** Reference: the rounded mean of the least and the greatest value. *)
Definition midpoint (vs : list Z) : Z := round_div (minOf vs + maxOf vs) 2.

Module MidpointFilter.

Definition t := KernelSpec.t.

(** [constructor(kernelSize = 3)]. *)
Definition constructor (kernelSize : Z) : completion t :=
  KernelSpec.constructor kernelSize.

(** The local variables [minR .. minB] and [maxR .. maxB]. *)
Record extrema := mkExtrema {
  minR : jsnum; minG : jsnum; minB : jsnum;
  maxR : jsnum; maxG : jsnum; maxB : jsnum
}.

(** [calculateMidpointValues(data, centerX, centerY, width, height)]. *)
Definition calculateMidpointValues (this : t) (data : list Z)
    (centerX centerY width height : Z) : RGB :=
  let acc :=
    forKernel (KernelSpec.radius this)
      (λ acc dx dy,
        let index := sampleIndex width height centerX centerY dx dy in
        let r := u8get data index in
        let g := u8get data (index + 1) in
        let b := u8get data (index + 2) in
        mkExtrema (Math_min (minR acc) r) (Math_min (minG acc) g) (Math_min (minB acc) b)
                  (Math_max (maxR acc) r) (Math_max (maxG acc) g) (Math_max (maxB acc) b))
      (mkExtrema (Some 255) (Some 255) (Some 255) (Some 0) (Some 0) (Some 0)) in
  mkRGB (Math_round_div (minR acc +? maxR acc)%js 2)
        (Math_round_div (minG acc +? maxG acc)%js 2)
        (Math_round_div (minB acc +? maxB acc)%js 2).

(** [processImageData(imageData, originalData, width, height)]. *)
Definition processImageData (this : t) (data originalData : list Z)
    (width height : Z) : list Z :=
  Sweep.processImageData (calculateMidpointValues this) data originalData width height.

(** The local variables of the loop as numbers of the runtime. *)
Record extremaNum `{Float64} := mkExtremaNum {
  lowR : float; lowG : float; lowB : float;
  highR : float; highG : float; highB : float
}.
Arguments mkExtremaNum {_} _ _ _ _ _ _.

(** [calculateMidpointValues(data, centerX, centerY, width, height)] with
    the extrema, their sum and its half computed on the numbers of the
    runtime. *)
Definition calculateMidpointValuesNum `{Float64} (this : t) (data : list Z)
    (centerX centerY width height : Z) : RGB :=
  let acc :=
    forKernel (KernelSpec.radius this)
      (λ acc dx dy,
        let index := sampleIndex width height centerX centerY dx dy in
        let r := ofNum (u8get data index) in
        let g := ofNum (u8get data (index + 1)) in
        let b := ofNum (u8get data (index + 2)) in
        mkExtremaNum (fmin (lowR acc) r) (fmin (lowG acc) g) (fmin (lowB acc) b)
                     (fmax (highR acc) r) (fmax (highG acc) g) (fmax (highB acc) b))
      (mkExtremaNum (ofNum (Some 255)) (ofNum (Some 255)) (ofNum (Some 255))
                    (ofNum (Some 0)) (ofNum (Some 0)) (ofNum (Some 0))) in
  mkRGB (Math_round (fdiv (fadd (lowR acc) (highR acc)) (ofNum (Some 2))))
        (Math_round (fdiv (fadd (lowG acc) (highG acc)) (ofNum (Some 2))))
        (Math_round (fdiv (fadd (lowB acc) (highB acc)) (ofNum (Some 2)))).

(** [applyFilter(imageElement)]: rejects when the pixels cannot be read. *)
Definition applyFilter `{Browser} (this : t) (imageElement : ImageElement.t) : Outcome :=
  applyFilterOrReject (processImageData this) imageElement.

End MidpointFilter.

(** ** The reference *)

Lemma midpoint_between_extrema vs :
  minOf vs ≤ maxOf vs → minOf vs ≤ midpoint vs ≤ maxOf vs.
Proof. intros. unfold midpoint. apply round_div_bounds; lia. Qed.

Lemma midpoint_between vs lo hi :
  vs ≠ [] → 0 ≤ lo → hi ≤ 255 → Forall (λ v, lo ≤ v ≤ hi) vs → lo ≤ midpoint vs ≤ hi.
Proof.
  intros Hne Hlo Hhi Hvs. unfold midpoint.
  pose proof (minOf_between vs lo hi Hne Hlo Hhi Hvs).
  pose proof (maxOf_between vs lo hi Hne Hlo Hhi Hvs).
  apply round_div_bounds; lia.
Qed.

Lemma minOf_le_maxOf vs :
  vs ≠ [] → Forall byte vs → minOf vs ≤ maxOf vs.
Proof.
  intros Hne Hvs. apply (is_least_le_greatest _ _ vs).
  - apply minOf_least; [done|]. eapply List.Forall_impl; [|done]. unfold byte. simpl. lia.
  - apply maxOf_greatest; [done|]. eapply List.Forall_impl; [|done]. unfold byte. simpl. lia.
Qed.

(** ** The loop *)

Lemma midpoint_channel_sound (this : KernelSpec.t) data centerX centerY width height ch :
  raster_ok data width height → 0 ≤ ch ≤ 2 →
  channel (MidpointFilter.calculateMidpointValues this data centerX centerY width height) ch
  = Some (midpoint (windowValues data width height (KernelSpec.radius this) centerX centerY ch)).
Proof.
  intros Hok Hch. unfold MidpointFilter.calculateMidpointValues, midpoint, minOf, maxOf.
  rewrite (channel_map2 (λ lo hi, Math_round_div (lo +? hi)%js 2)).
  rewrite (forKernel_rgb _ _ _ _ _ _ _ _
    MidpointFilter.minR MidpointFilter.minG MidpointFilter.minB Z.min 255) by done.
  rewrite (forKernel_rgb _ _ _ _ _ _ _ _
    MidpointFilter.maxR MidpointFilter.maxG MidpointFilter.maxB Z.max 0) by done.
  done.
Qed.

(** The loop on numbers: each channel is the rounded half of the sum of
    the running minimum and the running maximum of the window samples. *)
Lemma midpointNum_channel_samples `{Float64} (this : KernelSpec.t) data
    centerX centerY width height ch :
  0 ≤ ch ≤ 2 →
  let samples := windowSamples data width height (KernelSpec.radius this) centerX centerY ch in
  channel (MidpointFilter.calculateMidpointValuesNum this data centerX centerY width height) ch
  = Math_round
      (fdiv (fadd (foldl (λ s v, fmin s (ofNum v)) (ofNum (Some 255)) samples)
                  (foldl (λ s v, fmax s (ofNum v)) (ofNum (Some 0)) samples))
         (ofNum (Some 2))).
Proof.
  intros Hch samples. unfold MidpointFilter.calculateMidpointValuesNum, channel, samples.
  set (body := λ acc dx dy, MidpointFilter.mkExtremaNum _ _ _ _ _ _).
  set (init := MidpointFilter.mkExtremaNum _ _ _ _ _ _).
  pose proof (λ p, forKernel_samples body init data width height (KernelSpec.radius this)
                     centerX centerY p (λ s v, fmin s (ofNum v))) as Hlow.
  pose proof (λ p, forKernel_samples body init data width height (KernelSpec.radius this)
                     centerX centerY p (λ s v, fmax s (ofNum v))) as Hhigh.
  simpl. repeat case_decide; subst;
    [rewrite (Hlow MidpointFilter.lowR 0), (Hhigh MidpointFilter.highR 0)
    |rewrite (Hlow MidpointFilter.lowG 1), (Hhigh MidpointFilter.highG 1)
    |assert (ch = 2) as -> by lia;
     rewrite (Hlow MidpointFilter.lowB 2), (Hhigh MidpointFilter.highB 2)];
    try done; intros; by rewrite ?Z.add_0_r.
Qed.

(** The midpoint does not depend on the order of the samples. *)
#[export] Instance midpoint_Permutation : Proper ((≡ₚ) ==> (=)) midpoint.
Proof. intros vs ws Hvs. unfold midpoint. by rewrite Hvs. Qed.

Definition midpoint_aggregator (this : KernelSpec.t) (Hr : 0 ≤ KernelSpec.radius this)
  : Aggregator (MidpointFilter.calculateMidpointValues this) (KernelSpec.radius this) := {|
  agg_channel := midpoint;
  agg_radius := Hr;
  agg_sound data width height x y ch Hok _ _ Hch :=
    midpoint_channel_sound this data x y width height ch Hok Hch;
  agg_between := midpoint_between
|}.

(** ** Properties *)

(** On a well-formed raster, each colour channel returned by
    [calculateMidpointValues] is the rounded mean of the running minimum and
    maximum of the window values of that channel. *)
Theorem calculateMidpointValues_spec (this : KernelSpec.t) (data : list Z)
    (centerX centerY width height : Z) :
  raster_ok data width height →
  MidpointFilter.calculateMidpointValues this data centerX centerY width height
  = mkRGB
      (Some (midpoint (windowValues data width height (KernelSpec.radius this) centerX centerY 0)))
      (Some (midpoint (windowValues data width height (KernelSpec.radius this) centerX centerY 1)))
      (Some (midpoint (windowValues data width height (KernelSpec.radius this) centerX centerY 2))).
Proof.
  intros Hok. etrans; [apply RGB_channels|].
  f_equal; apply midpoint_channel_sound; (done || lia).
Qed.

Lemma calculateMidpointValues_spec_witness :
  MidpointFilter.calculateMidpointValues (KernelSpec.make 3 1)
    [10; 20; 30; 255; 40; 50; 60; 255] 0 0 2 1
  = mkRGB
      (Some (midpoint (windowValues [10; 20; 30; 255; 40; 50; 60; 255] 2 1 1 0 0 0)))
      (Some (midpoint (windowValues [10; 20; 30; 255; 40; 50; 60; 255] 2 1 1 0 0 1)))
      (Some (midpoint (windowValues [10; 20; 30; 255; 40; 50; 60; 255] 2 1 1 0 0 2))).
Proof. apply (calculateMidpointValues_spec (KernelSpec.make 3 1)). by_compute. Defined.

(** C12: at every pixel and in every colour channel of a well-formed raster,
    for any non-negative radius, the minimum filter's value is at most the
    midpoint filter's, which is at most the maximum filter's. *)
Theorem min_midpoint_max_order (this : KernelSpec.t) (data : list Z)
    (centerX centerY width height ch : Z) :
  raster_ok data width height → 0 ≤ KernelSpec.radius this → 0 ≤ ch ≤ 2 →
  ∃ lo mid hi,
    channel (MinFilter.calculateMinValues this data centerX centerY width height) ch = Some lo
    ∧ channel (MidpointFilter.calculateMidpointValues this data centerX centerY width height) ch
      = Some mid
    ∧ channel (MaxFilter.calculateMaxValues this data centerX centerY width height) ch = Some hi
    ∧ lo ≤ mid ≤ hi.
Proof.
  intros Hok Hr Hch. do 3 eexists.
  split; [by apply min_channel_sound|]. split; [by apply midpoint_channel_sound|].
  split; [by apply max_channel_sound|].
  apply midpoint_between_extrema, minOf_le_maxOf; [by apply windowValues_nonempty|].
  apply windowValues_bytes; (done || lia).
Qed.

Lemma min_midpoint_max_order_witness :
  ∃ lo mid hi,
    channel (MinFilter.calculateMinValues (KernelSpec.make 3 1)
               [10; 20; 30; 255; 40; 50; 60; 255] 0 0 2 1) 0 = Some lo
    ∧ channel (MidpointFilter.calculateMidpointValues (KernelSpec.make 3 1)
               [10; 20; 30; 255; 40; 50; 60; 255] 0 0 2 1) 0 = Some mid
    ∧ channel (MaxFilter.calculateMaxValues (KernelSpec.make 3 1)
               [10; 20; 30; 255; 40; 50; 60; 255] 0 0 2 1) 0 = Some hi
    ∧ lo ≤ mid ≤ hi.
Proof.
  apply (min_midpoint_max_order (KernelSpec.make 3 1)); [by_compute|simpl; lia|lia].
Defined.

(** With a negative radius (a negative odd kernel size) the window is
    empty: the minimum filter returns 255, the midpoint filter 128 and the
    maximum filter 0, so the order Min <= Midpoint <= Max is reversed. *)
Theorem empty_window_reverses_order (this : KernelSpec.t) (data : list Z)
    (centerX centerY width height : Z) :
  KernelSpec.radius this < 0 →
  MinFilter.calculateMinValues this data centerX centerY width height
    = mkRGB (Some 255) (Some 255) (Some 255)
  ∧ MidpointFilter.calculateMidpointValues this data centerX centerY width height
    = mkRGB (Some 128) (Some 128) (Some 128)
  ∧ MaxFilter.calculateMaxValues this data centerX centerY width height
    = mkRGB (Some 0) (Some 0) (Some 0).
Proof.
  intros Hr.
  unfold MinFilter.calculateMinValues, MidpointFilter.calculateMidpointValues,
    MaxFilter.calculateMaxValues.
  by rewrite !forKernel_neg.
Qed.

Lemma empty_window_reverses_order_witness :
  MinFilter.calculateMinValues (KernelSpec.make (-3) (-2)) [1; 2; 3; 4] 0 0 1 1
    = mkRGB (Some 255) (Some 255) (Some 255)
  ∧ MidpointFilter.calculateMidpointValues (KernelSpec.make (-3) (-2)) [1; 2; 3; 4] 0 0 1 1
    = mkRGB (Some 128) (Some 128) (Some 128)
  ∧ MaxFilter.calculateMaxValues (KernelSpec.make (-3) (-2)) [1; 2; 3; 4] 0 0 1 1
    = mkRGB (Some 0) (Some 0) (Some 0).
Proof. apply (empty_window_reverses_order (KernelSpec.make (-3) (-2))). simpl. lia. Defined.
