(* ===== verification/Median.v ===== *)
(** * The median filter ([MedianFilter], src/src/medianFilter.js)

    The window loop fills one 256-bin [Uint16Array] histogram per channel;
    [findMedian] scans the cumulative counts up to the rank
    [floor(kernelSize^2 / 2) + 1].  The reference is the order statistic:
    [has_rank k m vs] says that [m] is the [k]-th smallest value of [vs], and
    it is related to the [k]-th entry of the sorted list. *)

From Stdlib Require Import ZArith Lia.
From stdpp Require Import base tactics option list list_numbers numbers strings sorting.
From S2P Require Import Prelude TypedArray Boundary Kernel Sweep Floats Canvas.

#[local] Open Scope Z_scope.

(** ** Definitions *)

(** How many values are at most [m], and how many equal [b]. *)
Definition countLe (m : Z) (vs : list Z) : Z := Z.of_nat (length (filter (λ v, v ≤ m) vs)).
Definition countEq (b : Z) (vs : list Z) : Z := Z.of_nat (length (filter (λ v, v = b) vs)).

(** Reference: [m] is the [k]-th smallest value of [vs] (ranks from 1). *)
Definition has_rank (k m : Z) (vs : list Z) : Prop :=
  countLe (m - 1) vs < k ≤ countLe m vs.

(** Reference: the middle entry of the sorted list. *)
Definition sortedMedian (vs : list Z) : Z :=
  default 255 (merge_sort Z.le vs !! (length vs `div` 2)%nat).

(** The running sum of the bins [0 .. i] with bin contents [cnt]. *)
Definition cumulative (cnt : Z → Z) (i : Z) : Z := sumZ (cnt <$> seqZ 0 (i + 1)).

(** The histogram of a list of reads. *)
Definition histogramOf (samples : list jsnum) : list Z :=
  foldl u16incr createHistogram samples.

Module MedianFilter.

Definition t := KernelSpec.t.

(** [constructor(kernelSize = 3)]. *)
Definition constructor (kernelSize : Z) : completion t :=
  KernelSpec.constructor kernelSize.

(** The local variables [histR], [histG], [histB]. *)
Record hists := mkHists { histR : list Z; histG : list Z; histB : list Z }.

(** The loop of [findMedian] over the remaining bins, with the running
    [sum]: [sum += hist[i]; if (sum >= medianIndex) return i;] and
    [return 255] after the loop. *)
Fixpoint findMedianLoop (hist : list Z) (medianIndex : Z) (sum : jsnum) (bins : list Z) : Z :=
  match bins with
  | [] => 255
  | i :: bins =>
      let sum := (sum +? u8get hist i)%js in
      if decide (sum >=? medianIndex)%js then i
      else findMedianLoop hist medianIndex sum bins
  end.

(** [findMedian(hist)]. *)
Definition findMedian (hist : list Z) (medianIndex : Z) : Z :=
  findMedianLoop hist medianIndex (Some 0) (seqZ 0 256).

(** [calculateMedianValues(data, centerX, centerY, width, height)]. *)
Definition calculateMedianValues (this : t) (data : list Z)
    (centerX centerY width height : Z) : RGB :=
  let totalPixels := KernelSpec.kernelSize this * KernelSpec.kernelSize this in
  let medianIndex := totalPixels / 2 + 1 in
  let acc :=
    forKernel (KernelSpec.radius this)
      (λ acc dx dy,
        let index := sampleIndex width height centerX centerY dx dy in
        mkHists (u16incr (histR acc) (u8get data index))
                (u16incr (histG acc) (u8get data (index + 1)))
                (u16incr (histB acc) (u8get data (index + 2))))
      (mkHists createHistogram createHistogram createHistogram) in
  mkRGB (Some (findMedian (histR acc) medianIndex))
        (Some (findMedian (histG acc) medianIndex))
        (Some (findMedian (histB acc) medianIndex)).

(** [processImageData(imageData, originalData, width, height)]. *)
Definition processImageData (this : t) (data originalData : list Z)
    (width height : Z) : list Z :=
  Sweep.processImageData (calculateMedianValues this) data originalData width height.

(** [applySimpleFilter(imageElement, canvas, ctx)]: the canvas redrawn
    through [blur(1px)]. *)
Definition applySimpleFilter `{Browser} (imageElement : ImageElement.t)
    (canvas : Canvas.t) : completion Canvas.t :=
  blurFallback (ofNum (Some 1)) imageElement canvas.

(** [applyFilter(imageElement)]. *)
Definition applyFilter `{Browser} (this : t) (imageElement : ImageElement.t) : Outcome :=
  applyFilterOrBlur applySimpleFilter (processImageData this) imageElement.

End MedianFilter.

(** Reference: the median of a list, through its histogram. *)
Definition median (vs : list Z) : Z :=
  MedianFilter.findMedian (histogramOf (Some <$> vs)) (Z.of_nat (length vs) / 2 + 1).

(** ** Counting *)

Lemma countLe_nonneg m vs : 0 ≤ countLe m vs.
Proof. unfold countLe. lia. Qed.

Lemma countEq_nonneg b vs : 0 ≤ countEq b vs.
Proof. unfold countEq. lia. Qed.

Lemma countLe_cons m v vs :
  countLe m (v :: vs) = (if decide (v ≤ m) then 1 else 0) + countLe m vs.
Proof. unfold countLe. rewrite filter_cons. case_decide; simpl; lia. Qed.

Lemma countEq_cons b v vs :
  countEq b (v :: vs) = (if decide (v = b) then 1 else 0) + countEq b vs.
Proof. unfold countEq. rewrite filter_cons. case_decide; simpl; lia. Qed.

Lemma countEq_app b l k : countEq b (l ++ k) = countEq b l + countEq b k.
Proof. unfold countEq. rewrite filter_app, length_app. lia. Qed.

Lemma countEq_replicate b n v :
  countEq b (replicate n v) = if decide (b = v) then Z.of_nat n else 0.
Proof.
  induction n as [|n IH]; [by case_decide|].
  simpl replicate. rewrite countEq_cons, IH. repeat case_decide; lia.
Qed.

Lemma countLe_le_length m vs : countLe m vs ≤ Z.of_nat (length vs).
Proof. unfold countLe. pose proof (length_filter (λ v, v ≤ m) vs). lia. Qed.

Lemma countEq_le_length b vs : countEq b vs ≤ Z.of_nat (length vs).
Proof. unfold countEq. pose proof (length_filter (λ v, v = b) vs). lia. Qed.

Lemma countLe_mono m n vs : m ≤ n → countLe m vs ≤ countLe n vs.
Proof.
  intros. induction vs as [|v vs IH]; [done|].
  rewrite !countLe_cons. repeat case_decide; lia.
Qed.

Lemma countLe_step m vs : countLe m vs = countLe (m - 1) vs + countEq m vs.
Proof.
  induction vs as [|v vs IH]; [done|].
  rewrite !countLe_cons, countEq_cons, IH. repeat case_decide; lia.
Qed.

Lemma countLe_below lo vs : Forall (λ v, lo ≤ v) vs → countLe (lo - 1) vs = 0.
Proof.
  induction 1 as [|v vs Hv _ IH]; [done|].
  rewrite countLe_cons, IH. case_decide; lia.
Qed.

Lemma countLe_above hi vs :
  Forall (λ v, v ≤ hi) vs → countLe hi vs = Z.of_nat (length vs).
Proof.
  induction 1 as [|v vs Hv _ IH]; [done|].
  rewrite countLe_cons, IH. case_decide; simpl; lia.
Qed.

Lemma countLe_Permutation m vs ws : vs ≡ₚ ws → countLe m vs = countLe m ws.
Proof. intros Hp. unfold countLe. by rewrite Hp. Qed.

(** ** The histogram *)

Lemma length_histogramOf samples : length (histogramOf samples) = 256%nat.
Proof.
  unfold histogramOf.
  apply (foldl_invariant (λ h, length h = 256%nat)); [done|].
  intros acc v _ <-. apply length_u16incr.
Qed.

(** Bin [b] holds the number of samples equal to [b], modulo [2^16]. *)
Lemma histogramOf_lookup vs (b : nat) :
  Forall byte vs → (b < 256)%nat →
  histogramOf (Some <$> vs) !! b = Some (countEq (Z.of_nat b) vs mod 65536).
Proof.
  intros Hvs Hb. unfold histogramOf.
  induction vs as [|v vs IH] using rev_ind.
  { simpl. unfold createHistogram. by rewrite lookup_replicate_2. }
  apply Forall_app in Hvs as [Hvs Hv%Forall_singleton]. unfold byte in Hv.
  rewrite fmap_app. change (Some <$> [v]) with [Some v].
  rewrite foldl_snoc, countEq_app, countEq_cons.
  destruct (decide (v = Z.of_nat b)) as [->|Hne].
  - rewrite (u16incr_lookup_eq _ _ _ (IH Hvs)).
    f_equal. replace (countEq (Z.of_nat b) [] ) with 0 by done.
    rewrite Z.add_0_r, Z.add_mod_idemp_l by lia. done.
  - rewrite u16incr_lookup_ne by congruence. rewrite IH by done.
    do 2 f_equal. replace (countEq (Z.of_nat b) []) with 0 by done. lia.
Qed.

Lemma histogramOf_get_wrap vs b :
  Forall byte vs → 0 ≤ b < 256 →
  u8get (histogramOf (Some <$> vs)) b = Some (countEq b vs mod 65536).
Proof.
  intros Hvs Hb. unfold u8get. rewrite decide_True by lia.
  by rewrite histogramOf_lookup, Z2Nat.id by (done || lia).
Qed.

(** Without wrap-around, reading bin [b] gives the count of [b]. *)
Lemma histogramOf_get vs b :
  Forall byte vs → Z.of_nat (length vs) < 65536 → 0 ≤ b < 256 →
  u8get (histogramOf (Some <$> vs)) b = Some (countEq b vs).
Proof.
  intros Hvs Hlen Hb. rewrite histogramOf_get_wrap by done.
  f_equal. apply Z.mod_small.
  pose proof (countEq_nonneg b vs). pose proof (countEq_le_length b vs). lia.
Qed.

(** ** The scan *)

Lemma cumulative_step cnt i :
  0 ≤ i → cumulative cnt i = cumulative cnt (i - 1) + cnt i.
Proof.
  intros. unfold cumulative. replace (i - 1 + 1) with i by lia.
  rewrite seqZ_snoc, Z.add_0_l, fmap_app, sumZ_app by lia. simpl. lia.
Qed.

Lemma cumulative_mono cnt i j :
  (∀ b, 0 ≤ cnt b) → -1 ≤ i ≤ j → cumulative cnt i ≤ cumulative cnt j.
Proof.
  intros Hcnt Hij. unfold cumulative.
  replace (j + 1) with ((i + 1) + (j - i)) by lia.
  rewrite (seqZ_app 0 (i + 1) (j - i)), fmap_app, sumZ_app by lia.
  assert (0 ≤ sumZ (cnt <$> seqZ (0 + (i + 1)) (j - i))); [|lia].
  apply sumZ_nonneg, Forall_fmap, Forall_true. intros b. apply Hcnt.
Qed.

(** The running sum of the exact counts is the number of values at most
    [i]. *)
Lemma cumulative_countLe vs i :
  Forall byte vs → -1 ≤ i → cumulative (λ b, countEq b vs) i = countLe i vs.
Proof.
  intros Hvs Hi. replace i with (Z.of_nat (Z.to_nat (i + 1)) - 1) by lia.
  induction (Z.to_nat (i + 1)) as [|n IH].
  - simpl. symmetry. apply (countLe_below 0).
    eapply List.Forall_impl; [|done]. unfold byte. simpl. lia.
  - rewrite cumulative_step, (countLe_step (Z.of_nat (S n) - 1)) by lia.
    replace (Z.of_nat (S n) - 1 - 1) with (Z.of_nat n - 1) by lia.
    by rewrite IH.
Qed.

(** When one bin only is not empty, the running sum is its content from
    that bin on. *)
Lemma cumulative_single cnt v c i :
  (∀ b, cnt b = if decide (b = v) then c else 0) → -1 ≤ i →
  cumulative cnt i = if decide (0 ≤ v ≤ i) then c else 0.
Proof.
  intros Hcnt Hi. replace i with (Z.of_nat (Z.to_nat (i + 1)) - 1) by lia.
  induction (Z.to_nat (i + 1)) as [|n IH].
  - simpl. by rewrite decide_False by lia.
  - rewrite cumulative_step by lia.
    replace (Z.of_nat (S n) - 1 - 1) with (Z.of_nat n - 1) by lia.
    rewrite IH, Hcnt. repeat case_decide; lia.
Qed.

Section scan.
Context (hist : list Z) (cnt : Z → Z) (k : Z).
Context (Hhist : ∀ b, 0 ≤ b < 256 → u8get hist b = Some (cnt b)).
Context (Hcnt : ∀ b, 0 ≤ cnt b).

(** The loop from bin [i] over [n] bins, entered with the running sum of the
    bins below [i]: it returns the first bin at which the running sum reaches
    [k], and 255 when none of its bins does. *)
Lemma findMedianLoop_spec (n : nat) (i : Z) :
  0 ≤ i → i + Z.of_nat n ≤ 256 → cumulative cnt (i - 1) < k →
  let m := MedianFilter.findMedianLoop hist k (Some (cumulative cnt (i - 1)))
             (seqZ i (Z.of_nat n)) in
  (k ≤ cumulative cnt (i + Z.of_nat n - 1) →
     i ≤ m < i + Z.of_nat n ∧ cumulative cnt (m - 1) < k ≤ cumulative cnt m)
  ∧ (cumulative cnt (i + Z.of_nat n - 1) < k → m = 255).
Proof.
  revert i. induction n as [|n IH]; intros i Hi Hn Hlt; simpl.
  { replace (i + Z.of_nat 0 - 1) with (i - 1) by lia. split; [lia|done]. }
  rewrite seqZ_cons by lia. simpl.
  rewrite Hhist by lia. simpl. rewrite <-cumulative_step by lia.
  replace (Z.pred (Z.of_nat (S n))) with (Z.of_nat n) by lia.
  case_decide as Hge; simpl in Hge.
  - pose proof (cumulative_mono cnt i (i + Z.of_nat (S n) - 1) Hcnt ltac:(lia)).
    split; [|lia]. intros _. lia.
  - replace (cumulative cnt i) with (cumulative cnt (Z.succ i - 1)) by (f_equal; lia).
    destruct (IH (Z.succ i)) as [IH1 IH2];
      [lia|lia|replace (Z.succ i - 1) with i by lia; lia|].
    replace (Z.succ i + Z.of_nat n - 1) with (i + Z.of_nat (S n) - 1) in * by lia.
    split; [|done]. intros Hk. destruct (IH1 Hk). split; [lia|done].
Qed.

(** [findMedian] for a positive rank. *)
Lemma findMedian_spec :
  0 < k →
  let m := MedianFilter.findMedian hist k in
  (k ≤ cumulative cnt 255 → 0 ≤ m < 256 ∧ cumulative cnt (m - 1) < k ≤ cumulative cnt m)
  ∧ (cumulative cnt 255 < k → m = 255).
Proof.
  intros Hk. unfold MedianFilter.findMedian.
  by apply (findMedianLoop_spec 256 0).
Qed.

End scan.

(** On the histogram of fewer than [2^16] bytes, [findMedian] returns the
    value of rank [k], for every rank [k] that exists. *)
Lemma findMedian_rank vs k :
  Forall byte vs → Z.of_nat (length vs) < 65536 → 0 < k ≤ Z.of_nat (length vs) →
  0 ≤ MedianFilter.findMedian (histogramOf (Some <$> vs)) k < 256
  ∧ has_rank k (MedianFilter.findMedian (histogramOf (Some <$> vs)) k) vs.
Proof.
  intros Hvs Hlen Hk.
  destruct (findMedian_spec (histogramOf (Some <$> vs)) (λ b, countEq b vs) k
              (λ b, histogramOf_get vs b Hvs Hlen) (λ b, countEq_nonneg b vs))
    as [Hfound _]; [lia|].
  rewrite cumulative_countLe, countLe_above in Hfound
    by (done || lia || (eapply List.Forall_impl; [|done]; unfold byte; simpl; lia)).
  destruct Hfound as [Hm Hr]; [lia|]. split; [done|].
  unfold has_rank. by rewrite <-!cumulative_countLe by (done || lia).
Qed.

(** ** Ranks *)

Lemma has_rank_unique k m m' vs : has_rank k m vs → has_rank k m' vs → m = m'.
Proof.
  unfold has_rank. intros Hm Hm'.
  destruct (Z.lt_trichotomy m m') as [Hlt|[->|Hlt]]; [|done|].
  - pose proof (countLe_mono m (m' - 1) vs ltac:(lia)). lia.
  - pose proof (countLe_mono m' (m - 1) vs ltac:(lia)). lia.
Qed.

Lemma has_rank_Permutation k m vs ws : vs ≡ₚ ws → has_rank k m vs → has_rank k m ws.
Proof.
  unfold has_rank. intros Hp.
  by rewrite (countLe_Permutation _ vs ws), (countLe_Permutation m vs ws).
Qed.

(** A value of an existing rank lies between any bounds of the list. *)
Lemma has_rank_between k m vs lo hi :
  Forall (λ v, lo ≤ v ≤ hi) vs → 0 < k ≤ Z.of_nat (length vs) → has_rank k m vs →
  lo ≤ m ≤ hi.
Proof.
  unfold has_rank. intros Hvs Hk Hm.
  assert (countLe (lo - 1) vs = 0) as Hlo
    by (apply countLe_below; eapply List.Forall_impl; [|done]; simpl; lia).
  assert (countLe hi vs = Z.of_nat (length vs)) as Hhi
    by (apply countLe_above; eapply List.Forall_impl; [|done]; simpl; lia).
  split.
  - destruct (decide (lo ≤ m)); [done|].
    pose proof (countLe_mono m (lo - 1) vs ltac:(lia)). lia.
  - destruct (decide (m ≤ hi)); [done|].
    pose proof (countLe_mono hi (m - 1) vs ltac:(lia)). lia.
Qed.

(** In a sorted list the entry at position [i] has rank [i + 1]. *)
Lemma sorted_rank l (i : nat) m :
  StronglySorted Z.le l → l !! i = Some m → has_rank (Z.of_nat i + 1) m l.
Proof.
  unfold has_rank. intros Hl. revert i.
  induction Hl as [|x l _ IH Hx]; intros i Hi; [done|].
  rewrite !countLe_cons. destruct i as [|i]; simpl in Hi.
  - injection Hi as ->. rewrite (countLe_below m) by done.
    pose proof (countLe_nonneg m l). rewrite decide_False, decide_True by lia. lia.
  - specialize (IH i Hi). apply (Forall_lookup_1 _ _ _ _ Hx) in Hi.
    rewrite (decide_True (P := x ≤ m)) by done. case_decide; lia.
Qed.

(** The inliers between [lo] and [hi], through the two counts. *)
Lemma count_range lo hi vs :
  lo ≤ hi + 1 →
  Z.of_nat (length (filter (λ v, lo ≤ v ≤ hi) vs)) = countLe hi vs - countLe (lo - 1) vs.
Proof.
  intros. induction vs as [|v vs IH]; [done|].
  rewrite filter_cons, !countLe_cons. repeat case_decide; simpl; lia.
Qed.

(** ** The window loop *)

Section median.
Context (this : MedianFilter.t) (data : list Z) (centerX centerY width height : Z).

(** Each channel of the result is [findMedian] of the histogram of the
    window's reads of that channel. *)
Lemma median_channel_histogram ch :
  0 ≤ ch ≤ 2 →
  channel (MedianFilter.calculateMedianValues this data centerX centerY width height) ch
  = Some (MedianFilter.findMedian
      (histogramOf (windowSamples data width height (KernelSpec.radius this) centerX centerY ch))
      (KernelSpec.kernelSize this * KernelSpec.kernelSize this / 2 + 1)).
Proof.
  intros Hch. unfold MedianFilter.calculateMedianValues, histogramOf.
  set (body := λ acc dx dy, MedianFilter.mkHists _ _ _).
  set (init := MedianFilter.mkHists _ _ _).
  assert (ch = 0 ∨ ch = 1 ∨ ch = 2) as [-> | [-> | ->]] by lia; simpl; do 2 f_equal.
  - rewrite (forKernel_samples body init data width height _ centerX centerY
               MedianFilter.histR u16incr 0); [done|].
    intros. simpl. by rewrite Z.add_0_r.
  - by rewrite (forKernel_samples body init data width height _ centerX centerY
                  MedianFilter.histG u16incr 1).
  - by rewrite (forKernel_samples body init data width height _ centerX centerY
                  MedianFilter.histB u16incr 2).
Qed.

End median.

(** ** The median of a list *)

Lemma median_rank vs :
  Forall byte vs → 0 < Z.of_nat (length vs) < 65536 →
  0 ≤ median vs < 256 ∧ has_rank (Z.of_nat (length vs) / 2 + 1) (median vs) vs.
Proof.
  intros Hvs Hlen. apply findMedian_rank; [done|lia|].
  Z.div_mod_to_equations. lia.
Qed.

(** The histogram scan computes the middle entry of the sorted list. *)
Lemma median_sorted vs :
  Forall byte vs → 0 < Z.of_nat (length vs) < 65536 → median vs = sortedMedian vs.
Proof.
  intros Hvs Hlen. unfold sortedMedian.
  destruct (lookup_lt_is_Some_2 (merge_sort Z.le vs) (length vs `div` 2)) as [m Hm].
  { rewrite merge_sort_Permutation. apply Nat.div_lt; lia. }
  rewrite Hm. simpl.
  apply (has_rank_unique (Z.of_nat (length vs) / 2 + 1) _ _ vs); [by apply median_rank|].
  apply (has_rank_Permutation _ _ (merge_sort Z.le vs)); [apply merge_sort_Permutation|].
  replace (Z.of_nat (length vs) / 2) with (Z.of_nat (length vs `div` 2))
    by (rewrite Nat2Z.inj_div; done).
  apply sorted_rank; [apply StronglySorted_merge_sort; apply _|done].
Qed.

Lemma sortedMedian_between vs lo hi :
  vs ≠ [] → 0 ≤ lo → hi ≤ 255 → Forall (λ v, lo ≤ v ≤ hi) vs → lo ≤ sortedMedian vs ≤ hi.
Proof.
  intros Hne _ _ Hvs. unfold sortedMedian.
  destruct (lookup_lt_is_Some_2 (merge_sort Z.le vs) (length vs `div` 2)) as [m Hm].
  { rewrite merge_sort_Permutation. apply Nat.div_lt; [|lia]. destruct vs; [done|simpl; lia]. }
  rewrite Hm. simpl. apply (Forall_elem_of _ vs m Hvs).
  rewrite <-(merge_sort_Permutation Z.le). by eapply list_elem_of_lookup_2.
Qed.

(** A filter built by the constructor from a size below 256 counts without
    wrap-around: each channel is the middle entry of the sorted window. *)
Lemma median_channel_sound (this : MedianFilter.t) data centerX centerY width height ch :
  raster_ok data width height →
  0 ≤ KernelSpec.radius this ≤ 127 →
  KernelSpec.kernelSize this = 2 * KernelSpec.radius this + 1 →
  0 ≤ ch ≤ 2 →
  channel (MedianFilter.calculateMedianValues this data centerX centerY width height) ch
  = Some (sortedMedian
      (windowValues data width height (KernelSpec.radius this) centerX centerY ch)).
Proof.
  intros Hok Hr Hk Hch. rewrite median_channel_histogram by done.
  rewrite windowSamples_values by (done || lia). f_equal.
  pose proof (length_windowValues data width height _ centerX centerY ch (proj1 Hr)) as Hn.
  rewrite <-median_sorted by (by apply windowValues_bytes; [|lia]) || nia.
  unfold median. do 2 f_equal. rewrite Hn, Hk. f_equal. lia.
Qed.

(** The middle entry of the sorted window does not depend on the order of
    the samples, and neither does the histogram scan. *)
#[export] Instance sortedMedian_Permutation : Proper ((≡ₚ) ==> (=)) sortedMedian.
Proof.
  intros vs ws Hvs. unfold sortedMedian. rewrite (Permutation_length Hvs).
  do 2 f_equal. apply (Sorted_unique Z.le); [apply Sorted_merge_sort; apply _..|].
  by rewrite !merge_sort_Permutation.
Qed.

Definition median_aggregator (this : MedianFilter.t)
    (Hr : 0 ≤ KernelSpec.radius this ≤ 127)
    (Hk : KernelSpec.kernelSize this = 2 * KernelSpec.radius this + 1)
  : Aggregator (MedianFilter.calculateMedianValues this) (KernelSpec.radius this) := {|
  agg_channel := sortedMedian;
  agg_radius := proj1 Hr;
  agg_sound data width height x y ch Hok _ _ Hch :=
    median_channel_sound this data x y width height ch Hok Hr Hk Hch;
  agg_between := sortedMedian_between
|}.

(** ** Properties *)

(** C3: for a kernel size below 256 on a well-formed raster, the histogram
    scan of the window loop returns in each colour channel the middle entry
    of the sorted window values. *)
Theorem calculateMedianValues_spec (this : MedianFilter.t) (data : list Z)
    (centerX centerY width height : Z) :
  raster_ok data width height →
  0 ≤ KernelSpec.radius this ≤ 127 →
  KernelSpec.kernelSize this = 2 * KernelSpec.radius this + 1 →
  MedianFilter.calculateMedianValues this data centerX centerY width height
  = mkRGB
      (Some (sortedMedian
         (windowValues data width height (KernelSpec.radius this) centerX centerY 0)))
      (Some (sortedMedian
         (windowValues data width height (KernelSpec.radius this) centerX centerY 1)))
      (Some (sortedMedian
         (windowValues data width height (KernelSpec.radius this) centerX centerY 2))).
Proof.
  intros Hok Hr Hk. etrans; [apply RGB_channels|].
  f_equal; apply median_channel_sound; (done || lia).
Qed.

Lemma calculateMedianValues_spec_witness :
  MedianFilter.calculateMedianValues (KernelSpec.make 3 1)
    [10; 20; 30; 255; 40; 50; 60; 255] 0 0 2 1
  = mkRGB
      (Some (sortedMedian (windowValues [10; 20; 30; 255; 40; 50; 60; 255] 2 1 1 0 0 0)))
      (Some (sortedMedian (windowValues [10; 20; 30; 255; 40; 50; 60; 255] 2 1 1 0 0 1)))
      (Some (sortedMedian (windowValues [10; 20; 30; 255; 40; 50; 60; 255] 2 1 1 0 0 2))).
Proof.
  apply (calculateMedianValues_spec (KernelSpec.make 3 1)); [by_compute|simpl; lia|done].
Defined.

(** On fewer than [2^16] bytes [findMedian] returns a byte, and it is
    the order statistic of rank [floor(N / 2) + 1]: fewer than that many
    values are smaller, and at least that many are not larger. *)
Theorem median_order_statistic (vs : list Z) :
  Forall byte vs → 0 < Z.of_nat (length vs) < 65536 →
  byte (median vs)
  ∧ countLe (median vs - 1) vs < Z.of_nat (length vs) / 2 + 1 ≤ countLe (median vs) vs.
Proof.
  intros Hvs Hlen. destruct (median_rank vs Hvs Hlen) as [Hb Hr].
  split; [unfold byte; lia|done].
Qed.

Lemma median_order_statistic_witness :
  byte (median [9; 200; 3; 3; 77])
  ∧ countLe (median [9; 200; 3; 3; 77] - 1) [9; 200; 3; 3; 77]
    < Z.of_nat (length [9; 200; 3; 3; 77]) / 2 + 1
    ≤ countLe (median [9; 200; 3; 3; 77]) [9; 200; 3; 3; 77].
Proof. apply (median_order_statistic [9; 200; 3; 3; 77]); [by_compute|simpl; lia]. Defined.

(** C10: outliers are suppressed: when more than half of the values lie
    between [lo] and [hi], so does the median, whatever the other values
    are. *)
Theorem median_suppresses_outliers (vs : list Z) (lo hi : Z) :
  Forall byte vs → 0 < Z.of_nat (length vs) < 65536 → lo ≤ hi →
  Z.of_nat (length vs) < 2 * Z.of_nat (length (filter (λ v, lo ≤ v ≤ hi) vs)) →
  lo ≤ median vs ≤ hi.
Proof.
  intros Hvs Hlen Hlohi Hmaj. rewrite count_range in Hmaj by lia.
  destruct (median_rank vs Hvs Hlen) as [_ [Hlt Hle]].
  pose proof (countLe_nonneg (lo - 1) vs). pose proof (countLe_le_length hi vs).
  split.
  - destruct (decide (lo ≤ median vs)); [done|].
    pose proof (countLe_mono (median vs) (lo - 1) vs ltac:(lia)).
    Z.div_mod_to_equations. lia.
  - destruct (decide (median vs ≤ hi)); [done|].
    pose proof (countLe_mono hi (median vs - 1) vs ltac:(lia)).
    Z.div_mod_to_equations. lia.
Qed.

Lemma median_suppresses_outliers_witness :
  80 ≤ median [80; 80; 255; 80; 80; 80; 0; 80; 80] ≤ 80.
Proof.
  apply (median_suppresses_outliers [80; 80; 255; 80; 80; 80; 0; 80; 80] 80 80);
    [by_compute|simpl; lia|lia|simpl; lia].
Defined.

(** A window loop that runs no iteration (a negative radius) leaves the
    histograms empty, and [findMedian] falls through to its final
    [return 255] in every channel. *)
Theorem median_empty_window (this : MedianFilter.t) (data : list Z)
    (centerX centerY width height : Z) :
  KernelSpec.radius this < 0 →
  MedianFilter.calculateMedianValues this data centerX centerY width height
  = mkRGB (Some 255) (Some 255) (Some 255).
Proof.
  intros Hr. unfold MedianFilter.calculateMedianValues.
  rewrite forKernel_neg by done. simpl.
  assert (0 < KernelSpec.kernelSize this * KernelSpec.kernelSize this / 2 + 1) as Hk
    by (Z.div_mod_to_equations; nia).
  destruct (findMedian_spec createHistogram (λ _, 0) _
              (λ b Hb, eq_trans (histogramOf_get [] b (Forall_nil_2 _) ltac:(simpl; lia) Hb) eq_refl)
              (λ _, Z.le_refl 0) Hk) as [_ Hnone].
  rewrite Hnone; [done|].
  rewrite (cumulative_single _ 0 0) by (intros; by case_decide) || lia. case_decide; lia.
Qed.

Lemma median_empty_window_witness :
  MedianFilter.calculateMedianValues (KernelSpec.make (-3) (-2)) [7; 7; 7; 255] 0 0 1 1
  = mkRGB (Some 255) (Some 255) (Some 255).
Proof. apply (median_empty_window (KernelSpec.make (-3) (-2))). simpl. lia. Defined.

(** C31: the 16-bit bins wrap: on [n] copies of one byte, whenever
    [n mod 2^16] is below the rank [floor(n / 2) + 1] the scan never reaches
    the rank and the result is 255, whatever the byte. *)
Theorem median_histogram_wraps (n : nat) (v : Z) :
  byte v → Z.of_nat n mod 65536 < Z.of_nat n / 2 + 1 →
  median (replicate n v) = 255.
Proof.
  intros Hv Hn. unfold median. rewrite length_replicate.
  assert (0 < Z.of_nat n / 2 + 1) as Hk by (Z.div_mod_to_equations; lia).
  destruct (findMedian_spec (histogramOf (Some <$> replicate n v))
              (λ b, if decide (b = v) then Z.of_nat n mod 65536 else 0)
              (Z.of_nat n / 2 + 1)) as [_ Hnone]; [| |done|].
  - intros b Hb. rewrite histogramOf_get_wrap by (by apply Forall_replicate || done).
    rewrite countEq_replicate. by case_decide.
  - intros b. case_decide; [|done]. by apply Z.mod_pos.
  - apply Hnone. rewrite (cumulative_single _ v (Z.of_nat n mod 65536)) by (done || lia).
    case_decide; lia.
Qed.

Lemma median_histogram_wraps_witness : median (replicate (Z.to_nat 66049) 7) = 255.
Proof. apply (median_histogram_wraps (Z.to_nat 66049) 7); [by_compute|by_compute]. Defined.

(** A filter of kernel size 257 on a 1 x 1 image counts 66049 reads of the
    one pixel and returns 255 in every channel. *)
Example median_kernel257_example :
  MedianFilter.calculateMedianValues (KernelSpec.make 257 128) [7; 7; 7; 255] 0 0 1 1
  = mkRGB (Some 255) (Some 255) (Some 255).
Proof. vm_compute. done. Qed.

(** The median of the window at the corner of a 3 x 3 raster. *)
Example median_corner_example :
  MedianFilter.calculateMedianValues (KernelSpec.make 3 1)
    [ 10; 0; 0; 255;   20; 0; 0; 255;   30; 0; 0; 255;
      40; 0; 0; 255;   50; 0; 0; 255;   60; 0; 0; 255;
      70; 0; 0; 255;   80; 0; 0; 255;   90; 0; 0; 255 ] 0 0 3 3
  = mkRGB (Some 40) (Some 0) (Some 0).
Proof. vm_compute. done. Qed.
