(* ===== verification/Pipeline.v ===== *)
(** * The contract of the aggregating filters

    What [processImageData] guarantees for every calculator that meets the
    interface [Aggregator] (Sweep.v): each colour byte of the output is the
    aggregate of the window around its pixel, the output of a channel stays
    within the range of the input of that channel, and a uniform raster is
    left unchanged.  The mean, minimum, maximum, midpoint and median
    calculators are instances, so each statement holds for the five
    filters.  The contract asks for a radius that is not negative; the last
    section says what the five filters write when it is. *)

From Stdlib Require Import ZArith Lia.
From stdpp Require Import base tactics option list list_numbers numbers strings.
From S2P Require Import Prelude TypedArray Boundary Kernel Sweep Floats Canvas.
From S2P Require Import Mean MinMax Midpoint Median.

#[local] Open Scope Z_scope.

(** ** Definitions *)

(** The pixels [applyFilter] puts back on the canvas: [originalData] is a
    copy of [imageData.data], and [processImageData] overwrites the
    latter. *)
Definition filterRaster (calc : Calculator) (data : list Z) (width height : Z) : list Z :=
  let originalData := data in
  processImageData calc data originalData width height.

(** The bytes of channel [ch] of a raster, pixel by pixel. *)
Definition channelValues (data : list Z) (ch : Z) : list Z :=
  omap (λ p, u8get data (p * 4 + ch)) (seqZ 0 (Z.of_nat (length data) / 4)).

(** ** Channels of a raster *)

Lemma channelValues_Forall (P : Z → Prop) data width height ch i v :
  raster_ok data width height → Forall P (channelValues data ch) → 0 ≤ ch ≤ 3 →
  i mod 4 = 0 → u8get data (i + ch) = Some v → P v.
Proof.
  intros (_ & _ & Hlen & _) HP Hch Hi Hv. apply (Forall_elem_of _ _ v HP).
  apply list_elem_of_omap. exists (i / 4).
  replace (i / 4 * 4) with i by (Z.div_mod_to_equations; lia). split; [|done].
  apply u8get_Some in Hv as [H0 Hlt%lookup_lt_Some].
  apply elem_of_seqZ. rewrite Hlen, Z.div_mul by lia.
  Z.div_mod_to_equations. lia.
Qed.

Lemma uniform_read c width height i ch v :
  0 ≤ ch ≤ 3 → i mod 4 = 0 → u8get (uniform c width height) (i + ch) = Some v → v = c ch.
Proof.
  intros Hch Hi Hv. pose proof Hv as [H0 Hlt%lookup_lt_Some]%u8get_Some.
  rewrite length_uniform in Hlt. rewrite uniform_get in Hv by lia.
  injection Hv as <-. f_equal. Z.div_mod_to_equations. lia.
Qed.

(** A sweep whose calculator returns, in a colour channel, bytes between
    [lo] and [hi] yields a raster whose channel lies between them. *)
Lemma filterSpec_within (calc : Calculator) data width height ch lo hi :
  0 < width → 0 < height → 0 ≤ ch ≤ 2 → 0 ≤ lo → hi ≤ 255 →
  (∀ x y, 0 ≤ x < width → 0 ≤ y < height →
     ∃ v, channel (calc data x y width height) ch = Some v ∧ lo ≤ v ≤ hi) →
  Forall (λ v, lo ≤ v ≤ hi) (channelValues (filterSpec calc data width height) ch).
Proof.
  intros Hw Hh Hch Hlo Hhi Hcalc. apply list.Forall_forall. intros v Hv.
  apply list_elem_of_omap in Hv as (p & Hp%elem_of_seqZ & Hget).
  rewrite length_filterSpec, Z2Nat.id, Z.div_mul in Hp by nia.
  rewrite filterSpec_get in Hget by nia. injection Hget as <-.
  unfold outputByte, pixelByte.
  replace ((p * 4 + ch) `div` 4) with p by (Z.div_mod_to_equations; lia).
  replace ((p * 4 + ch) `mod` 4) with ch by (Z.div_mod_to_equations; lia).
  rewrite decide_False by lia.
  destruct (Hcalc (p `mod` width) (p `div` width)) as (v & -> & Hv).
  - apply Z.mod_pos_bound; lia.
  - split; [apply Z.div_pos; lia|apply Z.div_lt_upper_bound; lia].
  - rewrite ToUint8Clamp_id; [done|unfold byte; lia].
Qed.

(** ** The contract of the sweep *)

Section contract.
Context (calc : Calculator) (radius : Z) `{!Aggregator calc radius}.
Context (data : list Z) (width height : Z).
Context (Hok : raster_ok data width height).

Lemma agg_channel_byte x y ch :
  0 ≤ ch ≤ 2 → byte (agg_channel (windowValues data width height radius x y ch)).
Proof.
  intros. apply agg_between; [apply windowValues_nonempty, agg_radius|done|done|].
  apply windowValues_bytes; [done|lia].
Qed.

(** Reading a colour byte of the result. *)
Lemma aggregator_get x y ch :
  0 ≤ x < width → 0 ≤ y < height → 0 ≤ ch ≤ 2 →
  u8get (filterRaster calc data width height) ((y * width + x) * 4 + ch)
  = Some (agg_channel (windowValues data width height radius x y ch)).
Proof.
  intros Hx Hy Hch. unfold filterRaster. rewrite processImageData_get by (apply Hok || lia).
  unfold pixelByte. rewrite decide_False, agg_sound by (done || lia).
  f_equal. by apply ToUint8Clamp_id, agg_channel_byte.
Qed.

Lemma aggregator_between x y ch lo hi :
  0 ≤ lo → hi ≤ 255 → 0 ≤ ch ≤ 2 → Forall (λ v, lo ≤ v ≤ hi) (channelValues data ch) →
  lo ≤ agg_channel (windowValues data width height radius x y ch) ≤ hi.
Proof.
  intros Hlo Hhi Hch Hvs.
  apply agg_between; [apply windowValues_nonempty, agg_radius|done|done|].
  apply windowValues_Forall; [done|lia|].
  intros i v. apply (channelValues_Forall _ data width height ch i v Hok Hvs). lia.
Qed.

End contract.

(** A uniform raster is a fixed point of every aggregating filter. *)
Lemma aggregator_uniform calc radius `{!Aggregator calc radius} c width height :
  0 < width → 0 < height → (∀ ch, byte (c ch)) →
  filterRaster calc (uniform c width height) width height
  = uniform c width height.
Proof.
  intros Hw Hh Hc. pose proof (uniform_raster_ok c width height Hw Hh Hc) as Hok.
  unfold filterRaster. apply processImageData_fixpoint; [done|]. intros x y ch Hx Hy Hch.
  rewrite agg_sound, uniform_get by (done || nia).
  replace (((y * width + x) * 4 + ch) mod 4) with ch by (Z.div_mod_to_equations; lia).
  f_equal. assert (c ch ≤ agg_channel
    (windowValues (uniform c width height) width height radius x y ch) ≤ c ch); [|lia].
  apply agg_between; [apply windowValues_nonempty, agg_radius|apply Hc..|].
  apply windowValues_Forall; [done|lia|].
  intros i v Hi Hv. apply uniform_read in Hv; lia.
Qed.

(** The filtered buffer is again a well-formed raster. *)
Lemma processed_raster_ok calc data width height :
  raster_ok data width height →
  raster_ok (filterRaster calc data width height) width height.
Proof.
  intros (Hw & Hh & Hlen & Hb). repeat split; [done..| |].
  - unfold filterRaster, processImageData. by rewrite length_copyInto.
  - unfold filterRaster, processImageData. by apply is_bytes_copyInto.
Qed.

(** On a well-formed raster the filtered buffer is the pointwise
    reference. *)
Lemma filterRaster_filterSpec calc data width height :
  raster_ok data width height →
  filterRaster calc data width height = filterSpec calc data width height.
Proof.
  intros (Hw & Hh & Hlen & _). unfold filterRaster.
  by rewrite processImageData_filterSpec by lia.
Qed.

(** ** Properties *)

(** C5: for every calculator that meets the interface [Aggregator], each
    colour byte of the filtered raster is the aggregate of the window values
    around its pixel, stored without clamping. *)
Theorem filtered_pixel_is_window_aggregate (calc : Calculator) (radius : Z)
    `{!Aggregator calc radius} (data : list Z) (width height x y ch : Z) :
  raster_ok data width height → 0 ≤ x < width → 0 ≤ y < height → 0 ≤ ch ≤ 2 →
  u8get (filterRaster calc data width height) ((y * width + x) * 4 + ch)
  = Some (agg_channel (windowValues data width height radius x y ch)).
Proof. intros. by apply aggregator_get. Qed.

Lemma filtered_pixel_is_window_aggregate_witness :
  u8get (filterRaster (MeanFilter.calculateMeanValues (KernelSpec.make 3 1))
           [10; 20; 30; 255; 40; 50; 60; 255] 2 1)
        ((0 * 2 + 1) * 4 + 2)
  = Some (mean (windowValues [10; 20; 30; 255; 40; 50; 60; 255] 2 1 1 1 0 2)).
Proof.
  apply (filtered_pixel_is_window_aggregate _ _
           (Aggregator0 := mean_aggregator (KernelSpec.make 3 1) ltac:(simpl; lia)));
    [by_compute|lia..].
Defined.

(** C30: no aggregating filter widens the range of a channel: when every
    byte of a colour channel of the input lies between [lo] and [hi], so does
    every byte of that channel of the output. *)
Theorem filtered_channel_within_range (calc : Calculator) (radius : Z)
    `{!Aggregator calc radius} (data : list Z) (width height x y ch lo hi : Z) :
  raster_ok data width height → 0 ≤ x < width → 0 ≤ y < height → 0 ≤ ch ≤ 2 →
  0 ≤ lo → hi ≤ 255 → Forall (λ v, lo ≤ v ≤ hi) (channelValues data ch) →
  ∃ v, u8get (filterRaster calc data width height) ((y * width + x) * 4 + ch)
       = Some v ∧ lo ≤ v ≤ hi.
Proof.
  intros Hok Hx Hy Hch Hlo Hhi Hvs. eexists. split; [by apply aggregator_get|].
  by apply aggregator_between.
Qed.

Lemma filtered_channel_within_range_witness :
  ∃ v, u8get (filterRaster (MedianFilter.calculateMedianValues (KernelSpec.make 3 1))
                [10; 20; 30; 255; 40; 50; 60; 255] 2 1)
         ((0 * 2 + 1) * 4 + 0)
       = Some v ∧ 10 ≤ v ≤ 40.
Proof.
  apply (filtered_channel_within_range _ _
           (Aggregator0 := median_aggregator (KernelSpec.make 3 1)
                             ltac:(simpl; lia) ltac:(done)));
    [by_compute|lia..|by_compute].
Defined.

(** C21: a raster of one colour is a fixed point of every aggregating
    filter. *)
Theorem uniform_raster_unchanged (calc : Calculator) (radius : Z)
    `{!Aggregator calc radius} (c : Z → Z) (width height : Z) :
  0 < width → 0 < height → (∀ ch, byte (c ch)) →
  filterRaster calc (uniform c width height) width height
  = uniform c width height.
Proof. intros. by apply (aggregator_uniform calc radius). Qed.

Lemma uniform_raster_unchanged_witness :
  filterRaster (MedianFilter.calculateMedianValues (KernelSpec.make 5 2))
    (uniform (λ ch, if decide (ch = 3) then 255 else 128) 5 5) 5 5
  = uniform (λ ch, if decide (ch = 3) then 255 else 128) 5 5.
Proof.
  apply (uniform_raster_unchanged _ _
           (Aggregator0 := median_aggregator (KernelSpec.make 5 2)
                             ltac:(simpl; lia) ltac:(done)));
    [lia|lia|].
  intros ch. unfold byte. case_decide; lia.
Defined.

(** C23: end to end: when the pixels of the image can be read, [applyFilter]
    of a class that meets [Aggregator] resolves with an origin-clean canvas
    of the image's size that holds the filtered pixels: a well-formed raster
    whose colour bytes are the aggregates of the windows of the pixels
    read. *)
Theorem applyFilter_resolves_filtered `{Browser} (calc : Calculator) (radius : Z)
    `{!Aggregator calc radius} (simple : ImageElement.t → Canvas.t → completion Canvas.t)
    (img : ImageElement.t) (data : list Z) :
  readPixels img = Normal data →
  ∃ canvas,
    applyFilterOrBlur simple (processImageData calc) img = Resolved canvas
    ∧ (Canvas.width canvas, Canvas.height canvas) = canvasSize img
    ∧ Canvas.originClean canvas = true
    ∧ Canvas.data canvas = filterRaster calc data (Canvas.width canvas) (Canvas.height canvas)
    ∧ raster_ok (Canvas.data canvas) (Canvas.width canvas) (Canvas.height canvas)
    ∧ ∀ x y ch, 0 ≤ x < Canvas.width canvas → 0 ≤ y < Canvas.height canvas → 0 ≤ ch ≤ 2 →
        u8get (Canvas.data canvas) ((y * Canvas.width canvas + x) * 4 + ch)
        = Some (agg_channel (windowValues data (Canvas.width canvas) (Canvas.height canvas)
                  radius x y ch)).
Proof.
  intros Hdata. pose proof (readPixels_ok _ _ Hdata) as Hok.
  rewrite (applyFilterOrBlur_readable simple _ img data Hdata).
  destruct (canvasSize img) as [width height]. simpl in *.
  eexists. split; [done|]. simpl. split; [done|]. split; [done|].
  change (processImageData calc data data width height)
    with (filterRaster calc data width height). split; [done|]. split; [by apply processed_raster_ok|].
  intros x y ch Hx Hy Hch. by apply aggregator_get.
Qed.

Lemma applyFilter_resolves_filtered_witness :
  ∃ canvas,
    applyFilterOrBlur (H0 := greyBrowser 10)
      (MeanFilter.applySimpleFilter (H0 := greyBrowser 10))
      (processImageData (MeanFilter.calculateMeanValues (KernelSpec.make 3 1)))
      (ImageElement.make 2 1 2 1) = Resolved canvas
    ∧ (Canvas.width canvas, Canvas.height canvas) = canvasSize (ImageElement.make 2 1 2 1)
    ∧ Canvas.originClean canvas = true
    ∧ Canvas.data canvas
      = filterRaster (MeanFilter.calculateMeanValues (KernelSpec.make 3 1))
          (uniform (λ _, 128) 2 1) (Canvas.width canvas) (Canvas.height canvas)
    ∧ raster_ok (Canvas.data canvas) (Canvas.width canvas) (Canvas.height canvas)
    ∧ ∀ x y ch, 0 ≤ x < Canvas.width canvas → 0 ≤ y < Canvas.height canvas → 0 ≤ ch ≤ 2 →
        u8get (Canvas.data canvas) ((y * Canvas.width canvas + x) * 4 + ch)
        = Some (mean (windowValues (uniform (λ _, 128) 2 1) (Canvas.width canvas)
                  (Canvas.height canvas) 1 x y ch)).
Proof.
  exact (@applyFilter_resolves_filtered _ (greyBrowser 10) _ _
           (mean_aggregator (KernelSpec.make 3 1) ltac:(simpl; lia))
           (MeanFilter.applySimpleFilter (H0 := greyBrowser 10))
           (ImageElement.make 2 1 2 1) (uniform (λ _, 128) 2 1)
           eq_refl).
Defined.

(** C9: every canvas an [applyFilter] built on the sweep resolves with is
    well formed: its bitmap is a raster of bytes of the size of the image,
    whatever the calculator returns ([NaN] included) and whichever branch
    ran: the processed pixels, or the redraw through the blur. *)
Theorem applyFilter_canvas_ok `{Browser} (calc : Calculator) (px : float)
    (img : ImageElement.t) (canvas : Canvas.t) :
  applyFilterOrBlur (blurFallback px) (processImageData calc) img = Resolved canvas
  ∨ applyFilterOrReject (processImageData calc) img = Resolved canvas →
  canvas_ok canvas ∧ (Canvas.width canvas, Canvas.height canvas) = canvasSize img.
Proof.
  assert (keeps_rasters (processImageData calc)) as Hkeeps
    by (intros data width height Hok; exact (processed_raster_ok calc data width height Hok)).
  intros [Hblur|Hreject];
    [exact (applyFilterOrBlur_canvas_ok _ px img canvas Hkeeps Hblur)
    |exact (applyFilterOrReject_canvas_ok _ img canvas Hkeeps Hreject)].
Qed.

Lemma applyFilter_canvas_ok_witness :
  canvas_ok (Canvas.make 2 1
     (processImageData (MedianFilter.calculateMedianValues (KernelSpec.make 3 1))
        (uniform (λ _, 128) 2 1) (uniform (λ _, 128) 2 1) 2 1) true)
  ∧ (2, 1) = canvasSize (ImageElement.make 2 1 2 1).
Proof.
  apply (applyFilter_canvas_ok (H0 := greyBrowser 10)
           (MedianFilter.calculateMedianValues (KernelSpec.make 3 1)) (ofNum (Some 1))
           (ImageElement.make 2 1 2 1)).
  right.
  exact (applyFilterOrReject_readable (H0 := greyBrowser 10) _ (ImageElement.make 2 1 2 1)
           (uniform (λ _, 128) 2 1) eq_refl).
Defined.

(** ** Degenerate kernels *)

(** A sweep whose calculator returns the same number in every colour
    channel of every pixel stores that number, clamped, in every colour
    byte. *)
Lemma filterRaster_constant (calc : Calculator) (v : jsnum) data width height x y ch :
  raster_ok data width height → 0 ≤ x < width → 0 ≤ y < height → 0 ≤ ch ≤ 2 →
  calc data x y width height = mkRGB v v v →
  u8get (filterRaster calc data width height) ((y * width + x) * 4 + ch)
  = Some (ToUint8Clamp v).
Proof.
  intros (_ & _ & Hlen & _) Hx Hy Hch Hcalc. unfold filterRaster.
  rewrite processImageData_get by (done || lia). unfold pixelByte.
  rewrite decide_False, Hcalc by lia. unfold channel. by repeat case_decide.
Qed.

(** C28: a negative odd kernel size is not rejected, and it flattens the
    image: the constructor the classes share returns a filter whose window
    loops run no iteration, so that every colour byte of every pixel of the
    output is the value of the empty window: [0] for the mean filter (the
    mean is [0 / 0]), [255] for the median filter (the final [return 255]
    of [findMedian]), and [255], [128] and [0] for the minimum, midpoint
    and maximum filters, in this order. *)
Theorem negative_size_flattens (kernelSize : Z) (data : list Z) (width height x y ch : Z) :
  kernelSize < 0 → Z.odd kernelSize = true →
  raster_ok data width height → 0 ≤ x < width → 0 ≤ y < height → 0 ≤ ch ≤ 2 →
  let byteOf calc := u8get (filterRaster calc data width height) ((y * width + x) * 4 + ch) in
  ∃ this, KernelSpec.constructor kernelSize = Normal this
    ∧ byteOf (MeanFilter.calculateMeanValues this) = Some 0
    ∧ byteOf (MedianFilter.calculateMedianValues this) = Some 255
    ∧ byteOf (MinFilter.calculateMinValues this) = Some 255
    ∧ byteOf (MidpointFilter.calculateMidpointValues this) = Some 128
    ∧ byteOf (MaxFilter.calculateMaxValues this) = Some 0.
Proof.
  intros Hneg Hodd Hok Hx Hy Hch byteOf. eexists. split; [by apply constructor_odd|].
  set (this := KernelSpec.make _ _).
  assert (KernelSpec.radius this < 0) as Hr by (simpl; Z.div_mod_to_equations; lia).
  destruct (empty_window_reverses_order this data x y width height Hr) as (Hmin & Hmid & Hmax).
  unfold byteOf.
  split_and!;
    [rewrite (filterRaster_constant _ None)
    |rewrite (filterRaster_constant _ (Some 255))
    |rewrite (filterRaster_constant _ (Some 255))
    |rewrite (filterRaster_constant _ (Some 128))
    |rewrite (filterRaster_constant _ (Some 0))];
    auto using calculateMeanValues_neg, median_empty_window.
Qed.

Lemma negative_size_flattens_witness :
  let data := [10; 20; 30; 255; 40; 50; 60; 255] in
  let byteOf calc := u8get (filterRaster calc data 2 1) ((0 * 2 + 1) * 4 + 2) in
  ∃ this, KernelSpec.constructor (-3) = Normal this
    ∧ byteOf (MeanFilter.calculateMeanValues this) = Some 0
    ∧ byteOf (MedianFilter.calculateMedianValues this) = Some 255
    ∧ byteOf (MinFilter.calculateMinValues this) = Some 255
    ∧ byteOf (MidpointFilter.calculateMidpointValues this) = Some 128
    ∧ byteOf (MaxFilter.calculateMaxValues this) = Some 0.
Proof.
  apply (negative_size_flattens (-3) [10; 20; 30; 255; 40; 50; 60; 255] 2 1 1 0 2);
    [lia|done|by_compute|lia..].
Defined.
