(* ===== verification/Geometric.v ===== *)
(** * The geometric mean filter ([GeometricMeanFilter],
      src/src/geometricMeanFilter.js)

    The window loop sums [Math.log(sample + epsilon)] per channel and returns
    [Math.round(Math.exp(sum / count))].  The calculator is written against
    the interface [Float64]; [geometricMean] is the same reduction on the list
    of the window's reads.  Under exact reals ([ideal]) the result is the
    rounded geometric mean [geometricMeanZ] of the window values, which lies
    between their bounds, so the calculator meets [Aggregator]. *)

From Stdlib Require Import ZArith Lia Reals Zfloor Lra.
From stdpp Require Import base tactics option list list_numbers numbers strings.
From S2P Require Import Prelude TypedArray Boundary Kernel Sweep Floats Canvas Ideal.

#[local] Open Scope Z_scope.

(** ** Definitions *)

(** Reference: [round(exp(sum of log(sample + epsilon) / N))] on the list of
    reads of one channel. *)
Definition geometricMean `{Float64} (samples : list jsnum) : jsnum :=
  Math_round (Math_exp (fdiv
    (foldl (λ s v, fadd s (Math_log (fadd (ofNum v) epsilon))) (ofNum (Some 0)) samples)
    (ofNum (Some (Z.of_nat (length samples)))))).

(** Reference under exact reals: the geometric mean of the shifted values,
    and its rounding. *)
Definition logShifted (v : Z) : R := ln (shifted v).

Definition geometricMeanR (vs : list Z) : R :=
  exp (Rsum (logShifted <$> vs) / Rlength vs).

Definition geometricMeanZ (vs : list Z) : Z := Zfloor (geometricMeanR vs + / 2).

Module GeometricMeanFilter.

Definition t := KernelSpec.t.

(** [constructor(kernelSize = 3)]. *)
Definition constructor (kernelSize : Z) : completion t :=
  KernelSpec.constructor kernelSize.

(** The local variables [sumLogR], [sumLogG], [sumLogB], [count]. *)
Record sums `{Float64} :=
  mkSums { sumLogR : float; sumLogG : float; sumLogB : float; count : Z }.
Arguments mkSums {_} _ _ _ _.

(** [calculateGeometricMean(data, centerX, centerY, width, height)]. *)
Definition calculateGeometricMean `{Float64} (this : t) (data : list Z)
    (centerX centerY width height : Z) : RGB :=
  let acc :=
    forKernel (KernelSpec.radius this)
      (λ acc dx dy,
        let pixelIndex := sampleIndex width height centerX centerY dx dy in
        mkSums
          (fadd (sumLogR acc) (Math_log (fadd (ofNum (u8get data pixelIndex)) epsilon)))
          (fadd (sumLogG acc) (Math_log (fadd (ofNum (u8get data (pixelIndex + 1))) epsilon)))
          (fadd (sumLogB acc) (Math_log (fadd (ofNum (u8get data (pixelIndex + 2))) epsilon)))
          (count acc + 1))
      (mkSums (ofNum (Some 0)) (ofNum (Some 0)) (ofNum (Some 0)) 0) in
  mkRGB (Math_round (Math_exp (fdiv (sumLogR acc) (ofNum (Some (count acc))))))
        (Math_round (Math_exp (fdiv (sumLogG acc) (ofNum (Some (count acc))))))
        (Math_round (Math_exp (fdiv (sumLogB acc) (ofNum (Some (count acc)))))).

(** [processImageData(imageData, originalData, width, height)]. *)
Definition processImageData `{Float64} (this : t) (data originalData : list Z)
    (width height : Z) : list Z :=
  Sweep.processImageData (calculateGeometricMean this) data originalData width height.

(** [applySimpleFilter(imageElement, canvas, ctx)]: the canvas redrawn
    through [blur(1px)]. *)
Definition applySimpleFilter `{Browser} (imageElement : ImageElement.t)
    (canvas : Canvas.t) : completion Canvas.t :=
  blurFallback (ofNum (Some 1)) imageElement canvas.

(** [applyFilter(imageElement)]. *)
Definition applyFilter `{Float64} `{Browser} (this : t) (imageElement : ImageElement.t)
  : Outcome :=
  applyFilterOrBlur applySimpleFilter (processImageData this) imageElement.

End GeometricMeanFilter.

(** ** The loop *)

Lemma geometric_channel_samples `{Float64} (this : GeometricMeanFilter.t)
    (data : list Z) (centerX centerY width height ch : Z) :
  0 ≤ ch ≤ 2 →
  channel (GeometricMeanFilter.calculateGeometricMean this data centerX centerY width height) ch
  = geometricMean (windowSamples data width height (KernelSpec.radius this) centerX centerY ch).
Proof.
  intros Hch. unfold GeometricMeanFilter.calculateGeometricMean.
  set (body := λ acc dx dy, GeometricMeanFilter.mkSums _ _ _ _).
  set (init := GeometricMeanFilter.mkSums _ _ _ _).
  rewrite (forKernel_count body init _ GeometricMeanFilter.count) by done.
  unfold geometricMean. rewrite length_windowSamples.
  by rewrite (forKernel_rgb_samples body init data width height _ centerX centerY
    GeometricMeanFilter.sumLogR GeometricMeanFilter.sumLogG GeometricMeanFilter.sumLogB
    (λ s v, fadd s (Math_log (fadd (ofNum v) epsilon)))
    (λ s, Math_round (Math_exp (fdiv s _))) (ofNum (Some 0))).
Qed.

(** ** Exact reals *)

Lemma logShifted_ideal v :
  0 ≤ v → Math_log (fadd (ofNum (Some v)) epsilon) = Some (logShifted v).
Proof.
  intros Hv%shifted_pos. rewrite fadd_epsilon. cbn [Math_log ideal_Float64 ideal_log].
  by destruct (Rlt_dec 0 (shifted v)).
Qed.

Lemma logShifted_mono v w : 0 ≤ v ≤ w → (logShifted v <= logShifted w)%R.
Proof.
  intros [Hv%shifted_pos Hw%shifted_le]. by apply ln_mono.
Qed.

(** Under exact reals the loop computes the rounded geometric mean. *)
Lemma geometricMean_ideal vs :
  vs ≠ [] → Forall (λ v, 0 ≤ v) vs →
  geometricMean (Some <$> vs) = Some (geometricMeanZ vs).
Proof.
  intros Hne Hvs. unfold geometricMean.
  rewrite (foldl_fadd_Rsum _ logShifted vs 0)
    by (eapply List.Forall_impl; [|exact Hvs]; apply logShifted_ideal).
  pose proof (Rlength_pos vs Hne). rewrite Rplus_0_l, length_fmap.
  cbn [fdiv ofNum ideal_Float64 ideal_div fmap option_fmap option_map].
  fold (Rlength vs). destruct (Req_dec_T _ 0); [lra|done].
Qed.

Lemma geometricMeanR_between vs (lo hi : Z) :
  vs ≠ [] → 0 ≤ lo → Forall (λ v, lo ≤ v ≤ hi) vs →
  (shifted lo <= geometricMeanR vs <= shifted hi)%R.
Proof.
  intros Hne Hlo Hvs. unfold geometricMeanR. pose proof (Rlength_pos vs Hne).
  assert (lo ≤ hi) as Hle by (destruct Hvs; [done|lia]).
  rewrite <-(exp_ln (shifted lo)), <-(exp_ln (shifted hi)) by (apply shifted_pos; lia).
  assert (Forall (λ x, logShifted lo <= x <= logShifted hi)%R (logShifted <$> vs)) as HF.
  { apply Forall_fmap. eapply List.Forall_impl; [|exact Hvs]. simpl. intros v [Hv1 Hv2].
    split; apply logShifted_mono; lia. }
  apply Rsum_bounds in HF. rewrite Rlength_fmap in HF.
  apply (Rmean_between (Rlength vs)) in HF; [|lra].
  split; apply exp_mono, HF.
Qed.

Lemma geometricMeanZ_between vs lo hi :
  vs ≠ [] → 0 ≤ lo → hi ≤ 255 → Forall (λ v, lo ≤ v ≤ hi) vs →
  lo ≤ geometricMeanZ vs ≤ hi.
Proof.
  intros Hne Hlo _ Hvs. apply Zfloor_round_shifted. by apply geometricMeanR_between.
Qed.

Lemma geometric_channel_sound (this : GeometricMeanFilter.t) data centerX centerY width height ch :
  raster_ok data width height → 0 ≤ KernelSpec.radius this → 0 ≤ ch ≤ 2 →
  channel (GeometricMeanFilter.calculateGeometricMean this data centerX centerY width height) ch
  = Some (geometricMeanZ
      (windowValues data width height (KernelSpec.radius this) centerX centerY ch)).
Proof.
  intros Hok Hr Hch. rewrite geometric_channel_samples by done.
  rewrite windowSamples_values by (done || lia).
  apply geometricMean_ideal; [by apply windowValues_nonempty|].
  eapply List.Forall_impl; [|apply windowValues_bytes; [done|lia]]. unfold byte. simpl. lia.
Qed.

(** The geometric mean does not depend on the order of the samples. *)
#[export] Instance geometricMeanZ_Permutation : Proper ((≡ₚ) ==> (=)) geometricMeanZ.
Proof. intros vs ws Hvs. unfold geometricMeanZ, geometricMeanR. by rewrite Hvs. Qed.

(** Under exact reals the geometric calculator is an aggregator. *)
Definition geometric_aggregator (this : GeometricMeanFilter.t)
    (Hr : 0 ≤ KernelSpec.radius this)
  : Aggregator (GeometricMeanFilter.calculateGeometricMean this) (KernelSpec.radius this) := {|
  agg_channel := geometricMeanZ;
  agg_radius := Hr;
  agg_sound data width height x y ch Hok _ _ Hch :=
    geometric_channel_sound this data x y width height ch Hok Hr Hch;
  agg_between := geometricMeanZ_between
|}.

(** ** Properties *)

(** C33: under exact reals, on a well-formed raster and for a non-negative
    radius, each colour channel of the geometric calculator is the rounded
    geometric mean of the window values shifted by [1e-10], and it lies
    between any bounds of the window values. *)
Theorem calculateGeometricMean_ideal (this : GeometricMeanFilter.t) (data : list Z)
    (centerX centerY width height ch lo hi : Z) :
  raster_ok data width height → 0 ≤ KernelSpec.radius this → 0 ≤ ch ≤ 2 →
  0 ≤ lo →
  Forall (λ v, lo ≤ v ≤ hi)
    (windowValues data width height (KernelSpec.radius this) centerX centerY ch) →
  channel (GeometricMeanFilter.calculateGeometricMean this data centerX centerY width height) ch
  = Some (geometricMeanZ
      (windowValues data width height (KernelSpec.radius this) centerX centerY ch))
  ∧ lo ≤ geometricMeanZ
      (windowValues data width height (KernelSpec.radius this) centerX centerY ch) ≤ hi.
Proof.
  intros Hok Hr Hch Hlo Hvs. split; [by apply geometric_channel_sound|].
  apply Zfloor_round_shifted, geometricMeanR_between; [by apply windowValues_nonempty|done..].
Qed.

Lemma calculateGeometricMean_ideal_witness :
  channel (GeometricMeanFilter.calculateGeometricMean (KernelSpec.make 3 1)
             [10; 20; 30; 255; 40; 50; 60; 255] 0 0 2 1) 0
  = Some (geometricMeanZ (windowValues [10; 20; 30; 255; 40; 50; 60; 255] 2 1 1 0 0 0))
  ∧ 10 ≤ geometricMeanZ (windowValues [10; 20; 30; 255; 40; 50; 60; 255] 2 1 1 0 0 0) ≤ 40.
Proof.
  apply (calculateGeometricMean_ideal (KernelSpec.make 3 1)); [by_compute|simpl; lia|lia|lia|].
  by_compute.
Defined.
