(* ===== verification/Harmonic.v ===== *)
(** * The harmonic mean filter ([HarmonicMeanFilter], src/unnamed/part_002)

    The window loop sums [1.0 / (sample + epsilon)] per channel and returns
    [Math.round(count / sum)].  The calculator is written against the
    interface [Float64]; [harmonicMean] is the same reduction on the list of
    the window's reads.  Under exact reals ([ideal]) the result is the
    rounded harmonic mean [harmonicMeanZ] of the window values, which lies
    between their bounds, so the calculator meets [Aggregator]. *)

From Stdlib Require Import ZArith Lia Reals Zfloor Lra.
From stdpp Require Import base tactics option list list_numbers numbers strings.
From S2P Require Import Prelude TypedArray Boundary Kernel Sweep Floats Canvas Ideal.

#[local] Open Scope Z_scope.

(** ** Definitions *)

(** Reference: [round(N / sum of 1 / (sample + epsilon))] on the list of
    reads of one channel. *)
Definition harmonicMean `{Float64} (samples : list jsnum) : jsnum :=
  Math_round (fdiv (ofNum (Some (Z.of_nat (length samples))))
    (foldl (λ s v, fadd s (fdiv (ofNum (Some 1)) (fadd (ofNum v) epsilon)))
       (ofNum (Some 0)) samples)).

(** Reference under exact reals: the harmonic mean of the shifted values,
    and its rounding. *)
Definition reciprocal (v : Z) : R := (1 / shifted v)%R.

Definition harmonicMeanR (vs : list Z) : R :=
  (Rlength vs / Rsum (reciprocal <$> vs))%R.

Definition harmonicMeanZ (vs : list Z) : Z := Zfloor (harmonicMeanR vs + / 2).

Module HarmonicMeanFilter.

Definition t := KernelSpec.t.

(** [constructor(kernelSize = 3)]. *)
Definition constructor (kernelSize : Z) : completion t :=
  KernelSpec.constructor kernelSize.

(** The local variables [sumInvR], [sumInvG], [sumInvB], [count]. *)
Record sums `{Float64} :=
  mkSums { sumInvR : float; sumInvG : float; sumInvB : float; count : Z }.
Arguments mkSums {_} _ _ _ _.

(** [calculateHarmonicMean(data, centerX, centerY, width, height)]. *)
Definition calculateHarmonicMean `{Float64} (this : t) (data : list Z)
    (centerX centerY width height : Z) : RGB :=
  let acc :=
    forKernel (KernelSpec.radius this)
      (λ acc dx dy,
        let pixelIndex := sampleIndex width height centerX centerY dx dy in
        mkSums
          (fadd (sumInvR acc)
             (fdiv (ofNum (Some 1)) (fadd (ofNum (u8get data pixelIndex)) epsilon)))
          (fadd (sumInvG acc)
             (fdiv (ofNum (Some 1)) (fadd (ofNum (u8get data (pixelIndex + 1))) epsilon)))
          (fadd (sumInvB acc)
             (fdiv (ofNum (Some 1)) (fadd (ofNum (u8get data (pixelIndex + 2))) epsilon)))
          (count acc + 1))
      (mkSums (ofNum (Some 0)) (ofNum (Some 0)) (ofNum (Some 0)) 0) in
  mkRGB (Math_round (fdiv (ofNum (Some (count acc))) (sumInvR acc)))
        (Math_round (fdiv (ofNum (Some (count acc))) (sumInvG acc)))
        (Math_round (fdiv (ofNum (Some (count acc))) (sumInvB acc))).

(** [processImageData(imageData, originalData, width, height)]. *)
Definition processImageData `{Float64} (this : t) (data originalData : list Z)
    (width height : Z) : list Z :=
  Sweep.processImageData (calculateHarmonicMean this) data originalData width height.

(** [applySimpleFilter(imageElement, canvas, ctx)]: the canvas redrawn
    through [blur(1px)]. *)
Definition applySimpleFilter `{Browser} (imageElement : ImageElement.t)
    (canvas : Canvas.t) : completion Canvas.t :=
  blurFallback (ofNum (Some 1)) imageElement canvas.

(** [applyFilter(imageElement)]. *)
Definition applyFilter `{Float64} `{Browser} (this : t) (imageElement : ImageElement.t)
  : Outcome :=
  applyFilterOrBlur applySimpleFilter (processImageData this) imageElement.

End HarmonicMeanFilter.

(** ** The loop *)

Lemma harmonic_channel_samples `{Float64} (this : HarmonicMeanFilter.t)
    (data : list Z) (centerX centerY width height ch : Z) :
  0 ≤ ch ≤ 2 →
  channel (HarmonicMeanFilter.calculateHarmonicMean this data centerX centerY width height) ch
  = harmonicMean (windowSamples data width height (KernelSpec.radius this) centerX centerY ch).
Proof.
  intros Hch. unfold HarmonicMeanFilter.calculateHarmonicMean.
  set (body := λ acc dx dy, HarmonicMeanFilter.mkSums _ _ _ _).
  set (init := HarmonicMeanFilter.mkSums _ _ _ _).
  rewrite (forKernel_count body init _ HarmonicMeanFilter.count) by done.
  unfold harmonicMean. rewrite length_windowSamples.
  by rewrite (forKernel_rgb_samples body init data width height _ centerX centerY
    HarmonicMeanFilter.sumInvR HarmonicMeanFilter.sumInvG HarmonicMeanFilter.sumInvB
    (λ s v, fadd s (fdiv (ofNum (Some 1)) (fadd (ofNum v) epsilon)))
    (λ s, Math_round (fdiv _ s)) (ofNum (Some 0))).
Qed.

(** ** Exact reals *)

Lemma reciprocal_pos v : 0 ≤ v → (0 < reciprocal v)%R.
Proof. intros Hv%shifted_pos. unfold reciprocal. by apply Rdiv_lt_0_compat; [lra|]. Qed.

Lemma mult_reciprocal (n : R) v : (n * reciprocal v = n / shifted v)%R.
Proof. unfold reciprocal, Rdiv. ring. Qed.

Lemma reciprocal_antitone v w : 0 ≤ v ≤ w → (reciprocal w <= reciprocal v)%R.
Proof.
  intros [Hv Hw]. pose proof (shifted_pos v Hv). pose proof (shifted_le v w Hw).
  unfold reciprocal, Rdiv. rewrite !Rmult_1_l. apply Rinv_le_contravar; lra.
Qed.

Lemma reciprocal_ideal v :
  0 ≤ v → fdiv (ofNum (Some 1)) (fadd (ofNum (Some v)) epsilon) = Some (reciprocal v).
Proof.
  intros Hv%shifted_pos. rewrite fadd_epsilon.
  cbn [fdiv ofNum ideal_Float64 ideal_div fmap option_fmap option_map].
  destruct (Req_dec_T (shifted v) 0); [lra|done].
Qed.

Lemma reciprocal_sum_pos vs :
  vs ≠ [] → Forall (λ v, 0 ≤ v) vs → (0 < Rsum (reciprocal <$> vs))%R.
Proof.
  intros Hne Hvs. apply Rsum_pos; [by destruct vs|].
  apply Forall_fmap. eapply List.Forall_impl; [|exact Hvs]. apply reciprocal_pos.
Qed.

(** Under exact reals the loop computes the rounded harmonic mean. *)
Lemma harmonicMean_ideal vs :
  vs ≠ [] → Forall (λ v, 0 ≤ v) vs →
  harmonicMean (Some <$> vs) = Some (harmonicMeanZ vs).
Proof.
  intros Hne Hvs. unfold harmonicMean.
  rewrite (foldl_fadd_Rsum _ reciprocal vs 0)
    by (eapply List.Forall_impl; [|exact Hvs]; apply reciprocal_ideal).
  pose proof (reciprocal_sum_pos vs Hne Hvs). rewrite Rplus_0_l, length_fmap.
  cbn [fdiv ofNum ideal_Float64 ideal_div fmap option_fmap option_map].
  destruct (Req_dec_T _ 0); [lra|done].
Qed.

Lemma harmonicMeanR_between vs (lo hi : Z) :
  vs ≠ [] → 0 ≤ lo → Forall (λ v, lo ≤ v ≤ hi) vs →
  (shifted lo <= harmonicMeanR vs <= shifted hi)%R.
Proof.
  intros Hne Hlo Hvs. unfold harmonicMeanR.
  pose proof (shifted_pos lo Hlo). pose proof (Rlength_pos vs Hne).
  assert (lo ≤ hi) as Hle by (destruct Hvs; [done|lia]). apply shifted_le in Hle.
  apply Rdiv_between; [lra|lra|].
  assert (Forall (λ x, reciprocal hi <= x <= reciprocal lo)%R (reciprocal <$> vs)) as HF.
  { apply Forall_fmap. eapply List.Forall_impl; [|exact Hvs]. simpl. intros v [Hv1 Hv2].
    split; apply reciprocal_antitone; lia. }
  apply Rsum_bounds in HF. rewrite Rlength_fmap in HF.
  by rewrite !mult_reciprocal in HF.
Qed.

Lemma harmonicMeanZ_between vs lo hi :
  vs ≠ [] → 0 ≤ lo → hi ≤ 255 → Forall (λ v, lo ≤ v ≤ hi) vs →
  lo ≤ harmonicMeanZ vs ≤ hi.
Proof.
  intros Hne Hlo _ Hvs. apply Zfloor_round_shifted. by apply harmonicMeanR_between.
Qed.

Lemma harmonic_channel_sound (this : HarmonicMeanFilter.t) data centerX centerY width height ch :
  raster_ok data width height → 0 ≤ KernelSpec.radius this → 0 ≤ ch ≤ 2 →
  channel (HarmonicMeanFilter.calculateHarmonicMean this data centerX centerY width height) ch
  = Some (harmonicMeanZ
      (windowValues data width height (KernelSpec.radius this) centerX centerY ch)).
Proof.
  intros Hok Hr Hch. rewrite harmonic_channel_samples by done.
  rewrite windowSamples_values by (done || lia).
  apply harmonicMean_ideal; [by apply windowValues_nonempty|].
  eapply List.Forall_impl; [|apply windowValues_bytes; [done|lia]]. unfold byte. simpl. lia.
Qed.

(** The harmonic mean does not depend on the order of the samples. *)
#[export] Instance harmonicMeanZ_Permutation : Proper ((≡ₚ) ==> (=)) harmonicMeanZ.
Proof. intros vs ws Hvs. unfold harmonicMeanZ, harmonicMeanR. by rewrite Hvs. Qed.

(** Under exact reals the harmonic calculator is an aggregator. *)
Definition harmonic_aggregator (this : HarmonicMeanFilter.t)
    (Hr : 0 ≤ KernelSpec.radius this)
  : Aggregator (HarmonicMeanFilter.calculateHarmonicMean this) (KernelSpec.radius this) := {|
  agg_channel := harmonicMeanZ;
  agg_radius := Hr;
  agg_sound data width height x y ch Hok _ _ Hch :=
    harmonic_channel_sound this data x y width height ch Hok Hr Hch;
  agg_between := harmonicMeanZ_between
|}.

(** ** Properties *)

(** C34: under exact reals, on a well-formed raster and for a non-negative
    radius, each colour channel of the harmonic calculator is the rounded
    harmonic mean of the window values shifted by [1e-10], and it lies
    between any bounds of the window values. *)
Theorem calculateHarmonicMean_ideal (this : HarmonicMeanFilter.t) (data : list Z)
    (centerX centerY width height ch lo hi : Z) :
  raster_ok data width height → 0 ≤ KernelSpec.radius this → 0 ≤ ch ≤ 2 →
  0 ≤ lo →
  Forall (λ v, lo ≤ v ≤ hi)
    (windowValues data width height (KernelSpec.radius this) centerX centerY ch) →
  channel (HarmonicMeanFilter.calculateHarmonicMean this data centerX centerY width height) ch
  = Some (harmonicMeanZ
      (windowValues data width height (KernelSpec.radius this) centerX centerY ch))
  ∧ lo ≤ harmonicMeanZ
      (windowValues data width height (KernelSpec.radius this) centerX centerY ch) ≤ hi.
Proof.
  intros Hok Hr Hch Hlo Hvs. split; [by apply harmonic_channel_sound|].
  apply Zfloor_round_shifted, harmonicMeanR_between; [by apply windowValues_nonempty|done..].
Qed.

Lemma calculateHarmonicMean_ideal_witness :
  channel (HarmonicMeanFilter.calculateHarmonicMean (KernelSpec.make 3 1)
             [10; 20; 30; 255; 40; 50; 60; 255] 0 0 2 1) 0
  = Some (harmonicMeanZ (windowValues [10; 20; 30; 255; 40; 50; 60; 255] 2 1 1 0 0 0))
  ∧ 10 ≤ harmonicMeanZ (windowValues [10; 20; 30; 255; 40; 50; 60; 255] 2 1 1 0 0 0) ≤ 40.
Proof.
  apply (calculateHarmonicMean_ideal (KernelSpec.make 3 1)); [by_compute|simpl; lia|lia|lia|].
  by_compute.
Defined.
