(* ===== verification/Contraharmonic.v ===== *)
(** * The contraharmonic mean filter ([ContraharmonicMeanFilter],
      src/src/contraharmonicMeanFilter.js)

    The window loop sums [(sample + epsilon)^(Q + 1)] and
    [(sample + epsilon)^Q] per channel and returns the rounded quotient of
    the first sum by the second plus [epsilon], clamped to [0 .. 255].  The
    calculator is written against the interface [Float64];
    [contraharmonicMean] is the same reduction on the list of the window's
    reads.  Under exact reals ([ideal]) the result is [contraharmonicMeanZ];
    for [Q >= 0] it lies between the bounds of the window values, so the
    calculator meets [Aggregator]; for negative [Q] the [epsilon] added to
    the denominator outweighs the small power sum and a uniform window is
    not returned unchanged. *)

From Stdlib Require Import ZArith Lia Reals Zfloor Lra Psatz.
From stdpp Require Import base tactics option list list_numbers numbers strings.
From S2P Require Import Prelude TypedArray Boundary Kernel Sweep Floats Canvas Mean Ideal Harmonic.

#[local] Open Scope Z_scope.

(** ** Definitions *)

(** [Math.max(0, Math.min(255, Math.round(num / (den + epsilon))))]. *)
Definition clampedQuotient `{Float64} (sums : float * float) : jsnum :=
  Math_max (Some 0) (Math_min (Some 255)
    (Math_round (fdiv sums.1 (fadd sums.2 epsilon)))).

(** One step of the two sums of a channel. *)
Definition powerSums `{Float64} (Q : float) (sums : float * float) (v : jsnum)
  : float * float :=
  let x := fadd (ofNum v) epsilon in
  (fadd sums.1 (Math_pow x (fadd Q (ofNum (Some 1)))), fadd sums.2 (Math_pow x Q)).

(** Reference: the clamped rounded quotient of the two power sums of the
    list of reads of one channel. *)
Definition contraharmonicMean `{Float64} (Q : float) (samples : list jsnum) : jsnum :=
  clampedQuotient (foldl (powerSums Q) (ofNum (Some 0), ofNum (Some 0)) samples).

(** Reference under exact reals: the power of a shifted value, the quotient
    of the power sums, and its clamped rounding. *)
Definition power (q : R) (v : Z) : R := Rpower (shifted v) q.

Definition contraharmonicMeanR (q : R) (vs : list Z) : R :=
  (Rsum (power (q + 1) <$> vs) / (Rsum (power q <$> vs) + eps))%R.

Definition contraharmonicMeanZ (q : R) (vs : list Z) : Z :=
  Z.max 0 (Z.min 255 (Zfloor (contraharmonicMeanR q vs + / 2))).

Module ContraharmonicMeanFilter.

(** The fields [this.kernelSize], [this.radius] and [this.Q]. *)
Record t `{Float64} := make { kernelSize : Z; radius : Z; Q : float }.
Arguments make {_} _ _ _.

(** [constructor(kernelSize = 3, Q = 1.0)]. *)
Definition constructor `{Float64} (kernelSize : Z) (Q : float) : completion t :=
  if decide (Z.rem kernelSize 2 = 0) then Throw (Error "Kernel size phải là số lẻ!")
  else Normal (make kernelSize (kernelSize / 2) Q).

(** The six local sums of the loop. *)
Record sums `{Float64} := mkSums {
  sumPowerQPlus1_R : float; sumPowerQPlus1_G : float; sumPowerQPlus1_B : float;
  sumPowerQ_R : float; sumPowerQ_G : float; sumPowerQ_B : float
}.
Arguments mkSums {_} _ _ _ _ _ _.

(** [calculateContraharmonicMean(data, centerX, centerY, width, height)]. *)
Definition calculateContraharmonicMean `{Float64} (this : t) (data : list Z)
    (centerX centerY width height : Z) : RGB :=
  let acc :=
    forKernel (radius this)
      (λ acc dx dy,
        let pixelIndex := sampleIndex width height centerX centerY dx dy in
        let r := fadd (ofNum (u8get data pixelIndex)) epsilon in
        let g := fadd (ofNum (u8get data (pixelIndex + 1))) epsilon in
        let b := fadd (ofNum (u8get data (pixelIndex + 2))) epsilon in
        mkSums
          (fadd (sumPowerQPlus1_R acc) (Math_pow r (fadd (Q this) (ofNum (Some 1)))))
          (fadd (sumPowerQPlus1_G acc) (Math_pow g (fadd (Q this) (ofNum (Some 1)))))
          (fadd (sumPowerQPlus1_B acc) (Math_pow b (fadd (Q this) (ofNum (Some 1)))))
          (fadd (sumPowerQ_R acc) (Math_pow r (Q this)))
          (fadd (sumPowerQ_G acc) (Math_pow g (Q this)))
          (fadd (sumPowerQ_B acc) (Math_pow b (Q this))))
      (mkSums (ofNum (Some 0)) (ofNum (Some 0)) (ofNum (Some 0))
              (ofNum (Some 0)) (ofNum (Some 0)) (ofNum (Some 0))) in
  mkRGB
    (Math_max (Some 0) (Math_min (Some 255)
       (Math_round (fdiv (sumPowerQPlus1_R acc) (fadd (sumPowerQ_R acc) epsilon)))))
    (Math_max (Some 0) (Math_min (Some 255)
       (Math_round (fdiv (sumPowerQPlus1_G acc) (fadd (sumPowerQ_G acc) epsilon)))))
    (Math_max (Some 0) (Math_min (Some 255)
       (Math_round (fdiv (sumPowerQPlus1_B acc) (fadd (sumPowerQ_B acc) epsilon))))).

(** [setQ(newQ)]. *)
Definition setQ `{Float64} (this : t) (newQ : float) : t :=
  make (kernelSize this) (radius this) newQ.

(** [processImageData(imageData, originalData, width, height)]. *)
Definition processImageData `{Float64} (this : t) (data originalData : list Z)
    (width height : Z) : list Z :=
  Sweep.processImageData (calculateContraharmonicMean this) data originalData width height.

(** [applySimpleFilter(imageElement, canvas, ctx)]: the canvas redrawn
    through [blur(1px)]. *)
Definition applySimpleFilter `{Browser} (imageElement : ImageElement.t)
    (canvas : Canvas.t) : completion Canvas.t :=
  blurFallback (ofNum (Some 1)) imageElement canvas.

(** [applyFilter(imageElement)]. *)
Definition applyFilter `{Float64} `{Browser} (this : t) (imageElement : ImageElement.t)
  : Outcome :=
  applyFilterOrBlur applySimpleFilter (processImageData this) imageElement.

End ContraharmonicMeanFilter.

(** ** The clamp *)

Lemma clampedQuotient_range `{Float64} sums :
  clampedQuotient sums = None ∨ ∃ v, clampedQuotient sums = Some v ∧ 0 ≤ v ≤ 255.
Proof.
  unfold clampedQuotient. destruct (Math_round _) as [z|]; [right|by left].
  eexists. split; [done|]. lia.
Qed.

(** ** The loop *)

Lemma contraharmonic_channel_samples `{Float64} (this : ContraharmonicMeanFilter.t)
    (data : list Z) (centerX centerY width height ch : Z) :
  0 ≤ ch ≤ 2 →
  channel (ContraharmonicMeanFilter.calculateContraharmonicMean this data
             centerX centerY width height) ch
  = contraharmonicMean (ContraharmonicMeanFilter.Q this)
      (windowSamples data width height (ContraharmonicMeanFilter.radius this)
         centerX centerY ch).
Proof.
  intros Hch.
  unfold ContraharmonicMeanFilter.calculateContraharmonicMean, contraharmonicMean.
  set (body := λ acc dx dy, ContraharmonicMeanFilter.mkSums _ _ _ _ _ _).
  set (init := ContraharmonicMeanFilter.mkSums _ _ _ _ _ _).
  by rewrite <-(forKernel_rgb_samples body init data width height _ centerX centerY
    (λ a, (ContraharmonicMeanFilter.sumPowerQPlus1_R a, ContraharmonicMeanFilter.sumPowerQ_R a))
    (λ a, (ContraharmonicMeanFilter.sumPowerQPlus1_G a, ContraharmonicMeanFilter.sumPowerQ_G a))
    (λ a, (ContraharmonicMeanFilter.sumPowerQPlus1_B a, ContraharmonicMeanFilter.sumPowerQ_B a))
    (powerSums (ContraharmonicMeanFilter.Q this)) clampedQuotient
    (ofNum (Some 0), ofNum (Some 0))).
Qed.

(** The two sums advance independently. *)
Lemma foldl_powerSums `{Float64} (Q a b : float) (samples : list jsnum) :
  foldl (powerSums Q) (a, b) samples
  = (foldl (λ s v, fadd s (Math_pow (fadd (ofNum v) epsilon) (fadd Q (ofNum (Some 1)))))
       a samples,
     foldl (λ s v, fadd s (Math_pow (fadd (ofNum v) epsilon) Q)) b samples).
Proof.
  revert a b. induction samples as [|v l IH]; intros a b; [done|]. simpl. by rewrite <-IH.
Qed.

(** ** Exact reals *)

Lemma power_pos q v : (0 < power q v)%R.
Proof. apply Rpower_pos. Qed.

Lemma power_ideal (q : R) v :
  0 ≤ v → Math_pow (fadd (ofNum (Some v)) epsilon) (Some q) = Some (power q v).
Proof.
  intros Hv%shifted_pos. rewrite fadd_epsilon. cbn [Math_pow ideal_Float64 ideal_pow].
  by destruct (Rlt_dec 0 (shifted v)).
Qed.

Lemma power_sum_nonneg q vs : (0 <= Rsum (power q <$> vs))%R.
Proof.
  apply Rsum_nonneg, Forall_fmap, Forall_forall. intros v _. simpl.
  pose proof (power_pos q v). lra.
Qed.

(** Under exact reals the loop computes the clamped rounded quotient of the
    power sums, whatever the order [Q]. *)
Lemma contraharmonicMean_ideal (q : R) vs :
  Forall (λ v, 0 ≤ v) vs →
  contraharmonicMean (Some q) (Some <$> vs) = Some (contraharmonicMeanZ q vs).
Proof.
  intros Hvs. unfold contraharmonicMean. rewrite foldl_powerSums.
  rewrite (foldl_fadd_Rsum _ (power (q + 1)) vs 0), (foldl_fadd_Rsum _ (power q) vs 0)
    by (eapply List.Forall_impl; [|exact Hvs]; intros v; apply power_ideal).
  pose proof (power_sum_nonneg q vs). pose proof eps_bounds. rewrite !Rplus_0_l.
  unfold clampedQuotient.
  cbn [fst snd fadd fdiv epsilon ideal_Float64 ideal_div ideal_lift2].
  fold eps. destruct (Req_dec_T _ 0); [lra|done].
Qed.

(** The power sum of order [q + 1] is the sum of order [q] weighted by the
    values. *)
Lemma power_succ_sum q vs :
  Forall (λ v, 0 ≤ v) vs →
  Rsum (power (q + 1) <$> vs) = Rsum ((λ v, shifted v * power q v)%R <$> vs).
Proof.
  induction 1 as [|v vs Hv%shifted_pos _ IH]; [done|].
  rewrite !fmap_cons, !Rsum_cons, IH. unfold power at 1. by rewrite Rpower_succ.
Qed.

(** The power sums of a window of values between [lo] and [hi]. *)
Lemma power_sums_between q vs lo hi :
  0 ≤ lo → Forall (λ v, lo ≤ v ≤ hi) vs →
  (shifted lo * Rsum (power q <$> vs) <= Rsum (power (q + 1) <$> vs)
   <= shifted hi * Rsum (power q <$> vs))%R.
Proof.
  intros Hlo Hvs. rewrite power_succ_sum
    by (eapply List.Forall_impl; [|exact Hvs]; simpl; lia).
  apply Rsum_weighted. eapply List.Forall_impl; [|exact Hvs]. simpl. intros v [Hv1 Hv2].
  pose proof (power_pos q v). split_and!; [by apply shifted_le..|lra].
Qed.

(** For a non-negative order the sum of the powers of values that are not
    zero is at least one. *)
Lemma power_sum_ge_1 q vs lo :
  (0 <= q)%R → vs ≠ [] → 1 ≤ lo → Forall (λ v, lo ≤ v) vs →
  (1 <= Rsum (power q <$> vs))%R.
Proof.
  intros Hq Hne Hlo Hvs. apply Rsum_ge_1; [by destruct vs|].
  apply Forall_fmap. eapply List.Forall_impl; [|exact Hvs]. simpl. intros v Hv.
  apply Rpower_ge_1; [apply shifted_ge_1; lia|done].
Qed.

Lemma contraharmonicMeanR_between q vs lo hi :
  (0 <= q)%R → vs ≠ [] → 0 ≤ lo → hi ≤ 255 → Forall (λ v, lo ≤ v ≤ hi) vs →
  (IZR lo - / 2 <= contraharmonicMeanR q vs <= shifted hi)%R.
Proof.
  intros Hq Hne Hlo Hhi Hvs. unfold contraharmonicMeanR.
  pose proof (power_sums_between q vs lo hi Hlo Hvs) as Hs.
  pose proof (power_sum_nonneg q vs) as H2. pose proof eps_bounds as He.
  assert (lo ≤ hi) as Hle%shifted_le by (destruct Hvs; [done|lia]).
  assert (IZR lo <= 255)%R as H255 by (apply IZR_le; destruct Hvs; [done|lia]).
  pose proof (shifted_pos lo Hlo) as Hp. apply Rmean_between; [lra|].
  destruct (decide (lo = 0)) as [->|Hne0].
  - unfold shifted in *. nra.
  - assert (1 <= Rsum (power q <$> vs))%R as H1.
    { apply (power_sum_ge_1 q vs lo); [done|done|lia|].
      eapply List.Forall_impl; [|exact Hvs]. simpl. lia. }
    assert (1 <= IZR lo)%R by (apply IZR_le; lia). unfold shifted in *. nra.
Qed.

Lemma contraharmonicMeanZ_between q vs lo hi :
  (0 <= q)%R → vs ≠ [] → 0 ≤ lo → hi ≤ 255 → Forall (λ v, lo ≤ v ≤ hi) vs →
  lo ≤ contraharmonicMeanZ q vs ≤ hi.
Proof.
  intros Hq Hne Hlo Hhi Hvs. unfold contraharmonicMeanZ.
  pose proof (contraharmonicMeanR_between q vs lo hi Hq Hne Hlo Hhi Hvs).
  pose proof eps_bounds.
  assert (lo ≤ Zfloor (contraharmonicMeanR q vs + / 2) ≤ hi); [|lia].
  apply Zfloor_round_between. unfold shifted in *. lra.
Qed.

Lemma contraharmonic_channel_sound (this : ContraharmonicMeanFilter.t) (q : R)
    data centerX centerY width height ch :
  ContraharmonicMeanFilter.Q this = Some q →
  raster_ok data width height → 0 ≤ ContraharmonicMeanFilter.radius this → 0 ≤ ch ≤ 2 →
  channel (ContraharmonicMeanFilter.calculateContraharmonicMean this data
             centerX centerY width height) ch
  = Some (contraharmonicMeanZ q
      (windowValues data width height (ContraharmonicMeanFilter.radius this)
         centerX centerY ch)).
Proof.
  intros HQ Hok Hr Hch. rewrite contraharmonic_channel_samples, HQ by done.
  rewrite windowSamples_values by (done || lia).
  apply contraharmonicMean_ideal.
  eapply List.Forall_impl; [|apply windowValues_bytes; [done|lia]]. unfold byte. simpl. lia.
Qed.

(** The quotient on a window of one value [v]. *)
Lemma contraharmonicMeanR_replicate q n v :
  0 ≤ v →
  contraharmonicMeanR q (replicate n v)
  = (IZR (Z.of_nat n) * (shifted v * power q v)
     / (IZR (Z.of_nat n) * power q v + eps))%R.
Proof.
  intros Hv%shifted_pos. unfold contraharmonicMeanR.
  rewrite !fmap_replicate, !Rsum_replicate. unfold power. by rewrite Rpower_succ.
Qed.

(** The order [-5] on 25 values 128: the power sum [25 / 128^5] is smaller
    than [epsilon], and the quotient falls below 128. *)
Lemma quotient_128_neg5 (x p : R) :
  x = (128 + / 10 ^ 10)%R → (p * x ^ 5 = 1)%R → (0 < p)%R →
  ((25 * p + / 10 ^ 10) * (113 - / 2) <= 25 * (x * p)
   <= (25 * p + / 10 ^ 10) * (113 + / 4))%R.
Proof.
  intros Hx Hp H0.
  assert (128 ^ 5 <= x ^ 5 <= (128 + / 1000) ^ 5)%R as Hb
    by (split; apply pow_incr; lra).
  set (y := (x ^ 5)%R) in *.
  assert ((113 - / 2) * (25 + / 10 ^ 10 * y) <= 25 * x
          <= (113 + / 4) * (25 + / 10 ^ 10 * y))%R as [H1 H2] by lra.
  apply (Rmult_le_compat_r p) in H1, H2; [|lra..]. nra.
Qed.

Lemma contraharmonicMeanZ_128_neg5 : contraharmonicMeanZ (-5) (replicate 25 128) = 113.
Proof.
  unfold contraharmonicMeanZ. rewrite contraharmonicMeanR_replicate by lia.
  change (IZR (Z.of_nat 25)) with 25%R.
  pose proof (power_pos (-5) 128) as Hp. pose proof (shifted_pos 128 ltac:(lia)) as Hx.
  assert (power (-5) 128 * shifted 128 ^ 5 = 1)%R as Hpx.
  { unfold power. replace (-5)%R with (- INR 5)%R by (simpl; lra).
    rewrite Rpower_neg by done. field. lra. }
  pose proof (quotient_128_neg5 _ _ eq_refl Hpx Hp) as Hq.
  apply Rmean_between in Hq; [|unfold eps; lra].
  assert (113 ≤ Zfloor (25 * (shifted 128 * power (-5) 128)
                        / (25 * power (-5) 128 + eps) + / 2) ≤ 113); [|lia].
  apply Zfloor_round_between. unfold shifted, eps in *. lra.
Qed.

(** The order [0]: the powers are [1] and the quotient is the mean of the
    shifted values over the shifted count. *)
Lemma contraharmonicMeanR_0 vs :
  Forall byte vs →
  contraharmonicMeanR 0 vs
  = ((IZR (sumZ vs) + Rlength vs * eps) / (Rlength vs + eps))%R.
Proof.
  intros Hvs. unfold contraharmonicMeanR. rewrite <-Rsum_shifted. f_equal; [|f_equal].
  - f_equal. apply Forall_fmap_ext. eapply List.Forall_impl; [|exact Hvs]. simpl.
    intros v [Hv%shifted_pos _]. unfold power.
    by rewrite Rpower_succ, Rpower_O, Rmult_1_r.
  - rewrite (Rsum_const _ 1); [lra|]. eapply List.Forall_impl; [|exact Hvs]. simpl.
    intros v [Hv%shifted_pos _]. by apply Rpower_O.
Qed.

Lemma contraharmonicMeanZ_0 vs :
  Z.odd (Z.of_nat (length vs)) = true → Z.of_nat (length vs) < 10 ^ 9 → Forall byte vs →
  contraharmonicMeanZ 0 vs = mean vs.
Proof.
  intros Hodd Hn Hvs. assert (vs ≠ []) as Hne by (by intros ->).
  pose proof (mean_between vs 0 255 Hne Hvs).
  pose proof (sumZ_bounds 0 255 vs Hvs).
  unfold contraharmonicMeanZ. rewrite contraharmonicMeanR_0 by done. unfold Rlength.
  rewrite Zfloor_shifted_quotient; [unfold mean in *; lia| |done|lia].
  split; [|done]. destruct vs; [done|simpl; lia].
Qed.

(** The number of values of a window is odd. *)
Lemma window_count_odd radius : Z.odd ((2 * radius + 1) ^ 2) = true.
Proof.
  rewrite Z.pow_2_r, Z.odd_mul, andb_diag. apply Z.odd_spec. by exists radius.
Qed.

(** The contraharmonic mean does not depend on the order of the samples. *)
#[export] Instance contraharmonicMeanZ_Permutation q :
  Proper ((≡ₚ) ==> (=)) (contraharmonicMeanZ q).
Proof. intros vs ws Hvs. unfold contraharmonicMeanZ, contraharmonicMeanR. by rewrite Hvs. Qed.

(** Under exact reals the contraharmonic calculator of a non-negative order
    is an aggregator. *)
Definition contraharmonic_aggregator (this : ContraharmonicMeanFilter.t) (q : R)
    (HQ : ContraharmonicMeanFilter.Q this = Some q) (Hq : (0 <= q)%R)
    (Hr : 0 ≤ ContraharmonicMeanFilter.radius this)
  : Aggregator (ContraharmonicMeanFilter.calculateContraharmonicMean this)
      (ContraharmonicMeanFilter.radius this) := {|
  agg_channel := contraharmonicMeanZ q;
  agg_radius := Hr;
  agg_sound data width height x y ch Hok _ _ Hch :=
    contraharmonic_channel_sound this q data x y width height ch HQ Hok Hr Hch;
  agg_between vs lo hi := contraharmonicMeanZ_between q vs lo hi Hq
|}.

(** ** The order -1 *)

(** With [Q = -1] the power sums are the count of the window and the sum
    of the reciprocals. *)
Lemma contraharmonicMeanR_neg1 vs :
  Forall byte vs →
  contraharmonicMeanR (-1) vs = (Rlength vs / (Rsum (reciprocal <$> vs) + eps))%R.
Proof.
  intros Hvs. unfold contraharmonicMeanR. f_equal; [|f_equal; f_equal].
  - replace (-1 + 1)%R with 0%R by lra. rewrite (Rsum_const _ 1); [lra|].
    eapply List.Forall_impl; [|exact Hvs]. simpl.
    intros v [Hv%shifted_pos _]. by apply Rpower_O.
  - apply Forall_fmap_ext. eapply List.Forall_impl; [|exact Hvs]. simpl.
    intros v [Hv%shifted_pos _]. unfold power, reciprocal.
    replace (-1)%R with (Ropp 1) by lra. rewrite Rpower_Ropp, Rpower_1 by done. lra.
Qed.

(** Adding [epsilon] to the divisor lowers a quotient of at most 256 by less
    than one. *)
Lemma Rdiv_eps_close (n s : R) :
  (0 < s)%R → (1 <= n)%R → (n / s <= 256)%R →
  (n / s - 1 < n / (s + eps) <= n / s)%R.
Proof.
  intros Hs Hn Hq. pose proof eps_bounds as He.
  assert (n / s * s = n)%R as Hh by (field; lra).
  assert (1 <= 256 * s)%R by nra.
  assert (n / (s + eps) * (s + eps) = n)%R as Hc by (field; lra).
  assert (0 <= n / s)%R
    by (apply Rmult_le_pos; [lra|apply Rlt_le, Rinv_0_lt_compat; lra]).
  unfold eps in *. split; [apply (Rmult_lt_reg_r (s + / 10 ^ 10))|
                           apply (Rmult_le_reg_r (s + / 10 ^ 10))]; try lra;
    rewrite Hc; nra.
Qed.

(** The contraharmonic mean of order -1 is the harmonic mean or one
    below. *)
Lemma contraharmonicMeanZ_neg1 vs :
  vs ≠ [] → Forall byte vs →
  harmonicMeanZ vs - 1 ≤ contraharmonicMeanZ (-1) vs ≤ harmonicMeanZ vs.
Proof.
  intros Hne Hvs. unfold contraharmonicMeanZ. rewrite contraharmonicMeanR_neg1 by done.
  pose proof (harmonicMeanZ_between vs 0 255 Hne ltac:(done) ltac:(done) Hvs) as Hh.
  pose proof (harmonicMeanR_between vs 0 255 Hne ltac:(done) Hvs) as [_ Hhi].
  unfold harmonicMeanZ, harmonicMeanR in *.
  destruct (Rdiv_eps_close (Rlength vs) (Rsum (reciprocal <$> vs))) as [Hlo Hup].
  { apply reciprocal_sum_pos; [done|]. eapply List.Forall_impl; [|exact Hvs]. by intros v []. }
  { by apply Rlength_pos. }
  { unfold shifted, eps in Hhi. lra. }
  apply Rlt_le, (Rplus_le_compat_r (/ 2)), Zfloor_le in Hlo.
  apply (Rplus_le_compat_r (/ 2)), Zfloor_le in Hup.
  replace (_ - 1 + / 2)%R with (Rlength vs / Rsum (reciprocal <$> vs) + / 2 + IZR (-1))%R
    in Hlo by lra.
  rewrite Zfloor_addz in Hlo. lia.
Qed.

(** ** Properties *)

(** C35: under exact reals, on a well-formed raster, for a non-negative
    radius and an order [Q >= 0], each colour channel of the contraharmonic
    calculator is the clamped rounded quotient of the power sums of the
    window values shifted by [1e-10], and it lies between any bounds of the
    window values. *)
Theorem calculateContraharmonicMean_ideal (this : ContraharmonicMeanFilter.t) (q : R)
    (data : list Z) (centerX centerY width height ch lo hi : Z) :
  ContraharmonicMeanFilter.Q this = Some q → (0 <= q)%R →
  raster_ok data width height → 0 ≤ ContraharmonicMeanFilter.radius this → 0 ≤ ch ≤ 2 →
  0 ≤ lo → hi ≤ 255 →
  Forall (λ v, lo ≤ v ≤ hi)
    (windowValues data width height (ContraharmonicMeanFilter.radius this)
       centerX centerY ch) →
  channel (ContraharmonicMeanFilter.calculateContraharmonicMean this data
             centerX centerY width height) ch
  = Some (contraharmonicMeanZ q
      (windowValues data width height (ContraharmonicMeanFilter.radius this)
         centerX centerY ch))
  ∧ lo ≤ contraharmonicMeanZ q
      (windowValues data width height (ContraharmonicMeanFilter.radius this)
         centerX centerY ch) ≤ hi.
Proof.
  intros HQ Hq Hok Hr Hch Hlo Hhi Hvs. split; [by apply contraharmonic_channel_sound|].
  apply contraharmonicMeanZ_between; [done|by apply windowValues_nonempty|done..].
Qed.

Lemma calculateContraharmonicMean_ideal_witness :
  channel (ContraharmonicMeanFilter.calculateContraharmonicMean
             (@ContraharmonicMeanFilter.make ideal_Float64 3 1 (Some 1.5%R))
             [10; 20; 30; 255; 40; 50; 60; 255] 0 0 2 1) 0
  = Some (contraharmonicMeanZ 1.5
      (windowValues [10; 20; 30; 255; 40; 50; 60; 255] 2 1 1 0 0 0))
  ∧ 10 ≤ contraharmonicMeanZ 1.5
      (windowValues [10; 20; 30; 255; 40; 50; 60; 255] 2 1 1 0 0 0) ≤ 40.
Proof.
  apply (calculateContraharmonicMean_ideal (@ContraharmonicMeanFilter.make ideal_Float64 3 1 (Some 1.5%R)));
    [done|lra|by_compute|simpl; lia|lia|lia|lia|by_compute].
Defined.

(** Whatever the numbers do, every channel the contraharmonic
    calculator returns is NaN or an integer of [0 .. 255]. *)
Theorem calculateContraharmonicMean_clamped `{Float64} (this : ContraharmonicMeanFilter.t)
    (data : list Z) (centerX centerY width height ch : Z) :
  channel (ContraharmonicMeanFilter.calculateContraharmonicMean this data
             centerX centerY width height) ch = None
  ∨ ∃ v, channel (ContraharmonicMeanFilter.calculateContraharmonicMean this data
                    centerX centerY width height) ch = Some v ∧ 0 ≤ v ≤ 255.
Proof.
  unfold ContraharmonicMeanFilter.calculateContraharmonicMean, channel.
  repeat case_decide; apply (clampedQuotient_range (_, _)).
Qed.

(** C29: the order [Q = -5] darkens a flat region: on the raster of 5 x 5
    pixels of colour (128, 128, 128, 255) the contraharmonic filter of kernel
    size 5 writes 113 at the red byte of the centre pixel, because
    [epsilon] outweighs the sum of the powers [128^-5] in the denominator. *)
Theorem contraharmonic_negative_Q_darkens :
  u8get (uniform (λ ch, if decide (ch = 3) then 255 else 128) 5 5) 48 = Some 128
  ∧ u8get (ContraharmonicMeanFilter.processImageData
             (@ContraharmonicMeanFilter.make ideal_Float64 5 2 (Some (-5)%R))
             (uniform (λ ch, if decide (ch = 3) then 255 else 128) 5 5)
             (uniform (λ ch, if decide (ch = 3) then 255 else 128) 5 5) 5 5) 48
    = Some 113.
Proof.
  split; [done|]. unfold ContraharmonicMeanFilter.processImageData.
  rewrite (processImageData_get _ _ _ 5 5 2 2 0) by (done || lia).
  unfold pixelByte. rewrite decide_False by done.
  rewrite (contraharmonic_channel_sound _ (-5)) by (done || by_compute || lia).
  replace (windowValues _ _ _ _ _ _ _) with (replicate 25 128) by (by vm_compute).
  by rewrite contraharmonicMeanZ_128_neg5.
Qed.

(** C19: under exact reals the contraharmonic calculator of order [Q = 0]
    returns what the mean calculator of the same kernel returns, on every
    well-formed raster and for every radius up to 10000 (so that the
    window count times [1e-10] stays below one half). *)
Theorem contraharmonic_order_0_is_mean (this : ContraharmonicMeanFilter.t)
    (data : list Z) (centerX centerY width height ch : Z) :
  ContraharmonicMeanFilter.Q this = Some 0%R →
  raster_ok data width height → 0 ≤ ContraharmonicMeanFilter.radius this ≤ 10000 →
  0 ≤ ch ≤ 2 →
  channel (ContraharmonicMeanFilter.calculateContraharmonicMean this data
             centerX centerY width height) ch
  = channel (MeanFilter.calculateMeanValues
               (KernelSpec.make (ContraharmonicMeanFilter.kernelSize this)
                  (ContraharmonicMeanFilter.radius this))
               data centerX centerY width height) ch.
Proof.
  intros HQ Hok Hr Hch.
  rewrite (contraharmonic_channel_sound this 0), mean_channel_sound by (done || simpl; lia).
  f_equal. simpl. pose proof (length_windowValues data width height
    (ContraharmonicMeanFilter.radius this) centerX centerY ch ltac:(lia)) as Hlen.
  apply contraharmonicMeanZ_0; rewrite ?Hlen.
  - apply window_count_odd.
  - nia.
  - apply windowValues_bytes; [done|lia].
Qed.

Lemma contraharmonic_order_0_is_mean_witness :
  channel (ContraharmonicMeanFilter.calculateContraharmonicMean
             (@ContraharmonicMeanFilter.make ideal_Float64 3 1 (Some 0%R))
             [10; 20; 30; 255; 40; 50; 60; 255] 0 0 2 1) 0
  = channel (MeanFilter.calculateMeanValues (KernelSpec.make 3 1)
               [10; 20; 30; 255; 40; 50; 60; 255] 0 0 2 1) 0.
Proof.
  apply (contraharmonic_order_0_is_mean
           (@ContraharmonicMeanFilter.make ideal_Float64 3 1 (Some 0%R)));
    [done|by_compute|simpl; lia|lia].
Defined.

(** C20: under exact reals the contraharmonic calculator of order [Q = -1]
    returns what the harmonic calculator of the same kernel returns, or one
    less: the two differ only by the [epsilon] the contraharmonic quotient
    adds to the sum of the reciprocals. *)
Theorem contraharmonic_order_neg1_is_harmonic (this : ContraharmonicMeanFilter.t)
    (data : list Z) (centerX centerY width height ch : Z) :
  ContraharmonicMeanFilter.Q this = Some (-1)%R →
  raster_ok data width height → 0 ≤ ContraharmonicMeanFilter.radius this → 0 ≤ ch ≤ 2 →
  ∃ c h,
    channel (ContraharmonicMeanFilter.calculateContraharmonicMean this data
               centerX centerY width height) ch = Some c
    ∧ channel (HarmonicMeanFilter.calculateHarmonicMean
                 (KernelSpec.make (ContraharmonicMeanFilter.kernelSize this)
                    (ContraharmonicMeanFilter.radius this))
                 data centerX centerY width height) ch = Some h
    ∧ h - 1 ≤ c ≤ h.
Proof.
  intros HQ Hok Hr Hch. eexists _, _.
  split; [by apply (contraharmonic_channel_sound this (-1))|].
  split; [by apply harmonic_channel_sound|]. simpl. apply contraharmonicMeanZ_neg1.
  - by apply windowValues_nonempty.
  - apply windowValues_bytes; [done|lia].
Qed.

Lemma contraharmonic_order_neg1_is_harmonic_witness :
  ∃ c h,
    channel (ContraharmonicMeanFilter.calculateContraharmonicMean
               (@ContraharmonicMeanFilter.make ideal_Float64 3 1 (Some (-1)%R))
               [10; 20; 30; 255; 40; 50; 60; 255] 0 0 2 1) 0 = Some c
    ∧ channel (HarmonicMeanFilter.calculateHarmonicMean (KernelSpec.make 3 1)
                 [10; 20; 30; 255; 40; 50; 60; 255] 0 0 2 1) 0 = Some h
    ∧ h - 1 ≤ c ≤ h.
Proof.
  apply (contraharmonic_order_neg1_is_harmonic
           (@ContraharmonicMeanFilter.make ideal_Float64 3 1 (Some (-1)%R)));
    [done|by_compute|simpl; lia|lia].
Defined.
