(* ===== verification/Symmetry.v ===== *)
(** * Symmetries of the aggregating filters

    The window loops of the classes visit the rows of a window one after
    the other, and the sweep visits the rows of the raster one after the
    other.  Nothing a filter computes depends on that order: the aggregate
    of a window is the same for every order of its samples (the [Proper]
    instances of [mean], [minOf], [maxOf], [midpoint] and [sortedMedian]
    for permutations, and of the power means under exact reals), and the
    mirror rule treats both axes alike.  This
    file proves the consequences for whole rasters: filtering the transposed
    raster gives the transposed result ([transpose] exchanges the rows and
    the columns of a raster), and filtering the mirror image gives the
    mirror image of the result ([flipH] reverses every row) as long as the
    radius is smaller than the width.  From a radius equal to the width on,
    the mirror rule saturates on one side before the other and the mirror
    image is filtered differently ([flip_asymmetry]).  The lemmas on the
    sweep ([processed_transpose], [processed_flipH]) relate two calculators
    whose values agree on re-indexed rasters, so that the Gaussian passes,
    which exchange their roles under transposition, use them as well. *)

From Stdlib Require Import ZArith Lia.
From stdpp Require Import base tactics option list list_numbers numbers.
From S2P Require Import Prelude TypedArray Boundary Kernel Sweep Floats Canvas Pipeline.
From S2P Require Import Mean MinMax Midpoint Median Geometric Harmonic Contraharmonic.

#[local] Open Scope Z_scope.

(** ** Definitions *)

(** Reference: the buffer of [n] bytes whose byte [i] is byte [source i] of
    [data]. *)
Definition gather (source : Z → Z) (data : list Z) (n : Z) : list Z :=
  (λ i, default 0 (u8get data (source i))) <$> seqZ 0 n.

(** Reference: the raster of [height] columns and [width] rows whose pixel
    [(x, y)] is the pixel [(y, x)] of [data]. *)
Definition transpose (data : list Z) (width height : Z) : list Z :=
  gather (λ i, (((i / 4) mod height) * width + (i / 4) / height) * 4 + i mod 4)
    data (width * height * 4).

(** Reference: the mirror image, whose pixel [(x, y)] is the pixel
    [(width - 1 - x, y)] of [data]. *)
Definition flipH (data : list Z) (width height : Z) : list Z :=
  gather (λ i, (((i / 4) / width) * width + (width - 1 - (i / 4) mod width)) * 4 + i mod 4)
    data (width * height * 4).

(** A calculator whose aggregate does not depend on the order in which the
    window is read. *)
Class Unordered (calc : Calculator) (radius : Z) `{!Aggregator calc radius} :=
  unordered :: Proper ((≡ₚ) ==> (=)) (agg_channel (calc := calc)).

(** ** Rasters, pixel by pixel *)

(** Two rasters of one size with the same bytes at every channel of every
    pixel are equal. *)
Lemma raster_eq (a b : list Z) (width height : Z) :
  raster_ok a width height → raster_ok b width height →
  (∀ x y ch, 0 ≤ x < width → 0 ≤ y < height → 0 ≤ ch ≤ 3 →
     u8get a ((y * width + x) * 4 + ch) = u8get b ((y * width + x) * 4 + ch)) →
  a = b.
Proof.
  intros (Hw & Hh & Ha & _) (_ & _ & Hb & _) Hget. apply u8_ext; [lia|].
  intros i Hi. rewrite (index_pixel width height i) by lia.
  destruct (pixel_of_index_range width height i) as [Hx Hy]; [lia..|].
  apply Hget; [done..|]. pose proof (Z.mod_pos_bound i 4). lia.
Qed.

Lemma pixel_in_raster width height x y ch :
  0 ≤ x < width → 0 ≤ y < height → 0 ≤ ch ≤ 3 →
  0 ≤ (y * width + x) * 4 + ch < width * height * 4.
Proof. intros. assert (0 ≤ y * width ≤ (height - 1) * width) by nia. lia. Qed.

Lemma pixel_of_channel width x y ch :
  0 ≤ x < width → 0 ≤ ch ≤ 3 →
  (((y * width + x) * 4 + ch) `div` 4) `mod` width = x
  ∧ (((y * width + x) * 4 + ch) `div` 4) `div` width = y
  ∧ ((y * width + x) * 4 + ch) `mod` 4 = ch.
Proof.
  intros. replace (((y * width + x) * 4 + ch) `div` 4) with (x + y * width)
    by (Z.div_mod_to_equations; lia).
  rewrite Z.mod_add, Z.div_add, Z.mod_small, Z.div_small by lia.
  split; [done|]. split; [lia|]. Z.div_mod_to_equations. lia.
Qed.

(** ** Gathered buffers *)

Lemma length_gather source data n : length (gather source data n) = Z.to_nat n.
Proof. unfold gather. by rewrite length_fmap, length_seqZ. Qed.

Lemma is_bytes_gather source data n : is_bytes data → is_bytes (gather source data n).
Proof.
  intros Hb. apply Forall_fmap, Forall_true. intros i. simpl.
  destruct (u8get data _) as [v|] eqn:Hv; [by eapply u8get_byte|done].
Qed.

Lemma gather_get source data n i :
  0 ≤ i < n → u8get (gather source data n) i = Some (default 0 (u8get data (source i))).
Proof.
  intros. unfold gather, u8get at 1. rewrite decide_True by lia.
  by rewrite list_lookup_fmap, seqZ_lookup_Z.
Qed.

Lemma gather_raster_ok source data width height width' height' :
  raster_ok data width height → width' * height' = width * height → 0 < width' → 0 < height' →
  raster_ok (gather source data (width * height * 4)) width' height'.
Proof.
  intros (Hw & Hh & Hlen & Hb) Heq Hw' Hh'. repeat split; [done..| |by apply is_bytes_gather].
  rewrite length_gather. lia.
Qed.

(** ** Transposition and mirror image *)

Section moved.
Context (data : list Z) (width height : Z) (Hok : raster_ok data width height).

Lemma transpose_get x y ch :
  0 ≤ x < height → 0 ≤ y < width → 0 ≤ ch ≤ 3 →
  u8get (transpose data width height) ((y * height + x) * 4 + ch)
  = u8get data ((x * width + y) * 4 + ch).
Proof.
  intros Hx Hy Hch. unfold transpose.
  rewrite gather_get by (rewrite (Z.mul_comm width); by apply pixel_in_raster).
  destruct (pixel_of_channel height x y ch) as (-> & -> & ->); [done..|].
  destruct (raster_read data width height ((x * width + y) * 4) ch Hok Hch)
    as (v & -> & _); [|done].
  pose proof (pixel_in_raster width height y x 0). rewrite Z.mod_mul by lia. lia.
Qed.

Lemma flipH_get x y ch :
  0 ≤ x < width → 0 ≤ y < height → 0 ≤ ch ≤ 3 →
  u8get (flipH data width height) ((y * width + x) * 4 + ch)
  = u8get data ((y * width + (width - 1 - x)) * 4 + ch).
Proof.
  intros Hx Hy Hch. unfold flipH. rewrite gather_get by (by apply pixel_in_raster).
  destruct (pixel_of_channel width x y ch) as (-> & -> & ->); [done..|].
  destruct (raster_read data width height ((y * width + (width - 1 - x)) * 4) ch Hok Hch)
    as (v & -> & _); [|done].
  pose proof (pixel_in_raster width height (width - 1 - x) y 0).
  rewrite Z.mod_mul by lia. lia.
Qed.

Lemma transpose_raster_ok : raster_ok (transpose data width height) height width.
Proof. apply (gather_raster_ok _ _ _ _ _ _ Hok); [lia|apply Hok..]. Qed.

Lemma flipH_raster_ok : raster_ok (flipH data width height) width height.
Proof. apply (gather_raster_ok _ _ _ _ _ _ Hok); [lia|apply Hok..]. Qed.

(** The window of the transposed raster around [(x, y)] holds the samples
    of the window of the raster around [(y, x)], column by column. *)
Lemma windowValues_transpose radius centerX centerY ch :
  0 ≤ ch ≤ 3 →
  windowValues (transpose data width height) height width radius centerX centerY ch
  ≡ₚ windowValues data width height radius centerY centerX ch.
Proof.
  intros Hch. destruct Hok as (Hw & Hh & _).
  trans ((λ p, default 0 (u8get data (sampleIndex width height centerY centerX p.2 p.1 + ch)))
           <$> (prod_swap <$> windowOffsets radius)).
  - unfold windowValues, windowIndices. rewrite <-!list_fmap_compose.
    apply Permutation_refl', list_fmap_ext. intros _ [dy dx] _. simpl.
    unfold sampleIndex. simpl. by rewrite transpose_get by (done || by apply mirror_range).
  - rewrite windowOffsets_swap. unfold windowValues, windowIndices.
    by rewrite <-list_fmap_compose.
Qed.

(** The window of the mirror image around [(x, y)] holds the samples of the
    window of the raster around [(width - 1 - x, y)], from right to left,
    when no column of the window is farther than one reflection to the left
    or two to the right. *)
Lemma windowValues_flipH radius centerX centerY ch :
  0 ≤ ch ≤ 3 → 0 ≤ centerX < width → radius < width →
  windowValues (flipH data width height) width height radius centerX centerY ch
  ≡ₚ windowValues data width height radius (width - 1 - centerX) centerY ch.
Proof.
  intros Hch Hx Hr. destruct Hok as (Hw & Hh & _).
  trans ((λ p, default 0 (u8get data
            (sampleIndex width height (width - 1 - centerX) centerY p.2 p.1 + ch)))
           <$> ((λ p, (p.1, - p.2)) <$> windowOffsets radius)).
  - unfold windowValues, windowIndices. rewrite <-!list_fmap_compose.
    apply Permutation_refl', list_fmap_ext.
    intros _ [dy dx] [_ Hdx]%list_elem_of_lookup_2%elem_of_windowOffsets. simpl.
    unfold sampleIndex. simpl. rewrite flipH_get by (done || by apply mirror_range).
    rewrite <-mirror_flip by lia. do 6 f_equal. lia.
  - rewrite windowOffsets_flip. unfold windowValues, windowIndices.
    by rewrite <-list_fmap_compose.
Qed.

End moved.

(** Transposing twice, or taking the mirror image twice, gives the raster
    back. *)
Lemma transpose_involutive data width height :
  raster_ok data width height →
  transpose (transpose data width height) height width = data.
Proof.
  intros Hok. pose proof (transpose_raster_ok _ _ _ Hok) as Hok'.
  apply (raster_eq _ _ width height); [by apply transpose_raster_ok|done|].
  intros x y ch Hx Hy Hch. by rewrite !transpose_get.
Qed.

Lemma flipH_involutive data width height :
  raster_ok data width height →
  flipH (flipH data width height) width height = data.
Proof.
  intros Hok. pose proof (flipH_raster_ok _ _ _ Hok) as Hok'.
  apply (raster_eq _ _ width height); [by apply flipH_raster_ok|done|].
  intros x y ch Hx Hy Hch. rewrite !flipH_get by (done || lia). do 4 f_equal. lia.
Qed.

(** ** The filters that do not mind the order *)

#[export] Instance mean_unordered this Hr : @Unordered _ _ (mean_aggregator this Hr).
Proof. apply mean_Permutation. Qed.

#[export] Instance max_unordered this Hr : @Unordered _ _ (max_aggregator this Hr).
Proof. apply maxOf_Permutation. Qed.

#[export] Instance min_unordered this Hr : @Unordered _ _ (min_aggregator this Hr).
Proof. apply minOf_Permutation. Qed.

#[export] Instance midpoint_unordered this Hr : @Unordered _ _ (midpoint_aggregator this Hr).
Proof. apply midpoint_Permutation. Qed.

#[export] Instance median_unordered this Hr Hk : @Unordered _ _ (median_aggregator this Hr Hk).
Proof. apply sortedMedian_Permutation. Qed.

(** Under exact reals, where a sum does not depend on the order of its
    terms, so are the power means. *)
#[export] Instance geometric_unordered this Hr : @Unordered _ _ (geometric_aggregator this Hr).
Proof. apply geometricMeanZ_Permutation. Qed.

#[export] Instance harmonic_unordered this Hr : @Unordered _ _ (harmonic_aggregator this Hr).
Proof. apply harmonicMeanZ_Permutation. Qed.

#[export] Instance contraharmonic_unordered this q HQ Hq Hr :
  @Unordered _ _ (contraharmonic_aggregator this q HQ Hq Hr).
Proof. apply contraharmonicMeanZ_Permutation. Qed.

(** ** Sweeps of moved rasters *)

(** A pixel whose alpha byte and whose colours, as the calculators return
    them, are those of a pixel of another raster gets the bytes that pixel
    gets. *)
Lemma processed_moved (calc calc' : Calculator) data width height data' width' height'
    x y x' y' ch :
  raster_ok data width height → raster_ok data' width' height' →
  0 ≤ x < width → 0 ≤ y < height → 0 ≤ x' < width' → 0 ≤ y' < height' → 0 ≤ ch ≤ 3 →
  u8get data' ((y' * width' + x') * 4 + 3) = u8get data ((y * width + x) * 4 + 3) →
  (∀ ch, 0 ≤ ch ≤ 2 →
     channel (calc' data' x' y' width' height') ch = channel (calc data x y width height) ch) →
  u8get (filterRaster calc' data' width' height') ((y' * width' + x') * 4 + ch)
  = u8get (filterRaster calc data width height) ((y * width + x) * 4 + ch).
Proof.
  intros Hok Hok' Hx Hy Hx' Hy' Hch Halpha Hcalc. unfold filterRaster.
  rewrite !processImageData_get by (apply Hok || apply Hok' || done).
  f_equal. unfold pixelByte. case_decide; [by rewrite Halpha|]. by rewrite Hcalc by lia.
Qed.

Section sweeps.
Context (calc calc' : Calculator) (data : list Z) (width height : Z).
Context (Hok : raster_ok data width height).

(** A calculator that returns at the pixel [(x, y)] of the transposed
    raster what another returns at the pixel [(y, x)] of the raster sweeps
    the transposed raster into the transposed sweep of the other. *)
Lemma processed_transpose :
  (∀ x y ch, 0 ≤ x < height → 0 ≤ y < width → 0 ≤ ch ≤ 2 →
     channel (calc' (transpose data width height) x y height width) ch
     = channel (calc data y x width height) ch) →
  filterRaster calc' (transpose data width height) height width
  = transpose (filterRaster calc data width height) width height.
Proof.
  intros Hcalc. pose proof (transpose_raster_ok _ _ _ Hok) as Ht.
  pose proof (processed_raster_ok calc _ _ _ Hok) as Hp.
  apply (raster_eq _ _ height width);
    [by apply processed_raster_ok|by apply transpose_raster_ok|].
  intros x y ch Hx Hy Hch. rewrite (transpose_get _ _ _ Hp) by done.
  apply processed_moved; try done; [by rewrite transpose_get|]. intros. by apply Hcalc.
Qed.

Lemma processed_flipH :
  (∀ x y ch, 0 ≤ x < width → 0 ≤ y < height → 0 ≤ ch ≤ 2 →
     channel (calc' (flipH data width height) x y width height) ch
     = channel (calc data (width - 1 - x) y width height) ch) →
  filterRaster calc' (flipH data width height) width height
  = flipH (filterRaster calc data width height) width height.
Proof.
  intros Hcalc. pose proof (flipH_raster_ok _ _ _ Hok) as Hf.
  pose proof (processed_raster_ok calc _ _ _ Hok) as Hp.
  apply (raster_eq _ _ width height);
    [by apply processed_raster_ok|by apply flipH_raster_ok|].
  intros x y ch Hx Hy Hch. rewrite (flipH_get _ _ _ Hp) by done.
  apply processed_moved; try done; [lia|by rewrite flipH_get|]. intros. by apply Hcalc.
Qed.

End sweeps.

(** ** Properties *)

(** C15: the aggregating filters have the symmetries of their window: for
    every calculator that meets [Aggregator] with an aggregate that does
    not depend on the order of the samples (the mean, minimum, maximum,
    midpoint and median filters, and the power means under exact reals),
    filtering the transposed raster gives the transposed result, and, when
    the radius is smaller than the width, filtering the mirror image gives
    the mirror image of the result, alpha included. *)
Theorem filter_symmetries (calc : Calculator) (radius : Z) `{!Aggregator calc radius}
    `{!Unordered calc radius} (data : list Z) (width height : Z) :
  raster_ok data width height →
  filterRaster calc (transpose data width height) height width
  = transpose (filterRaster calc data width height) width height
  ∧ (radius < width →
     filterRaster calc (flipH data width height) width height
     = flipH (filterRaster calc data width height) width height).
Proof.
  intros Hok. pose proof (transpose_raster_ok _ _ _ Hok) as Ht.
  pose proof (flipH_raster_ok _ _ _ Hok) as Hf.
  split; [|intros Hr]; [apply processed_transpose|apply processed_flipH]; try done;
    intros x y ch Hx Hy Hch; rewrite !agg_sound by (done || lia); f_equal;
    apply unordered;
    [apply windowValues_transpose|apply windowValues_flipH]; (done || lia).
Qed.

Lemma filter_symmetries_witness :
  let calc := MedianFilter.calculateMedianValues (KernelSpec.make 3 1) in
  let data := [10; 20; 30; 255; 40; 50; 60; 255; 70; 80; 90; 255;
               15; 25; 35; 255; 45; 55; 65; 255; 75; 85; 95; 255] in
  filterRaster calc (transpose data 3 2) 2 3 = transpose (filterRaster calc data 3 2) 3 2
  ∧ (1 < 3 → filterRaster calc (flipH data 3 2) 3 2 = flipH (filterRaster calc data 3 2) 3 2).
Proof.
  apply (filter_symmetries _ 1
           (Aggregator0 := median_aggregator (KernelSpec.make 3 1)
                             ltac:(simpl; lia) eq_refl)).
  by_compute.
Defined.

(** From a radius equal to the width on the mirror image is filtered
    differently: on two pixels in a row filtered by the mean filter of
    kernel size 5, both orders of a black and a white pixel give two equal
    pixels, darker than the average when the black pixel is on the left and
    brighter when it is on the right, because the mirror rule saturates at
    the left edge. *)
Example flip_asymmetry :
  let calc := MeanFilter.calculateMeanValues (KernelSpec.make 5 2) in
  let data := [0; 0; 0; 255; 255; 255; 255; 255] in
  flipH data 2 1 = [255; 255; 255; 255; 0; 0; 0; 255]
  ∧ filterRaster calc data 2 1 = [102; 102; 102; 255; 102; 102; 102; 255]
  ∧ filterRaster calc (flipH data 2 1) 2 1 = [153; 153; 153; 255; 153; 153; 153; 255].
Proof. cbv zeta. by_compute. Qed.
