(* ===== verification/Gaussian.v ===== *)
(** * The Gaussian filter ([GaussianFilter], src/unnamed/part_002)

    The constructor derives an odd kernel size from [sigma] and builds a
    normalised one-dimensional kernel in a [Float32Array]; [applyFilter]
    convolves the rows, then the columns of the intermediate buffer, with
    edge clamping, and copies the result over the pixels.  Both passes are
    the raster sweep of Sweep.v with their own calculators; the numbers are
    those of the interface [Float64].  Under exact reals ([ideal]) the
    kernel is [gaussianKernel], whose weights are positive and sum to one,
    and each pass computes the rounded weighted sum [convolveZ].  The
    order of the passes is part of the result: on the transposed raster the
    filter runs the columns first ([gaussian_transposed]), and the bytes
    stored between the passes make that a different filter.  The file ends
    with the class's test image and [testGaussianFilter]. *)

From Stdlib Require Import ZArith Lia Reals Zfloor Lra.
From stdpp Require Import base tactics option list list_numbers numbers strings.
From S2P Require Import Prelude TypedArray Boundary Kernel Sweep Floats Canvas Pipeline.
From S2P Require Import Ideal Noise Symmetry.

#[local] Open Scope Z_scope.

(** ** Definitions *)

(** The conversion [ToInt32] that [|] applies to an integer. *)
Definition ToInt32 (z : Z) : Z := (z + 2 ^ 31) mod 2 ^ 32 - 2 ^ 31.

(** [n | 1] on a number that is an integer or NaN. *)
Definition orOne (n : jsnum) : Z := Z.lor (ToInt32 (default 0 n)) 1.

(** [kernel[i]] and [kernel[i] = v] on a [Float32Array]. *)
Definition f32get `{Float64} (kernel : list float) (i : Z) : float :=
  if decide (0 ≤ i) then default (ofNum None) (kernel !! Z.to_nat i) else ofNum None.

Definition f32set `{Float64} (kernel : list float) (i : Z) (v : float) : list float :=
  if decide (0 ≤ i) then <[Z.to_nat i := toFloat32 v]> kernel else kernel.

(** [Math.round(Math.max(0, Math.min(255, sum)))]. *)
Definition roundClamped `{Float64} (sum : float) : jsnum :=
  Math_round (fmax (ofNum (Some 0)) (fmin (ofNum (Some 255)) sum)).

(** Reference: entry [i] of the kernel before normalisation,
    [exp(-(x * x) / (2 * sigma * sigma))] with [x = i - radius]. *)
Definition gaussianValue `{Float64} (sigma : float) (radius i : Z) : float :=
  let x := i - radius in
  Math_exp (fdiv (ofNum (Some (- (x * x)))) (fmul (fmul (ofNum (Some 2)) sigma) sigma)).

(** Reference: the kernel, entry by entry: each value, as the array keeps
    it, divided by the sum of the values. *)
Definition kernelSpec `{Float64} (sigma : float) (kernelSize radius : Z) : list float :=
  let sum := foldl (λ sum i, fadd sum (gaussianValue sigma radius i))
               (ofNum (Some 0)) (seqZ 0 kernelSize) in
  (λ i, toFloat32 (fdiv (toFloat32 (gaussianValue sigma radius i)) sum))
    <$> seqZ 0 kernelSize.

Module GaussianFilter.

(** The fields [this.sigma], [this.kernelSize], [this.radius],
    [this.kernel]. *)
Record t `{Float64} :=
  make { sigma : float; kernelSize : Z; radius : Z; kernel : list float }.
Arguments make {_} _ _ _ _.

(** [createGaussianKernel()], called when [sigma], [kernelSize] and [radius]
    are set; [new Float32Array(n)] throws on a negative length. *)
Definition createGaussianKernel `{Float64} (sigma : float) (kernelSize radius : Z)
  : completion (list float) :=
  if decide (kernelSize < 0) then Throw RangeError
  else
    let kernel := replicate (Z.to_nat kernelSize) (ofNum (Some 0)) in
    let sigma2 := fmul (fmul (ofNum (Some 2)) sigma) sigma in
    let filled :=
      foldl (λ '(kernel, sum) i,
        let x := i - radius in
        let value := Math_exp (fdiv (ofNum (Some (- (x * x)))) sigma2) in
        (f32set kernel i value, fadd sum value))
        (kernel, ofNum (Some 0)) (seqZ 0 kernelSize) in
    Normal (foldl (λ kernel i, f32set kernel i (fdiv (f32get kernel i) filled.2))
              filled.1 (seqZ 0 kernelSize)).

(** [constructor(sigma = 1.0, kernelSize = null)]. *)
Definition constructor `{Float64} (sigma : float) (kernelSize : option Z) : completion t :=
  kernelSize ←
    match kernelSize with
    | None => Normal (orOne (Math_ceil (fmul (ofNum (Some 6)) sigma)))
    | Some kernelSize =>
        if decide (Z.rem kernelSize 2 = 0) then Throw (Error "Kernel size phải là số lẻ!")
        else Normal kernelSize
    end;
  let radius := kernelSize / 2 in
  kernel ← createGaussianKernel sigma kernelSize radius;
  Normal (make sigma kernelSize radius kernel).

(** The local variables [sumR], [sumG], [sumB] of a convolution. *)
Record sums `{Float64} := mkSums { sumR : float; sumG : float; sumB : float }.
Arguments mkSums {_} _ _ _.

(** The body both convolutions share, at the sample [pixelIndex] and the
    kernel entry [i]. *)
Definition accumulate `{Float64} (this : t) (data : list Z) (acc : sums)
    (pixelIndex i : Z) : sums :=
  let kernelValue := f32get (kernel this) i in
  mkSums (fadd (sumR acc) (fmul (ofNum (u8get data pixelIndex)) kernelValue))
         (fadd (sumG acc) (fmul (ofNum (u8get data (pixelIndex + 1))) kernelValue))
         (fadd (sumB acc) (fmul (ofNum (u8get data (pixelIndex + 2))) kernelValue)).

(** [convolveHorizontal(data, centerX, centerY, width, height)]. *)
Definition convolveHorizontal `{Float64} (this : t) (data : list Z)
    (centerX centerY width height : Z) : RGB :=
  let acc :=
    foldl (λ acc i,
      let dx := i - radius this in
      let newX := centerX + dx in
      let validX := clampCoord width newX in
      let pixelIndex := (centerY * width + validX) * 4 in
      accumulate this data acc pixelIndex i)
      (mkSums (ofNum (Some 0)) (ofNum (Some 0)) (ofNum (Some 0)))
      (seqZ 0 (kernelSize this)) in
  mkRGB (roundClamped (sumR acc)) (roundClamped (sumG acc)) (roundClamped (sumB acc)).

(** [convolveVertical(data, centerX, centerY, width, height)]. *)
Definition convolveVertical `{Float64} (this : t) (data : list Z)
    (centerX centerY width height : Z) : RGB :=
  let acc :=
    foldl (λ acc i,
      let dy := i - radius this in
      let newY := centerY + dy in
      let validY := clampCoord height newY in
      let pixelIndex := (validY * width + centerX) * 4 in
      accumulate this data acc pixelIndex i)
      (mkSums (ofNum (Some 0)) (ofNum (Some 0)) (ofNum (Some 0)))
      (seqZ 0 (kernelSize this)) in
  mkRGB (roundClamped (sumR acc)) (roundClamped (sumG acc)) (roundClamped (sumB acc)).

(** [applyHorizontalConvolution(imageData, width, height)]. *)
Definition applyHorizontalConvolution `{Float64} (this : t) (data : list Z)
    (width height : Z) : list Z :=
  sweepRows (convolveHorizontal this) data width height (Uint8ClampedArray (length data)).

(** [applyVerticalConvolution(inputData, width, height)]. *)
Definition applyVerticalConvolution `{Float64} (this : t) (inputData : list Z)
    (width height : Z) : list Z :=
  sweepRows (convolveVertical this) inputData width height
    (Uint8ClampedArray (length inputData)).

(** [applySimpleFilter(imageElement, canvas, ctx)]: the canvas redrawn
    through [blur(<sigma>px)]. *)
Definition applySimpleFilter `{Browser} (this : t) (imageElement : ImageElement.t)
    (canvas : Canvas.t) : completion Canvas.t :=
  blurFallback (sigma this) imageElement canvas.

(** What [applyFilter] leaves in [imageData.data] when the pixels can be
    read. *)
Definition filtered `{Float64} (this : t) (data : list Z) (width height : Z) : list Z :=
  let horizontalData := applyHorizontalConvolution this data width height in
  let finalData := applyVerticalConvolution this horizontalData width height in
  copyInto data finalData.

(** [applyFilter(imageElement)]. *)
Definition applyFilter `{Browser} (this : t) (imageElement : ImageElement.t) : Outcome :=
  settled (
    canvas ← drawImage None (ImageSource imageElement) (sizedCanvas imageElement);
    match getImageData canvas with
    | Throw corsError => applySimpleFilter this imageElement canvas
    | Normal data =>
        let data := filtered this data (Canvas.width canvas) (Canvas.height canvas) in
        Normal (putImageData data canvas)
    end).

(** [createNoisyTestImage(width = 300, height = 300)]: the offsets span
    80. *)
Definition createNoisyTestImage `{Painter} (random : Z → float)
    (width height : option Z) : completion Canvas.t :=
  noisyTestImage (ofNum (Some 80)) random width height.

End GaussianFilter.

(** [testGaussianFilter()].  [img] is the image the browser loads from the
    data URL of the noisy canvas; the value is the promise the [onload]
    callback awaits inside its [try]. *)
Definition testGaussianFilter `{Browser} `{!Painter} (random : Z → float)
    (img : ImageElement.t) : completion Outcome :=
  filter ← GaussianFilter.constructor (ofNum (Some 2)) None;
  noisyCanvas ← GaussianFilter.createNoisyTestImage random (Some 200) (Some 200);
  src ← toDataURL noisyCanvas;
  Normal (GaussianFilter.applyFilter filter img).

(** Reference: the loop both convolutions run, over the sample index [p i]
    of the kernel entry [i]. *)
Definition convolve `{Float64} (this : GaussianFilter.t) (data : list Z) (p : Z → Z) : RGB :=
  let acc :=
    foldl (λ acc i, GaussianFilter.accumulate this data acc (p i) i)
      (GaussianFilter.mkSums (ofNum (Some 0)) (ofNum (Some 0)) (ofNum (Some 0)))
      (seqZ 0 (GaussianFilter.kernelSize this)) in
  mkRGB (roundClamped (GaussianFilter.sumR acc)) (roundClamped (GaussianFilter.sumG acc))
        (roundClamped (GaussianFilter.sumB acc)).

(** Reference: the two passes, pointwise. *)
Definition gaussianSpec `{Float64} (this : GaussianFilter.t) (data : list Z)
    (width height : Z) : list Z :=
  filterSpec (GaussianFilter.convolveVertical this)
    (filterSpec (GaussianFilter.convolveHorizontal this) data width height) width height.

(** Reference under exact reals: the weights of the kernel, a kernel whose
    weights are non-negative and sum to one, the weighted sum of the taps
    of a convolution and its clamped rounding. *)
Definition gaussianWeight (s : R) (radius i : Z) : R :=
  exp (IZR (- ((i - radius) * (i - radius))) / (2 * s * s)).

Definition gaussianKernel (s : R) (kernelSize radius : Z) : list R :=
  (λ i, gaussianWeight s radius i
        / Rsum (gaussianWeight s radius <$> seqZ 0 kernelSize))%R <$> seqZ 0 kernelSize.

Definition normalised (ws : list R) : Prop :=
  Forall (λ w, 0 <= w)%R ws ∧ Rsum ws = 1%R.

Definition weightAt (ws : list R) (i : Z) : R := default 0%R (ws !! Z.to_nat i).

Definition convolveR (v : Z → Z) (ws : list R) : R :=
  Rsum ((λ i, IZR (v i) * weightAt ws i)%R <$> seqZ 0 (Z.of_nat (length ws))).

Definition convolveZ (v : Z → Z) (ws : list R) : Z :=
  Zfloor (Rmax 0 (Rmin 255 (convolveR v ws)) + / 2).

(** The sample a horizontal, a vertical convolution reads for the kernel
    entry [i]. *)
Definition rowIndex (width radius centerX centerY i : Z) : Z :=
  (centerY * width + clampCoord width (centerX + (i - radius))) * 4.

Definition columnIndex (width height radius centerX centerY i : Z) : Z :=
  (clampCoord height (centerY + (i - radius)) * width + centerX) * 4.

(** ** The kernel *)

Lemma orOne_odd n : Z.odd (orOne n) = true.
Proof.
  unfold orOne. rewrite <-Z.bit0_odd, Z.lor_spec. simpl. apply orb_true_r.
Qed.

Lemma length_f32set `{Float64} kernel i v : length (f32set kernel i v) = length kernel.
Proof. unfold f32set. case_decide; [apply length_insert|done]. Qed.

Lemma length_createGaussianKernel `{Float64} sigma kernelSize radius kernel :
  GaussianFilter.createGaussianKernel sigma kernelSize radius = Normal kernel →
  Z.of_nat (length kernel) = kernelSize.
Proof.
  unfold GaussianFilter.createGaussianKernel. case_decide; [done|]. intros [= <-].
  match goal with |- context [foldl ?f ?a ?l] =>
    assert (length (foldl f a l) = length a) as ->
  end.
  { apply (foldl_invariant (λ k, length k = _)); [done|].
    intros acc i _ <-. apply length_f32set. }
  match goal with |- context [foldl ?f ?a ?l] =>
    assert (length (foldl f a l).1 = Z.to_nat kernelSize) as ->; [|lia]
  end.
  apply (foldl_invariant (λ p, length p.1 = _)); [apply length_replicate|].
  intros [k s] i _ Hk. simpl in *. by rewrite length_f32set.
Qed.

(** A loop that stores [f i] at every index fills the array. *)
Lemma f32_fill `{Float64} (f : Z → float) (kernel : list float) (n : Z) :
  Z.of_nat (length kernel) = n →
  foldl (λ kernel i, f32set kernel i (f i)) kernel (seqZ 0 n)
  = (λ i, toFloat32 (f i)) <$> seqZ 0 n.
Proof.
  intros <-. apply foldl_seqZ_prefix; [by rewrite length_fmap, length_seqZ, Nat2Z.id|].
  intros k Hk. unfold f32set. rewrite decide_True, Nat2Z.id by lia.
  apply insert_prefix; [rewrite length_fmap, length_seqZ; lia|].
  rewrite list_lookup_fmap, lookup_seqZ_lt by lia. simpl. repeat f_equal; lia.
Qed.

(** A loop that replaces every entry by [h] of it maps the array. *)
Lemma f32_map `{Float64} (h : float → float) (kernel : list float) (n : Z) :
  Z.of_nat (length kernel) = n →
  foldl (λ kernel i, f32set kernel i (h (f32get kernel i))) kernel (seqZ 0 n)
  = (λ v, toFloat32 (h v)) <$> kernel.
Proof.
  intros <-. apply foldl_seqZ_prefix; [by rewrite length_fmap|].
  intros k Hk. unfold f32set, f32get. rewrite !decide_True, Nat2Z.id by lia.
  destruct (lookup_lt_is_Some_2 kernel k Hk) as [y Hy].
  apply insert_prefix; [by rewrite length_fmap|].
  set (out := _ <$> kernel).
  assert (length (take k out) = k) as Hlen
    by (rewrite length_take_le; unfold out; rewrite ?length_fmap; lia).
  rewrite lookup_app_r, Hlen, Nat.sub_diag, lookup_drop, Nat.add_0_r, Hy by lia.
  unfold out. by rewrite list_lookup_fmap, Hy.
Qed.

(** The kernel the constructor builds is the reference kernel. *)
Lemma createGaussianKernel_kernelSpec `{Float64} sigma kernelSize radius :
  0 ≤ kernelSize →
  GaussianFilter.createGaussianKernel sigma kernelSize radius
  = Normal (kernelSpec sigma kernelSize radius).
Proof.
  intros Hn. unfold GaussianFilter.createGaussianKernel, kernelSpec.
  rewrite decide_False by lia. f_equal.
  rewrite (foldl_pair (λ kernel i, f32set kernel i (gaussianValue sigma radius i))
             (λ sum i, fadd sum (gaussianValue sigma radius i))).
  cbn [fst snd]. set (sum := foldl _ (ofNum (Some 0)) _).
  rewrite (f32_fill _ _ kernelSize) by (rewrite length_replicate; lia).
  rewrite (f32_map (λ v, fdiv v sum) _ kernelSize)
    by (rewrite length_fmap, length_seqZ; lia).
  by rewrite <-list_fmap_compose.
Qed.

(** ** The two passes *)

Section passes.
Context `{Float64} (this : GaussianFilter.t) (data : list Z) (width height : Z).
Context (Hok : raster_ok data width height).

Lemma applyHorizontalConvolution_spec :
  GaussianFilter.applyHorizontalConvolution this data width height
  = filterSpec (GaussianFilter.convolveHorizontal this) data width height.
Proof.
  destruct Hok as (Hw & Hh & Hlen & _). unfold GaussianFilter.applyHorizontalConvolution.
  apply sweepRows_spec; rewrite ?length_Uint8ClampedArray; lia.
Qed.

Lemma filtered_spec :
  GaussianFilter.filtered this data width height = gaussianSpec this data width height.
Proof.
  destruct Hok as (Hw & Hh & Hlen & _). unfold GaussianFilter.filtered, gaussianSpec.
  rewrite applyHorizontalConvolution_spec. unfold GaussianFilter.applyVerticalConvolution.
  rewrite sweepRows_spec by (rewrite ?length_Uint8ClampedArray, ?length_filterSpec; lia).
  apply copyInto_all; [rewrite length_filterSpec; lia|apply is_bytes_filterSpec].
Qed.

End passes.

(** ** The convolution loop *)

Lemma convolveHorizontal_convolve `{Float64} (this : GaussianFilter.t) data
    centerX centerY width height :
  GaussianFilter.convolveHorizontal this data centerX centerY width height
  = convolve this data (rowIndex width (GaussianFilter.radius this) centerX centerY).
Proof. done. Qed.

Lemma convolveVertical_convolve `{Float64} (this : GaussianFilter.t) data
    centerX centerY width height :
  GaussianFilter.convolveVertical this data centerX centerY width height
  = convolve this data (columnIndex width height (GaussianFilter.radius this) centerX centerY).
Proof. done. Qed.

(** Each channel of a convolution is the clamped rounding of the sum, over
    the kernel entries, of the sample times the weight. *)
Lemma convolve_channel `{Float64} (this : GaussianFilter.t) (data : list Z)
    (p : Z → Z) (ch : Z) :
  0 ≤ ch ≤ 2 →
  channel (convolve this data p) ch
  = roundClamped
      (foldl (λ s i, fadd s (fmul (ofNum (u8get data (p i + ch)))
                               (f32get (GaussianFilter.kernel this) i)))
         (ofNum (Some 0)) (seqZ 0 (GaussianFilter.kernelSize this))).
Proof.
  intros Hch. unfold channel, convolve.
  assert (ch = 0 ∨ ch = 1 ∨ ch = 2) as [-> | [-> | ->]] by lia;
    repeat case_decide; try lia; simpl; f_equal;
    [apply (foldl_project GaussianFilter.sumR)|apply (foldl_project GaussianFilter.sumG)
    |apply (foldl_project GaussianFilter.sumB)]; intros a i; simpl; by rewrite ?Z.add_0_r.
Qed.

(** ** Exact reals: the kernel *)

Lemma gaussianWeight_pos s radius i : (0 < gaussianWeight s radius i)%R.
Proof. apply exp_pos. Qed.

Lemma gaussianValue_ideal (s : R) radius i :
  s ≠ 0%R → gaussianValue (Some s) radius i = Some (gaussianWeight s radius i).
Proof.
  intros Hs. unfold gaussianValue, gaussianWeight.
  cbn [fmul fdiv ofNum Math_exp ideal_Float64 ideal_lift2 ideal_div ideal_exp fmap
         option_fmap option_map].
  destruct (Req_dec_T (2 * s * s) 0) as [Heq|]; [|done].
  assert (s * s = 0)%R as [?|?]%Rmult_integral by lra; done.
Qed.

Lemma gaussian_total_pos s kernelSize radius :
  0 < kernelSize → (0 < Rsum (gaussianWeight s radius <$> seqZ 0 kernelSize))%R.
Proof.
  intros Hn. apply Rsum_pos.
  - intros Hnil%(f_equal length). rewrite length_fmap, length_seqZ in Hnil. simpl in Hnil. lia.
  - apply Forall_fmap, Forall_forall. intros i _. apply gaussianWeight_pos.
Qed.

(** Under exact reals, for a [sigma] that is not zero, the kernel holds the
    weights divided by their sum. *)
Lemma kernelSpec_ideal (s : R) kernelSize radius :
  s ≠ 0%R → 0 < kernelSize →
  kernelSpec (Some s) kernelSize radius = Some <$> gaussianKernel s kernelSize radius.
Proof.
  intros Hs Hn. unfold kernelSpec, gaussianKernel.
  rewrite <-list_fmap_compose. apply list_fmap_ext. intros _ i _.
  cbn [compose toFloat32 ofNum ideal_Float64 fmap option_fmap option_map].
  rewrite (foldl_fadd_terms (@gaussianValue ideal_Float64 (Some s) radius)
             (gaussianWeight s radius) (seqZ 0 kernelSize) 0)
    by (apply Forall_forall; intros j _; by apply gaussianValue_ideal).
  pose proof (gaussian_total_pos s kernelSize radius Hn). rewrite Rplus_0_l.
  rewrite gaussianValue_ideal by done. apply fdiv_Some. lra.
Qed.

Lemma length_gaussianKernel s kernelSize radius :
  0 ≤ kernelSize → Z.of_nat (length (gaussianKernel s kernelSize radius)) = kernelSize.
Proof. intros. unfold gaussianKernel. rewrite length_fmap, length_seqZ. lia. Qed.

(** The weights of the kernel are non-negative and sum to one. *)
Lemma gaussianKernel_normalised s kernelSize radius :
  0 < kernelSize → normalised (gaussianKernel s kernelSize radius).
Proof.
  intros Hn. pose proof (gaussian_total_pos s kernelSize radius Hn) as Hpos.
  unfold gaussianKernel. split.
  - apply Forall_fmap, Forall_forall. intros i _. simpl.
    pose proof (gaussianWeight_pos s radius i). apply Rlt_le, Rdiv_lt_0_compat; lra.
  - unfold Rdiv. rewrite (Rsum_scal (gaussianWeight s radius)). field. lra.
Qed.

(** ** Exact reals: the convolution *)

Lemma f32get_weightAt ws i :
  0 ≤ i < Z.of_nat (length ws) → f32get (Some <$> ws) i = Some (weightAt ws i).
Proof.
  intros Hi. unfold f32get, weightAt. rewrite decide_True, list_lookup_fmap by lia.
  by destruct (lookup_lt_is_Some_2 ws (Z.to_nat i) ltac:(lia)) as [w ->].
Qed.

Lemma weightAt_nonneg ws i : Forall (λ w, 0 <= w)%R ws → (0 <= weightAt ws i)%R.
Proof.
  intros Hws. unfold weightAt. destruct (ws !! _) eqn:Hw; simpl; [|lra].
  by apply (Forall_lookup_1 _ _ _ _ Hws Hw).
Qed.

Lemma Rsum_weightAt ws : Rsum (weightAt ws <$> seqZ 0 (Z.of_nat (length ws))) = Rsum ws.
Proof.
  f_equal. apply list_eq. intros k. rewrite list_lookup_fmap.
  destruct (decide (k < length ws)%nat) as [Hk|Hk].
  - rewrite lookup_seqZ_lt by lia. simpl. unfold weightAt. rewrite Z.add_0_l, Nat2Z.id.
    by destruct (lookup_lt_is_Some_2 ws k Hk) as [w ->].
  - by rewrite lookup_seqZ_ge, lookup_ge_None_2 by lia.
Qed.

(** A weighted sum with normalised weights lies between the bounds of the
    samples. *)
Lemma convolveR_between v ws lo hi :
  normalised ws → (∀ i, 0 ≤ i < Z.of_nat (length ws) → lo ≤ v i ≤ hi) →
  (IZR lo <= convolveR v ws <= IZR hi)%R.
Proof.
  intros [Hws Hsum] Hv. unfold convolveR.
  pose proof (Rsum_weighted (IZR lo) (IZR hi) (λ i, IZR (v i)) (weightAt ws)
                (seqZ 0 (Z.of_nat (length ws)))) as Hw.
  rewrite Rsum_weightAt, Hsum, !Rmult_1_r in Hw. apply Hw.
  apply Forall_forall. intros i [Hi1 Hi2]%elem_of_seqZ.
  split_and!; [apply IZR_le, Hv; lia..|by apply weightAt_nonneg].
Qed.

Lemma convolveZ_between v ws lo hi :
  normalised ws → 0 ≤ lo → hi ≤ 255 →
  (∀ i, 0 ≤ i < Z.of_nat (length ws) → lo ≤ v i ≤ hi) →
  lo ≤ convolveZ v ws ≤ hi.
Proof.
  intros Hn Hlo Hhi Hv. pose proof (convolveR_between v ws lo hi Hn Hv) as [H1 H2].
  apply IZR_le in Hlo, Hhi. unfold convolveZ.
  rewrite Rmin_right, Rmax_right by lra. apply Zfloor_round_between. lra.
Qed.

Section ideal_convolution.
Context (this : GaussianFilter.t) (ws : list R).
Context (Hkernel : GaussianFilter.kernel this = Some <$> ws).
Context (Hsize : Z.of_nat (length ws) = GaussianFilter.kernelSize this).

(** The loop of a convolution whose reads are numbers computes the clamped
    rounded weighted sum of the reads. *)
Lemma convolve_ideal (data : list Z) (p v : Z → Z) (ch : Z) :
  0 ≤ ch ≤ 2 →
  (∀ i, 0 ≤ i < GaussianFilter.kernelSize this → u8get data (p i + ch) = Some (v i)) →
  channel (convolve this data p) ch = Some (convolveZ v ws).
Proof.
  intros Hch Hread. rewrite convolve_channel, Hkernel, <-Hsize by done.
  cbn [ofNum ideal_Float64 fmap option_fmap option_map].
  rewrite (foldl_fadd_terms
             (λ i, fmul (ofNum (u8get data (p i + ch))) (f32get (Some <$> ws) i))
             (λ i, IZR (v i) * weightAt ws i)%R _ 0).
  - unfold roundClamped, convolveZ, convolveR. by rewrite Rplus_0_l.
  - apply Forall_forall. intros i [Hi1 Hi2]%elem_of_seqZ.
    by rewrite Hread, f32get_weightAt by lia.
Qed.

End ideal_convolution.

(** ** Exact reals: the filter *)

Lemma rowIndex_range width height radius centerX centerY i :
  0 < width → 0 ≤ centerY < height →
  0 ≤ rowIndex width radius centerX centerY i
  ∧ rowIndex width radius centerX centerY i + 3 < width * height * 4
  ∧ rowIndex width radius centerX centerY i mod 4 = 0.
Proof.
  intros Hw Hy. unfold rowIndex, clampCoord.
  pose proof (clamp_bounds 0 (width - 1) (centerX + (i - radius)) ltac:(lia)).
  split_and!; [nia|nia|apply Z.mod_mul; lia].
Qed.

Lemma columnIndex_range width height radius centerX centerY i :
  0 < height → 0 ≤ centerX < width →
  0 ≤ columnIndex width height radius centerX centerY i
  ∧ columnIndex width height radius centerX centerY i + 3 < width * height * 4
  ∧ columnIndex width height radius centerX centerY i mod 4 = 0.
Proof.
  intros Hh Hx. unfold columnIndex, clampCoord.
  pose proof (clamp_bounds 0 (height - 1) (centerY + (i - radius)) ltac:(lia)).
  split_and!; [nia|nia|apply Z.mod_mul; lia].
Qed.

(** The constructor of a [sigma] that is not zero builds a kernel of
    positive size that holds the normalised weights. *)
Lemma constructor_ideal (s : R) (kernelSize : option Z) (this : GaussianFilter.t) :
  s ≠ 0%R → GaussianFilter.constructor (Some s) kernelSize = Normal this →
  0 < GaussianFilter.kernelSize this
  ∧ GaussianFilter.kernel this
    = Some <$> gaussianKernel s (GaussianFilter.kernelSize this) (GaussianFilter.radius this).
Proof.
  intros Hs. unfold GaussianFilter.constructor.
  destruct (match kernelSize with None => _ | Some _ => _ end) as [n|e] eqn:Hn; [|done].
  simpl. assert (n ≠ 0) as Hn0.
  { destruct kernelSize as [k|].
    - case_decide as Hk; [done|]. injection Hn as <-. by intros ->.
    - injection Hn as Hn. intros ->. apply (f_equal Z.odd) in Hn.
      by rewrite orOne_odd in Hn. }
  destruct (GaussianFilter.createGaussianKernel _ n _) as [kernel|e] eqn:Hk; [|done].
  simpl. intros [= <-]. simpl.
  assert (0 ≤ n)
    by (unfold GaussianFilter.createGaussianKernel in Hk; case_decide; [done|lia]).
  rewrite createGaussianKernel_kernelSpec, kernelSpec_ideal in Hk by (done || lia).
  split; [lia|congruence].
Qed.

Section ideal_filter.
Context (this : GaussianFilter.t) (ws : list R).
Context (Hkernel : GaussianFilter.kernel this = Some <$> ws).
Context (Hsize : Z.of_nat (length ws) = GaussianFilter.kernelSize this).
Context (Hnorm : normalised ws).

(** A convolution over samples of one colour returns that colour. *)
Lemma convolve_uniform (c : Z → Z) (width height : Z) (p : Z → Z) (ch : Z) :
  (∀ i, 0 ≤ p i ∧ p i + 3 < width * height * 4 ∧ p i mod 4 = 0) →
  byte (c ch) → 0 ≤ ch ≤ 2 →
  channel (convolve this (uniform c width height) p) ch = Some (c ch).
Proof.
  intros Hp Hc Hch. rewrite (convolve_ideal this ws Hkernel Hsize _ p (λ _, c ch)).
  - f_equal. assert (c ch ≤ convolveZ (λ _, c ch) ws ≤ c ch); [|lia].
    apply convolveZ_between; unfold byte in Hc; (done || lia).
  - done.
  - intros i _. destruct (Hp i) as (? & ? & ?). rewrite uniform_get by lia.
    f_equal. f_equal. Z.div_mod_to_equations. lia.
Qed.

(** A raster of one colour is a fixed point of both passes. *)
Lemma filtered_uniform (c : Z → Z) (width height : Z) :
  0 < width → 0 < height → (∀ ch, byte (c ch)) →
  GaussianFilter.filtered this (uniform c width height) width height
  = uniform c width height.
Proof.
  intros Hw Hh Hc. pose proof (uniform_raster_ok c width height Hw Hh Hc) as Hok.
  rewrite filtered_spec by done. unfold gaussianSpec.
  assert (∀ x y ch, 0 ≤ x < width → 0 ≤ y < height → 0 ≤ ch ≤ 2 →
    u8get (uniform c width height) ((y * width + x) * 4 + ch) = Some (c ch)) as Hget.
  { intros x y ch ???. rewrite uniform_get by nia. do 2 f_equal.
    Z.div_mod_to_equations. lia. }
  rewrite (filterSpec_fixpoint (GaussianFilter.convolveHorizontal this)); [|done|].
  - apply filterSpec_fixpoint; [done|]. intros x y ch Hx Hy Hch.
    rewrite convolveVertical_convolve, convolve_uniform, Hget; try done.
    intros i. by apply columnIndex_range.
  - intros x y ch Hx Hy Hch.
    rewrite convolveHorizontal_convolve, convolve_uniform, Hget; try done.
    intros i. by apply rowIndex_range.
Qed.

(** A convolution whose taps are pixels of a raster returns, in each colour
    channel, a byte between the bounds of that channel of the raster. *)
Lemma convolve_between (data : list Z) (width height : Z) (p : Z → Z) (ch lo hi : Z) :
  raster_ok data width height → 0 ≤ ch ≤ 2 → 0 ≤ lo → hi ≤ 255 →
  (∀ i, 0 ≤ p i ∧ p i + 3 < width * height * 4 ∧ p i mod 4 = 0) →
  Forall (λ v, lo ≤ v ≤ hi) (channelValues data ch) →
  ∃ v, channel (convolve this data p) ch = Some v ∧ lo ≤ v ≤ hi.
Proof.
  intros Hok Hch Hlo Hhi Hp Hvs.
  assert (∀ i, u8get data (p i + ch) = Some (default 0 (u8get data (p i + ch)))) as Hread.
  { intros i. by destruct (raster_read data width height (p i) ch Hok ltac:(lia) (Hp i))
      as (v & -> & _). }
  exists (convolveZ (λ i, default 0 (u8get data (p i + ch))) ws).
  split; [by apply (convolve_ideal this ws Hkernel Hsize)|].
  apply convolveZ_between; [done..|]. intros i _. simpl.
  apply (channelValues_Forall _ data width height ch (p i) _ Hok Hvs); [lia| |done].
  apply Hp.
Qed.

(** Both passes keep every colour channel between its bounds. *)
Lemma filtered_between (data : list Z) (width height ch lo hi : Z) :
  raster_ok data width height → 0 ≤ ch ≤ 2 → 0 ≤ lo → hi ≤ 255 →
  Forall (λ v, lo ≤ v ≤ hi) (channelValues data ch) →
  Forall (λ v, lo ≤ v ≤ hi)
    (channelValues (GaussianFilter.filtered this data width height) ch).
Proof.
  intros Hok Hch Hlo Hhi Hvs. pose proof (raster_ok_pos _ _ _ Hok) as [Hw Hh].
  rewrite filtered_spec by done. unfold gaussianSpec.
  apply filterSpec_within; [done..|]. intros x y Hx Hy.
  rewrite convolveVertical_convolve.
  apply (convolve_between _ width height); [by apply filterSpec_raster_ok|done..| |].
  { intros i. by apply columnIndex_range. }
  apply filterSpec_within; [done..|]. intros x' y' Hx' Hy'.
  rewrite convolveHorizontal_convolve.
  apply (convolve_between _ width height); [done..| |done].
  intros i. by apply rowIndex_range.
Qed.

End ideal_filter.

(** The filter [new GaussianFilter(1.0, 3)] under exact reals. *)
Lemma constructor_1_3 :
  GaussianFilter.constructor (Some 1%R) (Some 3)
  = Normal (@GaussianFilter.make ideal_Float64 (Some 1%R) 3 1 (Some <$> gaussianKernel 1 3 1)).
Proof.
  unfold GaussianFilter.constructor. rewrite decide_False by done.
  cbn -[GaussianFilter.createGaussianKernel Z.div]. change (3 `div` 2) with 1.
  by rewrite createGaussianKernel_kernelSpec, kernelSpec_ideal by (lra || lia).
Qed.

(** [new GaussianFilter(2.0)] under exact reals: the kernel size is
    [Math.ceil(12) | 1 = 13]. *)
Lemma constructor_2_default :
  GaussianFilter.constructor (ofNum (Some 2)) None
  = Normal (@GaussianFilter.make ideal_Float64 (Some 2%R) 13 6
              (Some <$> gaussianKernel 2 13 6)).
Proof.
  unfold GaussianFilter.constructor.
  assert (Math_ceil (fmul (ofNum (Some 6)) (ofNum (Some 2))) = Some 12) as ->.
  { cbn [Math_ceil fmul ofNum ideal_Float64 ideal_ceil ideal_lift2 fmap option_fmap
           option_map]. f_equal. apply Zceil_eq. lra. }
  change (orOne (Some 12)) with 13.
  cbn -[GaussianFilter.createGaussianKernel Z.div]. change (13 `div` 2) with 6.
  by rewrite createGaussianKernel_kernelSpec, kernelSpec_ideal by (lra || lia).
Qed.

(** ** The passes on the transposed raster *)

(** The loop depends on the raster through the samples it reads. *)
Lemma convolve_ext `{Float64} (this : GaussianFilter.t) data data' (p p' : Z → Z) :
  (∀ i ch, 0 ≤ ch ≤ 2 → u8get data' (p' i + ch) = u8get data (p i + ch)) →
  convolve this data' p' = convolve this data p.
Proof.
  intros Hp. unfold convolve.
  rewrite (foldl_ext_in _ (λ acc i, GaussianFilter.accumulate this data acc (p i) i)); [done|].
  intros acc i _. unfold GaussianFilter.accumulate.
  pose proof (Hp i 0 ltac:(lia)) as Hred. rewrite !Z.add_0_r in Hred.
  by rewrite Hred, !Hp by lia.
Qed.

Section transposed.
Context `{Float64} (this : GaussianFilter.t) (data : list Z) (width height : Z).
Context (Hok : raster_ok data width height).

(** A row of the transposed raster is a column of the raster. *)
Lemma convolveHorizontal_transpose x y :
  0 ≤ y < width →
  GaussianFilter.convolveHorizontal this (transpose data width height) x y height width
  = GaussianFilter.convolveVertical this data y x width height.
Proof.
  intros Hy. rewrite convolveHorizontal_convolve, convolveVertical_convolve.
  apply convolve_ext. intros i ch Hch. unfold rowIndex, columnIndex, clampCoord.
  apply transpose_get; [done| |done|lia]. destruct Hok as (_ & Hh & _).
  pose proof (clamp_bounds 0 (height - 1) (x + (i - GaussianFilter.radius this))). lia.
Qed.

Lemma convolveVertical_transpose x y :
  0 ≤ x < height →
  GaussianFilter.convolveVertical this (transpose data width height) x y height width
  = GaussianFilter.convolveHorizontal this data y x width height.
Proof.
  intros Hx. rewrite convolveHorizontal_convolve, convolveVertical_convolve.
  apply convolve_ext. intros i ch Hch. unfold rowIndex, columnIndex, clampCoord.
  apply transpose_get; [done|done| |lia]. destruct Hok as (Hw & _).
  pose proof (clamp_bounds 0 (width - 1) (y + (i - GaussianFilter.radius this))). lia.
Qed.

End transposed.

(** ** Properties *)

(** The alpha byte of every pixel passes through both convolutions
    unchanged. *)
Theorem gaussian_alpha `{Float64} (this : GaussianFilter.t) (data : list Z)
    (width height x y : Z) :
  raster_ok data width height → 0 ≤ x < width → 0 ≤ y < height →
  u8get (GaussianFilter.filtered this data width height) ((y * width + x) * 4 + 3)
  = u8get data ((y * width + x) * 4 + 3).
Proof.
  intros Hok Hx Hy. rewrite filtered_spec by done. unfold gaussianSpec.
  rewrite filterSpec_alpha by (done || apply filterSpec_raster_ok; apply Hok).
  by apply filterSpec_alpha.
Qed.

(** C13: on a well-formed raster [applyFilter] leaves in the pixel buffer the
    vertical pass of the horizontal pass: the second pass reads the
    intermediate buffer, never the original; the result is a raster of
    bytes of the same size, and the alpha byte of every pixel has passed
    through both convolutions unchanged. *)
Theorem gaussian_two_passes `{Float64} (this : GaussianFilter.t) (data : list Z)
    (width height : Z) :
  raster_ok data width height →
  let horizontal := filterSpec (GaussianFilter.convolveHorizontal this) data width height in
  GaussianFilter.filtered this data width height
  = filterSpec (GaussianFilter.convolveVertical this) horizontal width height
  ∧ raster_ok (GaussianFilter.filtered this data width height) width height
  ∧ ∀ x y, 0 ≤ x < width → 0 ≤ y < height →
      u8get (GaussianFilter.filtered this data width height) ((y * width + x) * 4 + 3)
      = u8get data ((y * width + x) * 4 + 3).
Proof.
  intros Hok horizontal. split; [by apply filtered_spec|].
  split; [|intros; by apply gaussian_alpha].
  rewrite filtered_spec by done. apply filterSpec_raster_ok; apply Hok.
Qed.

(** C16: the order of the passes is part of the result: filtering the
    transposed raster runs the two passes in the other order, that is, it
    gives the transposed of the horizontal pass of the vertical pass of the
    raster.  The Gaussian filter treats rows and columns alike exactly on
    the rasters on which its two passes commute; the bytes stored between
    the passes are rounded, and in general they do not
    ([passes_do_not_commute] in Binary64.v). *)
Theorem gaussian_transposed `{Float64} (this : GaussianFilter.t) (data : list Z)
    (width height : Z) :
  raster_ok data width height →
  GaussianFilter.filtered this (transpose data width height) height width
  = transpose
      (filterSpec (GaussianFilter.convolveHorizontal this)
         (filterSpec (GaussianFilter.convolveVertical this) data width height) width height)
      width height.
Proof.
  intros Hok. pose proof (transpose_raster_ok _ _ _ Hok) as Ht.
  assert (raster_ok (filterSpec (GaussianFilter.convolveVertical this) data width height)
            width height) as Hv by (apply filterSpec_raster_ok; apply Hok).
  rewrite filtered_spec by done. unfold gaussianSpec.
  rewrite <-(filterRaster_filterSpec _ _ _ _ Ht).
  rewrite (processed_transpose (GaussianFilter.convolveVertical this) _ _ _ _ Hok)
    by (intros; by rewrite convolveHorizontal_transpose).
  rewrite (filterRaster_filterSpec _ _ _ _ Hok).
  rewrite <-(filterRaster_filterSpec _ _ _ _ (transpose_raster_ok _ _ _ Hv)).
  rewrite (processed_transpose (GaussianFilter.convolveHorizontal this) _ _ _ _ Hv)
    by (intros; by rewrite convolveVertical_transpose).
  by rewrite filterRaster_filterSpec.
Qed.

Lemma gaussian_transposed_witness :
  let this := GaussianFilter.make (ofNum (Some 1)) 1 0 [ofNum (Some 1)] in
  let data := [10; 20; 30; 255; 40; 50; 60; 7] in
  GaussianFilter.filtered this (transpose data 2 1) 1 2
  = transpose
      (filterSpec (GaussianFilter.convolveHorizontal this)
         (filterSpec (GaussianFilter.convolveVertical this) data 2 1) 2 1)
      2 1.
Proof. apply gaussian_transposed. by_compute. Defined.

(** A constructor call without a kernel size either throws the
    [RangeError] of a negative array length or builds a filter whose kernel
    size is odd and whose kernel has that many entries. *)
Theorem gaussian_kernel_size_odd `{Float64} (sigma : float) :
  match GaussianFilter.constructor sigma None with
  | Normal this =>
      Z.odd (GaussianFilter.kernelSize this) = true
      ∧ Z.of_nat (length (GaussianFilter.kernel this)) = GaussianFilter.kernelSize this
  | Throw e => e = RangeError
  end.
Proof.
  unfold GaussianFilter.constructor. simpl.
  destruct (GaussianFilter.createGaussianKernel _ _ _) as [kernel|e] eqn:Hk; simpl.
  - split; [apply orOne_odd|]. by apply length_createGaussianKernel in Hk.
  - unfold GaussianFilter.createGaussianKernel in Hk. by case_decide; simplify_eq.
Qed.

Lemma gaussian_two_passes_witness :
  let this := GaussianFilter.make (ofNum (Some 1)) 1 0 [ofNum (Some 1)] in
  let data := [10; 20; 30; 255; 40; 50; 60; 7] in
  let horizontal := filterSpec (GaussianFilter.convolveHorizontal this) data 2 1 in
  GaussianFilter.filtered this data 2 1
  = filterSpec (GaussianFilter.convolveVertical this) horizontal 2 1
  ∧ raster_ok (GaussianFilter.filtered this data 2 1) 2 1
  ∧ ∀ x y, 0 ≤ x < 2 → 0 ≤ y < 1 →
      u8get (GaussianFilter.filtered this data 2 1) ((y * 2 + x) * 4 + 3)
      = u8get data ((y * 2 + x) * 4 + 3).
Proof. apply gaussian_two_passes. by_compute. Defined.

Lemma gaussian_alpha_witness :
  u8get (GaussianFilter.filtered (GaussianFilter.make (ofNum (Some 1)) 1 0 [ofNum (Some 1)])
           [10; 20; 30; 255; 40; 50; 60; 7] 2 1) ((0 * 2 + 1) * 4 + 3)
  = u8get [10; 20; 30; 255; 40; 50; 60; 7] ((0 * 2 + 1) * 4 + 3).
Proof. apply gaussian_alpha; [by_compute|lia|lia]. Defined.

(** C17: under exact reals, the constructor of a [sigma] that is not zero,
    when it returns, has built a kernel of [kernelSize] weights that are
    non-negative and sum to one. *)
Theorem gaussian_kernel_normalised (s : R) (kernelSize : option Z)
    (this : GaussianFilter.t) :
  s ≠ 0%R → GaussianFilter.constructor (Some s) kernelSize = Normal this →
  ∃ ws, GaussianFilter.kernel this = Some <$> ws
        ∧ Z.of_nat (length ws) = GaussianFilter.kernelSize this
        ∧ normalised ws.
Proof.
  intros Hs [Hn Hk]%constructor_ideal; [|done]. eexists. split; [exact Hk|].
  split; [apply length_gaussianKernel; lia|by apply gaussianKernel_normalised].
Qed.

Lemma gaussian_kernel_normalised_witness :
  ∃ ws, GaussianFilter.kernel
          (@GaussianFilter.make ideal_Float64 (Some 1%R) 3 1 (Some <$> gaussianKernel 1 3 1))
        = Some <$> ws
        ∧ Z.of_nat (length ws) = 3 ∧ normalised ws.
Proof.
  apply (gaussian_kernel_normalised 1 (Some 3)); [lra|apply constructor_1_3].
Defined.

(** C18: under exact reals, a filter built by the constructor from a
    [sigma] that is not zero leaves a raster of one colour unchanged:
    both passes return every pixel's own colour. *)
Theorem gaussian_uniform_unchanged (s : R) (kernelSize : option Z)
    (this : GaussianFilter.t) (c : Z → Z) (width height : Z) :
  s ≠ 0%R → GaussianFilter.constructor (Some s) kernelSize = Normal this →
  0 < width → 0 < height → (∀ ch, byte (c ch)) →
  GaussianFilter.filtered this (uniform c width height) width height
  = uniform c width height.
Proof.
  intros Hs [Hn Hk]%constructor_ideal Hw Hh Hc; [|done].
  apply (filtered_uniform this _ Hk); [apply length_gaussianKernel; lia| |done..].
  by apply gaussianKernel_normalised.
Qed.

Lemma gaussian_uniform_unchanged_witness :
  GaussianFilter.filtered
    (@GaussianFilter.make ideal_Float64 (Some 1%R) 3 1 (Some <$> gaussianKernel 1 3 1))
    (uniform (λ ch, if decide (ch = 3) then 255 else 128) 4 3) 4 3
  = uniform (λ ch, if decide (ch = 3) then 255 else 128) 4 3.
Proof.
  apply (gaussian_uniform_unchanged 1 (Some 3)); [lra|apply constructor_1_3|lia|lia|].
  intros ch. unfold byte. case_decide; lia.
Defined.

(** Under exact reals the Gaussian filter widens no channel: when
    every byte of a colour channel of a well-formed raster lies between
    [lo] and [hi], so does every byte of that channel after both passes of
    a filter built by the constructor from a [sigma] that is not zero. *)
Theorem gaussian_within_range (s : R) (kernelSize : option Z) (this : GaussianFilter.t)
    (data : list Z) (width height ch lo hi : Z) :
  s ≠ 0%R → GaussianFilter.constructor (Some s) kernelSize = Normal this →
  raster_ok data width height → 0 ≤ ch ≤ 2 → 0 ≤ lo → hi ≤ 255 →
  Forall (λ v, lo ≤ v ≤ hi) (channelValues data ch) →
  Forall (λ v, lo ≤ v ≤ hi)
    (channelValues (GaussianFilter.filtered this data width height) ch).
Proof.
  intros Hs [Hn Hk]%constructor_ideal Hok Hch Hlo Hhi Hvs; [|done].
  apply (filtered_between this _ Hk); [apply length_gaussianKernel; lia| |done..].
  by apply gaussianKernel_normalised.
Qed.

Lemma gaussian_within_range_witness :
  Forall (λ v, 10 ≤ v ≤ 40)
    (channelValues
       (GaussianFilter.filtered
          (@GaussianFilter.make ideal_Float64 (Some 1%R) 3 1 (Some <$> gaussianKernel 1 3 1))
          [10; 20; 30; 255; 40; 50; 60; 255] 2 1) 0).
Proof.
  apply (gaussian_within_range 1 (Some 3)); [lra|apply constructor_1_3|by_compute|lia..|].
  by_compute.
Defined.

(** Under exact reals, with a kernel of non-negative weights that sum
    to one, each colour channel the horizontal convolution returns on a
    well-formed raster is the rounded weighted sum of the samples of the
    row, and it lies between any bounds of that channel of the raster. *)
Theorem convolveHorizontal_between (this : GaussianFilter.t) (ws : list R)
    (data : list Z) (width height centerX centerY ch lo hi : Z) :
  GaussianFilter.kernel this = Some <$> ws →
  Z.of_nat (length ws) = GaussianFilter.kernelSize this → normalised ws →
  raster_ok data width height → 0 ≤ centerY < height → 0 ≤ ch ≤ 2 →
  0 ≤ lo → hi ≤ 255 →
  (∀ i v, i mod 4 = 0 → u8get data (i + ch) = Some v → lo ≤ v ≤ hi) →
  ∃ v : Z → Z,
    (∀ i, u8get data (rowIndex width (GaussianFilter.radius this) centerX centerY i + ch)
          = Some (v i))
    ∧ channel (GaussianFilter.convolveHorizontal this data centerX centerY width height) ch
      = Some (convolveZ v ws)
    ∧ lo ≤ convolveZ v ws ≤ hi.
Proof.
  intros Hk Hsize Hnorm Hok Hy Hch Hlo Hhi Hdata.
  pose proof (raster_ok_pos _ _ _ Hok) as [Hw _].
  set (p := rowIndex width (GaussianFilter.radius this) centerX centerY).
  assert (∀ i, u8get data (p i + ch) = Some (default 0 (u8get data (p i + ch)))) as Hread.
  { intros i. destruct (raster_read data width height (p i) ch Hok ltac:(lia)) as (v & -> & _);
      [by apply rowIndex_range|done]. }
  exists (λ i, default 0 (u8get data (p i + ch))). split; [done|]. split.
  - rewrite convolveHorizontal_convolve. by apply (convolve_ideal this ws Hk Hsize).
  - apply convolveZ_between; [done..|]. intros i _. apply (Hdata (p i)); [|done].
    by apply (rowIndex_range width height).
Qed.

Lemma convolveHorizontal_between_witness :
  ∃ v : Z → Z,
    (∀ i, u8get [10; 20; 30; 255; 40; 50; 60; 255] (rowIndex 2 1 0 0 i + 0) = Some (v i))
    ∧ channel (GaussianFilter.convolveHorizontal
                 (@GaussianFilter.make ideal_Float64 (Some 1%R) 3 1
                    (Some <$> gaussianKernel 1 3 1))
                 [10; 20; 30; 255; 40; 50; 60; 255] 0 0 2 1) 0
      = Some (convolveZ v (gaussianKernel 1 3 1))
    ∧ 10 ≤ convolveZ v (gaussianKernel 1 3 1) ≤ 40.
Proof.
  apply (convolveHorizontal_between
           (@GaussianFilter.make ideal_Float64 (Some 1%R) 3 1 (Some <$> gaussianKernel 1 3 1)));
    [done|done|by apply gaussianKernel_normalised|by_compute|simpl; lia..|].
  intros i v Hi Hv. apply u8get_Some in Hv as [Hr Hv].
  pose proof (lookup_lt_Some _ _ _ Hv) as Hlt. simpl in Hlt.
  assert (i = 0 ∨ i = 4) as [-> | ->] by (Z.div_mod_to_equations; lia);
    simpl in Hv; simplify_eq; lia.
Defined.

(** [applyFilter] has the shape of the other classes' [applyFilter], with
    the two convolutions as its [processImageData]. *)
Lemma applyFilter_applyFilterOrBlur `{Browser} (this : GaussianFilter.t) (img : ImageElement.t) :
  GaussianFilter.applyFilter this img
  = applyFilterOrBlur (GaussianFilter.applySimpleFilter this)
      (λ data _ width height, GaussianFilter.filtered this data width height) img.
Proof. done. Qed.

(** When the pixels cannot be read, the canvas redrawn through the blur
    cannot be exported. *)
Lemma applyFilter_unexportable `{Browser} (this : GaussianFilter.t) (img : ImageElement.t)
    (e : exn) :
  readPixels img = Throw e → unexportable (GaussianFilter.applyFilter this img).
Proof.
  intros Hread. rewrite applyFilter_applyFilterOrBlur.
  by apply (applyFilterOrBlur_unexportable _ (GaussianFilter.sigma this) img e).
Qed.

(** The promise of [testGaussianFilter] is resolved when the loaded image
    has area: under exact reals [new GaussianFilter(2.0)] does not throw,
    the noisy canvas of 200 by 200 pixels is made and exported, and the
    callback awaits a canvas of the size of the loaded image. *)
Theorem testGaussianFilter_resolves (B : @Browser ideal_Float64)
    (P : @Painter ideal_Float64) (random : Z → ideal) (img : ImageElement.t) :
  0 < (canvasSize img).1 → 0 < (canvasSize img).2 →
  ∃ canvas, testGaussianFilter random img = Normal (Resolved canvas)
            ∧ (Canvas.width canvas, Canvas.height canvas) = canvasSize img.
Proof.
  intros Hw Hh. unfold testGaussianFilter. rewrite constructor_2_default. simpl.
  rewrite applyFilter_applyFilterOrBlur. unfold GaussianFilter.applySimpleFilter.
  destruct (readPixels img) as [data|e] eqn:Hread.
  - rewrite (applyFilterOrBlur_readable _ _ img data Hread). by eexists.
  - apply readPixels_Throw in Hread as [[[] _]|(_ & _ & Hcross & _)]; [done|].
    rewrite applyFilterOrBlur_cross_origin by done. by eexists.
Qed.
