(* ===== verification/Binary64.v ===== *)
(** * IEEE doubles

    [binary64] is the instance of [Float64] in which the numbers are the
    doubles of the runtime: Rocq's primitive binary64 numbers.  [+], [-],
    [*] and [/] are the primitive operations, which round to nearest, ties
    to even, as IEEE 754 and ECMAScript prescribe; the conversions
    ([Math.round], [Math.ceil], the stores into a [Float32Array] and into a
    [Uint8ClampedArray]) are computed exactly on the mantissa and the
    exponent of the double.  ECMAScript leaves [Math.log], [Math.exp] and
    [Math.pow] to the implementation (they are approximated), so the
    instance takes them as a parameter ([Libm]) and what is proved here
    holds for every choice of them.

    Every definition computes, so the code that uses no function of [Libm]
    (the harmonic mean, the noise loop, the kernel size of the Gaussian
    filter) can be run on doubles.  The theorems are proved that way: the
    harmonic filter of kernel size 3, 5, 7 or 9 leaves every raster of one
    colour unchanged, and so does the noise loop when every number drawn is
    one half; these are the statements that [Harmonic] and [Noise] prove
    for exact reals, now for the arithmetic the program runs on.  The two
    passes of the Gaussian filter, run on doubles with a kernel of dyadic
    weights, give different bytes in the two orders
    ([passes_do_not_commute]).

    The last part shows that the integer models of [Mean] and [Midpoint]
    lose nothing: the sums of up to 81 bytes, their quotients by the
    window sizes 1 to 81 and the halves of the sums of two bytes are
    computed on doubles for every value that can occur ([sums_exact],
    [roundsAgree_windows], [halves_agree], enumerated with primitive
    integers), so the loops over doubles ([calculateMeanValuesNum],
    [calculateMidpointValuesNum]) store the bytes the integer loops
    store. *)

From Stdlib Require Import ZArith Lia.
From Stdlib Require Floats.PrimFloat Floats.SpecFloat Floats.FloatOps Floats.FloatAxioms.
From Stdlib Require Uint63.
From stdpp Require Import base tactics option list list_numbers numbers.
From S2P Require Import Prelude TypedArray Kernel Sweep Floats Canvas Mean MinMax Midpoint.
From S2P Require Import Pipeline.
From S2P Require Import Harmonic Noise Symmetry Gaussian.

Import (notations) PrimFloat.
Import (notations) Uint63.

#[local] Open Scope Z_scope.

(** ** Definitions *)

(** The functions ECMAScript leaves to the implementation. *)
Record Libm := mkLibm {
  libm_log : PrimFloat.float → PrimFloat.float;
  libm_exp : PrimFloat.float → PrimFloat.float;
  libm_pow : PrimFloat.float → PrimFloat.float → PrimFloat.float
}.

(** The double nearest to an integer. *)
Definition ofZ (z : Z) : PrimFloat.float :=
  FloatOps.SF2Prim (SpecFloat.binary_normalize FloatOps.prec FloatOps.emax z 0 false).

(** An integer, or NaN, as a double. *)
Definition ofJsnum (n : jsnum) : PrimFloat.float :=
  match n with
  | Some z => ofZ z
  | None => PrimFloat.nan
  end.

(** [Math.min(a, b)]: NaN when an argument is NaN, and [-0] is below
    [+0]. *)
Definition Math_min64 (a b : PrimFloat.float) : PrimFloat.float :=
  if PrimFloat.is_nan a || PrimFloat.is_nan b then PrimFloat.nan
  else if PrimFloat.ltb a b then a
  else if PrimFloat.ltb b a then b
  else if PrimFloat.get_sign a then a else b.

(** [Math.max(a, b)]. *)
Definition Math_max64 (a b : PrimFloat.float) : PrimFloat.float :=
  if PrimFloat.is_nan a || PrimFloat.is_nan b then PrimFloat.nan
  else if PrimFloat.ltb b a then a
  else if PrimFloat.ltb a b then b
  else if PrimFloat.get_sign a then b else a.

(** The integer that stands for an infinity where the model has integers:
    it is beyond every double, and a clamp or a store treats it as the
    infinity. *)
Definition beyond (negative : bool) : Z := if negative then - 2 ^ 1024 else 2 ^ 1024.

(** The signed mantissa of a finite double [m * 2^e]. *)
Definition signed (negative : bool) (m : positive) : Z :=
  if negative then Z.neg m else Z.pos m.

(** [Math.round(x)]: [floor(x + 0.5)], computed exactly. *)
Definition Math_round64 (x : PrimFloat.float) : jsnum :=
  match FloatOps.Prim2SF x with
  | SpecFloat.S754_nan => None
  | SpecFloat.S754_zero _ => Some 0
  | SpecFloat.S754_infinity s => Some (beyond s)
  | SpecFloat.S754_finite s m e =>
      if decide (0 ≤ e) then Some (signed s m * 2 ^ e)
      else Some ((2 * signed s m + 2 ^ (- e)) `div` (2 * 2 ^ (- e)))
  end.

(** [Math.ceil(x)], computed exactly. *)
Definition Math_ceil64 (x : PrimFloat.float) : jsnum :=
  match FloatOps.Prim2SF x with
  | SpecFloat.S754_nan => None
  | SpecFloat.S754_zero _ => Some 0
  | SpecFloat.S754_infinity s => Some (beyond s)
  | SpecFloat.S754_finite s m e =>
      if decide (0 ≤ e) then Some (signed s m * 2 ^ e)
      else Some (- ((- signed s m) `div` 2 ^ (- e)))
  end.

(** The value a [Float32Array] keeps: the nearest binary32 number, ties to
    even. *)
Definition toFloat32_64 (x : PrimFloat.float) : PrimFloat.float :=
  match FloatOps.Prim2SF x with
  | SpecFloat.S754_finite s m e =>
      FloatOps.SF2Prim (SpecFloat.binary_normalize 24 128 (signed s m) e s)
  | _ => x
  end.

(** The byte a [Uint8ClampedArray] keeps: NaN becomes 0, a number is
    clamped to 0..255 and rounded to the nearest integer, ties to even. *)
Definition ToUint8Clamp64 (x : PrimFloat.float) : Z :=
  match FloatOps.Prim2SF x with
  | SpecFloat.S754_nan | SpecFloat.S754_zero _ => 0
  | SpecFloat.S754_infinity s => if s then 0 else 255
  | SpecFloat.S754_finite s m e =>
      if s then 0
      else if decide (0 ≤ e) then Z.min 255 (Z.pos m * 2 ^ e)
      else
        let d := 2 ^ (- e) in
        let f := Z.pos m `div` d in
        let r := Z.pos m `mod` d in
        Z.min 255 (if decide (2 * r < d) then f
                   else if decide (d < 2 * r) then f + 1
                   else if Z.even f then f else f + 1)
  end.

(** The doubles of the runtime. *)
#[export] Instance binary64 (libm : Libm) : Float64 := {|
  float := PrimFloat.float;
  ofNum := ofJsnum;
  fadd := PrimFloat.add;
  fsub := PrimFloat.sub;
  fmul := PrimFloat.mul;
  fdiv := PrimFloat.div;
  fmin := Math_min64;
  fmax := Math_max64;
  Math_log := libm_log libm;
  Math_exp := libm_exp libm;
  Math_pow := libm_pow libm;
  Math_round := Math_round64;
  Math_ceil := Math_ceil64;
  toFloat32 := toFloat32_64;
  ToUint8ClampNumber := ToUint8Clamp64;
  epsilon := 0x1.b7cdfd9d7bdbbp-34%float;
  half := 0.5%float
|}.

(** The harmonic mean of [n] samples of every byte value is that value. *)
Definition harmonicFixes (libm : Libm) (n : nat) : bool :=
  forallb (λ v, bool_decide (harmonicMean (H := binary64 libm) (replicate n (Some v)) = Some v))
    (seqZ 0 256).

(** The noise loop keeps every byte value when it draws one half. *)
Definition noiseFixes (libm : Libm) (amplitude : Z) : bool :=
  forallb (λ v, bool_decide
     (ToUint8ClampNumber
        (noisyOf (H := binary64 libm) v
           (fmul (fsub half half) (ofNum (Some amplitude)))) = v))
    (seqZ 0 256).

(** [P] holds of the [n] integers from [i]. *)
Fixpoint below (n : nat) (i : Uint63.int) (P : Uint63.int → bool) : bool :=
  match n with
  | O => true
  | S k => P i && below k (Uint63.add i 1%uint63) P
  end.

(** [f] of the doubles that hold an integer below [na] and an integer below
    [nb] is the double that holds [g] of the integers. *)
Definition pairsAgree (na nb : Z) (f : PrimFloat.float → PrimFloat.float → PrimFloat.float)
    (g : Uint63.int → Uint63.int → Uint63.int) : bool :=
  below (Z.to_nat na) 0%uint63 (λ a, below (Z.to_nat nb) 0%uint63 (λ b,
    PrimFloat.Leibniz.eqb (f (PrimFloat.of_uint63 a) (PrimFloat.of_uint63 b))
      (PrimFloat.of_uint63 (g a b)))).

(** The smaller and the larger of two primitive integers. *)
Definition min63 (a b : Uint63.int) : Uint63.int := if Uint63.leb a b then a else b.
Definition max63 (a b : Uint63.int) : Uint63.int := if Uint63.leb a b then b else a.

(** [Math.round(s / count)] on doubles is [round_div s count] for every
    integer [s] below [n]. *)
Definition roundsAgree (count n : Z) : bool :=
  below (Z.to_nat n) 0%uint63 (λ s,
    bool_decide
      (Math_round64 (PrimFloat.div (PrimFloat.of_uint63 s)
                       (PrimFloat.of_uint63 (Uint63.of_Z count)))
       = Some (round_div (Uint63.to_Z s) count))).

(** ** Windows of a raster of one colour *)

(** Every read of a window of a raster of one colour returns the colour. *)
Lemma windowSamples_uniform c width height radius centerX centerY ch :
  0 < width → 0 < height → (∀ ch, byte (c ch)) → 0 ≤ ch ≤ 2 →
  windowSamples (uniform c width height) width height radius centerX centerY ch
  = replicate (length (windowOffsets radius)) (Some (c ch)).
Proof.
  intros Hw Hh Hc Hch. pose proof (uniform_raster_ok c width height Hw Hh Hc) as Hok.
  rewrite windowSamples_values by (done || lia). symmetry.
  rewrite <-fmap_replicate. f_equal. apply replicate_as_Forall. split.
  - unfold windowValues, windowIndices. by rewrite !length_fmap.
  - apply windowValues_Forall; [done|lia|].
    intros i v Hi Hv. symmetry. by apply (uniform_read c width height i ch v); [lia| |].
Qed.

Lemma forallb_seqZ (P : Z → bool) (n v : Z) :
  forallb P (seqZ 0 n) = true → 0 ≤ v < n → P v = true.
Proof.
  intros HP Hv. rewrite forallb_forall in HP. apply HP.
  apply list_elem_of_In, elem_of_seqZ. lia.
Qed.

(** ** Doubles: the harmonic mean *)

Section doubles.
Context (libm : Libm).

Lemma harmonicFixes_sizes :
  Forall (λ radius, harmonicFixes libm (length (windowOffsets radius)) = true) [1; 2; 3; 4].
Proof. repeat (apply Forall_cons_2; [by vm_compute|]). apply Forall_nil_2. Qed.

(** The harmonic mean of a window of one byte value, for the radii 1 to
    4. *)
Lemma harmonicMean_replicate (radius v : Z) :
  1 ≤ radius ≤ 4 → byte v →
  harmonicMean (H := binary64 libm) (replicate (length (windowOffsets radius)) (Some v))
  = Some v.
Proof.
  intros Hr Hv. pose proof harmonicFixes_sizes as Hs.
  assert (radius ∈ [1; 2; 3; 4]) as Hin by (rewrite !elem_of_cons; lia).
  apply (Forall_elem_of _ _ _ Hs) in Hin. unfold harmonicFixes in Hin.
  apply (forallb_seqZ _ 256 v) in Hin; [|unfold byte in Hv; lia].
  by apply bool_decide_eq_true in Hin.
Qed.

Lemma noiseFixes_amplitudes (amplitude : Z) :
  amplitude ∈ [100; 80] → noiseFixes libm amplitude = true.
Proof.
  intros [->|[->|[]%elem_of_nil]%elem_of_cons]%elem_of_cons; vm_compute; reflexivity.
Qed.

(** The entry the noise loop leaves when it draws one half. *)
Lemma noiseAt_half (amplitude : Z) (j : nat) (v : Z) :
  amplitude ∈ [100; 80] → byte v →
  noiseAt (H := binary64 libm) (ofNum (Some amplitude)) (λ _, half) j v = v.
Proof.
  intros Ha Hv. unfold noiseAt. case_decide; [done|].
  apply noiseFixes_amplitudes in Ha.
  apply (forallb_seqZ _ 256 v) in Ha; [|unfold byte in Hv; lia].
  by apply bool_decide_eq_true in Ha.
Qed.

(** [new GaussianFilter(2.0)] on doubles: the kernel size is 13, whatever
    [Math.exp] returns. *)
Lemma constructor_2_binary64 :
  GaussianFilter.constructor (H := binary64 libm) (ofNum (Some 2)) None
  = Normal (GaussianFilter.make (ofNum (Some 2)) 13 6
              (kernelSpec (H := binary64 libm) (ofNum (Some 2)) 13 6)).
Proof.
  unfold GaussianFilter.constructor.
  assert (Math_ceil (Float64 := binary64 libm) (fmul (ofNum (Some 6)) (ofNum (Some 2)))
          = Some 12) as -> by (by vm_compute).
  change (orOne (Some 12)) with 13.
  cbn -[GaussianFilter.createGaussianKernel Z.div]. change (13 `div` 2) with 6.
  by rewrite createGaussianKernel_kernelSpec.
Qed.

End doubles.

(** ** Doubles: integers

    The integer layer of [Prelude] stands for doubles that hold integers.
    The sums of a window of at most 81 bytes and the rounded quotient by
    the count are checked on every pair of doubles that can occur: the
    primitive integers enumerate them, and [of_uint63] is the double of an
    integer. *)

Lemma ofZ_of_uint63 (n : Uint63.int) : ofZ (Uint63.to_Z n) = PrimFloat.of_uint63 n.
Proof.
  unfold ofZ. rewrite <-FloatAxioms.of_uint63_spec. apply FloatAxioms.SF2Prim_Prim2SF.
Qed.

Lemma wB_eq : Uint63.wB = 2 * 2 ^ 62.
Proof. reflexivity. Qed.

Lemma ofZ_of_Z (z : Z) : 0 ≤ z < 2 ^ 62 → PrimFloat.of_uint63 (Uint63.of_Z z) = ofZ z.
Proof.
  intros Hz. rewrite <-ofZ_of_uint63, Uint63.of_Z_spec, Z.mod_small; [done|].
  rewrite wB_eq. lia.
Qed.

Lemma below_spec (n : nat) (i : Uint63.int) (P : Uint63.int → bool) (k : Z) :
  below n i P = true → Uint63.to_Z i + Z.of_nat n < Uint63.wB →
  Uint63.to_Z i ≤ k < Uint63.to_Z i + Z.of_nat n → P (Uint63.of_Z k) = true.
Proof.
  revert i. induction n as [|n IH]; intros i Hb Hn Hk; [lia|].
  simpl in Hb. apply andb_true_iff in Hb as [Hi Hb].
  destruct (decide (k = Uint63.to_Z i)) as [->|Hne]; [by rewrite Uint63.of_to_Z|].
  pose proof (Uint63.to_Z_bounded i).
  assert (Uint63.to_Z (Uint63.add i 1%uint63) = Uint63.to_Z i + 1) as Hs.
  { rewrite Uint63.add_spec, Uint63.to_Z_1, Z.mod_small; lia. }
  apply (IH (Uint63.add i 1%uint63)); [done|lia|lia].
Qed.

(** The enumeration from zero. *)
Lemma below_0 (n : Z) (P : Uint63.int → bool) (k : Z) :
  below (Z.to_nat n) 0%uint63 P = true → n < 2 ^ 62 → 0 ≤ k < n →
  P (Uint63.of_Z k) = true.
Proof.
  intros Hb Hn Hk. apply (below_spec _ _ _ k) in Hb; [done|..];
    rewrite Uint63.to_Z_0, ?wB_eq; lia.
Qed.

Lemma to_Z_of_Z (z : Z) : 0 ≤ z < 2 ^ 62 → Uint63.to_Z (Uint63.of_Z z) = z.
Proof. intros. rewrite Uint63.of_Z_spec, wB_eq, Z.mod_small; lia. Qed.

Lemma pairsAgree_spec na nb f g (a b c : Z) :
  pairsAgree na nb f g = true → na < 2 ^ 62 → nb < 2 ^ 62 → 0 ≤ a < na → 0 ≤ b < nb →
  Uint63.to_Z (g (Uint63.of_Z a) (Uint63.of_Z b)) = c →
  f (ofZ a) (ofZ b) = ofZ c.
Proof.
  intros H Hna Hnb Ha Hb <-. unfold pairsAgree in H.
  apply (below_0 _ _ a) in H; [|lia..]. apply (below_0 _ _ b) in H; [|lia..].
  apply FloatAxioms.Leibniz.eqb_spec in H.
  rewrite !ofZ_of_Z in H by lia. by rewrite H, <-ofZ_of_uint63.
Qed.

Lemma to_Z_min63 (a b : Uint63.int) :
  Uint63.to_Z (min63 a b) = Z.min (Uint63.to_Z a) (Uint63.to_Z b).
Proof.
  unfold min63. destruct (Uint63.leb a b) eqn:Hle.
  - apply Uint63.leb_spec in Hle. lia.
  - assert (¬ Uint63.to_Z a ≤ Uint63.to_Z b) by (rewrite <-Uint63.leb_spec; congruence). lia.
Qed.

Lemma to_Z_max63 (a b : Uint63.int) :
  Uint63.to_Z (max63 a b) = Z.max (Uint63.to_Z a) (Uint63.to_Z b).
Proof.
  unfold max63. destruct (Uint63.leb a b) eqn:Hle.
  - apply Uint63.leb_spec in Hle. lia.
  - assert (¬ Uint63.to_Z a ≤ Uint63.to_Z b) by (rewrite <-Uint63.leb_spec; congruence). lia.
Qed.

Lemma roundsAgree_spec (count n s : Z) :
  roundsAgree count n = true → 0 ≤ count < 2 ^ 62 → n < 2 ^ 62 → 0 ≤ s < n →
  Math_round64 (PrimFloat.div (ofZ s) (ofZ count)) = Some (round_div s count).
Proof.
  intros H Hc Hn Hs. unfold roundsAgree in H.
  apply (below_0 _ _ s) in H; [|lia..]. apply bool_decide_eq_true in H.
  rewrite !ofZ_of_Z in H by lia. rewrite H. do 2 f_equal.
  rewrite Uint63.of_Z_spec, wB_eq, Z.mod_small; lia.
Qed.

Lemma sums_exact : pairsAgree 20401 256 PrimFloat.add Uint63.add = true.
Proof. vm_compute. reflexivity. Qed.

Lemma minima_exact : pairsAgree 256 256 Math_min64 min63 = true.
Proof. vm_compute. reflexivity. Qed.

Lemma maxima_exact : pairsAgree 256 256 Math_max64 max63 = true.
Proof. vm_compute. reflexivity. Qed.

Lemma halves_agree : roundsAgree 2 511 = true.
Proof. vm_compute. reflexivity. Qed.

(** Sums, minima and maxima of doubles that hold small integers. *)
Lemma add_exact (a b : Z) :
  0 ≤ a ≤ 20400 → byte b → PrimFloat.add (ofZ a) (ofZ b) = ofZ (a + b).
Proof.
  intros Ha Hb. unfold byte in Hb. apply (pairsAgree_spec _ _ _ _ a b _ sums_exact); [lia..|].
  rewrite Uint63.add_spec, !to_Z_of_Z, wB_eq, Z.mod_small; lia.
Qed.

Lemma min_exact (a b : Z) :
  byte a → byte b → Math_min64 (ofZ a) (ofZ b) = ofZ (Z.min a b).
Proof.
  unfold byte. intros Ha Hb. apply (pairsAgree_spec _ _ _ _ a b _ minima_exact); [lia..|].
  by rewrite to_Z_min63, !to_Z_of_Z by lia.
Qed.

Lemma max_exact (a b : Z) :
  byte a → byte b → Math_max64 (ofZ a) (ofZ b) = ofZ (Z.max a b).
Proof.
  unfold byte. intros Ha Hb. apply (pairsAgree_spec _ _ _ _ a b _ maxima_exact); [lia..|].
  by rewrite to_Z_max63, !to_Z_of_Z by lia.
Qed.

(** A fold of an operation that is exact on bytes is exact. *)
Lemma foldl_exact (f : PrimFloat.float → PrimFloat.float → PrimFloat.float)
    (g : Z → Z → Z) (vs : list Z) (a : Z) :
  (∀ a b, byte a → byte b → f (ofZ a) (ofZ b) = ofZ (g a b) ∧ byte (g a b)) →
  byte a → Forall byte vs →
  foldl (λ s v, f s (ofJsnum v)) (ofZ a) (Some <$> vs) = ofZ (foldl g a vs)
  ∧ byte (foldl g a vs).
Proof.
  intros Hfg Ha Hvs. revert a Ha. induction Hvs as [|v vs Hv _ IH]; intros a Ha; [done|].
  simpl. destruct (Hfg a v Ha Hv) as [-> Hg]. by apply IH.
Qed.

Lemma roundsAgree_windows :
  Forall (λ count, roundsAgree count (255 * count + 1) = true) [1; 9; 25; 49; 81].
Proof. repeat (apply Forall_cons_2; [vm_compute; reflexivity|]). apply Forall_nil_2. Qed.

(** The sum of at most 81 bytes accumulated in doubles is exact. *)
Lemma foldl_fadd_exact (vs : list Z) (a : Z) :
  Forall byte vs → 0 ≤ a → a + 255 * Z.of_nat (length vs) ≤ 20655 →
  foldl (λ s v, PrimFloat.add s (ofJsnum v)) (ofZ a) (Some <$> vs) = ofZ (a + sumZ vs).
Proof.
  intros Hvs. revert a. induction Hvs as [|v vs Hv _ IH]; intros a Ha Hlen; simpl.
  { by rewrite Z.add_0_r. }
  rewrite length_cons in Hlen. unfold byte in Hv.
  rewrite add_exact by (done || lia).
  rewrite IH by lia. f_equal. lia.
Qed.

Section mean.
Context (libm : Libm) (this : MeanFilter.t) (data : list Z).
Context (centerX centerY width height : Z).
Context (Hok : raster_ok data width height) (Hr : 0 ≤ KernelSpec.radius this ≤ 4).

Lemma mean_channel_binary64 ch :
  0 ≤ ch ≤ 2 →
  channel (MeanFilter.calculateMeanValuesNum (H := binary64 libm) this data
             centerX centerY width height) ch
  = channel (MeanFilter.calculateMeanValues this data centerX centerY width height) ch.
Proof.
  intros Hch. rewrite meanNum_channel_samples, mean_channel_sound by (done || lia).
  rewrite windowSamples_values by (done || lia).
  set (vs := windowValues _ _ _ _ _ _ _).
  pose proof (length_windowValues data width height _ centerX centerY ch (proj1 Hr)) as Hn.
  pose proof (windowValues_bytes data width height (KernelSpec.radius this)
                centerX centerY ch Hok ltac:(lia)) as Hb.
  pose proof (sumZ_bounds 0 255 _ Hb) as Hsum. fold vs in Hn, Hb, Hsum.
  assert (Z.of_nat (length vs) ∈ [1; 9; 25; 49; 81]) as Hcount.
  { rewrite Hn, !elem_of_cons.
    assert (KernelSpec.radius this ∈ [0; 1; 2; 3; 4]) as Hin by (rewrite !elem_of_cons; lia).
    rewrite !elem_of_cons in Hin. destruct Hin as [->|[->|[->|[->|[->|[]%elem_of_nil]]]]]; auto 10. }
  replace (Z.of_nat (length (windowOffsets (KernelSpec.radius this))))
    with (Z.of_nat (length vs))
    by (unfold vs, windowValues, windowIndices; by rewrite !length_fmap).
  pose proof (Forall_elem_of _ _ _ roundsAgree_windows Hcount) as Hround.
  assert (1 ≤ Z.of_nat (length vs) ≤ 81) as Hlen
    by (rewrite !elem_of_cons, elem_of_nil in Hcount; lia).
  simpl in Hround |- *. rewrite (foldl_fadd_exact vs 0) by (done || lia).
  unfold mean. apply (roundsAgree_spec _ _ _ Hround); lia.
Qed.

End mean.


Lemma calculateMeanValues_binary64 (libm : Libm) (this : MeanFilter.t) (data : list Z)
    (centerX centerY width height : Z) :
  raster_ok data width height → 0 ≤ KernelSpec.radius this ≤ 4 →
  MeanFilter.calculateMeanValuesNum (H := binary64 libm) this data centerX centerY width height
  = MeanFilter.calculateMeanValues this data centerX centerY width height.
Proof.
  intros Hok Hr.
  rewrite (RGB_channels (MeanFilter.calculateMeanValuesNum _ _ _ _ _ _)),
    (RGB_channels (MeanFilter.calculateMeanValues _ _ _ _ _ _)).
  by rewrite !(mean_channel_binary64 libm this data centerX centerY width height Hok Hr)
    by lia.
Qed.

(** The midpoint of the extrema of a window, computed in doubles. *)
Lemma midpoint_channel_binary64 (libm : Libm) (this : KernelSpec.t) (data : list Z)
    (centerX centerY width height ch : Z) :
  raster_ok data width height → 0 ≤ ch ≤ 2 →
  channel (MidpointFilter.calculateMidpointValuesNum (H := binary64 libm) this data
             centerX centerY width height) ch
  = channel (MidpointFilter.calculateMidpointValues this data centerX centerY width height) ch.
Proof.
  intros Hok Hch. rewrite midpointNum_channel_samples, midpoint_channel_sound by done.
  cbv zeta. rewrite windowSamples_values by (done || lia).
  pose proof (windowValues_bytes data width height (KernelSpec.radius this)
                centerX centerY ch Hok ltac:(lia)) as Hb.
  set (vs := windowValues _ _ _ _ _ _ _) in *.
  destruct (foldl_exact Math_min64 Z.min vs 255) as [Hlow Hmin];
    [intros a b Ha Hb'; split; [by apply min_exact|unfold byte in *; lia]|by compute|done|].
  destruct (foldl_exact Math_max64 Z.max vs 0) as [Hhigh Hmax];
    [intros a b Ha Hb'; split; [by apply max_exact|unfold byte in *; lia]|by compute|done|].
  simpl. rewrite Hlow, Hhigh, add_exact by (done || unfold byte in Hmin; lia).
  unfold midpoint, minOf, maxOf.
  apply (roundsAgree_spec 2 511 _ halves_agree); unfold byte in *; lia.
Qed.

(** ** Properties *)

(** C14: the integer models of the mean and of the midpoint filter are
    exact on IEEE doubles: on every raster, the sweep of the calculator
    with its sums, extrema and quotients computed in doubles leaves the
    bytes that the integer model leaves (the mean for the kernel sizes 1 to
    9, the midpoint for every size): no sum of a window is rounded, and
    [Math.round] of a rounded quotient is the integer nearest to the exact
    quotient, ties upward. *)
Theorem integer_model_exact_binary64 (libm : Libm) (this : KernelSpec.t) (data : list Z)
    (width height : Z) :
  raster_ok data width height →
  (0 ≤ KernelSpec.radius this ≤ 4 →
   processImageData (MeanFilter.calculateMeanValuesNum (H := binary64 libm) this)
     data data width height
   = MeanFilter.processImageData this data data width height)
  ∧ processImageData (MidpointFilter.calculateMidpointValuesNum (H := binary64 libm) this)
      data data width height
    = MidpointFilter.processImageData this data data width height.
Proof.
  intros Hok. split; [intros Hr|]; (apply processImageData_ext; [done|]); intros x y ch _ _ Hch.
  - by rewrite calculateMeanValues_binary64.
  - by apply midpoint_channel_binary64.
Qed.

Lemma integer_model_exact_binary64_witness :
  let libm := mkLibm (λ x, x) (λ x, x) (λ x _, x) in
  let data := [10; 20; 30; 255; 40; 50; 61; 255] in
  (0 ≤ KernelSpec.radius (KernelSpec.make 3 1) ≤ 4 →
   processImageData
     (MeanFilter.calculateMeanValuesNum (H := binary64 libm) (KernelSpec.make 3 1))
     data data 2 1
   = MeanFilter.processImageData (KernelSpec.make 3 1) data data 2 1)
  ∧ processImageData
      (MidpointFilter.calculateMidpointValuesNum (H := binary64 libm) (KernelSpec.make 3 1))
      data data 2 1
    = MidpointFilter.processImageData (KernelSpec.make 3 1) data data 2 1.
Proof.
  apply integer_model_exact_binary64.
  split_and!; [lia|lia|done|]. repeat (apply Forall_cons_2; [unfold byte; lia|]). done.
Defined.


(** C32: on IEEE doubles the harmonic filter of kernel size 3, 5, 7 or 9
    leaves every raster of one colour unchanged, whatever the colour and
    the size of the raster: the rounding errors of the reciprocals, of
    their sum and of the quotient never move [Math.round] off the
    colour. *)
Theorem harmonic_uniform_unchanged_binary64 (libm : Libm) (kernelSize : Z) (c : Z → Z)
    (width height : Z) :
  kernelSize ∈ [3; 5; 7; 9] → 0 < width → 0 < height → (∀ ch, byte (c ch)) →
  HarmonicMeanFilter.processImageData (H := binary64 libm)
    (KernelSpec.make kernelSize (kernelSize `div` 2))
    (uniform c width height) (uniform c width height) width height
  = uniform c width height.
Proof.
  intros Hk Hw Hh Hc. apply processImageData_fixpoint; [by apply uniform_raster_ok|].
  intros x y ch Hx Hy Hch.
  rewrite harmonic_channel_samples, windowSamples_uniform, uniform_get by (done || nia).
  replace (((y * width + x) * 4 + ch) `mod` 4) with ch by (Z.div_mod_to_equations; lia).
  apply harmonicMean_replicate; [|done]. simpl.
  rewrite !elem_of_cons in Hk. destruct Hk as [->|[->|[->|[->|?%elem_of_nil]]]]; by compute.
Qed.

Lemma harmonic_uniform_unchanged_binary64_witness :
  HarmonicMeanFilter.processImageData
    (H := binary64 (mkLibm (λ x, x) (λ x, x) (λ x _, x)))
    (KernelSpec.make 5 (5 `div` 2))
    (uniform (λ ch, if decide (ch = 3) then 255 else 128) 5 5)
    (uniform (λ ch, if decide (ch = 3) then 255 else 128) 5 5) 5 5
  = uniform (λ ch, if decide (ch = 3) then 255 else 128) 5 5.
Proof.
  apply harmonic_uniform_unchanged_binary64; [rewrite !elem_of_cons; auto|lia|lia|].
  intros ch. unfold byte. case_decide; lia.
Defined.

(** On IEEE doubles the noise loop of either class changes nothing when
    every number drawn is one half. *)
Theorem addNoise_half_binary64 (libm : Libm) (amplitude : Z) (data : list Z) :
  amplitude ∈ [100; 80] → is_bytes data →
  addNoise (H := binary64 libm) (ofNum (Some amplitude)) (λ _, half) data = data.
Proof. intros Ha Hd. apply addNoise_id; [done|]. intros j v. by apply noiseAt_half. Qed.

(** The noise loop run on doubles: a quarter drawn with amplitude 100 is an
    offset of -25, and 10 - 25 is clamped to 0. *)
Example addNoise_binary64_example :
  addNoise (H := binary64 (mkLibm (λ x, x) (λ x, x) (λ x _, x)))
    (ofNum (Some 100)) (λ _, 0.25%float) [10; 200; 30; 255; 40; 50; 60; 7]
  = [0; 175; 5; 255; 15; 25; 35; 7].
Proof. by vm_compute. Qed.

(** The two passes of the Gaussian filter do not commute on doubles: with
    the kernel of the weights 1/4, 1/2 and 1/4, whatever the functions of
    [Libm], the raster of the grey levels 0, 0 in its first row and 1, 3 in
    its second is filtered to 1, 1 and 2, 2, while the passes in the other
    order give 0, 1 and 1, 2: the bytes stored between the passes are
    rounded.  So the filter of the transposed raster is not the transposed
    of the filtered raster. *)
Example passes_do_not_commute (libm : Libm) :
  let this := GaussianFilter.make (H := binary64 libm) (ofNum (Some 1)) 3 1
                [0.25; 0.5; 0.25]%float in
  let data := [0; 0; 0; 255; 0; 0; 0; 255; 1; 1; 1; 255; 3; 3; 3; 255] in
  GaussianFilter.filtered this data 2 2
  = [1; 1; 1; 255; 1; 1; 1; 255; 2; 2; 2; 255; 2; 2; 2; 255]
  ∧ filterSpec (GaussianFilter.convolveHorizontal this)
      (filterSpec (GaussianFilter.convolveVertical this) data 2 2) 2 2
    = [0; 0; 0; 255; 1; 1; 1; 255; 1; 1; 1; 255; 2; 2; 2; 255]
  ∧ GaussianFilter.filtered this (transpose data 2 2) 2 2
    ≠ transpose (GaussianFilter.filtered this data 2 2) 2 2.
Proof. vm_compute. by split_and!. Qed.
