(* ===== verification/Page.v ===== *)
(** * The page: its elements and the handlers that run no filter

    Both page scripts (src/unnamed/part_000 and src/script.js) keep their
    state in two globals and in the elements of the document.  [Page] is a
    record of the elements the scripts read or write, with the fields the
    scripts touch: the globals, the values of the inputs, the area of the
    original image, the label of the file input, the filter button, the
    parameter controls, the processing indicator, the area of the processed
    image, the messages of [alert], and the callbacks in flight ([Task]: a
    [FileReader] that reads, an [Image] that loads).

    Markup assigned to [innerHTML] is kept as the class of its icon and its
    text ([Markup]).  [style.display] of an element is a boolean: shown
    (['block'], ['flex']) or not (['none']).  Strings are byte strings:
    [length] and [substring] agree with JavaScript's on ASCII names. *)

From Stdlib Require Import ZArith Lia.
From stdpp Require Import base tactics option list numbers strings gmap.
From S2P Require Import Prelude TypedArray Floats Canvas.

#[local] Open Scope Z_scope.

(** ** Definitions *)

(** [<i class="bi <icon>"></i> <text>]. *)
Record Markup := mkMarkup { icon : string; text : string }.

(** The fields of a [File] the scripts read. *)
Record File := mkFile { name : string; type : string; size : Z }.

(** The callbacks in flight: [reader.readAsDataURL(file)], and
    [newImg.src = dataURL] of [loadImageToDisplay] and of
    [debugTestWithSampleImage]. *)
Inductive Task :=
  | ReadFile (file : File)
  | LoadImage (dataURL : string)
  | LoadTestImage (dataURL : string).

(** The globals [currentImageFile], whether [meanFilterInstance] holds an
    instance, and whether [gaussianFilterInstance], which the script with
    nine algorithms assigns without declaring it, exists (the other
    instances are never read). *)
Record Globals := mkGlobals {
  currentImageFile : option File;
  meanFilterInstance : bool;
  gaussianFilterInstance : bool
}.

(** The value of [algorithmSelect], [parseInt] of [kernelSize], [parseFloat]
    of [sigmaRange] and of [qParameter]. *)
Record Inputs `{Float64} := mkInputs {
  algorithm : string;
  kernelSize : Z;
  sigmaRange : float;
  qParameter : float
}.
Arguments mkInputs {_} _ _ _ _.

(** The element [originalImage] with its [src] and its [style.display], and
    the placeholder of its container. *)
Record OriginalArea := mkOriginalArea {
  originalImg : ImageElement.t;
  originalSrc : string;
  originalShown : bool;
  originalPlaceholderShown : bool
}.

(** The label of the file input. *)
Record FileLabel := mkFileLabel { labelMarkup : Markup; background : string }.

(** The element [filterBtn]. *)
Record Button := mkButton { disabled : bool; innerHTML : Markup }.

(** [kernelSizeControl], [sigmaControl], [qParameterContainer] are shown, and
    the text of [sigmaValue]. *)
Record Controls `{Float64} := mkControls {
  kernelSizeControl : bool;
  sigmaControl : bool;
  qParameterContainer : bool;
  sigmaValue : float
}.
Arguments mkControls {_} _ _ _ _.

(** The element [processedImage] with its [src] and its [style.display], and
    the placeholder of its container with its markup. *)
Record ProcessedArea := mkProcessedArea {
  processedSrc : string;
  processedShown : bool;
  placeholderShown : bool;
  placeholderMarkup : Markup
}.

(** The page.  [bound] says that [bindEventListeners] has run. *)
Record Page `{Float64} := mkPage {
  globals : Globals;
  inputs : Inputs;
  original : OriginalArea;
  fileLabel : FileLabel;
  button : Button;
  controls : Controls;
  processingIndicator : bool;
  processedArea : ProcessedArea;
  alerts : list string;
  tasks : list Task;
  bound : bool
}.
Arguments mkPage {_} _ _ _ _ _ _ _ _ _ _ _.

#[export] Instance Markup_eq_dec : EqDecision Markup.
Proof. solve_decision. Defined.
#[export] Instance File_eq_dec : EqDecision File.
Proof. solve_decision. Defined.
#[export] Instance Task_eq_dec : EqDecision Task.
Proof. solve_decision. Defined.

Section setters.
Context `{Float64}.

Definition setGlobals (x : Globals) (page : Page) : Page :=
  mkPage x (inputs page) (original page) (fileLabel page) (button page) (controls page)
    (processingIndicator page) (processedArea page) (alerts page) (tasks page) (bound page).

Definition setInputs (x : Inputs) (page : Page) : Page :=
  mkPage (globals page) x (original page) (fileLabel page) (button page) (controls page)
    (processingIndicator page) (processedArea page) (alerts page) (tasks page) (bound page).

Definition setOriginal (x : OriginalArea) (page : Page) : Page :=
  mkPage (globals page) (inputs page) x (fileLabel page) (button page) (controls page)
    (processingIndicator page) (processedArea page) (alerts page) (tasks page) (bound page).

Definition setFileLabel (x : FileLabel) (page : Page) : Page :=
  mkPage (globals page) (inputs page) (original page) x (button page) (controls page)
    (processingIndicator page) (processedArea page) (alerts page) (tasks page) (bound page).

Definition setButton (x : Button) (page : Page) : Page :=
  mkPage (globals page) (inputs page) (original page) (fileLabel page) x (controls page)
    (processingIndicator page) (processedArea page) (alerts page) (tasks page) (bound page).

Definition setControls (x : Controls) (page : Page) : Page :=
  mkPage (globals page) (inputs page) (original page) (fileLabel page) (button page) x
    (processingIndicator page) (processedArea page) (alerts page) (tasks page) (bound page).

Definition setProcessingIndicator (x : bool) (page : Page) : Page :=
  mkPage (globals page) (inputs page) (original page) (fileLabel page) (button page)
    (controls page) x (processedArea page) (alerts page) (tasks page) (bound page).

Definition setProcessedArea (x : ProcessedArea) (page : Page) : Page :=
  mkPage (globals page) (inputs page) (original page) (fileLabel page) (button page)
    (controls page) (processingIndicator page) x (alerts page) (tasks page) (bound page).

Definition setTasks (x : list Task) (page : Page) : Page :=
  mkPage (globals page) (inputs page) (original page) (fileLabel page) (button page)
    (controls page) (processingIndicator page) (processedArea page) (alerts page) x
    (bound page).

Definition setBound (x : bool) (page : Page) : Page :=
  mkPage (globals page) (inputs page) (original page) (fileLabel page) (button page)
    (controls page) (processingIndicator page) (processedArea page) (alerts page)
    (tasks page) x.

(** [alert(message)]. *)
Definition alert (message : string) (page : Page) : Page :=
  mkPage (globals page) (inputs page) (original page) (fileLabel page) (button page)
    (controls page) (processingIndicator page) (processedArea page)
    (alerts page ++ [message]) (tasks page) (bound page).

End setters.

Section handlers.
Context `{Browser}.

(** [algorithmNames[algorithm]] inside a template literal: the name, or the
    text [undefined] for a key the object does not have. *)
Definition nameOf (algorithmNames : gmap string string) (algorithm : string) : string :=
  default "undefined" (algorithmNames !! algorithm).

(** [resetProcessedImage()]. *)
Definition resetProcessedImage (page : Page) : Page :=
  setProcessedArea
    (mkProcessedArea (processedSrc (processedArea page)) false true
       (mkMarkup "bi-hourglass-split" "Chờ xử lý ảnh")) page.

(** [showErrorState()]. *)
Definition showErrorState (page : Page) : Page :=
  setProcessedArea
    (mkProcessedArea (processedSrc (processedArea page)) false true
       (mkMarkup "bi-exclamation-triangle" "Lỗi xử lý ảnh")) page.

(** [displayProcessedImage(canvas)]; [toDataURL] may throw. *)
Definition displayProcessedImage (canvas : Canvas.t) (page : Page) : completion Page :=
  dataURL ← toDataURL canvas;
  Normal (setProcessedArea
            (mkProcessedArea dataURL true false (placeholderMarkup (processedArea page)))
            page).

(** [showProcessingState(isProcessing)], with the table [algorithmNames] of
    the script. *)
Definition showProcessingState (algorithmNames : gmap string string) (isProcessing : bool)
    (page : Page) : Page :=
  let algorithm := algorithm (inputs page) in
  if isProcessing then
    setButton (mkButton true (mkMarkup "bi-hourglass-split" "Đang xử lý..."))
      (setProcessingIndicator true page)
  else
    setButton
      (mkButton false (mkMarkup "bi-magic" ("Áp dụng " +:+ nameOf algorithmNames algorithm)))
      (setProcessingIndicator false page).

(** [loadImageToDisplay(file)]: the reader starts; its callbacks are
    [reader_onload] and [reader_onerror]. *)
Definition loadImageToDisplay (file : File) (page : Page) : Page :=
  setTasks (tasks page ++ [ReadFile file]) page.

(** [handleImageUpload(event)], where [file] is [event.target.files[0]]. *)
Definition handleImageUpload (file : option File) (page : Page) : Page :=
  match file with
  | Some file =>
      if negb (String.prefix "image/" (type file))
      then alert "Vui lòng chọn file ảnh hợp lệ!" page
      else
        let page :=
          setGlobals (mkGlobals (Some file) (meanFilterInstance (globals page))
                        (gaussianFilterInstance (globals page))) page in
        let fileName :=
          if decide (20 < Z.of_nat (String.length (name file)))
          then String.substring 0 20 (name file) +:+ "..."
          else name file in
        let page :=
          setFileLabel (mkFileLabel (mkMarkup "bi-check-circle" fileName)
                          "linear-gradient(135deg, #10b981, #059669)") page in
        loadImageToDisplay file page
  | None => page
  end.

(** [reader.onload]: a new [Image] starts to load the data URL read. *)
Definition reader_onload (result : string) (page : Page) : Page :=
  setTasks (tasks page ++ [LoadImage result]) page.

(** [reader.onerror]. *)
Definition reader_onerror (page : Page) : Page :=
  alert "Lỗi khi tải ảnh. Vui lòng thử lại!" page.

(** [newImg.onload] of [loadImageToDisplay]: [img] is the element
    [originalImage] once it shows the data URL. *)
Definition newImg_onload (dataURL : string) (img : ImageElement.t) (page : Page) : Page :=
  let page := setOriginal (mkOriginalArea img dataURL true false) page in
  let page := setButton (mkButton false (innerHTML (button page))) page in
  resetProcessedImage page.

(** [testImg.onload] of [debugTestWithSampleImage]. *)
Definition testImg_onload (dataURL : string) (img : ImageElement.t) (page : Page) : Page :=
  let page := setOriginal (mkOriginalArea img dataURL true false) page in
  setButton (mkButton false (innerHTML (button page))) page.

(** The guard of [handleFilterApply]: [!originalImg.src || !currentImageFile]. *)
Definition noImage (page : Page) : bool :=
  bool_decide (originalSrc (original page) = "")
  || bool_decide (currentImageFile (globals page) = None).

(** The [try / catch / finally] of [handleFilterApply] around the promise of
    the selected filter. *)
Definition settle (algorithmNames : gmap string string) (filtered : Outcome) (page : Page)
  : Page :=
  let page := showProcessingState algorithmNames true page in
  let caught page := showErrorState (alert "Lỗi khi xử lý ảnh. Vui lòng thử lại!" page) in
  let page :=
    match filtered with
    | Resolved filteredCanvas =>
        match displayProcessedImage filteredCanvas page with
        | Normal page => page
        | Throw error => caught page
        end
    | Rejected error => caught page
    end in
  showProcessingState algorithmNames false page.

End handlers.

(** An [async] function whose body constructs a filter and awaits its
    [applyFilter]. *)
Definition construct {T} (filter : completion T) (applyFilter : T → Outcome) : Outcome :=
  match filter with
  | Normal filter => applyFilter filter
  | Throw error => Rejected error
  end.

(** [bindEventListeners()]: from now on the handlers run. *)
Definition bindEventListeners `{Float64} (page : Page) : Page := setBound true page.

(** [meanFilterInstance = new MeanFilter(5)] and
    [gaussianFilterInstance = new GaussianFilter(2.0)], once constructed. *)
Definition setMeanFilterInstance `{Float64} (page : Page) : Page :=
  setGlobals (mkGlobals (currentImageFile (globals page)) true
                (gaussianFilterInstance (globals page))) page.

Definition setGaussianFilterInstance `{Float64} (page : Page) : Page :=
  setGlobals (mkGlobals (currentImageFile (globals page))
                (meanFilterInstance (globals page)) true) page.

(** [debugTestWithSampleImage()], where [created] is the completion of
    [meanFilterInstance.createNoisyTestImage(300, 300)]: the canvas it
    returns, or what it throws. *)
Definition debugTestWithSampleImage `{Browser} (created : completion Canvas.t)
    (page : Page) : completion Page :=
  if meanFilterInstance (globals page) then
    testCanvas ← created;
    dataURL ← toDataURL testCanvas;
    Normal (setTasks (tasks page ++ [LoadTestImage dataURL]) page)
  else Normal page.

(** What happens on the page: the events the listeners are bound to, the
    changes of the inputs that have no listener, the callbacks of the
    readers and images in flight, and a call of the debug function. *)
Inductive Event `{Float64} :=
  | DOMContentLoaded
  | InputImageChange (file : option File)
  | FilterBtnClick
  | AlgorithmSelectChange (value : string)
  | KernelSizeChange (value : Z)
  | SigmaRangeInput (value : float)
  | QParameterChange (value : float)
  | ReaderLoad (file : File) (result : string)
  | ReaderError (file : File)
  | ImageLoad (dataURL : string) (img : ImageElement.t)
  | ImageError (dataURL : string)
  | DebugTest (created : completion Canvas.t)
  | TestImageLoad (dataURL : string) (img : ImageElement.t)
  | TestImageError (dataURL : string).

(** The events that can occur on a page: the document loads once, a
    disabled button is not clicked, a callback runs for a reader or an image
    in flight, and the data URL a reader returns is not empty. *)
Definition enabled `{Float64} (event : Event) (page : Page) : Prop :=
  match event with
  | DOMContentLoaded => bound page = false
  | FilterBtnClick => disabled (button page) = false
  | ReaderLoad file result => ReadFile file ∈ tasks page ∧ result ≠ ""
  | ReaderError file => ReadFile file ∈ tasks page
  | ImageLoad dataURL _ | ImageError dataURL => LoadImage dataURL ∈ tasks page
  | TestImageLoad dataURL _ | TestImageError dataURL => LoadTestImage dataURL ∈ tasks page
  | _ => True
  end.

(** The change an input applies to its own value before any listener. *)
Definition setAlgorithm `{Float64} (value : string) (page : Page) : Page :=
  setInputs (mkInputs value (kernelSize (inputs page)) (sigmaRange (inputs page))
               (qParameter (inputs page))) page.

Definition setKernelSize `{Float64} (value : Z) (page : Page) : Page :=
  setInputs (mkInputs (algorithm (inputs page)) value (sigmaRange (inputs page))
               (qParameter (inputs page))) page.

Definition setSigmaRange `{Float64} (value : float) (page : Page) : Page :=
  setInputs (mkInputs (algorithm (inputs page)) (kernelSize (inputs page)) value
               (qParameter (inputs page))) page.

Definition setQParameter `{Float64} (value : float) (page : Page) : Page :=
  setInputs (mkInputs (algorithm (inputs page)) (kernelSize (inputs page))
               (sigmaRange (inputs page)) value) page.

(** A function that throws outside a [try] leaves the page as it is. *)
Definition uncaught `{Float64} (page : Page) (result : completion Page) : Page :=
  match result with
  | Normal page => page
  | Throw error => page
  end.

(** Removing a callback that has run. *)
Fixpoint removeTask (task : Task) (tasks : list Task) : list Task :=
  match tasks with
  | [] => []
  | t :: tasks => if decide (t = task) then tasks else t :: removeTask task tasks
  end.

(** The callbacks of the readers and images in flight. *)
Definition callback `{Float64} (event : Event) (page : Page) : Page :=
  match event with
  | ReaderLoad file result =>
      reader_onload result (setTasks (removeTask (ReadFile file) (tasks page)) page)
  | ReaderError file =>
      reader_onerror (setTasks (removeTask (ReadFile file) (tasks page)) page)
  | ImageLoad dataURL img =>
      newImg_onload dataURL img (setTasks (removeTask (LoadImage dataURL) (tasks page)) page)
  | ImageError dataURL => setTasks (removeTask (LoadImage dataURL) (tasks page)) page
  | TestImageLoad dataURL img =>
      testImg_onload dataURL img
        (setTasks (removeTask (LoadTestImage dataURL) (tasks page)) page)
  | TestImageError dataURL =>
      setTasks (removeTask (LoadTestImage dataURL) (tasks page)) page
  | _ => page
  end.

(** The events of normal use: all but a call of the debug function. *)
Definition production `{Float64} (event : Event) : Prop :=
  match event with
  | DebugTest _ => False
  | _ => True
  end.

(** The callbacks. *)
Definition isCallback `{Float64} (event : Event) : Prop :=
  match event with
  | ReaderLoad _ _ | ReaderError _ | ImageLoad _ _ | ImageError _
  | TestImageLoad _ _ | TestImageError _ => True
  | _ => False
  end.

(** The callbacks a task in flight still owes: a reader its own and that of
    the image it starts. *)
Definition owed (task : Task) : nat :=
  match task with
  | ReadFile _ => 2
  | LoadImage _ | LoadTestImage _ => 1
  end.

Definition weight (tasks : list Task) : nat := sum_list_with owed tasks.

(** ** Tasks *)

Lemma elem_of_removeTask (t u : Task) (l : list Task) : t ∈ removeTask u l → t ∈ l.
Proof.
  induction l as [|x l IH]; [done|]. simpl. case_decide.
  - by right.
  - intros [->|?]%elem_of_cons; [left|right; auto].
Qed.

Lemma weight_removeTask (u : Task) (l : list Task) :
  u ∈ l → (weight (removeTask u l) + owed u = weight l)%nat.
Proof.
  unfold weight. induction l as [|x l IH]; [by intros ?%elem_of_nil|].
  simpl. case_decide as Hx; [subst; lia|].
  intros [->|Hu]%elem_of_cons; [done|]. simpl. specialize (IH Hu). lia.
Qed.

Lemma weight_app (l k : list Task) : weight (l ++ k) = (weight l + weight k)%nat.
Proof. apply sum_list_with_app. Qed.

Lemma weight_nil (l : list Task) : weight l = 0%nat → l = [].
Proof. destruct l as [|[]]; [done|unfold weight; simpl; lia..]. Qed.
