(* ===== verification/App.v ===== *)
(** * The page scripts: running a filter

    [App] is the script of the page with nine algorithms
    (src/unnamed/part_000), [Script] the earlier one with three
    (src/script.js).  The page and the handlers that run no filter are in
    Page.v; here are [initializeApp], the [applyXxxFilter] functions, the
    [switch] of [handleFilterApply] and the handler itself, and the handlers
    of the controls.  An [async] function is its [Outcome]; [try / catch /
    finally] is a match on it ([settle]).  The theorems say what a click
    shows: the export of the sweep of the selected algorithm
    ([selectedCalculator]) when the pixels can be read, the error state
    when they cannot, and which selections run which class. *)

From Stdlib Require Import ZArith Lia.
From stdpp Require Import base tactics option list list_numbers numbers strings gmap.
From S2P Require Import Prelude TypedArray Boundary Kernel Sweep Floats Canvas.
From S2P Require Import Mean MinMax Midpoint Median Geometric Harmonic Contraharmonic Gaussian.
From S2P Require Import Page.

#[local] Open Scope Z_scope.

(** ** Definitions *)

Module App.

(** The table [algorithmNames] of [showProcessingState]. *)
Definition algorithmNames : gmap string string :=
  list_to_map [("mean", "Lọc Trung Bình"); ("median", "Lọc Trung Vị");
               ("gaussian", "Lọc Gaussian"); ("geometric", "Lọc Hình Học");
               ("harmonic", "Lọc Điều Hòa"); ("contraharmonic", "Lọc Phản Điều Hòa")].

(** The table [algorithmNames] of [handleAlgorithmChange]. *)
Definition changeNames : gmap string string :=
  list_to_map [("mean", "Lọc Trung Bình"); ("median", "Lọc Trung Vị");
               ("gaussian", "Lọc  Gaussian"); ("geometric", "Lọc TB Hình Học");
               ("harmonic", "Lọc TB Điều Hòa"); ("contraharmonic", "Lọc TB Phản Điều Hòa")].

(** [initializeApp()]: the filter instances are created in order; a
    constructor that throws ends the call, with the instances assigned so
    far and before the listeners are bound. *)
Definition initializeApp `{Float64} (page : Page) : Page :=
  match MeanFilter.constructor 5 with
  | Throw error => page
  | Normal _ =>
  let page := setMeanFilterInstance page in
  match MedianFilter.constructor 5 with
  | Throw error => page
  | Normal _ =>
  match GaussianFilter.constructor (ofNum (Some 2)) None with
  | Throw error => page
  | Normal _ =>
  let page := setGaussianFilterInstance page in
  match GeometricMeanFilter.constructor 5 with
  | Throw error => page
  | Normal _ =>
  match HarmonicMeanFilter.constructor 5 with
  | Throw error => page
  | Normal _ =>
  match ContraharmonicMeanFilter.constructor 5 (fdiv (ofNum (Some 3)) (ofNum (Some 2))) with
  | Throw error => page
  | Normal _ => bindEventListeners page
  end end end end end end.

Definition applyMeanFilter `{Browser} (page : Page) (imageElement : ImageElement.t) : Outcome :=
  construct (MeanFilter.constructor (kernelSize (inputs page)))
    (λ filter, MeanFilter.applyFilter filter imageElement).

Definition applyMedianFilter `{Browser} (page : Page) (imageElement : ImageElement.t) : Outcome :=
  construct (MedianFilter.constructor (kernelSize (inputs page)))
    (λ filter, MedianFilter.applyFilter filter imageElement).

Definition applyMinFilter `{Browser} (page : Page) (imageElement : ImageElement.t) : Outcome :=
  construct (MinFilter.constructor (kernelSize (inputs page)))
    (λ filter, MinFilter.applyFilter filter imageElement).

Definition applyMaxFilter `{Browser} (page : Page) (imageElement : ImageElement.t) : Outcome :=
  construct (MaxFilter.constructor (kernelSize (inputs page)))
    (λ filter, MaxFilter.applyFilter filter imageElement).

Definition applyMidPointFilter `{Browser} (page : Page) (imageElement : ImageElement.t)
  : Outcome :=
  construct (MidpointFilter.constructor (kernelSize (inputs page)))
    (λ filter, MidpointFilter.applyFilter filter imageElement).

(** The script declares no variable [gaussianFilterInstance]: the
    assignment of [initializeApp] creates it.  Until then the guard's read
    throws a [ReferenceError]; from then on it holds the instance, so the
    guard's own [Error('Gaussian Filter not initialized')] is never thrown.
    The statements after the first [return] are never reached. *)
Definition applyGaussianFilter `{Browser} (page : Page) (imageElement : ImageElement.t)
  : Outcome :=
  if negb (gaussianFilterInstance (globals page))
  then Rejected (ReferenceError "gaussianFilterInstance")
  else
    construct (GaussianFilter.constructor (sigmaRange (inputs page)) None)
      (λ filter, GaussianFilter.applyFilter filter imageElement).

Definition applyGeometricMeanFilter `{Browser} (page : Page) (imageElement : ImageElement.t)
  : Outcome :=
  construct (GeometricMeanFilter.constructor (kernelSize (inputs page)))
    (λ filter, GeometricMeanFilter.applyFilter filter imageElement).

Definition applyHarmonicMeanFilter `{Browser} (page : Page) (imageElement : ImageElement.t)
  : Outcome :=
  construct (HarmonicMeanFilter.constructor (kernelSize (inputs page)))
    (λ filter, HarmonicMeanFilter.applyFilter filter imageElement).

Definition applyContraharmonicMeanFilter `{Browser} (page : Page)
    (imageElement : ImageElement.t) : Outcome :=
  construct (ContraharmonicMeanFilter.constructor (kernelSize (inputs page)) (qParameter (inputs page)))
    (λ filter, ContraharmonicMeanFilter.applyFilter filter imageElement).

(** The [switch (algorithm)]. *)
Definition dispatch `{Browser} (page : Page) : Outcome :=
  let originalImg := originalImg (original page) in
  let algorithm := algorithm (inputs page) in
  if decide (algorithm = "mean") then applyMeanFilter page originalImg
  else if decide (algorithm = "median") then applyMedianFilter page originalImg
  else if decide (algorithm = "min") then applyMinFilter page originalImg
  else if decide (algorithm = "max") then applyMaxFilter page originalImg
  else if decide (algorithm = "midpoint") then applyMidPointFilter page originalImg
  else if decide (algorithm = "gaussian") then applyGaussianFilter page originalImg
  else if decide (algorithm = "geometric") then applyGeometricMeanFilter page originalImg
  else if decide (algorithm = "harmonic") then applyHarmonicMeanFilter page originalImg
  else if decide (algorithm = "contraharmonic")
       then applyContraharmonicMeanFilter page originalImg
  else Rejected (Error ("Unsupported algorithm: " +:+ algorithm)).

(** [handleFilterApply()]. *)
Definition handleFilterApply `{Browser} (page : Page) : Page :=
  if noImage page then alert "Vui lòng chọn ảnh trước!" page
  else settle algorithmNames (dispatch page) page.

(** [handleAlgorithmChange(event)], where [algorithm] is
    [event.target.value]. *)
Definition handleAlgorithmChange `{Float64} (algorithm : string) (page : Page) : Page :=
  let gaussian := bool_decide (algorithm = "gaussian") in
  let contraharmonic := bool_decide (algorithm = "contraharmonic") in
  let page :=
    setControls (mkControls (negb gaussian) gaussian contraharmonic
                   (sigmaValue (controls page))) page in
  if negb (disabled (button page))
  then setButton (mkButton (disabled (button page))
                    (mkMarkup "bi-magic" ("Áp dụng " +:+ nameOf changeNames algorithm))) page
  else page.

(** The listener of [sigmaRange]: [sigmaValue.textContent = e.target.value]. *)
Definition sigmaRangeInput `{Float64} (value : float) (page : Page) : Page :=
  setControls (mkControls (kernelSizeControl (controls page)) (sigmaControl (controls page))
                 (qParameterContainer (controls page)) value) page.

(** The page after an event: the listener bound to it by
    [bindEventListeners], or the callback. *)
Definition handle `{Browser} (event : Event) (page : Page) : Page :=
  match event with
  | DOMContentLoaded => initializeApp page
  | InputImageChange file => if bound page then handleImageUpload file page else page
  | FilterBtnClick => if bound page then handleFilterApply page else page
  | AlgorithmSelectChange value =>
      let page := setAlgorithm value page in
      if bound page then handleAlgorithmChange value page else page
  | KernelSizeChange value => setKernelSize value page
  | SigmaRangeInput value =>
      let page := setSigmaRange value page in
      if bound page then sigmaRangeInput value page else page
  | QParameterChange value => setQParameter value page
  | DebugTest created => uncaught page (debugTestWithSampleImage created page)
  | _ => callback event page
  end.

End App.

Module Script.

(** The table [algorithmNames] of [showProcessingState] and of
    [handleAlgorithmChange]. *)
Definition algorithmNames : gmap string string :=
  list_to_map [("mean", "Lọc Trung Bình"); ("median", "Lọc Trung Vị");
               ("gaussian", "Lọc Gaussian")].

(** [initializeApp()]. *)
Definition initializeApp `{Float64} (page : Page) : Page :=
  match MeanFilter.constructor 5 with
  | Throw error => page
  | Normal _ => bindEventListeners (setMeanFilterInstance page)
  end.

Definition applyMeanFilter `{Browser} (page : Page) (imageElement : ImageElement.t) : Outcome :=
  if negb (meanFilterInstance (globals page)) then Rejected (Error "Mean Filter not initialized")
  else
    construct (MeanFilter.constructor (kernelSize (inputs page)))
      (λ filter, MeanFilter.applyFilter filter imageElement).

Definition applyMedianFilter `{Browser} (page : Page) (imageElement : ImageElement.t) : Outcome :=
  applyMeanFilter page imageElement.

Definition applyGaussianFilter `{Browser} (page : Page) (imageElement : ImageElement.t)
  : Outcome :=
  applyMeanFilter page imageElement.

(** The [switch (algorithm)]. *)
Definition dispatch `{Browser} (page : Page) : Outcome :=
  let originalImg := originalImg (original page) in
  let algorithm := algorithm (inputs page) in
  if decide (algorithm = "mean") then applyMeanFilter page originalImg
  else if decide (algorithm = "median") then applyMedianFilter page originalImg
  else if decide (algorithm = "gaussian") then applyGaussianFilter page originalImg
  else Rejected (Error ("Unsupported algorithm: " +:+ algorithm)).

(** [handleFilterApply()]. *)
Definition handleFilterApply `{Browser} (page : Page) : Page :=
  if noImage page then alert "Vui lòng chọn ảnh trước!" page
  else settle algorithmNames (dispatch page) page.

(** [handleAlgorithmChange(event)], where [algorithm] is
    [event.target.value]. *)
Definition handleAlgorithmChange `{Float64} (algorithm : string) (page : Page) : Page :=
  if negb (disabled (button page))
  then setButton (mkButton (disabled (button page))
                    (mkMarkup "bi-magic" ("Áp dụng " +:+ nameOf algorithmNames algorithm))) page
  else page.

(** The page after an event; this page has no listener on [sigmaRange]. *)
Definition handle `{Browser} (event : Event) (page : Page) : Page :=
  match event with
  | DOMContentLoaded => initializeApp page
  | InputImageChange file => if bound page then handleImageUpload file page else page
  | FilterBtnClick => if bound page then handleFilterApply page else page
  | AlgorithmSelectChange value =>
      let page := setAlgorithm value page in
      if bound page then handleAlgorithmChange value page else page
  | KernelSizeChange value => setKernelSize value page
  | SigmaRangeInput value => setSigmaRange value page
  | QParameterChange value => setQParameter value page
  | DebugTest created => uncaught page (debugTestWithSampleImage created page)
  | _ => callback event page
  end.

End Script.

(** The page as it is loaded, before any script has run: nothing chosen,
    the button disabled, the kernel size control shown. *)
Definition initialPage `{Float64} : Page :=
  mkPage (mkGlobals None false false)
    (mkInputs "mean" 3 (ofNum (Some 1)) (ofNum (Some 1)))
    (mkOriginalArea (ImageElement.make 0 0 0 0) "" false true)
    (mkFileLabel (mkMarkup "bi-cloud-upload" "Chọn ảnh") "")
    (mkButton true (mkMarkup "bi-magic" "Áp dụng bộ lọc"))
    (mkControls true false false (ofNum (Some 1)))
    false
    (mkProcessedArea "" false true (mkMarkup "bi-image" "Ảnh sau xử lý"))
    [] [] false.

(** The initial page once [initializeApp] has run. *)
Definition readyPage `{Float64} : Page :=
  bindEventListeners (setGaussianFilterInstance (setMeanFilterInstance initialPage)).

(** Reference: the canvas the mean filter of the kernel size input leaves
    when it has read the pixels [data] of the original image. *)
Definition meanCanvas `{Float64} (page : Page) (data : list Z) : Canvas.t :=
  let width := (canvasSize (originalImg (original page))).1 in
  let height := (canvasSize (originalImg (original page))).2 in
  let filter :=
    KernelSpec.make (kernelSize (inputs page)) ((kernelSize (inputs page) - 1) / 2) in
  Canvas.make width height (MeanFilter.processImageData filter data data width height) true.

(** Reference: the calculator the sweep of each selection runs, with the
    kernel size and the order of the inputs.  The Gaussian selection runs
    two convolutions and has none. *)
Definition selectedCalculator `{Float64} (page : Page) : option Calculator :=
  let algorithm := algorithm (inputs page) in
  let kernelSize := kernelSize (inputs page) in
  let this := KernelSpec.make kernelSize ((kernelSize - 1) / 2) in
  if decide (algorithm = "mean") then Some (MeanFilter.calculateMeanValues this)
  else if decide (algorithm = "median") then Some (MedianFilter.calculateMedianValues this)
  else if decide (algorithm = "min") then Some (MinFilter.calculateMinValues this)
  else if decide (algorithm = "max") then Some (MaxFilter.calculateMaxValues this)
  else if decide (algorithm = "midpoint")
       then Some (MidpointFilter.calculateMidpointValues this)
  else if decide (algorithm = "geometric")
       then Some (GeometricMeanFilter.calculateGeometricMean this)
  else if decide (algorithm = "harmonic")
       then Some (HarmonicMeanFilter.calculateHarmonicMean this)
  else if decide (algorithm = "contraharmonic")
       then Some (ContraharmonicMeanFilter.calculateContraharmonicMean
                    (ContraharmonicMeanFilter.make kernelSize ((kernelSize - 1) / 2)
                       (qParameter (inputs page))))
  else None.

(** Reference: the canvas a sweep with [calc] leaves when it has read the
    pixels [data] of the original image. *)
Definition sweptCanvas `{Float64} (calc : Calculator) (page : Page) (data : list Z)
  : Canvas.t :=
  let width := (canvasSize (originalImg (original page))).1 in
  let height := (canvasSize (originalImg (original page))).2 in
  Canvas.make width height (processImageData calc data data width height) true.

(** Reference: the canvas the two convolutions of [this] leave when they
    have read the pixels [data] of the original image. *)
Definition gaussianCanvas `{Float64} (this : GaussianFilter.t) (page : Page)
    (data : list Z) : Canvas.t :=
  let width := (canvasSize (originalImg (original page))).1 in
  let height := (canvasSize (originalImg (original page))).2 in
  Canvas.make width height (GaussianFilter.filtered this data width height) true.

(** The algorithms that sweep a window with the kernel size of the input. *)
Definition sweeping : list string :=
  ["mean"; "median"; "min"; "max"; "midpoint"; "geometric"; "harmonic"; "contraharmonic"].

(** A page with a chosen image of [width] by 1 pixels shown, on the grey
    test browser. *)
Definition greyPage (algorithm : string) (kernelSize width : Z) : Page :=
  mkPage (mkGlobals (Some (mkFile "grey.png" "image/png" 100)) true true)
    (mkInputs algorithm kernelSize (ofNum (Some 2)) (ofNum (Some 1)))
    (mkOriginalArea (ImageElement.make width 1 width 1) "data:image/png;base64,grey" true false)
    (mkFileLabel (mkMarkup "bi-check-circle" "grey.png")
       "linear-gradient(135deg, #10b981, #059669)")
    (mkButton false (mkMarkup "bi-magic" "Áp dụng bộ lọc"))
    (mkControls true false false (ofNum (Some 2)))
    false
    (mkProcessedArea "" false true (mkMarkup "bi-hourglass-split" "Chờ xử lý ảnh"))
    [] [] true.

(** ** The handler's frame *)

Section settle.
Context `{Browser} (names : gmap string string) (page : Page).

(** What the page shows after a filter that failed, and after one that
    returned a canvas whose data URL is [dataURL]. *)
Definition failed : Page :=
  showProcessingState names false
    (showErrorState (alert "Lỗi khi xử lý ảnh. Vui lòng thử lại!"
       (showProcessingState names true page))).

Definition shown (dataURL : string) : Page :=
  showProcessingState names false
    (setProcessedArea
       (mkProcessedArea dataURL true false (placeholderMarkup (processedArea page)))
       (showProcessingState names true page)).

Lemma settle_rejected error : settle names (Rejected error) page = failed.
Proof. done. Qed.

Lemma settle_resolved canvas dataURL :
  toDataURL canvas = Normal dataURL → settle names (Resolved canvas) page = shown dataURL.
Proof. intros Hurl. unfold settle, displayProcessedImage. by rewrite Hurl. Qed.

Lemma settle_unexportable filtered :
  unexportable filtered → settle names filtered page = failed.
Proof.
  destruct filtered as [canvas|e]; [|done]. intros Htainted.
  unfold settle, displayProcessedImage. by rewrite toDataURL_tainted.
Qed.

Lemma settle_cases filtered :
  settle names filtered page = failed
  ∨ ∃ dataURL, settle names filtered page = shown dataURL.
Proof.
  destruct filtered as [canvas|e]; [|by left].
  destruct (toDataURL canvas) as [dataURL|e] eqn:Hurl; [right|left].
  - exists dataURL. by apply settle_resolved.
  - unfold settle, displayProcessedImage. by rewrite Hurl.
Qed.

End settle.

(** ** Initialisation *)

(** Under exact reals every constructor of [initializeApp] returns: the
    instances are set and the listeners bound. *)
Lemma initializeApp_ideal (page : Page) :
  App.initializeApp page
  = bindEventListeners (setGaussianFilterInstance (setMeanFilterInstance page)).
Proof. unfold App.initializeApp. by rewrite constructor_2_default. Qed.

(** ** Construction *)

Lemma construct_even kernelSize (applyFilter : KernelSpec.t → Outcome) :
  Z.even kernelSize = true →
  construct (KernelSpec.constructor kernelSize) applyFilter
  = Rejected (Error "Kernel size phải là số lẻ!").
Proof. intros. by rewrite constructor_even. Qed.

Lemma construct_odd kernelSize (applyFilter : KernelSpec.t → Outcome) :
  Z.odd kernelSize = true →
  construct (KernelSpec.constructor kernelSize) applyFilter
  = applyFilter (KernelSpec.make kernelSize ((kernelSize - 1) / 2)).
Proof. intros. by rewrite constructor_odd. Qed.

Lemma contraharmonic_constructor_even `{Float64} kernelSize Q :
  Z.even kernelSize = true →
  ContraharmonicMeanFilter.constructor kernelSize Q
  = Throw (Error "Kernel size phải là số lẻ!").
Proof.
  intros [k ->]%Z.even_spec. unfold ContraharmonicMeanFilter.constructor.
  rewrite decide_True; [done|]. rewrite Z.mul_comm. by apply Z.rem_mul.
Qed.

Lemma contraharmonic_constructor_odd `{Float64} kernelSize Q :
  Z.odd kernelSize = true →
  ContraharmonicMeanFilter.constructor kernelSize Q
  = Normal (ContraharmonicMeanFilter.make kernelSize ((kernelSize - 1) / 2) Q).
Proof.
  intros [k ->]%Z.odd_spec. unfold ContraharmonicMeanFilter.constructor.
  rewrite decide_False by (Z.quot_rem_to_equations; lia).
  do 2 f_equal. Z.div_mod_to_equations. lia.
Qed.

(** The algorithms whose filter is built from the kernel size input. *)
Lemma dispatch_even_kernel `{Browser} (page : Page) :
  Z.even (kernelSize (inputs page)) = true →
  algorithm (inputs page) ∈ ["mean"; "median"; "min"; "max"; "midpoint"; "geometric"; "harmonic";
                    "contraharmonic"] →
  App.dispatch page = Rejected (Error "Kernel size phải là số lẻ!").
Proof.
  intros Heven Halg. unfold App.dispatch.
  repeat (apply elem_of_cons in Halg as [->|Halg];
    [simpl; first [by apply construct_even
                  |unfold App.applyContraharmonicMeanFilter;
                   by rewrite contraharmonic_constructor_even]|]).
  by apply elem_of_nil in Halg.
Qed.

Section readable.
Context `{Browser} (page : Page) (data : list Z).
Context (Hodd : Z.odd (kernelSize (inputs page)) = true).
Context (Hdata : readPixels (originalImg (original page)) = Normal data).

Lemma applyMeanFilter_readable :
  App.applyMeanFilter page (originalImg (original page))
  = Resolved (meanCanvas page data).
Proof.
  unfold App.applyMeanFilter, MeanFilter.constructor. rewrite construct_odd by done.
  by apply applyFilterOrBlur_readable.
Qed.

(** The switch runs the sweep of the selection. *)
Lemma dispatch_selected calc :
  selectedCalculator page = Some calc → App.dispatch page = Resolved (sweptCanvas calc page data).
Proof.
  unfold selectedCalculator, App.dispatch. intros Hcalc.
  repeat case_decide; simplify_eq; try congruence;
    first [unfold App.applyContraharmonicMeanFilter;
           rewrite contraharmonic_constructor_odd by done
          |etrans; [by apply construct_odd|]];
    first [by apply applyFilterOrBlur_readable|by apply applyFilterOrReject_readable].
Qed.

End readable.

Section unreadable.
Context `{Browser} (page : Page) (error : exn).
Context (Hodd : Z.odd (kernelSize (inputs page)) = true).
Context (Herr : readPixels (originalImg (original page)) = Throw error).

Lemma dispatch_unreadable_rejects :
  algorithm (inputs page) ∈ ["min"; "max"; "midpoint"] → App.dispatch page = Rejected error.
Proof.
  intros Halg. unfold App.dispatch.
  repeat (apply elem_of_cons in Halg as [->|Halg];
    [simpl; etrans; [by apply construct_odd|by apply applyFilterOrReject_unreadable]|]).
  by apply elem_of_nil in Halg.
Qed.

Lemma dispatch_unreadable_blurs :
  algorithm (inputs page) ∈ ["mean"; "median"; "geometric"; "harmonic"; "contraharmonic"] →
  App.dispatch page
  = settled (blurFallback (ofNum (Some 1)) (originalImg (original page))
               (drawnCanvas (originalImg (original page)))).
Proof.
  intros Halg. unfold App.dispatch.
  repeat (apply elem_of_cons in Halg as [->|Halg];
    [simpl; etrans;
       [first [by apply construct_odd
              |unfold App.applyContraharmonicMeanFilter;
               by rewrite contraharmonic_constructor_odd]
       |by eapply applyFilterOrBlur_unreadable]|]).
  by apply elem_of_nil in Halg.
Qed.

End unreadable.

Lemma construct_unexportable {T} (filter : completion T) (applyFilter : T → Outcome) :
  (∀ this, unexportable (applyFilter this)) → unexportable (construct filter applyFilter).
Proof. intros Hf. destruct filter; [apply Hf|done]. Qed.

(** Whatever the algorithm and the parameters, the switch yields nothing
    to export. *)
Lemma dispatch_unexportable `{Browser} (page : Page) (error : exn) :
  readPixels (originalImg (original page)) = Throw error → unexportable (App.dispatch page).
Proof.
  intros Herr. unfold App.dispatch, App.applyGaussianFilter.
  repeat case_decide; [..|done];
    try case_match; try done; apply construct_unexportable; intros this;
    first [by apply (applyFilterOrBlur_unexportable _ _ _ error)
          |by apply (applyFilterOrReject_unexportable _ _ error)
          |by apply (applyFilter_unexportable _ _ error)].
Qed.

(** ** Properties *)

(** Without a chosen image the handler only alerts: no filter runs and
    nothing else on the page changes. *)
Theorem handleFilterApply_requires_image `{Browser} (page : Page) :
  originalSrc (original page) = "" ∨ currentImageFile (globals page) = None →
  App.handleFilterApply page = alert "Vui lòng chọn ảnh trước!" page.
Proof.
  intros Hno. unfold App.handleFilterApply, noImage.
  destruct Hno as [-> | ->]; [done|]. by rewrite orb_true_r.
Qed.

Lemma handleFilterApply_requires_image_witness :
  App.handleFilterApply (H0 := greyBrowser 10) initialPage
  = alert "Vui lòng chọn ảnh trước!" initialPage.
Proof. apply handleFilterApply_requires_image. by left. Defined.

(** An even kernel size fails validation for the eight algorithms built
    from it: the page shows the error state, one alert is raised and the
    processing indicator is cleared. *)
Theorem even_kernel_size_shows_error `{Browser} (page : Page) :
  noImage page = false →
  Z.even (kernelSize (inputs page)) = true →
  algorithm (inputs page) ∈ ["mean"; "median"; "min"; "max"; "midpoint"; "geometric"; "harmonic";
                    "contraharmonic"] →
  App.handleFilterApply page = failed App.algorithmNames page.
Proof.
  intros Himg Heven Halg. unfold App.handleFilterApply.
  by rewrite Himg, dispatch_even_kernel.
Qed.

Lemma even_kernel_size_shows_error_witness :
  App.handleFilterApply (H0 := greyBrowser 10) (greyPage "median" 4 2)
  = failed App.algorithmNames (greyPage "median" 4 2).
Proof. apply even_kernel_size_shows_error; [done|done|by_compute]. Defined.

(** C24: when the pixels cannot be read and the kernel size is odd, the
    minimum, maximum and midpoint filters reject with the error of
    [getImageData], while the mean, median, geometric, harmonic and
    contraharmonic filters settle as the redraw through a blur of one pixel
    does. *)
Theorem unreadable_pixels_policy `{Browser} (page : Page) (error : exn) :
  Z.odd (kernelSize (inputs page)) = true →
  readPixels (originalImg (original page)) = Throw error →
  (algorithm (inputs page) ∈ ["min"; "max"; "midpoint"] → App.dispatch page = Rejected error)
  ∧ (algorithm (inputs page) ∈ ["mean"; "median"; "geometric"; "harmonic"; "contraharmonic"] →
     App.dispatch page
     = settled (blurFallback (ofNum (Some 1)) (originalImg (original page))
                  (drawnCanvas (originalImg (original page))))).
Proof.
  intros Hodd Herr. split;
    [by apply dispatch_unreadable_rejects|by apply (dispatch_unreadable_blurs page error)].
Qed.

Lemma unreadable_pixels_policy_witness :
  (algorithm (inputs (greyPage "max" 3 20)) ∈ ["min"; "max"; "midpoint"] →
   App.dispatch (H0 := greyBrowser 10) (greyPage "max" 3 20) = Rejected SecurityError)
  ∧ (algorithm (inputs (greyPage "max" 3 20))
       ∈ ["mean"; "median"; "geometric"; "harmonic"; "contraharmonic"] →
     App.dispatch (H0 := greyBrowser 10) (greyPage "max" 3 20)
     = settled (blurFallback (H0 := greyBrowser 10) (ofNum (Some 1))
                  (originalImg (original (greyPage "max" 3 20)))
                  (drawnCanvas (H0 := greyBrowser 10)
                     (originalImg (original (greyPage "max" 3 20)))))).
Proof. by apply (unreadable_pixels_policy (greyPage "max" 3 20) SecurityError). Defined.

(** C25: an image whose pixels cannot be read never shows a result,
    whatever the algorithm and its parameters: the filters that reject show
    the error state, and so do the filters that fall back to the blur,
    because the canvas they resolve with is not origin-clean and its export
    throws in [displayProcessedImage]. *)
Theorem unreadable_pixels_show_error `{Browser} (page : Page) (error : exn) :
  noImage page = false →
  readPixels (originalImg (original page)) = Throw error →
  App.handleFilterApply page = failed App.algorithmNames page.
Proof.
  intros Himg Herr. unfold App.handleFilterApply. rewrite Himg.
  by apply settle_unexportable, (dispatch_unexportable page error).
Qed.

Lemma unreadable_pixels_show_error_witness :
  App.handleFilterApply (H0 := greyBrowser 10) (greyPage "mean" 3 20)
  = failed App.algorithmNames (greyPage "mean" 3 20).
Proof.
  by apply (unreadable_pixels_show_error (H0 := greyBrowser 10) (greyPage "mean" 3 20)
              SecurityError).
Defined.

(** With a chosen image, an odd kernel size and readable pixels,
    selecting the mean shows the data URL of the canvas that holds the
    pixels processed by the mean filter of that size, and clears the
    processing indicator: the canvas is origin-clean, so its export does
    not throw. *)
Theorem mean_selected_shows_filtered `{Browser} (page : Page) (data : list Z) :
  noImage page = false → algorithm (inputs page) = "mean" →
  Z.odd (kernelSize (inputs page)) = true →
  readPixels (originalImg (original page)) = Normal data →
  App.handleFilterApply page
  = shown App.algorithmNames page (encode (meanCanvas page data)).
Proof.
  intros Himg Halg Hodd Hdata. unfold App.handleFilterApply, App.dispatch.
  rewrite Himg, Halg. simpl.
  rewrite (applyMeanFilter_readable page data) by done. by apply settle_resolved.
Qed.

Lemma mean_selected_shows_filtered_witness :
  App.handleFilterApply (H0 := greyBrowser 10) (greyPage "mean" 3 2)
  = shown App.algorithmNames (greyPage "mean" 3 2) "data:image/png;base64,".
Proof.
  by apply (mean_selected_shows_filtered (H0 := greyBrowser 10) (greyPage "mean" 3 2)
              (uniform (λ _, 128) 2 1)).
Defined.

(** Each selection runs its own filter: with a chosen image, an odd
    kernel size and readable pixels, a click shows the data URL of the
    origin-clean canvas of the size of the image that holds the sweep of the
    calculator of the selected algorithm over the pixels read, for the
    eight algorithms that sweep, and clears the processing indicator. *)
Theorem selected_algorithm_shows_filtered `{Browser} (page : Page) (data : list Z)
    (calc : Calculator) :
  noImage page = false → Z.odd (kernelSize (inputs page)) = true →
  readPixels (originalImg (original page)) = Normal data →
  selectedCalculator page = Some calc →
  App.handleFilterApply page
  = shown App.algorithmNames page (encode (sweptCanvas calc page data)).
Proof.
  intros Himg Hodd Hdata Hcalc. unfold App.handleFilterApply. rewrite Himg.
  rewrite (dispatch_selected page data Hodd Hdata calc Hcalc). by apply settle_resolved.
Qed.

Lemma selected_algorithm_shows_filtered_witness :
  App.handleFilterApply (H0 := greyBrowser 10) (greyPage "median" 3 2)
  = shown App.algorithmNames (greyPage "median" 3 2)
      (@encode _ (greyBrowser 10)
         (sweptCanvas (MedianFilter.calculateMedianValues (KernelSpec.make 3 1))
            (greyPage "median" 3 2) (uniform (λ _, 128) 2 1))).
Proof.
  by apply (selected_algorithm_shows_filtered (H0 := greyBrowser 10) (greyPage "median" 3 2)
              (uniform (λ _, 128) 2 1)).
Defined.

(** The Gaussian selection runs the two convolutions of the filter built
    from the sigma of the input: with a chosen image and readable pixels, a
    click shows the data URL of the origin-clean canvas that holds them. *)
Lemma gaussian_selected_shows_filtered `{Browser} (page : Page) (data : list Z)
    (this : GaussianFilter.t) :
  noImage page = false → algorithm (inputs page) = "gaussian" →
  gaussianFilterInstance (globals page) = true →
  GaussianFilter.constructor (sigmaRange (inputs page)) None = Normal this →
  readPixels (originalImg (original page)) = Normal data →
  App.handleFilterApply page
  = shown App.algorithmNames page (encode (gaussianCanvas this page data)).
Proof.
  intros Himg Halg Hinst Hthis Hdata.
  unfold App.handleFilterApply, App.dispatch, App.applyGaussianFilter.
  rewrite Himg, Halg, Hinst, Hthis. simpl. rewrite applyFilter_applyFilterOrBlur.
  rewrite (applyFilterOrBlur_readable _ _ _ data Hdata). by apply settle_resolved.
Qed.

(** Before [initializeApp] has assigned [gaussianFilterInstance] the
    Gaussian selection is rejected by the read of the variable, not by the
    guard's own error. *)
Lemma gaussian_guard_unreachable `{Browser} (page : Page) (img : ImageElement.t) :
  App.applyGaussianFilter page img ≠ Rejected (Error "Gaussian Filter not initialized")
  ∧ (gaussianFilterInstance (globals page) = false →
     App.applyGaussianFilter page img = Rejected (ReferenceError "gaussianFilterInstance")).
Proof.
  unfold App.applyGaussianFilter. split; [|by intros ->].
  destruct (gaussianFilterInstance _); [|done]. simpl.
  pose proof (gaussian_kernel_size_odd (sigmaRange (inputs page))) as Hc.
  destruct (GaussianFilter.constructor _ _) as [this|e]; simpl; [|by subst e].
  rewrite applyFilter_applyFilterOrBlur.
  unfold applyFilterOrBlur, GaussianFilter.applySimpleFilter, blurFallback, settled,
    drawImage, getImageData.
  repeat (case_match; simplify_eq; simpl in *); congruence.
Qed.

(** An algorithm outside the nine of the switch is rejected as
    unsupported, whatever the other inputs. *)
Theorem unsupported_algorithm_rejected `{Browser} (page : Page) :
  algorithm (inputs page) ∉ ["mean"; "median"; "min"; "max"; "midpoint"; "gaussian"; "geometric";
                    "harmonic"; "contraharmonic"] →
  App.dispatch page = Rejected (Error ("Unsupported algorithm: " +:+ algorithm (inputs page))).
Proof.
  intros Halg. unfold App.dispatch.
  repeat (case_decide as Heq;
    [exfalso; apply Halg; rewrite Heq; repeat constructor|clear Heq]).
  done.
Qed.

Lemma unsupported_algorithm_rejected_witness :
  App.dispatch (H0 := greyBrowser 10) (greyPage "bilateral" 3 2)
  = Rejected (Error ("Unsupported algorithm: " +:+ algorithm (inputs (greyPage "bilateral" 3 2)))).
Proof. apply unsupported_algorithm_rejected. by_compute. Defined.

(** In the earlier script the selections [median] and [gaussian] run
    the mean filter: with readable pixels and an odd kernel size the page
    shows the canvas processed by [MeanFilter]. *)
Theorem script_median_and_gaussian_run_mean `{Browser} (page : Page) (data : list Z) :
  meanFilterInstance (globals page) = true → Z.odd (kernelSize (inputs page)) = true →
  algorithm (inputs page) ∈ ["median"; "gaussian"] →
  readPixels (originalImg (original page)) = Normal data →
  Script.dispatch page
  = Resolved (meanCanvas page data).
Proof.
  intros Hinst Hodd Halg Hdata. unfold Script.dispatch.
  repeat (apply elem_of_cons in Halg as [->|Halg];
    [simpl; unfold Script.applyMedianFilter, Script.applyGaussianFilter,
       Script.applyMeanFilter, MeanFilter.constructor;
     rewrite Hinst; simpl; rewrite construct_odd by done;
     by apply applyFilterOrBlur_readable|]).
  by apply elem_of_nil in Halg.
Qed.

Lemma script_median_and_gaussian_run_mean_witness :
  Script.dispatch (H0 := greyBrowser 10) (greyPage "median" 3 2)
  = Resolved (meanCanvas (greyPage "median" 3 2) (uniform (λ _, 128) 2 1)).
Proof.
  apply (script_median_and_gaussian_run_mean (greyPage "median" 3 2));
    [done|done|by_compute|done].
Defined.

(** The tables of names lack the minimum, maximum and midpoint
    filters: after one of them has run, whatever its outcome, the button is
    enabled again with the label "Áp dụng undefined". *)
Theorem label_undefined_after_filter `{Browser} (page : Page) :
  noImage page = false → algorithm (inputs page) ∈ ["min"; "max"; "midpoint"] →
  button (App.handleFilterApply page) = mkButton false (mkMarkup "bi-magic" "Áp dụng undefined").
Proof.
  intros Himg Halg. unfold App.handleFilterApply. rewrite Himg.
  assert (nameOf App.algorithmNames (algorithm (inputs page)) = "undefined") as Hname.
  { repeat (apply elem_of_cons in Halg as [-> | Halg]; [done|]). by apply elem_of_nil in Halg. }
  destruct (settle_cases App.algorithmNames page (App.dispatch page)) as [-> | [dataURL ->]];
    simpl; by rewrite Hname.
Qed.

Lemma label_undefined_after_filter_witness :
  button (App.handleFilterApply (H0 := greyBrowser 10) (greyPage "max" 3 2))
  = mkButton false (mkMarkup "bi-magic" "Áp dụng undefined").
Proof. apply label_undefined_after_filter; [done|by_compute]. Defined.
