(* ===== verification/Events.v ===== *)
(** * The pages as state machines

    A page changes by events: the user's, the callbacks of the readers and
    images in flight, a call of the debug function.  [step] is one event of
    normal use that can occur, [run] a sequence of events.  This file proves
    what holds of every page the scripts can reach: the invariant
    [consistent], that a click on the enabled button runs the selected
    filter and what it shows in each case, that the callbacks in flight run
    out, what an upload followed by a click
    shows, and what the interleaving of two uploads and the debug function
    can lead to. *)

From Stdlib Require Import ZArith Lia.
From stdpp Require Import base tactics option list numbers strings gmap relations well_founded.
From S2P Require Import Prelude TypedArray Boundary Kernel Sweep Floats Canvas.
From S2P Require Import Mean Gaussian Page App.

#[local] Open Scope Z_scope.

(** ** Definitions *)

Section machine.
Context `{Browser} (handle : Event → Page → Page).

(** One event of normal use. *)
Inductive step (page : Page) : Page → Prop :=
  | step_event event :
      production event → enabled event page → step page (handle event page).

(** One callback. *)
Inductive callbackStep (page : Page) : Page → Prop :=
  | callbackStep_event event :
      isCallback event → enabled event page → callbackStep page (handle event page).

(** The page after a sequence of events. *)
Definition run (events : list Event) (page : Page) : Page :=
  foldl (λ page event, handle event page) page events.

(** Each event of the sequence can occur when it does. *)
Fixpoint valid (events : list Event) (page : Page) : Prop :=
  match events with
  | [] => True
  | event :: events => enabled event page ∧ valid events (handle event page)
  end.

End machine.

(** The events of an upload that succeeds. *)
Definition uploadEvents `{Float64} (file : File) (result : string) (img : ImageElement.t)
  : list Event :=
  [InputImageChange (Some file); ReaderLoad file result; ImageLoad result img].

(** Two uploads whose reader and image callbacks run in the opposite
    order. *)
Definition racingUploads `{Float64} (first second : File) (firstURL secondURL : string)
    (firstImg secondImg : ImageElement.t) : list Event :=
  [InputImageChange (Some first); InputImageChange (Some second);
   ReaderLoad second secondURL; ImageLoad secondURL secondImg;
   ReaderLoad first firstURL; ImageLoad firstURL firstImg].

(** The debug function, the load of its image, and a click. *)
Definition debugEvents `{Float64} (testCanvas : Canvas.t) (dataURL : string)
    (img : ImageElement.t) : list Event :=
  [DebugTest (Normal testCanvas); TestImageLoad dataURL img; FilterBtnClick].

(** What holds of the page between two events. *)
Record consistent `{Float64} (page : Page) : Prop := mkConsistent {
  (** The processing indicator is hidden. *)
  indicator_hidden : processingIndicator page = false;
  (** An enabled button has an image to filter. *)
  enabled_has_image :
    disabled (button page) = false →
    originalSrc (original page) ≠ "" ∧ currentImageFile (globals page) ≠ None;
  (** No test image is in flight. *)
  no_test_image : ∀ dataURL, LoadTestImage dataURL ∉ tasks page;
  (** A reader and an image in flight come from an accepted file, and the
      image has a data URL. *)
  reader_in_flight :
    ∀ file, ReadFile file ∈ tasks page → currentImageFile (globals page) ≠ None;
  image_in_flight :
    ∀ dataURL, LoadImage dataURL ∈ tasks page →
    dataURL ≠ "" ∧ currentImageFile (globals page) ≠ None;
  (** Each area shows its image or its placeholder. *)
  original_area :
    originalPlaceholderShown (original page) = negb (originalShown (original page));
  processed_area :
    placeholderShown (processedArea page) = negb (processedShown (processedArea page))
}.

(** ** Sequences of events *)

Section traces.
Context `{Browser} (handle : Event → Page → Page).

Lemma run_app events events' page :
  run handle (events ++ events') page = run handle events' (run handle events page).
Proof. apply foldl_app. Qed.

Lemma valid_app events events' page :
  valid handle (events ++ events') page
  ↔ valid handle events page ∧ valid handle events' (run handle events page).
Proof.
  revert page. induction events as [|event events IH]; intros page; simpl; [tauto|].
  rewrite IH. tauto.
Qed.

(** A page is reached by steps exactly when it is reached by a sequence of
    events of normal use that can occur. *)
Lemma rtc_step_run page page' :
  rtc (step handle) page page'
  ↔ ∃ events, Forall production events ∧ valid handle events page
              ∧ page' = run handle events page.
Proof.
  split.
  - induction 1 as [page|page page1 page' [event Hp He] _ (events & Hps & Hv & ->)].
    + by exists [].
    + exists (event :: events). by repeat split; [constructor|..].
  - intros (events & Hps & Hv & ->). revert page Hv.
    induction Hps as [|event events Hp _ IH]; intros page Hv; [done|].
    destruct Hv as [He Hv]. eapply rtc_l; [by constructor|]. by apply IH.
Qed.

(** An invariant of the steps holds of every page reached. *)
Lemma rtc_step_invariant (P : Page → Prop) page page' :
  (∀ page page', P page → step handle page page' → P page') →
  P page → rtc (step handle) page page' → P page'.
Proof. intros Hstep HP Hrtc. induction Hrtc; eauto. Qed.

End traces.

(** ** The invariant *)

Section consistent.
Context `{Browser}.
Implicit Types (page : Page).

Lemma noImage_false page :
  noImage page = false →
  originalSrc (original page) ≠ "" ∧ currentImageFile (globals page) ≠ None.
Proof.
  unfold noImage. intros [Hs Hf]%orb_false_elim.
  by apply bool_decide_eq_false in Hs, Hf.
Qed.

Lemma consistent_noImage page :
  consistent page → disabled (button page) = false → noImage page = false.
Proof.
  intros Hc [Hs Hf]%(enabled_has_image _ Hc). unfold noImage.
  by rewrite !bool_decide_eq_false_2.
Qed.

Lemma consistent_settle names filtered page :
  consistent page → noImage page = false → consistent (settle names filtered page).
Proof.
  intros [Hi He Ht Hr Hf Ho Hp] Himg%noImage_false.
  destruct (settle_cases names page filtered) as [-> | [dataURL ->]]; by split.
Qed.

Lemma consistent_handleFilterApply page :
  consistent page → consistent (App.handleFilterApply page).
Proof.
  intros Hc. unfold App.handleFilterApply.
  destruct (noImage page) eqn:Himg; [by destruct Hc|by apply consistent_settle].
Qed.

Lemma consistent_handleImageUpload file page :
  consistent page → consistent (handleImageUpload file page).
Proof.
  intros [Hi He Ht Hr Hf Ho Hp]. destruct file as [file|]; [|done]. simpl.
  destruct (String.prefix _ _); simpl; [|done]. split; simpl; try done.
  - intros Hd. by destruct (He Hd).
  - intros dataURL [?|[=]%list_elem_of_singleton]%elem_of_app. by apply (Ht dataURL).
  - intros dataURL [Hin|[=]%list_elem_of_singleton]%elem_of_app.
    by destruct (Hf _ Hin).
Qed.

(** Removing a task keeps what holds of the tasks in flight. *)
Lemma consistent_removeTask task page :
  consistent page → consistent (setTasks (removeTask task (tasks page)) page).
Proof.
  intros [Hi He Ht Hr Hf Ho Hp]. split; simpl; try done.
  - intros dataURL Hin%elem_of_removeTask. by apply (Ht dataURL).
  - intros file Hin%elem_of_removeTask. by apply (Hr file).
  - intros dataURL Hin%elem_of_removeTask. by apply Hf.
Qed.

Lemma consistent_reader_onload file result page :
  consistent page → ReadFile file ∈ tasks page → result ≠ "" →
  consistent (reader_onload result (setTasks (removeTask (ReadFile file) (tasks page)) page)).
Proof.
  intros Hc Hin Hres. pose proof (reader_in_flight _ Hc _ Hin) as Hfile.
  destruct (consistent_removeTask (ReadFile file) page Hc) as [Hi He Ht Hr Hf Ho Hp].
  split; simpl in *; try done.
  - intros dataURL [?|[=]%list_elem_of_singleton]%elem_of_app. by apply (Ht dataURL).
  - intros dataURL [?|[= ->]%list_elem_of_singleton]%elem_of_app; [by apply Hf|done].
Qed.

Lemma consistent_newImg_onload dataURL img page :
  consistent page → LoadImage dataURL ∈ tasks page →
  consistent (newImg_onload dataURL img
                (setTasks (removeTask (LoadImage dataURL) (tasks page)) page)).
Proof.
  intros Hc Hin. pose proof (image_in_flight _ Hc _ Hin) as Himg.
  by destruct (consistent_removeTask (LoadImage dataURL) page Hc) as [Hi He Ht Hr Hf Ho Hp].
Qed.

Lemma consistent_callback event page :
  consistent page → production event → enabled event page →
  consistent (callback event page).
Proof.
  intros Hc Hprod Hen. destruct event; simpl in *; try done.
  - destruct Hen. by apply consistent_reader_onload.
  - by destruct (consistent_removeTask (ReadFile file) page Hc).
  - by apply consistent_newImg_onload.
  - by apply consistent_removeTask.
  - by destruct (no_test_image _ Hc _ Hen).
  - by apply consistent_removeTask.
Qed.

Lemma consistent_setMeanFilterInstance page :
  consistent page → consistent (setMeanFilterInstance page).
Proof. by intros []. Qed.

Lemma consistent_setGaussianFilterInstance page :
  consistent page → consistent (setGaussianFilterInstance page).
Proof. by intros []. Qed.

Lemma consistent_bindEventListeners page :
  consistent page → consistent (bindEventListeners page).
Proof. by intros []. Qed.

Lemma consistent_initializeApp page : consistent page → consistent (App.initializeApp page).
Proof.
  intros Hc. unfold App.initializeApp.
  repeat case_match;
    auto using consistent_setMeanFilterInstance, consistent_setGaussianFilterInstance,
      consistent_bindEventListeners.
Qed.

Lemma consistent_handleAlgorithmChange value page :
  consistent page → consistent (App.handleAlgorithmChange value (setAlgorithm value page)).
Proof.
  intros [Hi He Ht Hr Hf Ho Hp]. unfold App.handleAlgorithmChange. simpl.
  destruct (disabled (button page)) eqn:Hd; split; simpl; rewrite ?Hd; done.
Qed.

Lemma consistent_script_handleFilterApply page :
  consistent page → consistent (Script.handleFilterApply page).
Proof.
  intros Hc. unfold Script.handleFilterApply.
  destruct (noImage page) eqn:Himg; [by destruct Hc|by apply consistent_settle].
Qed.

Lemma consistent_script_handleAlgorithmChange value page :
  consistent page → consistent (Script.handleAlgorithmChange value (setAlgorithm value page)).
Proof.
  intros [Hi He Ht Hr Hf Ho Hp]. unfold Script.handleAlgorithmChange. simpl.
  destruct (disabled (button page)) eqn:Hd; split; simpl; rewrite ?Hd; done.
Qed.

(** Every event of normal use keeps the page of either script consistent. *)
Lemma consistent_handle event page :
  consistent page → production event → enabled event page →
  consistent (App.handle event page).
Proof.
  intros Hc Hprod Hen.
  destruct event; try (by apply (consistent_callback _ page)); simpl; try done;
    try (by destruct Hc).
  - by apply consistent_initializeApp.
  - destruct (bound page); [by apply consistent_handleImageUpload|done].
  - destruct (bound page); [by apply consistent_handleFilterApply|done].
  - destruct (bound page); [by apply consistent_handleAlgorithmChange|by destruct Hc].
  - by destruct (bound page), Hc.
Qed.

Lemma consistent_script_handle event page :
  consistent page → production event → enabled event page →
  consistent (Script.handle event page).
Proof.
  intros Hc Hprod Hen.
  destruct event; try (by apply (consistent_callback _ page)); simpl; try done;
    try (by destruct Hc).
  - destruct (bound page); [by apply consistent_handleImageUpload|done].
  - destruct (bound page); [by apply consistent_script_handleFilterApply|done].
  - destruct (bound page); [by apply consistent_script_handleAlgorithmChange|by destruct Hc].
Qed.

(** The debug function starts the load of the test image. *)
Lemma debugTest_starts_image page testCanvas dataURL :
  meanFilterInstance (globals page) = true → toDataURL testCanvas = Normal dataURL →
  uncaught page (debugTestWithSampleImage (Normal testCanvas) page)
  = setTasks (tasks page ++ [LoadTestImage dataURL]) page.
Proof. intros Hm Hurl. unfold debugTestWithSampleImage. simpl. by rewrite Hm, Hurl. Qed.

Lemma consistent_initialPage : consistent initialPage.
Proof. split; simpl; try done; intros ? ?%elem_of_nil; done. Qed.

(** ** The callbacks run out *)

Lemma callback_weight event page :
  isCallback event → enabled event page →
  (weight (tasks (callback event page)) < weight (tasks page))%nat.
Proof.
  intros Hcb Hen. destruct event; try done; simpl in *;
    rewrite ?weight_app;
    match goal with
    | |- context [removeTask ?t _] =>
        pose proof (weight_removeTask t (tasks page) ltac:(tauto)) as Hw
    end; simpl in *; lia.
Qed.

(** A callback is handled by both scripts as [callback]. *)
Lemma handle_callback event page :
  isCallback event →
  App.handle event page = callback event page
  ∧ Script.handle event page = callback event page.
Proof. by destruct event. Qed.

(** While a task is in flight some callback can run. *)
Lemma callback_progress page :
  tasks page ≠ [] → ∃ event, isCallback event ∧ enabled event page.
Proof.
  destruct (tasks page) as [|[file|dataURL|dataURL] l] eqn:Ht; [done|..]; intros _.
  - exists (ReaderError file). simpl. rewrite Ht. split; [done|left].
  - exists (ImageError dataURL). simpl. rewrite Ht. split; [done|left].
  - exists (TestImageError dataURL). simpl. rewrite Ht. split; [done|left].
Qed.

(** From every page some sequence of callbacks leaves no task in flight. *)
Lemma callbacks_complete (n : nat) page :
  (weight (tasks page) ≤ n)%nat →
  ∃ events, Forall isCallback events ∧ valid App.handle events page
            ∧ tasks (run App.handle events page) = [].
Proof.
  revert page. induction n as [|n IH]; intros page Hn.
  - exists []. split_and!; [done..|]. apply weight_nil. simpl. lia.
  - destruct (decide (tasks page = [])) as [?|Hne]; [by exists []|].
    destruct (callback_progress page Hne) as (event & Hcb & Hen).
    pose proof (callback_weight event page Hcb Hen) as Hw.
    destruct (handle_callback event page Hcb) as [Heq _].
    destruct (IH (App.handle event page)) as (events & Hcbs & Hv & Hq);
      [rewrite Heq; lia|].
    exists (event :: events). by split_and!; [constructor|..].
Qed.

(** A sequence of callbacks is no longer than what the tasks owe. *)
Lemma callbacks_bounded events page :
  Forall isCallback events → valid App.handle events page →
  (length events + weight (tasks (run App.handle events page)) ≤ weight (tasks page))%nat.
Proof.
  intros Hcbs. revert page. induction Hcbs as [|event events Hcb _ IH]; intros page Hv.
  - simpl. lia.
  - destruct Hv as [Hen Hv]. specialize (IH _ Hv).
    pose proof (callback_weight event page Hcb Hen) as Hw.
    destruct (handle_callback event page Hcb) as [Heq _]. simpl. rewrite Heq in *. lia.
Qed.

End consistent.

(** ** Properties *)

(** C26: every page that either script reaches from the initial page by
    events of normal use is consistent: the processing indicator is hidden,
    an enabled button has an image to filter, the tasks in flight come from
    accepted files, and each area shows its image or its placeholder. *)
Theorem consistent_reachable `{Browser} (page : Page) :
  rtc (step App.handle) initialPage page ∨ rtc (step Script.handle) initialPage page →
  consistent page.
Proof.
  intros [Hrtc|Hrtc];
    (eapply rtc_step_invariant; [|apply consistent_initialPage|exact Hrtc]);
    intros p p' Hc [event Hprod Hen];
    [by apply consistent_handle|by apply consistent_script_handle].
Qed.

Lemma consistent_reachable_witness :
  consistent (App.handle (H0 := greyBrowser 10) (KernelSizeChange 5) initialPage).
Proof.
  apply (consistent_reachable (H0 := greyBrowser 10)). left. apply rtc_once. by constructor.
Defined.

(** C38: on a consistent page with the listeners bound, hence on every
    page reached by normal use, a click on the enabled button runs the
    selected filter and the handler completes.  With readable pixels the
    processed area shows the export of the canvas swept by the calculator
    of the selection (for an odd kernel size), or convolved by the Gaussian
    filter built from sigma; unreadable pixels, an even kernel size for a
    sweeping algorithm and an algorithm the switch does not know show the
    error state.  In every case the page is consistent again, the button is
    enabled and the indicator hidden, so the click can be repeated. *)
Theorem click_runs_filter `{Browser} (page : Page) :
  consistent page → bound page = true → enabled FilterBtnClick page →
  let page' := App.handle FilterBtnClick page in
  let img := originalImg (original page) in
  (∀ data calc,
     readPixels img = Normal data → Z.odd (kernelSize (inputs page)) = true →
     selectedCalculator page = Some calc →
     page' = shown App.algorithmNames page (encode (sweptCanvas calc page data)))
  ∧ (∀ data this,
       readPixels img = Normal data → algorithm (inputs page) = "gaussian" →
       gaussianFilterInstance (globals page) = true →
       GaussianFilter.constructor (sigmaRange (inputs page)) None = Normal this →
       page' = shown App.algorithmNames page (encode (gaussianCanvas this page data)))
  ∧ ((∃ error, readPixels img = Throw error)
     ∨ Z.even (kernelSize (inputs page)) = true ∧ algorithm (inputs page) ∈ sweeping
     ∨ algorithm (inputs page) ∉ "gaussian" :: sweeping →
     page' = failed App.algorithmNames page)
  ∧ consistent page'
  ∧ disabled (button page') = false
  ∧ processingIndicator page' = false.
Proof.
  intros Hc Hb Hen page' img. pose proof (consistent_noImage page Hc Hen) as Himg.
  assert (page' = App.handleFilterApply page) as -> by (unfold page'; simpl; by rewrite Hb).
  split_and!.
  - intros data calc Hdata Hodd Hcalc. by apply selected_algorithm_shows_filtered.
  - intros data this Hdata Halg Hinst Hthis. by apply gaussian_selected_shows_filtered.
  - intros [[error Herr]|[[Heven Halg]|Halg]].
    + unfold App.handleFilterApply. rewrite Himg.
      by apply settle_unexportable, (dispatch_unexportable page error).
    + by apply even_kernel_size_shows_error.
    + unfold App.handleFilterApply. rewrite Himg, unsupported_algorithm_rejected; [done|].
      intros Hin. apply Halg. revert Hin. unfold sweeping. rewrite !elem_of_cons. tauto.
  - by apply consistent_handleFilterApply.
  - unfold App.handleFilterApply. rewrite Himg.
    by destruct (settle_cases App.algorithmNames page (App.dispatch page)) as [->|[? ->]].
  - unfold App.handleFilterApply. rewrite Himg.
    by destruct (settle_cases App.algorithmNames page (App.dispatch page)) as [->|[? ->]].
Qed.

Lemma consistent_greyPage algorithm kernelSize width :
  consistent (greyPage algorithm kernelSize width).
Proof. split; simpl; try done; intros ? ?%elem_of_nil; done. Qed.

Lemma click_runs_filter_witness :
  let page := greyPage "mean" 3 2 in
  let page' := App.handle (H0 := greyBrowser 10) FilterBtnClick page in
  page' = shown App.algorithmNames page
            (@encode _ (greyBrowser 10)
               (sweptCanvas (MeanFilter.calculateMeanValues (KernelSpec.make 3 1)) page
                  (uniform (λ _, 128) 2 1)))
  ∧ consistent page' ∧ disabled (button page') = false ∧ processingIndicator page' = false.
Proof.
  intros page page'.
  destruct (click_runs_filter (H0 := greyBrowser 10) page)
    as (Hshown & _ & _ & Hc & Hb & Hi); [apply consistent_greyPage|done|done|].
  split_and!; [by apply Hshown|done..].
Defined.

(** C39: the callbacks terminate: there is no infinite sequence of
    callbacks, of either script, each of which can occur. *)
Theorem callbacks_terminate `{Browser} :
  well_founded (flip (callbackStep App.handle))
  ∧ well_founded (flip (callbackStep Script.handle)).
Proof.
  split; apply (wf_projected lt (λ page, weight (tasks page))); try apply lt_wf;
    intros page' page [event Hcb Hen];
    destruct (handle_callback event page Hcb) as [Heq Heq'];
    rewrite ?Heq, ?Heq'; by apply callback_weight.
Qed.

(** The tasks in flight are eventually served: a sequence of callbacks
    that can occur is no longer than what the tasks owe, and it can always
    be continued by callbacks to a page with no task in flight. *)
Theorem callbacks_drain `{Browser} (page : Page) (events : list Event) :
  Forall isCallback events → valid App.handle events page →
  (length events ≤ weight (tasks page))%nat
  ∧ ∃ events', Forall isCallback events' ∧ valid App.handle (events ++ events') page
               ∧ tasks (run App.handle (events ++ events') page) = [].
Proof.
  intros Hcbs Hv. split; [pose proof (callbacks_bounded events page Hcbs Hv); lia|].
  destruct (callbacks_complete _ (run App.handle events page) (le_n _))
    as (events' & Hcbs' & Hv' & Hq).
  exists events'. rewrite valid_app, run_app. by split_and!.
Qed.

Lemma callbacks_drain_witness :
  (length [ReaderLoad (mkFile "a.png" "image/png" 10) "data:a"]
   ≤ weight (tasks (loadImageToDisplay (mkFile "a.png" "image/png" 10) initialPage)))%nat
  ∧ ∃ events',
      Forall isCallback events'
      ∧ valid (App.handle (H0 := greyBrowser 10))
          ([ReaderLoad (mkFile "a.png" "image/png" 10) "data:a"] ++ events')
          (loadImageToDisplay (mkFile "a.png" "image/png" 10) initialPage)
      ∧ tasks (run (App.handle (H0 := greyBrowser 10))
                 ([ReaderLoad (mkFile "a.png" "image/png" 10) "data:a"] ++ events')
                 (loadImageToDisplay (mkFile "a.png" "image/png" 10) initialPage)) = [].
Proof.
  apply (callbacks_drain (H0 := greyBrowser 10)); [by repeat constructor|].
  simpl. split_and!; [left|done..].
Defined.

(** The page an accepted upload leaves: the events can occur in this order,
    the inputs and the listeners are untouched, the original area shows the
    data URL read, the button is enabled, the file is remembered, the
    processed area is reset to its placeholder and nothing is in flight. *)
Lemma run_uploadEvents `{Browser} (page : Page) (file : File) (result : string)
    (img : ImageElement.t) :
  bound page = true → tasks page = [] →
  String.prefix "image/" (type file) = true → result ≠ "" →
  valid App.handle (uploadEvents file result img) page
  ∧ inputs (run App.handle (uploadEvents file result img) page) = inputs page
  ∧ bound (run App.handle (uploadEvents file result img) page) = true
  ∧ original (run App.handle (uploadEvents file result img) page)
    = mkOriginalArea img result true false
  ∧ button (run App.handle (uploadEvents file result img) page)
    = mkButton false (innerHTML (button page))
  ∧ currentImageFile (globals (run App.handle (uploadEvents file result img) page))
    = Some file
  ∧ processedArea (run App.handle (uploadEvents file result img) page)
    = mkProcessedArea (processedSrc (processedArea page)) false true
        (mkMarkup "bi-hourglass-split" "Chờ xử lý ảnh")
  ∧ tasks (run App.handle (uploadEvents file result img) page) = [].
Proof.
  intros Hb Ht Hty Hres. unfold uploadEvents, handleImageUpload. simpl.
  rewrite Hb. simpl. rewrite Hty. simpl. rewrite Ht. simpl.
  rewrite !decide_True by done. simpl. rewrite ?decide_True by done. simpl.
  rewrite ?Hb. split_and!; try done; apply list_elem_of_singleton; done.
Qed.

(** An accepted file is shown once its reader and its image have
    loaded: on a page with the listeners bound and nothing in flight, the
    upload of a file of an image type, the reader's result and the image's
    load can occur in this order, and they leave the original area showing
    the data URL read, the button enabled, the file remembered, the
    processed area reset to its placeholder, and nothing in flight. *)
Theorem upload_shows_image `{Browser} (page : Page) (file : File) (result : string)
    (img : ImageElement.t) :
  bound page = true → tasks page = [] →
  String.prefix "image/" (type file) = true → result ≠ "" →
  valid App.handle (uploadEvents file result img) page
  ∧ original (run App.handle (uploadEvents file result img) page)
    = mkOriginalArea img result true false
  ∧ button (run App.handle (uploadEvents file result img) page)
    = mkButton false (innerHTML (button page))
  ∧ currentImageFile (globals (run App.handle (uploadEvents file result img) page))
    = Some file
  ∧ processedArea (run App.handle (uploadEvents file result img) page)
    = mkProcessedArea (processedSrc (processedArea page)) false true
        (mkMarkup "bi-hourglass-split" "Chờ xử lý ảnh")
  ∧ tasks (run App.handle (uploadEvents file result img) page) = [].
Proof.
  intros Hb Ht Hty Hres.
  by destruct (run_uploadEvents page file result img Hb Ht Hty Hres) as (? & _ & _ & ?).
Qed.

Lemma upload_shows_image_witness :
  valid (App.handle (H0 := greyBrowser 10))
    (uploadEvents (mkFile "a.png" "image/png" 10) "data:a" (ImageElement.make 2 1 2 1))
    (greyPage "mean" 3 2)
  ∧ original (run (App.handle (H0 := greyBrowser 10))
       (uploadEvents (mkFile "a.png" "image/png" 10) "data:a" (ImageElement.make 2 1 2 1))
       (greyPage "mean" 3 2))
    = mkOriginalArea (ImageElement.make 2 1 2 1) "data:a" true false
  ∧ button (run (App.handle (H0 := greyBrowser 10))
       (uploadEvents (mkFile "a.png" "image/png" 10) "data:a" (ImageElement.make 2 1 2 1))
       (greyPage "mean" 3 2))
    = mkButton false (innerHTML (button (greyPage "mean" 3 2)))
  ∧ currentImageFile (globals (run (App.handle (H0 := greyBrowser 10))
       (uploadEvents (mkFile "a.png" "image/png" 10) "data:a" (ImageElement.make 2 1 2 1))
       (greyPage "mean" 3 2)))
    = Some (mkFile "a.png" "image/png" 10)
  ∧ processedArea (run (App.handle (H0 := greyBrowser 10))
       (uploadEvents (mkFile "a.png" "image/png" 10) "data:a" (ImageElement.make 2 1 2 1))
       (greyPage "mean" 3 2))
    = mkProcessedArea (processedSrc (processedArea (greyPage "mean" 3 2))) false true
        (mkMarkup "bi-hourglass-split" "Chờ xử lý ảnh")
  ∧ tasks (run (App.handle (H0 := greyBrowser 10))
       (uploadEvents (mkFile "a.png" "image/png" 10) "data:a" (ImageElement.make 2 1 2 1))
       (greyPage "mean" 3 2))
    = [].
Proof. by apply (upload_shows_image (H0 := greyBrowser 10)). Defined.

(** C27: from the upload to the pixels: on a page with the listeners bound
    and nothing in flight, the upload of an image file, the load of its
    data URL as a same-origin image with area, and a click with an odd
    kernel size can occur in this order, and they leave the processed area
    showing the export of the canvas of the size of the image whose bitmap
    is the sweep of the calculator of the selected algorithm over the
    pixels the browser renders for the image, with the indicator hidden. *)
Theorem upload_then_click_shows_filtered `{Browser} (page : Page) (file : File)
    (result : string) (img : ImageElement.t) (calc : Calculator) :
  bound page = true → tasks page = [] →
  String.prefix "image/" (type file) = true → result ≠ "" →
  0 < (canvasSize img).1 → 0 < (canvasSize img).2 → sameOrigin img = true →
  Z.odd (kernelSize (inputs page)) = true → selectedCalculator page = Some calc →
  let events := uploadEvents file result img ++ [FilterBtnClick] in
  let pixels := drawn None (ImageSource img) (sizedCanvas img) in
  let canvas :=
    Canvas.make (canvasSize img).1 (canvasSize img).2
      (processImageData calc pixels pixels (canvasSize img).1 (canvasSize img).2) true in
  valid App.handle events page
  ∧ processedArea (run App.handle events page)
    = mkProcessedArea (encode canvas) true false
        (mkMarkup "bi-hourglass-split" "Chờ xử lý ảnh")
  ∧ processingIndicator (run App.handle events page) = false.
Proof.
  intros Hb Ht Hty Hres Hw Hh Hclean Hodd Hcalc events pixels canvas. unfold events.
  destruct (run_uploadEvents page file result img Hb Ht Hty Hres)
    as (Hvalid & Hin & Hb' & Horig & Hbtn & Hfile & Harea & _).
  rewrite valid_app, run_app. set (page' := run App.handle (uploadEvents _ _ _) page) in *.
  clearbody page'.
  assert (App.handle FilterBtnClick page'
          = shown App.algorithmNames page' (encode (sweptCanvas calc page' pixels))) as Hclick.
  { change (App.handle FilterBtnClick page')
      with (if bound page' then App.handleFilterApply page' else page').
    rewrite Hb'. apply selected_algorithm_shows_filtered.
    - unfold noImage. rewrite Horig, Hfile. simpl. by rewrite bool_decide_eq_false_2.
    - by rewrite Hin.
    - rewrite Horig. simpl. by apply readPixels_Normal.
    - unfold selectedCalculator in *. by rewrite Hin. }
  split; [split; [done|split; [|done]]; unfold enabled; by rewrite Hbtn|].
  change (run App.handle [FilterBtnClick] page') with (App.handle FilterBtnClick page').
  rewrite Hclick.
  unfold sweptCanvas. rewrite Horig. split; [|done]. simpl. by rewrite Harea.
Qed.

Lemma upload_then_click_shows_filtered_witness :
  let page := greyPage "mean" 3 2 in
  let img := ImageElement.make 2 1 2 1 in
  let events := uploadEvents (mkFile "a.png" "image/png" 10) "data:a" img ++ [FilterBtnClick] in
  let pixels := drawn (Browser := greyBrowser 10) None (ImageSource img) (sizedCanvas img) in
  let canvas :=
    Canvas.make (canvasSize img).1 (canvasSize img).2
      (processImageData (MeanFilter.calculateMeanValues (KernelSpec.make 3 1))
         pixels pixels (canvasSize img).1 (canvasSize img).2) true in
  valid (App.handle (H0 := greyBrowser 10)) events page
  ∧ processedArea (run (App.handle (H0 := greyBrowser 10)) events page)
    = mkProcessedArea (@encode _ (greyBrowser 10) canvas) true false
        (mkMarkup "bi-hourglass-split" "Chờ xử lý ảnh")
  ∧ processingIndicator (run (App.handle (H0 := greyBrowser 10)) events page) = false.
Proof.
  by apply (upload_then_click_shows_filtered (H0 := greyBrowser 10) (greyPage "mean" 3 2)).
Defined.

(** C37: two uploads race: when the reader and the image of the second file
    finish before those of the first, the page ends up showing the first
    file's picture while [currentImageFile] is the second file and the
    label reads its name (cut to 20 characters when it is longer). *)
Theorem uploads_race `{Browser} (page : Page) (first second : File)
    (firstURL secondURL : string) (firstImg secondImg : ImageElement.t) :
  bound page = true → tasks page = [] → first ≠ second →
  String.prefix "image/" (type first) = true →
  String.prefix "image/" (type second) = true →
  firstURL ≠ "" → secondURL ≠ "" → firstURL ≠ secondURL →
  valid App.handle
    (racingUploads first second firstURL secondURL firstImg secondImg) page
  ∧ original (run App.handle
       (racingUploads first second firstURL secondURL firstImg secondImg) page)
    = mkOriginalArea firstImg firstURL true false
  ∧ currentImageFile (globals (run App.handle
       (racingUploads first second firstURL secondURL firstImg secondImg) page))
    = Some second
  ∧ labelMarkup (fileLabel (run App.handle
       (racingUploads first second firstURL secondURL firstImg secondImg) page))
    = mkMarkup "bi-check-circle"
        (if decide (20 < Z.of_nat (String.length (name second)))
         then String.substring 0 20 (name second) +:+ "..." else name second).
Proof.
  intros Hb Ht Hne Hty1 Hty2 Hu1 Hu2 Hu. unfold racingUploads, handleImageUpload.
  repeat (progress (simpl; rewrite ?Hb, ?Hty1, ?Hty2, ?Ht)).
  rewrite !(decide_False (P := ReadFile first = ReadFile second)) by congruence.
  repeat (progress (simpl; rewrite ?decide_True by done)).
  split_and!; try done; set_solver.
Qed.

Lemma uploads_race_witness :
  valid (App.handle (H0 := greyBrowser 10))
    (racingUploads (mkFile "a.png" "image/png" 10) (mkFile "b.png" "image/png" 20)
       "data:a" "data:b" (ImageElement.make 2 1 2 1) (ImageElement.make 3 1 3 1))
    (greyPage "mean" 3 2)
  ∧ original (run (App.handle (H0 := greyBrowser 10))
       (racingUploads (mkFile "a.png" "image/png" 10) (mkFile "b.png" "image/png" 20)
          "data:a" "data:b" (ImageElement.make 2 1 2 1) (ImageElement.make 3 1 3 1))
       (greyPage "mean" 3 2))
    = mkOriginalArea (ImageElement.make 2 1 2 1) "data:a" true false
  ∧ currentImageFile (globals (run (App.handle (H0 := greyBrowser 10))
       (racingUploads (mkFile "a.png" "image/png" 10) (mkFile "b.png" "image/png" 20)
          "data:a" "data:b" (ImageElement.make 2 1 2 1) (ImageElement.make 3 1 3 1))
       (greyPage "mean" 3 2)))
    = Some (mkFile "b.png" "image/png" 20)
  ∧ labelMarkup (fileLabel (run (App.handle (H0 := greyBrowser 10))
       (racingUploads (mkFile "a.png" "image/png" 10) (mkFile "b.png" "image/png" 20)
          "data:a" "data:b" (ImageElement.make 2 1 2 1) (ImageElement.make 3 1 3 1))
       (greyPage "mean" 3 2)))
    = mkMarkup "bi-check-circle" "b.png".
Proof. by apply (uploads_race (H0 := greyBrowser 10)). Defined.

(** The image of the debug function cannot be filtered: after
    [debugTestWithSampleImage] and the load of its image the button is
    enabled and the image shown, but no file was chosen, so a click only
    raises the alert that asks for an image and processes nothing. *)
Theorem debug_image_not_filtered `{Browser} (page : Page) (testCanvas : Canvas.t)
    (dataURL : string) (img : ImageElement.t) :
  bound page = true → tasks page = [] →
  meanFilterInstance (globals page) = true → currentImageFile (globals page) = None →
  toDataURL testCanvas = Normal dataURL →
  valid App.handle (debugEvents testCanvas dataURL img) page
  ∧ original (run App.handle (debugEvents testCanvas dataURL img) page)
    = mkOriginalArea img dataURL true false
  ∧ alerts (run App.handle (debugEvents testCanvas dataURL img) page)
    = alerts page ++ ["Vui lòng chọn ảnh trước!"]
  ∧ processedArea (run App.handle (debugEvents testCanvas dataURL img) page)
    = processedArea page.
Proof.
  intros Hb Ht Hm Hf Hurl. unfold debugEvents. simpl.
  rewrite (debugTest_starts_image page testCanvas dataURL) by done.
  repeat (progress (simpl; rewrite ?Ht, ?Hb, ?decide_True by done)).
  unfold App.handleFilterApply, noImage. simpl. rewrite Hf, orb_true_r.
  split_and!; try done. apply list_elem_of_singleton; done.
Qed.

Lemma debug_image_not_filtered_witness :
  valid (App.handle (H0 := greyBrowser 10))
    (debugEvents (Canvas.make 1 1 [0; 0; 0; 255] true) "data:image/png;base64,"
       (ImageElement.make 1 1 1 1)) readyPage
  ∧ original (run (App.handle (H0 := greyBrowser 10))
       (debugEvents (Canvas.make 1 1 [0; 0; 0; 255] true) "data:image/png;base64,"
          (ImageElement.make 1 1 1 1)) readyPage)
    = mkOriginalArea (ImageElement.make 1 1 1 1) "data:image/png;base64," true false
  ∧ alerts (run (App.handle (H0 := greyBrowser 10))
       (debugEvents (Canvas.make 1 1 [0; 0; 0; 255] true) "data:image/png;base64,"
          (ImageElement.make 1 1 1 1)) readyPage)
    = alerts readyPage ++ ["Vui lòng chọn ảnh trước!"]
  ∧ processedArea (run (App.handle (H0 := greyBrowser 10))
       (debugEvents (Canvas.make 1 1 [0; 0; 0; 255] true) "data:image/png;base64,"
          (ImageElement.make 1 1 1 1)) readyPage)
    = processedArea readyPage.
Proof. by apply (debug_image_not_filtered (H0 := greyBrowser 10)). Defined.
